(** * AgentCore provisioning scripts and MCP script generators

    A shallow embedding of the Python sources of the repository:

    - the MCP tool handlers ([handlers/memory_handlers.py],
      [handlers/gateway_handlers.py], [handlers/runtime_handlers.py],
      [handlers/identity_handlers.py], [handlers/observability_handlers.py])
      and the tool functions of [server.py] that call them;
    - the standalone scripts [09_create_gateway_role.py],
      [11_create_gateway.py], [12_add_lambda_to_gateway.py] and
      [21_invoke_agent.py];
    - the scripts that the delete handlers and the add-lambda-target handler
      emit as text, embedded a second time as programs.

    Conventions.

    - A Python [str] is a Rocq [string] holding its UTF-8 bytes.
    - A JSON-like Python value is a [pyval]; a [dict] is an association list
      in insertion order with string keys.
    - A handler either returns a value or raises: [result].
    - A script is a tree of calls to the outside world ([script]): the file
      system, boto3, the starter toolkit, [requests], [time.sleep].  What the
      outside world answers is a [world]; every statement about a script is
      made for all worlds.  Console output is not part of the model; a
      [print] whose argument can raise is kept as the evaluation of that
      argument.
    - [repr] of floats and containers and [json.dumps] belong to CPython and
      are taken as an interface ([PyRuntime]). *)

From Stdlib Require Import String Ascii List ZArith NArith Lia Bool.
From Stdlib Require Import DecimalString SpecFloat.
Import ListNotations.
Open Scope list_scope.
Open Scope string_scope.

Set Warnings "-register-all".

(** ** Python values *)

Module Py.

(** The characters that cannot be written inside a string of this file:
    double quote, line feed, carriage return, backslash. *)
Definition dq_char : ascii := Eval compute in ascii_of_nat 34.
Definition lf_char : ascii := Eval compute in ascii_of_nat 10.
Definition cr_char : ascii := Eval compute in ascii_of_nat 13.
Definition backslash_char : ascii := Eval compute in ascii_of_nat 92.

(** The double quote and the triple quote of a docstring. *)
Definition dq : string := String dq_char EmptyString.
Definition dq3 : string := dq ++ dq ++ dq.
(** Line feed. *)
Definition nl : string := String lf_char EmptyString.

(** A text given line by line, every line ended by a line feed. *)
Fixpoint unlines (ls : list string) : string :=
  match ls with
  | [] => EmptyString
  | l :: ls' => l ++ nl ++ unlines ls'
  end.

Inductive pyval : Type :=
| PNone
| PBool (b : bool)
| PInt (z : Z)
| PFloat (f : spec_float)
| PStr (s : string)
| PList (l : list pyval)
| PDict (d : list (string * pyval)).

Definition dict : Type := list (string * pyval).

(** An exception: the name of its class and [str(e)]. *)
Record exn : Type := Exn { exn_class : string; exn_msg : string }.

Inductive result (A : Type) : Type :=
| Ok (a : A)
| Raise (e : exn).
Arguments Ok {A} a.
Arguments Raise {A} e.

Definition bind {A B} (r : result A) (k : A -> result B) : result B :=
  match r with
  | Ok a => k a
  | Raise e => Raise e
  end.

Declare Scope py_scope.
Delimit Scope py_scope with py.
Notation "x <- e ;; k" := (bind e (fun x => k))
  (at level 61, e at next level, right associativity) : py_scope.
Notation "e ;;; k" := (bind e (fun _ => k))
  (at level 61, right associativity) : py_scope.

(** [type(v).__name__] *)
Definition type_name (v : pyval) : string :=
  match v with
  | PNone => "NoneType"
  | PBool _ => "bool"
  | PInt _ => "int"
  | PFloat _ => "float"
  | PStr _ => "str"
  | PList _ => "list"
  | PDict _ => "dict"
  end.

Definition KeyError (key : string) : exn :=
  Exn "KeyError" ("'" ++ key ++ "'").
Definition AttributeError (v : pyval) (attr : string) : exn :=
  Exn "AttributeError"
      ("'" ++ type_name v ++ "' object has no attribute '" ++ attr ++ "'").
Definition TypeError (msg : string) : exn := Exn "TypeError" msg.
Definition ValueError (msg : string) : exn := Exn "ValueError" msg.

(** *** Characters of a str *)

(** Bytes 0x80-0xBF continue a UTF-8 sequence. *)
Definition is_continuation (c : ascii) : bool :=
  (128 <=? N_of_ascii c)%N && (N_of_ascii c <? 192)%N.

(** The characters of a str: every UTF-8 sequence is one character. *)
Fixpoint chars (s : string) : list string :=
  match s with
  | EmptyString => []
  | String c s' =>
      match s' with
      | String d _ =>
          if is_continuation d then
            match chars s' with
            | ch :: rest => String c ch :: rest
            | [] => [String c EmptyString]
            end
          else String c EmptyString :: chars s'
      | EmptyString => [String c EmptyString]
      end
  end.

(** *** dict *)

Fixpoint lookup (k : string) (d : dict) : option pyval :=
  match d with
  | [] => None
  | (k', v) :: d' => if String.eqb k k' then Some v else lookup k d'
  end.

(** [d[k] = v]: the value is replaced where the key is, a new key goes last. *)
Fixpoint store (k : string) (v : pyval) (d : dict) : dict :=
  match d with
  | [] => [(k, v)]
  | (k', v') :: d' =>
      if String.eqb k k' then (k', v) :: d' else (k', v') :: store k v d'
  end.

Definition keys (d : dict) : list string := map fst d.

(** [args[k]] on the [Dict] a handler receives. *)
Definition dict_getitem (d : dict) (k : string) : result pyval :=
  match lookup k d with
  | Some v => Ok v
  | None => Raise (KeyError k)
  end.

(** [args.get(k, default)] *)
Definition dict_get (d : dict) (k : string) (default : pyval) : pyval :=
  match lookup k d with
  | Some v => v
  | None => default
  end.

(** [v[k]] with a string key, on any value. *)
Definition getitem (v : pyval) (k : string) : result pyval :=
  match v with
  | PDict d => dict_getitem d k
  | PStr _ => Raise (TypeError "string indices must be integers, not 'str'")
  | PList _ =>
      Raise (TypeError "list indices must be integers or slices, not str")
  | _ => Raise (TypeError ("'" ++ type_name v ++ "' object is not subscriptable"))
  end.

(** [v.get(k, default)] on any value: only a dict has the method. *)
Definition get (v : pyval) (k : string) (default : pyval) : result pyval :=
  match v with
  | PDict d => Ok (dict_get d k default)
  | _ => Raise (AttributeError v "get")
  end.

(** [v.get(k, default)] where evaluating [default] can raise: the method is
    looked up first, then the argument is evaluated. *)
Definition get_lazy (v : pyval) (k : string) (default : result pyval)
  : result pyval :=
  match v with
  | PDict d =>
      match default with
      | Ok dv => Ok (dict_get d k dv)
      | Raise e => Raise e
      end
  | _ => Raise (AttributeError v "get")
  end.

(** [v[0]] *)
Definition getitem_0 (v : pyval) : result pyval :=
  match v with
  | PList (x :: _) => Ok x
  | PList [] => Raise (Exn "IndexError" "list index out of range")
  | PStr s =>
      match chars s with
      | ch :: _ => Ok (PStr ch)
      | [] => Raise (Exn "IndexError" "string index out of range")
      end
  | PDict _ => Raise (Exn "KeyError" "0")
  | _ => Raise (TypeError ("'" ++ type_name v ++ "' object is not subscriptable"))
  end.

(** [v[k] = x] with a string key, on any value. *)
Definition setitem (v : pyval) (k : string) (x : pyval) : result pyval :=
  match v with
  | PDict d => Ok (PDict (store k x d))
  | PList _ =>
      Raise (TypeError "list indices must be integers or slices, not str")
  | _ => Raise (TypeError ("'" ++ type_name v
                           ++ "' object does not support item assignment"))
  end.

(** *** Truth value, length, iteration *)

Definition float_is_zero (f : spec_float) : bool :=
  match f with
  | S754_zero _ => true
  | _ => false
  end.

(** [bool(v)] *)
Definition truthy (v : pyval) : bool :=
  match v with
  | PNone => false
  | PBool b => b
  | PInt z => negb (Z.eqb z 0)
  | PFloat f => negb (float_is_zero f)
  | PStr s => negb (String.eqb s EmptyString)
  | PList l => match l with [] => false | _ => true end
  | PDict d => match d with [] => false | _ => true end
  end.

(** The elements a [for] loop sees: the items of a list, the keys of a dict,
    the characters of a str. *)
Definition iter (v : pyval) : result (list pyval) :=
  match v with
  | PList l => Ok l
  | PDict d => Ok (map (fun kv => PStr (fst kv)) d)
  | PStr s => Ok (map PStr (chars s))
  | _ => Raise (TypeError ("'" ++ type_name v ++ "' object is not iterable"))
  end.

(** [len(v)] *)
Definition len (v : pyval) : result Z :=
  match v with
  | PList l => Ok (Z.of_nat (List.length l))
  | PDict d => Ok (Z.of_nat (List.length d))
  | PStr s => Ok (Z.of_nat (List.length (chars s)))
  | _ => Raise (TypeError ("object of type '" ++ type_name v ++ "' has no len()"))
  end.

(** *** str methods *)

Definition is_upper (c : ascii) : bool :=
  (65 <=? N_of_ascii c)%N && (N_of_ascii c <=? 90)%N.

Definition lower_char (c : ascii) : ascii :=
  if is_upper c then ascii_of_N (N_of_ascii c + 32) else c.

(** [s.lower()].  The letters A-Z are mapped to a-z and every other byte is
    kept.  CPython also lowers letters outside ASCII; none of them becomes a
    letter of "summary", "preferences" or "semantic" (the Kelvin sign lowers
    to k, which none of the three contains), so the comparisons made on the
    result come out as in CPython for every str. *)
Fixpoint str_lower (s : string) : string :=
  match s with
  | EmptyString => EmptyString
  | String c s' => String (lower_char c) (str_lower s')
  end.

(** [s.replace(old, new)] for one-character [old] and [new]. *)
Fixpoint str_replace (old new : ascii) (s : string) : string :=
  match s with
  | EmptyString => EmptyString
  | String c s' =>
      String (if Ascii.eqb c old then new else c) (str_replace old new s')
  end.

(** [s.startswith(sub)] *)
Fixpoint starts_with (sub s : string) : bool :=
  match sub with
  | EmptyString => true
  | String c sub' =>
      match s with
      | EmptyString => false
      | String d s' => Ascii.eqb c d && starts_with sub' s'
      end
  end.

(** [sub in s] *)
Fixpoint str_in (sub s : string) : bool :=
  starts_with sub s ||
  match s with
  | EmptyString => false
  | String _ s' => str_in sub s'
  end.

(** [s.split(sep)[-1]] for a one-character separator: what follows the last
    separator, the whole of [s] when there is none. *)
Fixpoint split_last_from (sep : ascii) (s acc : string) : string :=
  match s with
  | EmptyString => acc
  | String c s' =>
      if Ascii.eqb c sep then split_last_from sep s' s'
      else split_last_from sep s' acc
  end.
Definition split_last (sep : ascii) (s : string) : string :=
  split_last_from sep s s.

(** [sep.join(l)] on a list of str. *)
Fixpoint str_join (sep : string) (l : list string) : string :=
  match l with
  | [] => EmptyString
  | [x] => x
  | x :: l' => x ++ sep ++ str_join sep l'
  end.

(** [sep.join(v)] on any value: [v] is iterated and every element has to be
    a str. *)
Fixpoint all_str (n : nat) (l : list pyval) : result (list string) :=
  match l with
  | [] => Ok []
  | PStr s :: l' =>
      match all_str (S n) l' with
      | Ok ss => Ok (s :: ss)
      | Raise e => Raise e
      end
  | x :: _ =>
      Raise (TypeError ("sequence item " ++ NilZero.string_of_uint (Nat.to_uint n)
                        ++ ": expected str instance, " ++ type_name x
                        ++ " found"))
  end.

Definition join (sep : string) (v : pyval) : result string :=
  match iter v with
  | Ok items =>
      match all_str 0 items with
      | Ok ss => Ok (str_join sep ss)
      | Raise e => Raise e
      end
  | Raise _ => Raise (TypeError "can only join an iterable")
  end.

(** [v.split(sep)[-1]] on any value. *)
Definition split_last_of (v : pyval) (sep : ascii) : result string :=
  match v with
  | PStr s => Ok (split_last sep s)
  | _ => Raise (AttributeError v "split")
  end.

(** The method calls of the handlers, on any value. *)
Definition lower (v : pyval) : result string :=
  match v with
  | PStr s => Ok (str_lower s)
  | _ => Raise (AttributeError v "lower")
  end.

Definition replace (v : pyval) (old new : ascii) : result string :=
  match v with
  | PStr s => Ok (str_replace old new s)
  | _ => Raise (AttributeError v "replace")
  end.

(** *** Text of a value *)

(** What CPython provides and this development does not define: [repr] (used
    by [str] on floats, lists and dicts) and [json.dumps(v, indent=...)]. *)
Class PyRuntime : Type := {
  py_repr : pyval -> string;
  json_dumps : option nat -> pyval -> string
}.

Definition str_of_int (z : Z) : string := NilZero.string_of_int (Z.to_int z).

(** [str(v)], which is what a replacement field [{v}] of an f-string inserts. *)
Definition str `{PyRuntime} (v : pyval) : string :=
  match v with
  | PStr s => s
  | PInt z => str_of_int z
  | PBool true => "True"
  | PBool false => "False"
  | PNone => "None"
  | PFloat _ | PList _ | PDict _ => py_repr v
  end.

(** *** base64 *)

Definition b64_alphabet : string :=
  "ABCDEFGHIJKLMNOPQRSTUVWXYZabcdefghijklmnopqrstuvwxyz0123456789+/".

Definition b64_digit (n : N) : ascii :=
  match String.get (N.to_nat n) b64_alphabet with
  | Some c => c
  | None => "="%char
  end.

(** [base64.b64encode]: three bytes give four digits; one or two trailing
    bytes are padded with [=]. *)
Fixpoint b64encode (s : string) : string :=
  match s with
  | EmptyString => EmptyString
  | String a EmptyString =>
      let x := N_of_ascii a in
      String (b64_digit (N.shiftr x 2))
      (String (b64_digit (N.shiftl (N.land x 3) 4)) "==")
  | String a (String b EmptyString) =>
      let x := N_of_ascii a in
      let y := N_of_ascii b in
      String (b64_digit (N.shiftr x 2))
      (String (b64_digit (N.lor (N.shiftl (N.land x 3) 4) (N.shiftr y 4)))
      (String (b64_digit (N.shiftl (N.land y 15) 2)) "="))
  | String a (String b (String c rest)) =>
      let x := N_of_ascii a in
      let y := N_of_ascii b in
      let z := N_of_ascii c in
      String (b64_digit (N.shiftr x 2))
      (String (b64_digit (N.lor (N.shiftl (N.land x 3) 4) (N.shiftr y 4)))
      (String (b64_digit (N.lor (N.shiftl (N.land y 15) 2) (N.shiftr z 6)))
      (String (b64_digit (N.land z 63)) (b64encode rest))))
  end.

End Py.
Import Py.
Local Open Scope py_scope.

(** ** handlers/memory_handlers.py *)

Module memory_handlers.
Section Handlers.
Context `{PyRuntime}.

(** One turn of the loop of [handle_memory_create] that rewrites a strategy
    to the tagged-union format of boto3: what is appended to
    [transformed_strategies] for [strategy]. *)
Definition transform_strategy (strategy : pyval) : result pyval :=
  name <- get strategy "name" (PStr EmptyString) ;;
  strategy_name <- lower name ;;
  if String.eqb strategy_name "summary" then
    Ok (PDict [("summaryMemoryStrategy", strategy)])
  else if String.eqb strategy_name "preferences" then
    Ok (PDict [("userPreferenceMemoryStrategy", strategy)])
  else if String.eqb strategy_name "semantic" then
    Ok (PDict [("semanticMemoryStrategy", strategy)])
  else
    (* Unknown strategy type - pass through as-is *)
    Ok strategy.

(** The loop [for strategy in strategies], on the elements it visits. *)
Fixpoint transform_strategies (strategies : list pyval) : result (list pyval) :=
  match strategies with
  | [] => Ok []
  | strategy :: rest =>
      t <- transform_strategy strategy ;;
      ts <- transform_strategies rest ;;
      Ok (t :: ts)
  end.

(** Script text built by [handle_memory_create] (the f-string assigned to [code]). *)
Definition memory_create_code (strategies_json region name description : string) : string :=
  unlines [
    "#!/usr/bin/env python3";
    dq3;
    "Script to create AgentCore Memory.";
    EmptyString;
    "This script creates an AgentCore Memory resource with memory strategies.";
    dq3;
    EmptyString;
    "import json";
    "from bedrock_agentcore_starter_toolkit.operations.memory.manager import MemoryManager";
    EmptyString;
    "# Define memory strategies in boto3 tagged union format";
    "strategies = " ++ strategies_json;
    EmptyString;
    "# Create memory manager";
    "memory_manager = MemoryManager(region_name='" ++ region ++ "')";
    EmptyString;
    "# Create memory";
    "print(" ++ dq ++ "Creating AgentCore Memory..." ++ dq ++ ")";
    "memory = memory_manager.get_or_create_memory(";
    "    name=" ++ dq ++ name ++ dq ++ ",";
    "    description=" ++ dq ++ description ++ dq ++ ",";
    "    strategies=strategies";
    ")";
    EmptyString;
    "# Extract memory_id";
    "memory_id = memory[" ++ dq ++ "id" ++ dq ++ "]";
    EmptyString;
    "# Save memory_id to config file";
    "config = {";
    "    " ++ dq ++ "memory_id" ++ dq ++ ": memory_id,";
    "    " ++ dq ++ "name" ++ dq ++ ": " ++ dq ++ name ++ dq ++ ",";
    "    " ++ dq ++ "region" ++ dq ++ ": " ++ dq ++ region ++ dq;
    "}";
    EmptyString;
    "with open('memory_config.json', 'w') as f:";
    "    json.dump(config, f, indent=2)";
    EmptyString;
    "print(f" ++ dq ++ "✓ Memory created successfully!" ++ dq ++ ")";
    "print(f" ++ dq ++ "  Memory ID: {memory_id}" ++ dq ++ ")";
    "print(f" ++ dq ++ "✓ Configuration saved to memory_config.json" ++ dq ++ ")"
  ].

(** Script text built by [handle_memory_create_event] (the f-string assigned to [code]). *)
Definition memory_create_event_code (region messages_json actor_id session_id : string) : string :=
  unlines [
    "#!/usr/bin/env python3";
    dq3;
    "Script to store conversation messages in AgentCore Memory.";
    dq3;
    EmptyString;
    "import json";
    "import time";
    EmptyString;
    "try:";
    "    from bedrock_agentcore.memory import MemoryClient";
    "except ImportError:";
    "    print(" ++ dq ++ "✗ Error: bedrock_agentcore package not found" ++ dq ++ ")";
    "    print(" ++ dq ++ "  Install with: pip install bedrock-agentcore" ++ dq ++ ")";
    "    exit(1)";
    EmptyString;
    "# Load memory_id from config";
    "with open('memory_config.json') as f:";
    "    config = json.load(f)";
    "    memory_id = config['memory_id']";
    EmptyString;
    "print(f" ++ dq ++ "Using Memory ID: {memory_id}" ++ dq ++ ")";
    EmptyString;
    "# Create memory client";
    "memory_client = MemoryClient(region_name='" ++ region ++ "')";
    EmptyString;
    "# Define messages";
    "messages = " ++ messages_json;
    EmptyString;
    "# Normalize message format to match notebook expectations";
    "for m in messages:";
    "    if isinstance(m.get(" ++ dq ++ "content" ++ dq ++ "), str):";
    "        m[" ++ dq ++ "content" ++ dq ++ "] = [{" ++ dq ++ "text" ++ dq ++ ": m[" ++ dq ++ "content" ++ dq ++ "]}]";
    EmptyString;
    "# Store messages";
    "print(" ++ dq ++ "Storing messages in memory..." ++ dq ++ ")";
    "memory_client.create_event(";
    "    memory_id=memory_id,";
    "    actor_id=" ++ dq ++ actor_id ++ dq ++ ",";
    "    session_id=" ++ dq ++ session_id ++ dq ++ ",";
    "    messages=messages";
    ")";
    EmptyString;
    "print(f" ++ dq ++ "✓ Stored {len(messages)} messages successfully!" ++ dq ++ ")";
    "print(" ++ dq ++ "\nNote: Memory processing takes 20-30 seconds to extract preferences, facts, and summaries." ++ dq ++ ")";
    "print(" ++ dq ++ "Waiting 30 seconds for memory processing..." ++ dq ++ ")";
    "time.sleep(30)";
    "print(" ++ dq ++ "✓ Memory processing complete!" ++ dq ++ ")"
  ].

(** Script text built by [handle_memory_retrieve] (the f-string assigned to [code]). *)
Definition memory_retrieve_code (region namespace query top_k : string) : string :=
  unlines [
    "#!/usr/bin/env python3";
    dq3;
    "Script to retrieve memories from AgentCore Memory.";
    dq3;
    EmptyString;
    "import json";
    EmptyString;
    "try:";
    "    from bedrock_agentcore.memory import MemoryClient";
    "except ImportError:";
    "    print(" ++ dq ++ "✗ Error: bedrock_agentcore package not found" ++ dq ++ ")";
    "    print(" ++ dq ++ "  Install with: pip install bedrock-agentcore" ++ dq ++ ")";
    "    exit(1)";
    EmptyString;
    "# Load memory_id from config";
    "with open('memory_config.json') as f:";
    "    config = json.load(f)";
    "    memory_id = config['memory_id']";
    EmptyString;
    "print(f" ++ dq ++ "Using Memory ID: {memory_id}" ++ dq ++ ")";
    EmptyString;
    "# Create memory client";
    "memory_client = MemoryClient(region_name='" ++ region ++ "')";
    EmptyString;
    "# Retrieve memories using the correct API method";
    "print(f" ++ dq ++ "Retrieving memories from namespace: " ++ namespace ++ dq ++ ")";
    "print(f" ++ dq ++ "Search query: " ++ query ++ dq ++ ")";
    "print(f" ++ dq ++ "Top K: " ++ top_k ++ dq ++ ")";
    "print()";
    EmptyString;
    "try:";
    "    # Use retrieve_memories() method with correct parameters";
    "    memories = memory_client.retrieve_memories(";
    "        memory_id=memory_id,";
    "        namespace=" ++ dq ++ namespace ++ dq ++ ",";
    "        query=" ++ dq ++ query ++ dq ++ ",";
    "        top_k=" ++ top_k;
    "    )";
    "    ";
    "    if memories:";
    "        print(f" ++ dq ++ "✓ Retrieved {len(memories)} memories from '" ++ namespace ++ "' namespace" ++ dq ++ ")";
    "        print()";
    "        ";
    "        for i, memory in enumerate(memories, 1):";
    "            print(f" ++ dq ++ "Memory {i}:" ++ dq ++ ")";
    "            print(f" ++ dq ++ "─────────────────────────────────────────" ++ dq ++ ")";
    "            content = memory.get('content', {})";
    "            if isinstance(content, dict):";
    "                text = content.get('text', 'N/A')";
    "            else:";
    "                text = str(content)";
    "            print(f" ++ dq ++ "Content: {text}" ++ dq ++ ")";
    "            ";
    "            # Safe formatting for relevance score";
    "            relevance = memory.get('relevanceScore', 'N/A')";
    "            if isinstance(relevance, (int, float)):";
    "                print(f" ++ dq ++ "Relevance Score: {relevance:.3f}" ++ dq ++ ")";
    "            else:";
    "                print(f" ++ dq ++ "Relevance Score: {relevance}" ++ dq ++ ")";
    "            print()";
    "    else:";
    "        print(" ++ dq ++ "⚠️  No memories found" ++ dq ++ ")";
    "        print(" ++ dq ++ "Memory extraction may still be processing (takes 20-30 seconds)" ++ dq ++ ")";
    "        ";
    "except Exception as e:";
    "    print(f" ++ dq ++ "❌ Error retrieving memories: {e}" ++ dq ++ ")";
    "    exit(1)"
  ].

(** Script text built by [handle_memory_delete] (the f-string assigned to [code]). *)
Definition memory_delete_code (region : string) : string :=
  unlines [
    "#!/usr/bin/env python3";
    dq3;
    "Script to delete AgentCore Memory.";
    EmptyString;
    "WARNING: This permanently deletes the memory and all stored data.";
    "RERUNNABLE: Safe to run multiple times - handles missing resources gracefully.";
    dq3;
    EmptyString;
    "import json";
    "import os";
    "from bedrock_agentcore_starter_toolkit.operations.memory.manager import MemoryManager";
    EmptyString;
    "print(" ++ dq ++ "Deleting AgentCore Memory..." ++ dq ++ ")";
    EmptyString;
    "# Check if memory config exists";
    "if not os.path.exists('memory_config.json'):";
    "    print(" ++ dq ++ "⚠️  Memory config not found - nothing to delete" ++ dq ++ ")";
    "    print(" ++ dq ++ "✓ Script completed successfully (no resources to delete)" ++ dq ++ ")";
    "    exit(0)";
    EmptyString;
    "# Load memory_id from config";
    "try:";
    "    with open('memory_config.json') as f:";
    "        config = json.load(f)";
    "        memory_id = config['memory_id']";
    "except Exception as e:";
    "    print(f" ++ dq ++ "⚠️  Failed to load memory config: {e}" ++ dq ++ ")";
    "    print(" ++ dq ++ "✓ Script completed successfully (no resources to delete)" ++ dq ++ ")";
    "    exit(0)";
    EmptyString;
    "# Create memory manager";
    "memory_manager = MemoryManager(region_name='" ++ region ++ "')";
    EmptyString;
    "# Delete memory";
    "try:";
    "    print(f" ++ dq ++ "  Memory ID: {memory_id}" ++ dq ++ ")";
    "    memory_manager.delete_memory(memory_id=memory_id)";
    "    print(" ++ dq ++ "✓ Memory deleted successfully!" ++ dq ++ ")";
    "except Exception as e:";
    "    error_msg = str(e).lower()";
    "    if " ++ dq ++ "not found" ++ dq ++ " in error_msg or " ++ dq ++ "does not exist" ++ dq ++ " in error_msg or " ++ dq ++ "resourcenotfound" ++ dq ++ " in error_msg:";
    "        print(" ++ dq ++ "⚠️  Memory already deleted or not found" ++ dq ++ ")";
    "        print(" ++ dq ++ "✓ Script completed successfully (resource already removed)" ++ dq ++ ")";
    "    else:";
    "        print(f" ++ dq ++ "✗ Error deleting memory: {e}" ++ dq ++ ")";
    "        exit(1)";
    EmptyString;
    "print(" ++ dq ++ "\n✓ Memory deletion completed successfully" ++ dq ++ ")";
    "print(" ++ dq ++ "✓ This script is RERUNNABLE - you can safely run it multiple times." ++ dq ++ ")"
  ].

Definition handle_memory_create (args : dict) : result pyval :=
  let region := dict_get args "region" (PStr "us-west-2") in
  name <- dict_getitem args "name" ;;
  let description := dict_get args "description" (PStr EmptyString) in
  strategies <- dict_getitem args "strategies" ;;
  items <- iter strategies ;;
  transformed_strategies <- transform_strategies items ;;
  let code :=
    memory_create_code (json_dumps (Some 4%nat) (PList transformed_strategies))
                       (str region) (str name) (str description) in
  file_stem <- replace name " " "_" ;;
  Ok (PDict [
    ("code", PStr code);
    ("filename", PStr (file_stem ++ "_create.py"));
    ("instructions",
     PStr ("Run this script to create the AgentCore Memory resource '"
           ++ str name ++ "'"))
  ]).

Definition handle_memory_create_event (args : dict) : result pyval :=
  let region := dict_get args "region" (PStr "us-west-2") in
  memory_id <- dict_getitem args "memory_id" ;;
  actor_id <- dict_getitem args "actor_id" ;;
  session_id <- dict_getitem args "session_id" ;;
  messages <- dict_getitem args "messages" ;;
  let code :=
    memory_create_event_code (str region) (json_dumps (Some 4%nat) messages)
                             (str actor_id) (str session_id) in
  Ok (PDict [
    ("code", PStr code);
    ("filename", PStr ("store_memory_event_" ++ str actor_id ++ ".py"));
    ("instructions",
     PStr ("Run this script to store conversation messages for "
           ++ str actor_id))
  ]).

Definition handle_memory_retrieve (args : dict) : result pyval :=
  let region := dict_get args "region" (PStr "us-west-2") in
  memory_id <- dict_getitem args "memory_id" ;;
  namespace <- dict_getitem args "namespace" ;;
  query <- dict_getitem args "query" ;;
  let top_k := dict_get args "top_k" (PInt 3) in
  let code :=
    memory_retrieve_code (str region) (str namespace) (str query) (str top_k) in
  Ok (PDict [
    ("code", PStr code);
    ("filename", PStr "retrieve_memories.py");
    ("instructions",
     PStr ("Run this script to retrieve memories from namespace '"
           ++ str namespace ++ "'"))
  ]).

Definition handle_memory_delete (args : dict) : result pyval :=
  let region := dict_get args "region" (PStr "us-west-2") in
  memory_id <- dict_getitem args "memory_id" ;;
  let code := memory_delete_code (str region) in
  Ok (PDict [
    ("code", PStr code);
    ("filename", PStr "delete_memory.py");
    ("instructions",
     PStr "Run this script to delete the AgentCore Memory resource")
  ]).

End Handlers.
End memory_handlers.

(** ** handlers/gateway_handlers.py *)

Module gateway_handlers.
Section Handlers.
Context `{PyRuntime}.

(** Script text built by [handle_gateway_create] (the f-string assigned to [code]). *)
Definition gateway_create_code (region name protocol_type authorizer_type description : string) : string :=
  unlines [
    "#!/usr/bin/env python3";
    dq3;
    "Script to create AgentCore Gateway.";
    EmptyString;
    "Prerequisites:";
    "- cognito_config.json (from Cognito setup)";
    "- gateway_role_config.json (from IAM role setup)";
    dq3;
    EmptyString;
    "import json";
    "import boto3";
    EmptyString;
    "# Load configuration";
    "with open('cognito_config.json') as f:";
    "    cognito_config = json.load(f)";
    "with open('gateway_role_config.json') as f:";
    "    role_config = json.load(f)";
    EmptyString;
    "# Initialize AgentCore control plane client";
    "gateway_client = boto3.client(" ++ dq ++ "bedrock-agentcore-control" ++ dq ++ ", region_name='" ++ region ++ "')";
    EmptyString;
    "# Build auth configuration for Cognito JWT";
    "auth_config = {";
    "    " ++ dq ++ "customJWTAuthorizer" ++ dq ++ ": {";
    "        " ++ dq ++ "allowedClients" ++ dq ++ ": [cognito_config[" ++ dq ++ "client_id" ++ dq ++ "]],";
    "        " ++ dq ++ "discoveryUrl" ++ dq ++ ": cognito_config[" ++ dq ++ "discovery_url" ++ dq ++ "]";
    "    }";
    "}";
    EmptyString;
    "# Create gateway";
    "print(" ++ dq ++ "Creating AgentCore Gateway..." ++ dq ++ ")";
    "create_response = gateway_client.create_gateway(";
    "    name=" ++ dq ++ name ++ dq ++ ",";
    "    roleArn=role_config[" ++ dq ++ "role_arn" ++ dq ++ "],";
    "    protocolType=" ++ dq ++ protocol_type ++ dq ++ ",";
    "    authorizerType=" ++ dq ++ authorizer_type ++ dq ++ ",";
    "    authorizerConfiguration=auth_config,";
    "    description=" ++ dq ++ description ++ dq;
    ")";
    EmptyString;
    "# Extract gateway details";
    "gateway_id = create_response[" ++ dq ++ "gatewayId" ++ dq ++ "]";
    "gateway_url = create_response[" ++ dq ++ "gatewayUrl" ++ dq ++ "]";
    "gateway_arn = create_response[" ++ dq ++ "gatewayArn" ++ dq ++ "]";
    EmptyString;
    "# Save gateway config (using 'id' to match reference code pattern)";
    "config = {";
    "    " ++ dq ++ "id" ++ dq ++ ": gateway_id,";
    "    " ++ dq ++ "gateway_id" ++ dq ++ ": gateway_id,  # Keep for backward compatibility";
    "    " ++ dq ++ "gateway_url" ++ dq ++ ": gateway_url,";
    "    " ++ dq ++ "gateway_arn" ++ dq ++ ": gateway_arn,";
    "    " ++ dq ++ "name" ++ dq ++ ": " ++ dq ++ name ++ dq ++ ",";
    "    " ++ dq ++ "region" ++ dq ++ ": " ++ dq ++ region ++ dq;
    "}";
    EmptyString;
    "with open('gateway_config.json', 'w') as f:";
    "    json.dump(config, f, indent=2)";
    EmptyString;
    "print(f" ++ dq ++ "✓ Gateway created successfully!" ++ dq ++ ")";
    "print(f" ++ dq ++ "  Gateway ID: {gateway_id}" ++ dq ++ ")";
    "print(f" ++ dq ++ "  Gateway URL: {gateway_url}" ++ dq ++ ")";
    "print(f" ++ dq ++ "✓ Configuration saved to gateway_config.json" ++ dq ++ ")"
  ].

(** Script text built by [handle_gateway_add_lambda_target] (the f-string assigned to [code]). *)
Definition gateway_add_lambda_target_code (region lambda_arn tool_schema_json target_name target_description : string) : string :=
  unlines [
    "#!/usr/bin/env python3";
    dq3;
    "Script to add Lambda target to AgentCore Gateway.";
    EmptyString;
    "Prerequisites:";
    "- gateway_config.json (from gateway creation)";
    dq3;
    EmptyString;
    "import json";
    "import boto3";
    EmptyString;
    "# Load gateway configuration";
    "with open('gateway_config.json') as f:";
    "    gateway_config = json.load(f)";
    EmptyString;
    "# Initialize AgentCore control plane client";
    "gateway_client = boto3.client(" ++ dq ++ "bedrock-agentcore-control" ++ dq ++ ", region_name='" ++ region ++ "')";
    EmptyString;
    "# Lambda ARN and tool schema (inlined from MCP call)";
    "lambda_arn = " ++ dq ++ lambda_arn ++ dq;
    "tool_schema = " ++ tool_schema_json;
    EmptyString;
    "# Build Lambda target configuration with MCP protocol";
    "lambda_target_config = {";
    "    " ++ dq ++ "mcp" ++ dq ++ ": {";
    "        " ++ dq ++ "lambda" ++ dq ++ ": {";
    "            " ++ dq ++ "lambdaArn" ++ dq ++ ": lambda_arn,";
    "            " ++ dq ++ "toolSchema" ++ dq ++ ": {";
    "                " ++ dq ++ "inlinePayload" ++ dq ++ ": tool_schema";
    "            }";
    "        }";
    "    }";
    "}";
    EmptyString;
    "# Use gateway's IAM role for Lambda invocation";
    "credential_config = [{" ++ dq ++ "credentialProviderType" ++ dq ++ ": " ++ dq ++ "GATEWAY_IAM_ROLE" ++ dq ++ "}]";
    EmptyString;
    "# Create target";
    "print(" ++ dq ++ "Adding Lambda target to gateway..." ++ dq ++ ")";
    "print(f" ++ dq ++ "  Gateway ID: {gateway_config['gateway_id']}" ++ dq ++ ")";
    "print(f" ++ dq ++ "  Target Name: " ++ target_name ++ dq ++ ")";
    "print(f" ++ dq ++ "  Lambda ARN: {lambda_arn}" ++ dq ++ ")";
    EmptyString;
    "create_response = gateway_client.create_gateway_target(";
    "    gatewayIdentifier=gateway_config[" ++ dq ++ "gateway_id" ++ dq ++ "],";
    "    name=" ++ dq ++ target_name ++ dq ++ ",";
    "    description=" ++ dq ++ target_description ++ dq ++ ",";
    "    targetConfiguration=lambda_target_config,";
    "    credentialProviderConfigurations=credential_config";
    ")";
    EmptyString;
    "target_id = create_response[" ++ dq ++ "targetId" ++ dq ++ "]";
    EmptyString;
    "print(f" ++ dq ++ "\n✓ Lambda target added successfully!" ++ dq ++ ")";
    "print(f" ++ dq ++ "  Target ID: {target_id}" ++ dq ++ ")";
    "print(f" ++ dq ++ "  Target Name: " ++ target_name ++ dq ++ ")"
  ].

(** Script text built by [handle_gateway_list_targets] (the f-string assigned to [code]). *)
Definition gateway_list_targets_code (region : string) : string :=
  unlines [
    "#!/usr/bin/env python3";
    dq3;
    "Script to list AgentCore Gateway targets.";
    EmptyString;
    "Prerequisites:";
    "- gateway_config.json (from gateway creation)";
    dq3;
    EmptyString;
    "import json";
    "import boto3";
    EmptyString;
    "# Load configuration";
    "with open('gateway_config.json') as f:";
    "    gateway_config = json.load(f)";
    EmptyString;
    "# Initialize AgentCore control plane client";
    "gateway_client = boto3.client(" ++ dq ++ "bedrock-agentcore-control" ++ dq ++ ", region_name='" ++ region ++ "')";
    EmptyString;
    "# List targets using correct API method";
    "print(f" ++ dq ++ "Listing targets for gateway: {gateway_config['gateway_id']}" ++ dq ++ ")";
    "response = gateway_client.list_gateway_targets(";
    "    gatewayIdentifier=gateway_config[" ++ dq ++ "gateway_id" ++ dq ++ "]";
    ")";
    EmptyString;
    "targets = response.get(" ++ dq ++ "items" ++ dq ++ ", [])";
    EmptyString;
    "print(f" ++ dq ++ "\n✓ Found {len(targets)} target(s):" ++ dq ++ ")";
    "for i, target in enumerate(targets, 1):";
    "    print(f" ++ dq ++ "\n{i}. {target.get('name', 'N/A')}" ++ dq ++ ")";
    "    print(f" ++ dq ++ "   Target ID: {target.get('targetId', 'N/A')}" ++ dq ++ ")";
    "    print(f" ++ dq ++ "   Status: {target.get('status', 'unknown')}" ++ dq ++ ")";
    "    print(f" ++ dq ++ "   Description: {target.get('description', 'N/A')}" ++ dq ++ ")"
  ].

(** Script text built by [handle_gateway_delete_target] (the f-string assigned to [code]). *)
Definition gateway_delete_target_code (region target_id : string) : string :=
  unlines [
    "#!/usr/bin/env python3";
    dq3;
    "Script to delete a target from AgentCore Gateway.";
    EmptyString;
    "WARNING: This removes the tool from the gateway.";
    "RERUNNABLE: Safe to run multiple times - handles missing resources gracefully.";
    EmptyString;
    "Prerequisites:";
    "- gateway_config.json (from gateway creation)";
    dq3;
    EmptyString;
    "import json";
    "import os";
    "import boto3";
    EmptyString;
    "print(" ++ dq ++ "Deleting gateway target..." ++ dq ++ ")";
    EmptyString;
    "# Check if gateway config exists";
    "if not os.path.exists('gateway_config.json'):";
    "    print(" ++ dq ++ "⚠️  Gateway config not found - nothing to delete" ++ dq ++ ")";
    "    print(" ++ dq ++ "✓ Script completed successfully (no resources to delete)" ++ dq ++ ")";
    "    exit(0)";
    EmptyString;
    "# Load configuration";
    "try:";
    "    with open('gateway_config.json') as f:";
    "        gateway_config = json.load(f)";
    "except Exception as e:";
    "    print(f" ++ dq ++ "⚠️  Failed to load gateway config: {e}" ++ dq ++ ")";
    "    print(" ++ dq ++ "✓ Script completed successfully (no resources to delete)" ++ dq ++ ")";
    "    exit(0)";
    EmptyString;
    "# Initialize AgentCore control plane client";
    "gateway_client = boto3.client(" ++ dq ++ "bedrock-agentcore-control" ++ dq ++ ", region_name='" ++ region ++ "')";
    EmptyString;
    "# Delete target using correct API method name";
    "try:";
    "    print(f" ++ dq ++ "  Gateway ID: {gateway_config['gateway_id']}" ++ dq ++ ")";
    "    print(f" ++ dq ++ "  Target ID: " ++ target_id ++ dq ++ ")";
    "    ";
    "    gateway_client.delete_gateway_target(";
    "        gatewayIdentifier=gateway_config[" ++ dq ++ "gateway_id" ++ dq ++ "],";
    "        targetId=" ++ dq ++ target_id ++ dq;
    "    )";
    "    print(" ++ dq ++ "✓ Gateway target deleted successfully!" ++ dq ++ ")";
    "except Exception as e:";
    "    error_msg = str(e).lower()";
    "    if " ++ dq ++ "resourcenotfound" ++ dq ++ " in error_msg or " ++ dq ++ "not found" ++ dq ++ " in error_msg:";
    "        print(" ++ dq ++ "⚠️  Target already deleted or not found" ++ dq ++ ")";
    "        print(" ++ dq ++ "✓ Script completed successfully (resource already removed)" ++ dq ++ ")";
    "    else:";
    "        print(f" ++ dq ++ "✗ Error deleting target: {e}" ++ dq ++ ")";
    "        exit(1)";
    EmptyString;
    "print(" ++ dq ++ "\n✓ Target deletion completed successfully" ++ dq ++ ")";
    "print(" ++ dq ++ "✓ This script is RERUNNABLE - you can safely run it multiple times." ++ dq ++ ")"
  ].

(** Script text built by [handle_gateway_delete] (the f-string assigned to [code]). *)
Definition gateway_delete_code (region : string) : string :=
  unlines [
    "#!/usr/bin/env python3";
    dq3;
    "Script to delete AgentCore Gateway.";
    EmptyString;
    "WARNING: This permanently deletes the gateway and all its targets.";
    "RERUNNABLE: Safe to run multiple times - handles missing resources gracefully.";
    EmptyString;
    "Prerequisites:";
    "- gateway_config.json (from gateway creation)";
    dq3;
    EmptyString;
    "import json";
    "import os";
    "import boto3";
    EmptyString;
    "print(" ++ dq ++ "=" ++ dq ++ " * 80)";
    "print(" ++ dq ++ "Delete AgentCore Gateway" ++ dq ++ ")";
    "print(" ++ dq ++ "=" ++ dq ++ " * 80)";
    EmptyString;
    "# Check if gateway config exists";
    "if not os.path.exists('gateway_config.json'):";
    "    print(" ++ dq ++ "⚠️  Gateway config not found - nothing to delete" ++ dq ++ ")";
    "    print(" ++ dq ++ "✓ Script completed successfully (no resources to delete)" ++ dq ++ ")";
    "    exit(0)";
    EmptyString;
    "# Load configuration";
    "try:";
    "    with open('gateway_config.json') as f:";
    "        gateway_config = json.load(f)";
    "except Exception as e:";
    "    print(f" ++ dq ++ "⚠️  Failed to load gateway config: {e}" ++ dq ++ ")";
    "    print(" ++ dq ++ "✓ Script completed successfully (no resources to delete)" ++ dq ++ ")";
    "    exit(0)";
    EmptyString;
    "# Initialize AgentCore control plane client";
    "gateway_client = boto3.client(" ++ dq ++ "bedrock-agentcore-control" ++ dq ++ ", region_name='" ++ region ++ "')";
    EmptyString;
    "print(f" ++ dq ++ "\nGateway ID: {gateway_config['gateway_id']}" ++ dq ++ ")";
    EmptyString;
    "# Step 1: Delete all targets first";
    "print(" ++ dq ++ "\nStep 1: Deleting gateway targets..." ++ dq ++ ")";
    "try:";
    "    response = gateway_client.list_gateway_targets(gatewayIdentifier=gateway_config[" ++ dq ++ "gateway_id" ++ dq ++ "])";
    "    targets = response.get('items', [])";
    "    ";
    "    if targets:";
    "        for target in targets:";
    "            try:";
    "                gateway_client.delete_gateway_target(";
    "                    gatewayIdentifier=gateway_config[" ++ dq ++ "gateway_id" ++ dq ++ "],";
    "                    targetId=target['targetId']";
    "                )";
    "                print(f" ++ dq ++ "✓ Deleted target: {target.get('name', target['targetId'])}" ++ dq ++ ")";
    "            except Exception as e:";
    "                if " ++ dq ++ "ResourceNotFound" ++ dq ++ " in str(e) or " ++ dq ++ "not found" ++ dq ++ " in str(e).lower():";
    "                    print(f" ++ dq ++ "⚠️  Target already deleted: {target.get('name', target['targetId'])}" ++ dq ++ ")";
    "                else:";
    "                    print(f" ++ dq ++ "✗ Error deleting target: {e}" ++ dq ++ ")";
    "                    raise  # Re-raise to prevent gateway deletion";
    "    else:";
    "        print(" ++ dq ++ "⚠️  No targets found" ++ dq ++ ")";
    "except Exception as e:";
    "    if " ++ dq ++ "ResourceNotFound" ++ dq ++ " in str(e) or " ++ dq ++ "not found" ++ dq ++ " in str(e).lower():";
    "        print(" ++ dq ++ "⚠️  Gateway not found (may already be deleted)" ++ dq ++ ")";
    "    else:";
    "        print(f" ++ dq ++ "⚠️  Could not delete targets: {e}" ++ dq ++ ")";
    "        raise  # Re-raise to prevent gateway deletion";
    EmptyString;
    "# Step 1.5: Verify all targets are deleted";
    "print(" ++ dq ++ "\nStep 1.5: Verifying targets are deleted..." ++ dq ++ ")";
    "try:";
    "    response = gateway_client.list_gateway_targets(gatewayIdentifier=gateway_config[" ++ dq ++ "gateway_id" ++ dq ++ "])";
    "    remaining_targets = response.get('items', [])";
    "    if remaining_targets:";
    "        print(f" ++ dq ++ "⚠️  Warning: {len(remaining_targets)} target(s) still exist. Waiting 5 seconds..." ++ dq ++ ")";
    "        import time";
    "        time.sleep(5)";
    "        # Check again";
    "        response = gateway_client.list_gateway_targets(gatewayIdentifier=gateway_config[" ++ dq ++ "gateway_id" ++ dq ++ "])";
    "        remaining_targets = response.get('items', [])";
    "        if remaining_targets:";
    "            print(f" ++ dq ++ "✗ Error: {len(remaining_targets)} target(s) still exist after waiting" ++ dq ++ ")";
    "            for target in remaining_targets:";
    "                print(f" ++ dq ++ "  - {target.get('name', target['targetId'])} ({target['targetId']})" ++ dq ++ ")";
    "            print(" ++ dq ++ "\nPlease wait a few moments and run this script again." ++ dq ++ ")";
    "            exit(1)";
    "    print(" ++ dq ++ "✓ All targets confirmed deleted" ++ dq ++ ")";
    "except Exception as e:";
    "    if " ++ dq ++ "ResourceNotFound" ++ dq ++ " not in str(e) and " ++ dq ++ "not found" ++ dq ++ " not in str(e).lower():";
    "        print(f" ++ dq ++ "⚠️  Could not verify targets: {e}" ++ dq ++ ")";
    EmptyString;
    "# Step 2: Delete gateway";
    "print(" ++ dq ++ "\nStep 2: Deleting gateway..." ++ dq ++ ")";
    "try:";
    "    gateway_client.delete_gateway(";
    "        gatewayIdentifier=gateway_config[" ++ dq ++ "gateway_id" ++ dq ++ "]";
    "    )";
    "    print(" ++ dq ++ "✓ Gateway deleted successfully!" ++ dq ++ ")";
    "except Exception as e:";
    "    error_msg = str(e).lower()";
    "    if " ++ dq ++ "resourcenotfound" ++ dq ++ " in error_msg or " ++ dq ++ "not found" ++ dq ++ " in error_msg:";
    "        print(" ++ dq ++ "⚠️  Gateway already deleted or not found" ++ dq ++ ")";
    "        print(" ++ dq ++ "✓ Script completed successfully (resource already removed)" ++ dq ++ ")";
    "    else:";
    "        print(f" ++ dq ++ "✗ Error deleting gateway: {e}" ++ dq ++ ")";
    "        exit(1)";
    EmptyString;
    "print(" ++ dq ++ "\n" ++ dq ++ " + " ++ dq ++ "=" ++ dq ++ " * 80)";
    "print(" ++ dq ++ "✓ Gateway deletion completed successfully" ++ dq ++ ")";
    "print(" ++ dq ++ "✓ This script is RERUNNABLE - you can safely run it multiple times." ++ dq ++ ")";
    "print(" ++ dq ++ "=" ++ dq ++ " * 80)"
  ].

(** [v != s] for a str literal [s]: only the str [s] itself is equal to it. *)
Definition ne_str (v : pyval) (s : string) : bool :=
  match v with
  | PStr s' => negb (String.eqb s' s)
  | _ => true
  end.

(** [name.lower().replace(' ', '_')] *)
Definition slug (name : pyval) : result string :=
  lowered <- lower name ;;
  Ok (str_replace " " "_" lowered).

Definition handle_gateway_create (args : dict) : result pyval :=
  let region := dict_get args "region" (PStr "us-west-2") in
  name <- dict_getitem args "name" ;;
  role_arn <- dict_getitem args "role_arn" ;;
  cognito_client_id <- dict_getitem args "cognito_client_id" ;;
  cognito_discovery_url <- dict_getitem args "cognito_discovery_url" ;;
  let protocol_type := dict_get args "protocol_type" (PStr "MCP") in
  let authorizer_type := dict_get args "authorizer_type" (PStr "CUSTOM_JWT") in
  let description := dict_get args "description" (PStr EmptyString) in
  (* Validate protocol type *)
  if ne_str protocol_type "MCP" then
    Raise (ValueError "Only MCP protocol is supported in this handler")
  else
  let code :=
    gateway_create_code (str region) (str name) (str protocol_type)
                        (str authorizer_type) (str description) in
  file_stem <- slug name ;;
  Ok (PDict [
    ("code", PStr code);
    ("filename", PStr (file_stem ++ "_gateway_create.py"));
    ("instructions",
     PStr ("Ensure cognito_config.json and gateway_role_config.json exist, then run this script to create the AgentCore Gateway '"
           ++ str name ++ "'"))
  ]).

Definition handle_gateway_add_lambda_target (args : dict) : result pyval :=
  let region := dict_get args "region" (PStr "us-west-2") in
  target_name <- dict_getitem args "target_name" ;;
  lambda_arn <- dict_getitem args "lambda_arn" ;;
  tool_schema <- dict_getitem args "tool_schema" ;;
  let target_description :=
    dict_get args "target_description" (PStr EmptyString) in
  let code :=
    gateway_add_lambda_target_code
      (str region) (str lambda_arn) (json_dumps (Some 4%nat) tool_schema)
      (str target_name) (str target_description) in
  file_stem <- slug target_name ;;
  Ok (PDict [
    ("code", PStr code);
    ("filename", PStr ("add_" ++ file_stem ++ "_target.py"));
    ("instructions",
     PStr ("Ensure gateway_config.json exists, then run this script to add Lambda target '"
           ++ str target_name ++ "' to the gateway"))
  ]).

Definition handle_gateway_list_targets (args : dict) : result pyval :=
  let region := dict_get args "region" (PStr "us-west-2") in
  let code := gateway_list_targets_code (str region) in
  Ok (PDict [
    ("code", PStr code);
    ("filename", PStr "list_gateway_targets.py");
    ("instructions",
     PStr "Ensure gateway_config.json exists, then run this script to list all gateway targets")
  ]).

Definition handle_gateway_delete_target (args : dict) : result pyval :=
  let region := dict_get args "region" (PStr "us-west-2") in
  target_id <- dict_getitem args "target_id" ;;
  let code := gateway_delete_target_code (str region) (str target_id) in
  Ok (PDict [
    ("code", PStr code);
    ("filename", PStr "delete_gateway_target.py");
    ("instructions",
     PStr ("Ensure gateway_config.json exists, then run this script to delete target '"
           ++ str target_id ++ "'"))
  ]).

Definition handle_gateway_delete (args : dict) : result pyval :=
  let region := dict_get args "region" (PStr "us-west-2") in
  let code := gateway_delete_code (str region) in
  Ok (PDict [
    ("code", PStr code);
    ("filename", PStr "delete_gateway.py");
    ("instructions",
     PStr "Ensure gateway_config.json exists, then run this script to delete the AgentCore Gateway and all its targets")
  ]).

End Handlers.
End gateway_handlers.

(** ** handlers/runtime_handlers.py *)

Module runtime_handlers.
Section Handlers.
Context `{PyRuntime}.

(** Script text built by [handle_runtime_configure] (the f-string assigned to [code]). *)
Definition runtime_configure_code (entrypoint agent_name auto_create_ecr memory_mode requirements_file region : string) : string :=
  unlines [
    "#!/usr/bin/env python3";
    dq3;
    "Script to configure AgentCore Runtime deployment.";
    dq3;
    EmptyString;
    "import json";
    "from bedrock_agentcore_starter_toolkit import Runtime";
    EmptyString;
    "# Load configuration";
    "with open('runtime_execution_role_config.json') as f:";
    "    role_config = json.load(f)";
    "with open('cognito_config.json') as f:";
    "    cognito_config = json.load(f)";
    EmptyString;
    "# Initialize Runtime";
    "runtime = Runtime()";
    EmptyString;
    "# Build authorizer configuration for Cognito JWT";
    "auth_config = {";
    "    " ++ dq ++ "customJWTAuthorizer" ++ dq ++ ": {";
    "        " ++ dq ++ "allowedClients" ++ dq ++ ": [cognito_config[" ++ dq ++ "client_id" ++ dq ++ "]],";
    "        " ++ dq ++ "discoveryUrl" ++ dq ++ ": cognito_config[" ++ dq ++ "discovery_url" ++ dq ++ "]";
    "    }";
    "}";
    EmptyString;
    "# Configure runtime deployment";
    "print(" ++ dq ++ "Configuring AgentCore Runtime..." ++ dq ++ ")";
    "response = runtime.configure(";
    "    entrypoint=" ++ dq ++ entrypoint ++ dq ++ ",";
    "    agent_name=" ++ dq ++ agent_name ++ dq ++ ",";
    "    execution_role=role_config[" ++ dq ++ "role_arn" ++ dq ++ "],";
    "    auto_create_ecr=" ++ auto_create_ecr ++ ",";
    "    memory_mode=" ++ dq ++ memory_mode ++ dq ++ ",";
    "    requirements_file=" ++ dq ++ requirements_file ++ dq ++ ",";
    "    region=" ++ dq ++ region ++ dq ++ ",";
    "    authorizer_configuration=auth_config";
    ")";
    EmptyString;
    "print(" ++ dq ++ "✓ Runtime configured successfully!" ++ dq ++ ")";
    "print(" ++ dq ++ "  Configuration saved to .bedrock_agentcore.yaml" ++ dq ++ ")";
    "print(" ++ dq ++ "  Next step: Run launch script to deploy the agent" ++ dq ++ ")"
  ].

(** Script text built by [handle_runtime_launch] (the f-string assigned to [code]). *)
Definition runtime_launch_code (region env_vars_json auto_update_on_conflict : string) : string :=
  unlines [
    "#!/usr/bin/env python3";
    dq3;
    "Script to launch agent to AgentCore Runtime.";
    EmptyString;
    "This creates a CodeBuild pipeline, builds Docker container, pushes to ECR,";
    "and deploys to runtime. Process takes 5-10 minutes.";
    dq3;
    EmptyString;
    "import json";
    "import os";
    "from bedrock_agentcore_starter_toolkit import Runtime";
    EmptyString;
    "# Load configuration files that exist";
    "config_files = {}";
    EmptyString;
    "if os.path.exists('memory_config.json'):";
    "    with open('memory_config.json') as f:";
    "        config_files['memory'] = json.load(f)";
    EmptyString;
    "if os.path.exists('gateway_config.json'):";
    "    with open('gateway_config.json') as f:";
    "        config_files['gateway'] = json.load(f)";
    EmptyString;
    "if os.path.exists('cognito_config.json'):";
    "    with open('cognito_config.json') as f:";
    "        config_files['cognito'] = json.load(f)";
    "else:";
    "    print(" ++ dq ++ "❌ Error: cognito_config.json not found" ++ dq ++ ")";
    "    exit(1)";
    EmptyString;
    "if os.path.exists('runtime_execution_role_config.json'):";
    "    with open('runtime_execution_role_config.json') as f:";
    "        config_files['role'] = json.load(f)";
    "else:";
    "    print(" ++ dq ++ "❌ Error: runtime_execution_role_config.json not found" ++ dq ++ ")";
    "    exit(1)";
    EmptyString;
    "# Load .bedrock_agentcore.yaml to get agent name and entrypoint";
    "if not os.path.exists('.bedrock_agentcore.yaml'):";
    "    print(" ++ dq ++ "❌ Error: .bedrock_agentcore.yaml not found" ++ dq ++ ")";
    "    print(" ++ dq ++ "Please run configure_runtime.py first" ++ dq ++ ")";
    "    exit(1)";
    EmptyString;
    "import yaml";
    "with open('.bedrock_agentcore.yaml') as f:";
    "    runtime_config = yaml.safe_load(f)";
    EmptyString;
    "default_agent = runtime_config.get('default_agent')";
    "agent_config = runtime_config.get('agents', {}).get(default_agent, {})";
    "agent_name = agent_config.get('name')";
    "entrypoint = agent_config.get('entrypoint')";
    EmptyString;
    "# Initialize Runtime";
    "runtime = Runtime()";
    EmptyString;
    "# Build authorizer configuration for Cognito JWT";
    "auth_config = {";
    "    " ++ dq ++ "customJWTAuthorizer" ++ dq ++ ": {";
    "        " ++ dq ++ "allowedClients" ++ dq ++ ": [config_files['cognito'][" ++ dq ++ "client_id" ++ dq ++ "]],";
    "        " ++ dq ++ "discoveryUrl" ++ dq ++ ": config_files['cognito'][" ++ dq ++ "discovery_url" ++ dq ++ "]";
    "    }";
    "}";
    EmptyString;
    "# Configure runtime (loads existing config or creates new one)";
    "print(" ++ dq ++ "Configuring runtime..." ++ dq ++ ")";
    "runtime.configure(";
    "    entrypoint=entrypoint,";
    "    agent_name=agent_name,";
    "    execution_role=config_files['role'][" ++ dq ++ "role_arn" ++ dq ++ "],";
    "    auto_create_ecr=True,";
    "    memory_mode=" ++ dq ++ "NO_MEMORY" ++ dq ++ ",";
    "    requirements_file=" ++ dq ++ "requirements.txt" ++ dq ++ ",";
    "    region=" ++ dq ++ region ++ dq ++ ",";
    "    authorizer_configuration=auth_config";
    ")";
    "print(" ++ dq ++ "✓ Runtime configured" ++ dq ++ ")";
    EmptyString;
    "# Build environment variables from config files";
    "env_vars = {}";
    EmptyString;
    "# Add environment variables passed from MCP tool";
    "env_vars.update(" ++ env_vars_json ++ ")";
    EmptyString;
    "# Add memory ID if available";
    "if 'memory' in config_files:";
    "    env_vars[" ++ dq ++ "MEMORY_ID" ++ dq ++ "] = config_files['memory'][" ++ dq ++ "memory_id" ++ dq ++ "]";
    EmptyString;
    "# Add gateway info if available";
    "if 'gateway' in config_files:";
    "    env_vars[" ++ dq ++ "GATEWAY_URL" ++ dq ++ "] = config_files['gateway'][" ++ dq ++ "gateway_url" ++ dq ++ "]";
    EmptyString;
    "# Add Cognito credentials";
    "env_vars[" ++ dq ++ "COGNITO_CLIENT_ID" ++ dq ++ "] = config_files['cognito'][" ++ dq ++ "client_id" ++ dq ++ "]";
    "env_vars[" ++ dq ++ "COGNITO_CLIENT_SECRET" ++ dq ++ "] = config_files['cognito'][" ++ dq ++ "client_secret" ++ dq ++ "]";
    "env_vars[" ++ dq ++ "COGNITO_DISCOVERY_URL" ++ dq ++ "] = config_files['cognito'][" ++ dq ++ "discovery_url" ++ dq ++ "]";
    "env_vars[" ++ dq ++ "OAUTH_SCOPES" ++ dq ++ "] = " ++ dq ++ " " ++ dq ++ ".join(config_files['cognito'].get(" ++ dq ++ "scopes" ++ dq ++ ", [" ++ dq ++ "agentcore-gateway/read" ++ dq ++ ", " ++ dq ++ "agentcore-gateway/write" ++ dq ++ "]))";
    EmptyString;
    "print(" ++ dq ++ "\nEnvironment variables:" ++ dq ++ ")";
    "for key in env_vars:";
    "    if " ++ dq ++ "SECRET" ++ dq ++ " in key or " ++ dq ++ "PASSWORD" ++ dq ++ " in key:";
    "        print(f" ++ dq ++ "  {key}: ***" ++ dq ++ ")";
    "    else:";
    "        print(f" ++ dq ++ "  {key}: {env_vars[key]}" ++ dq ++ ")";
    EmptyString;
    "# Launch agent";
    "print(" ++ dq ++ "\n" ++ dq ++ " + " ++ dq ++ "=" ++ dq ++ " * 80)";
    "print(" ++ dq ++ "LAUNCHING AGENT TO AGENTCORE RUNTIME" ++ dq ++ ")";
    "print(" ++ dq ++ "=" ++ dq ++ " * 80)";
    "print(" ++ dq ++ "\nThis process will:" ++ dq ++ ")";
    "print(" ++ dq ++ "  1. Create CodeBuild project" ++ dq ++ ")";
    "print(" ++ dq ++ "  2. Build Docker container from your agent code" ++ dq ++ ")";
    "print(" ++ dq ++ "  3. Push container to Amazon ECR" ++ dq ++ ")";
    "print(" ++ dq ++ "  4. Deploy to AgentCore Runtime" ++ dq ++ ")";
    "print(" ++ dq ++ "\n⏱️  Expected time: 5-10 minutes" ++ dq ++ ")";
    "print(" ++ dq ++ "\n☕ Grab a coffee while the deployment runs..." ++ dq ++ ")";
    "print(" ++ dq ++ "=" ++ dq ++ " * 80)";
    EmptyString;
    "launch_result = runtime.launch(";
    "    env_vars=env_vars,";
    "    auto_update_on_conflict=" ++ auto_update_on_conflict;
    ")";
    EmptyString;
    "agent_arn = launch_result.agent_arn";
    EmptyString;
    "# Save agent ARN to config";
    "runtime_output_config = {";
    "    " ++ dq ++ "agent_arn" ++ dq ++ ": agent_arn,";
    "    " ++ dq ++ "agent_name" ++ dq ++ ": agent_name,";
    "    " ++ dq ++ "region" ++ dq ++ ": " ++ dq ++ region ++ dq;
    "}";
    EmptyString;
    "# Add memory_id if available";
    "if 'memory' in config_files:";
    "    runtime_output_config[" ++ dq ++ "memory_id" ++ dq ++ "] = config_files['memory'][" ++ dq ++ "memory_id" ++ dq ++ "]";
    EmptyString;
    "# Add gateway_url if available";
    "if 'gateway' in config_files:";
    "    runtime_output_config[" ++ dq ++ "gateway_url" ++ dq ++ "] = config_files['gateway'][" ++ dq ++ "gateway_url" ++ dq ++ "]";
    EmptyString;
    "with open('runtime_config.json', 'w') as f:";
    "    json.dump(runtime_output_config, f, indent=2)";
    EmptyString;
    "print(f" ++ dq ++ "\n✓ Agent deployment initiated!" ++ dq ++ ")";
    "print(f" ++ dq ++ "  Agent ARN: {agent_arn}" ++ dq ++ ")";
    "print(f" ++ dq ++ "✓ Configuration saved to runtime_config.json" ++ dq ++ ")";
    "print(" ++ dq ++ "\n" ++ dq ++ " + " ++ dq ++ "=" ++ dq ++ " * 80)";
    "print(" ++ dq ++ "NEXT STEPS" ++ dq ++ ")";
    "print(" ++ dq ++ "=" ++ dq ++ " * 80)";
    "print(" ++ dq ++ "\n1. Monitor deployment status:" ++ dq ++ ")";
    "print(" ++ dq ++ "   Run: python check_runtime_status.py" ++ dq ++ ")";
    "print(" ++ dq ++ "\n2. Wait for status to show 'READY' (may take a few more minutes)" ++ dq ++ ")";
    "print(" ++ dq ++ "\n3. Once READY, test your agent:" ++ dq ++ ")";
    "print(" ++ dq ++ "   Run: python invoke_agent.py" ++ dq ++ ")";
    "print(" ++ dq ++ "\n" ++ dq ++ " + " ++ dq ++ "=" ++ dq ++ " * 80)"
  ].

(** Script text built by [handle_runtime_status] (the f-string assigned to [code]). *)
Definition runtime_status_code (region : string) : string :=
  unlines [
    "#!/usr/bin/env python3";
    dq3;
    "Script to check AgentCore Runtime deployment status.";
    dq3;
    EmptyString;
    "import json";
    "import os";
    "from bedrock_agentcore_starter_toolkit import Runtime";
    EmptyString;
    "# Check if runtime config exists";
    "if not os.path.exists('runtime_config.json'):";
    "    print(" ++ dq ++ "❌ Error: Agent not deployed yet" ++ dq ++ ")";
    "    print(" ++ dq ++ "Please run launch script first" ++ dq ++ ")";
    "    exit(1)";
    EmptyString;
    "# Load configuration files";
    "with open('runtime_execution_role_config.json') as f:";
    "    role_config = json.load(f)";
    "with open('cognito_config.json') as f:";
    "    cognito_config = json.load(f)";
    EmptyString;
    "# Load .bedrock_agentcore.yaml to get agent name and entrypoint";
    "if not os.path.exists('.bedrock_agentcore.yaml'):";
    "    print(" ++ dq ++ "❌ Error: .bedrock_agentcore.yaml not found" ++ dq ++ ")";
    "    print(" ++ dq ++ "Please run configure_runtime.py first" ++ dq ++ ")";
    "    exit(1)";
    EmptyString;
    "import yaml";
    "with open('.bedrock_agentcore.yaml') as f:";
    "    runtime_config = yaml.safe_load(f)";
    EmptyString;
    "default_agent = runtime_config.get('default_agent')";
    "agent_config = runtime_config.get('agents', {}).get(default_agent, {})";
    "agent_name = agent_config.get('name')";
    "entrypoint = agent_config.get('entrypoint')";
    EmptyString;
    "# Initialize Runtime";
    "runtime = Runtime()";
    EmptyString;
    "# Build authorizer configuration for Cognito JWT";
    "auth_config = {";
    "    " ++ dq ++ "customJWTAuthorizer" ++ dq ++ ": {";
    "        " ++ dq ++ "allowedClients" ++ dq ++ ": [cognito_config[" ++ dq ++ "client_id" ++ dq ++ "]],";
    "        " ++ dq ++ "discoveryUrl" ++ dq ++ ": cognito_config[" ++ dq ++ "discovery_url" ++ dq ++ "]";
    "    }";
    "}";
    EmptyString;
    "# Configure runtime (to load existing configuration)";
    "print(" ++ dq ++ "Loading runtime configuration..." ++ dq ++ ")";
    "runtime.configure(";
    "    entrypoint=entrypoint,";
    "    agent_name=agent_name,";
    "    execution_role=role_config[" ++ dq ++ "role_arn" ++ dq ++ "],";
    "    auto_create_ecr=True,";
    "    memory_mode=" ++ dq ++ "NO_MEMORY" ++ dq ++ ",";
    "    requirements_file=" ++ dq ++ "requirements.txt" ++ dq ++ ",";
    "    region=" ++ dq ++ region ++ dq ++ ",";
    "    authorizer_configuration=auth_config";
    ")";
    EmptyString;
    "# Check status";
    "print(" ++ dq ++ "Checking runtime deployment status..." ++ dq ++ ")";
    "status_response = runtime.status()";
    EmptyString;
    "status = status_response.endpoint[" ++ dq ++ "status" ++ dq ++ "]";
    EmptyString;
    "print(f" ++ dq ++ "\nAgent Status: {status}" ++ dq ++ ")";
    "print(f" ++ dq ++ "Endpoint Details: {json.dumps(status_response.endpoint, indent=2, default=str)}" ++ dq ++ ")";
    EmptyString;
    "if status == " ++ dq ++ "READY" ++ dq ++ ":";
    "    print(" ++ dq ++ "\n" ++ dq ++ " + " ++ dq ++ "=" ++ dq ++ " * 80)";
    "    print(" ++ dq ++ "✓ Agent is READY to receive requests!" ++ dq ++ ")";
    "    print(" ++ dq ++ "=" ++ dq ++ " * 80)";
    "    print(" ++ dq ++ "\nYou can now invoke your agent with:" ++ dq ++ ")";
    "    print(" ++ dq ++ "  python invoke_agent.py" ++ dq ++ ")";
    "elif status in [" ++ dq ++ "CREATING" ++ dq ++ ", " ++ dq ++ "UPDATING" ++ dq ++ "]:";
    "    print(" ++ dq ++ "\n" ++ dq ++ " + " ++ dq ++ "=" ++ dq ++ " * 80)";
    "    print(" ++ dq ++ "⏳ Agent deployment in progress..." ++ dq ++ ")";
    "    print(" ++ dq ++ "=" ++ dq ++ " * 80)";
    "    print(" ++ dq ++ "\nThe deployment is still running. This is normal." ++ dq ++ ")";
    "    print(" ++ dq ++ "Run this script again in 1-2 minutes to check status." ++ dq ++ ")";
    "elif status in [" ++ dq ++ "CREATE_FAILED" ++ dq ++ ", " ++ dq ++ "UPDATE_FAILED" ++ dq ++ "]:";
    "    print(" ++ dq ++ "\n" ++ dq ++ " + " ++ dq ++ "=" ++ dq ++ " * 80)";
    "    print(" ++ dq ++ "✗ Agent deployment failed!" ++ dq ++ ")";
    "    print(" ++ dq ++ "=" ++ dq ++ " * 80)";
    "    print(" ++ dq ++ "\nCheck CloudWatch logs for details:" ++ dq ++ ")";
    "    print(f" ++ dq ++ "  Log group: /aws/bedrock-agentcore/runtime/{agent_name}" ++ dq ++ ")";
    "else:";
    "    print(f" ++ dq ++ "\n⚠ Unknown status: {status}" ++ dq ++ ")"
  ].

(** Script text built by [handle_runtime_invoke] (the f-string assigned to [code]). *)
Definition runtime_invoke_code (region payload_json : string) : string :=
  unlines [
    "#!/usr/bin/env python3";
    dq3;
    "Script to invoke deployed AgentCore Runtime agent.";
    dq3;
    EmptyString;
    "import json";
    "import base64";
    "import os";
    "import requests";
    "from bedrock_agentcore_starter_toolkit import Runtime";
    EmptyString;
    "# Check if runtime config exists";
    "if not os.path.exists('runtime_config.json'):";
    "    print(" ++ dq ++ "❌ Error: Agent not deployed yet" ++ dq ++ ")";
    "    print(" ++ dq ++ "Please run launch script first" ++ dq ++ ")";
    "    exit(1)";
    EmptyString;
    "# Load configuration";
    "with open('cognito_config.json') as f:";
    "    cognito_config = json.load(f)";
    "with open('runtime_execution_role_config.json') as f:";
    "    role_config = json.load(f)";
    EmptyString;
    "# Load .bedrock_agentcore.yaml to get agent name and entrypoint";
    "if not os.path.exists('.bedrock_agentcore.yaml'):";
    "    print(" ++ dq ++ "❌ Error: .bedrock_agentcore.yaml not found" ++ dq ++ ")";
    "    print(" ++ dq ++ "Please run configure_runtime.py first" ++ dq ++ ")";
    "    exit(1)";
    EmptyString;
    "import yaml";
    "with open('.bedrock_agentcore.yaml') as f:";
    "    runtime_config = yaml.safe_load(f)";
    EmptyString;
    "default_agent = runtime_config.get('default_agent')";
    "agent_config = runtime_config.get('agents', {}).get(default_agent, {})";
    "agent_name = agent_config.get('name')";
    "entrypoint = agent_config.get('entrypoint')";
    EmptyString;
    "# Generate bearer token using Cognito client credentials flow";
    "print(" ++ dq ++ "Generating OAuth bearer token..." ++ dq ++ ")";
    EmptyString;
    "# Extract domain and region from cognito config";
    "domain = cognito_config[" ++ dq ++ "domain" ++ dq ++ "].split('.')[0]  # Get domain prefix";
    "region = cognito_config[" ++ dq ++ "region" ++ dq ++ "]";
    EmptyString;
    "# Construct token endpoint";
    "token_endpoint = f" ++ dq ++ "https://{domain}.auth.{region}.amazoncognito.com/oauth2/token" ++ dq;
    EmptyString;
    "# Prepare credentials for Basic Auth";
    "credentials = f" ++ dq ++ "{cognito_config['client_id']}:{cognito_config['client_secret']}" ++ dq;
    "encoded_credentials = base64.b64encode(credentials.encode()).decode()";
    EmptyString;
    "# Get OAuth scopes";
    "oauth_scopes = " ++ dq ++ " " ++ dq ++ ".join(cognito_config.get(" ++ dq ++ "scopes" ++ dq ++ ", [" ++ dq ++ "agentcore-gateway/read" ++ dq ++ ", " ++ dq ++ "agentcore-gateway/write" ++ dq ++ "]))";
    EmptyString;
    "# Request token";
    "response = requests.post(";
    "    token_endpoint,";
    "    headers={";
    "        " ++ dq ++ "Authorization" ++ dq ++ ": f" ++ dq ++ "Basic {encoded_credentials}" ++ dq ++ ",";
    "        " ++ dq ++ "Content-Type" ++ dq ++ ": " ++ dq ++ "application/x-www-form-urlencoded" ++ dq;
    "    },";
    "    data={";
    "        " ++ dq ++ "grant_type" ++ dq ++ ": " ++ dq ++ "client_credentials" ++ dq ++ ",";
    "        " ++ dq ++ "scope" ++ dq ++ ": oauth_scopes";
    "    }";
    ")";
    EmptyString;
    "if response.status_code != 200:";
    "    print(f" ++ dq ++ "❌ Failed to get OAuth token: {response.text}" ++ dq ++ ")";
    "    exit(1)";
    EmptyString;
    "bearer_token = response.json()[" ++ dq ++ "access_token" ++ dq ++ "]";
    "print(" ++ dq ++ "✓ OAuth token obtained" ++ dq ++ ")";
    EmptyString;
    "# Initialize Runtime";
    "runtime = Runtime()";
    EmptyString;
    "# Build authorizer configuration for Cognito JWT";
    "auth_config = {";
    "    " ++ dq ++ "customJWTAuthorizer" ++ dq ++ ": {";
    "        " ++ dq ++ "allowedClients" ++ dq ++ ": [cognito_config[" ++ dq ++ "client_id" ++ dq ++ "]],";
    "        " ++ dq ++ "discoveryUrl" ++ dq ++ ": cognito_config[" ++ dq ++ "discovery_url" ++ dq ++ "]";
    "    }";
    "}";
    EmptyString;
    "# Configure runtime (to load existing configuration)";
    "print(" ++ dq ++ "\nConfiguring runtime..." ++ dq ++ ")";
    "runtime.configure(";
    "    entrypoint=entrypoint,";
    "    agent_name=agent_name,";
    "    execution_role=role_config[" ++ dq ++ "role_arn" ++ dq ++ "],";
    "    auto_create_ecr=True,";
    "    memory_mode=" ++ dq ++ "NO_MEMORY" ++ dq ++ ",";
    "    requirements_file=" ++ dq ++ "requirements.txt" ++ dq ++ ",";
    "    region=" ++ dq ++ region ++ dq ++ ",";
    "    authorizer_configuration=auth_config";
    ")";
    EmptyString;
    "# Invoke agent";
    "print(" ++ dq ++ "\nInvoking agent..." ++ dq ++ ")";
    "payload = " ++ payload_json;
    EmptyString;
    "try:";
    "    response = runtime.invoke(";
    "        payload,";
    "        bearer_token=bearer_token";
    "    )";
    "    ";
    "    print(f" ++ dq ++ "\n" ++ dq ++ " + " ++ dq ++ "=" ++ dq ++ " * 80)";
    "    print(" ++ dq ++ "✓ AGENT RESPONSE" ++ dq ++ ")";
    "    print(" ++ dq ++ "=" ++ dq ++ " * 80)";
    "    print(response)";
    "    print(" ++ dq ++ "=" ++ dq ++ " * 80)";
    "except Exception as e:";
    "    print(f" ++ dq ++ "\n" ++ dq ++ " + " ++ dq ++ "=" ++ dq ++ " * 80)";
    "    print(f" ++ dq ++ "❌ Error invoking agent" ++ dq ++ ")";
    "    print(" ++ dq ++ "=" ++ dq ++ " * 80)";
    "    print(f" ++ dq ++ "Error: {e}" ++ dq ++ ")";
    "    print(" ++ dq ++ "\nTroubleshooting:" ++ dq ++ ")";
    "    print(" ++ dq ++ "  1. Check agent status: python check_runtime_status.py" ++ dq ++ ")";
    "    print(" ++ dq ++ "  2. Verify agent is in READY state" ++ dq ++ ")";
    "    print(" ++ dq ++ "  3. Check CloudWatch logs for errors" ++ dq ++ ")";
    "    print(" ++ dq ++ "=" ++ dq ++ " * 80)";
    "    exit(1)"
  ].

(** Script text built by [handle_runtime_delete] (the f-string assigned to [code]). *)
Definition runtime_delete_code (region : string) : string :=
  unlines [
    "#!/usr/bin/env python3";
    dq3;
    "Script to delete AgentCore Runtime agent deployment.";
    EmptyString;
    "WARNING: This permanently deletes the agent runtime.";
    "RERUNNABLE: Safe to run multiple times - handles missing resources gracefully.";
    dq3;
    EmptyString;
    "import json";
    "import os";
    "import boto3";
    EmptyString;
    "print(" ++ dq ++ "Deleting AgentCore Runtime..." ++ dq ++ ")";
    EmptyString;
    "# Check if runtime config exists";
    "if not os.path.exists('runtime_config.json'):";
    "    print(" ++ dq ++ "⚠️  Runtime config not found - nothing to delete" ++ dq ++ ")";
    "    print(" ++ dq ++ "✓ Script completed successfully (no resources to delete)" ++ dq ++ ")";
    "    exit(0)";
    EmptyString;
    "# Load runtime configuration";
    "try:";
    "    with open('runtime_config.json') as f:";
    "        runtime_config = json.load(f)";
    "except Exception as e:";
    "    print(f" ++ dq ++ "⚠️  Failed to load runtime config: {e}" ++ dq ++ ")";
    "    print(" ++ dq ++ "✓ Script completed successfully (no resources to delete)" ++ dq ++ ")";
    "    exit(0)";
    EmptyString;
    "agent_arn = runtime_config.get('agent_arn')";
    EmptyString;
    "if not agent_arn:";
    "    print(" ++ dq ++ "⚠️  No agent ARN found in config" ++ dq ++ ")";
    "    print(" ++ dq ++ "✓ Script completed successfully (no resources to delete)" ++ dq ++ ")";
    "    exit(0)";
    EmptyString;
    "# Extract agent ID from ARN";
    "agent_id = agent_arn.split('/')[-1]";
    EmptyString;
    "print(f" ++ dq ++ "  Agent ID: {agent_id}" ++ dq ++ ")";
    EmptyString;
    "# Delete the agent using boto3 (like reference notebook)";
    "try:";
    "    agentcore_client = boto3.client('bedrock-agentcore-control', region_name='" ++ region ++ "')";
    "    agentcore_client.delete_agent_runtime(agentRuntimeId=agent_id)";
    "    print(" ++ dq ++ "✓ Agent runtime deleted successfully!" ++ dq ++ ")";
    "except Exception as e:";
    "    error_msg = str(e).lower()";
    "    if " ++ dq ++ "resourcenotfound" ++ dq ++ " in error_msg or " ++ dq ++ "not found" ++ dq ++ " in error_msg:";
    "        print(" ++ dq ++ "⚠️  Agent already deleted or not found" ++ dq ++ ")";
    "        print(" ++ dq ++ "✓ Script completed successfully (resource already removed)" ++ dq ++ ")";
    "    else:";
    "        print(f" ++ dq ++ "✗ Error deleting agent: {e}" ++ dq ++ ")";
    "        exit(1)";
    EmptyString;
    "print(" ++ dq ++ "\n✓ Runtime deletion completed successfully" ++ dq ++ ")";
    "print(" ++ dq ++ "✓ This script is RERUNNABLE - you can safely run it multiple times." ++ dq ++ ")"
  ].

Definition handle_runtime_configure (args : dict) : result pyval :=
  let region := dict_get args "region" (PStr "us-west-2") in
  entrypoint <- dict_getitem args "entrypoint" ;;
  agent_name <- dict_getitem args "agent_name" ;;
  execution_role <- dict_getitem args "execution_role" ;;
  cognito_client_id <- dict_getitem args "cognito_client_id" ;;
  cognito_discovery_url <- dict_getitem args "cognito_discovery_url" ;;
  let auto_create_ecr := dict_get args "auto_create_ecr" (PBool true) in
  let memory_mode := dict_get args "memory_mode" (PStr "NO_MEMORY") in
  let requirements_file :=
    dict_get args "requirements_file" (PStr "requirements.txt") in
  let code :=
    runtime_configure_code (str entrypoint) (str agent_name)
                           (str auto_create_ecr) (str memory_mode)
                           (str requirements_file) (str region) in
  Ok (PDict [
    ("code", PStr code);
    ("filename", PStr "configure_runtime.py");
    ("instructions",
     PStr "Run this script to configure AgentCore Runtime deployment settings")
  ]).

Definition handle_runtime_launch (args : dict) : result pyval :=
  let region := dict_get args "region" (PStr "us-west-2") in
  env_vars <- dict_getitem args "env_vars" ;;
  let auto_update_on_conflict :=
    dict_get args "auto_update_on_conflict" (PBool true) in
  (* Build env_vars dict from args *)
  let env_vars_dict := env_vars in
  let code :=
    runtime_launch_code (str region) (json_dumps None env_vars_dict)
                        (str auto_update_on_conflict) in
  Ok (PDict [
    ("code", PStr code);
    ("filename", PStr "launch_to_runtime.py");
    ("instructions",
     PStr "Run this script to deploy the agent to AgentCore Runtime")
  ]).

Definition handle_runtime_status (args : dict) : result pyval :=
  let region := dict_get args "region" (PStr "us-west-2") in
  let code := runtime_status_code (str region) in
  Ok (PDict [
    ("code", PStr code);
    ("filename", PStr "check_runtime_status.py");
    ("instructions", PStr "Run this script to check the deployment status")
  ]).

Definition handle_runtime_invoke (args : dict) : result pyval :=
  let region := dict_get args "region" (PStr "us-west-2") in
  let payload :=
    dict_get args "payload"
      (PDict [("actor_id", PStr "user_001");
              ("prompt", PStr "What do you know about me?")]) in
  let code := runtime_invoke_code (str region) (json_dumps (Some 4%nat) payload) in
  Ok (PDict [
    ("code", PStr code);
    ("filename", PStr "invoke_agent.py");
    ("instructions", PStr "Run this script to invoke the deployed agent")
  ]).

Definition handle_runtime_delete (args : dict) : result pyval :=
  let region := dict_get args "region" (PStr "us-west-2") in
  let code := runtime_delete_code (str region) in
  Ok (PDict [
    ("code", PStr code);
    ("filename", PStr "delete_runtime.py");
    ("instructions",
     PStr "Run this script to delete the AgentCore Runtime deployment")
  ]).

End Handlers.
End runtime_handlers.

(** ** handlers/identity_handlers.py *)

Module identity_handlers.
Section Handlers.
Context `{PyRuntime}.

(** Script text built by [handle_create_runtime_execution_role_script] (the f-string assigned to [code]). *)
Definition create_runtime_execution_role_script_code (region : string) : string :=
  unlines [
    "#!/usr/bin/env python3";
    dq3;
    "Script to create IAM execution role for AgentCore Runtime.";
    EmptyString;
    "This script creates an IAM role with minimal required permissions for running";
    "agents in AgentCore Runtime.";
    dq3;
    EmptyString;
    "import json";
    "import boto3";
    "import time";
    EmptyString;
    "# Configuration";
    "REGION = " ++ dq ++ region ++ dq;
    "ROLE_NAME = f" ++ dq ++ "AgentCoreRuntimeExecutionRole-{int(time.time())}" ++ dq;
    "POLICY_NAME = f" ++ dq ++ "AgentCoreRuntimePolicy-{int(time.time())}" ++ dq;
    EmptyString;
    "# Create IAM client";
    "iam_client = boto3.client('iam', region_name=REGION)";
    EmptyString;
    "print(" ++ dq ++ "Creating IAM Execution Role for AgentCore Runtime" ++ dq ++ ")";
    "print(" ++ dq ++ "=" ++ dq ++ " * 80)";
    EmptyString;
    "# Get AWS account ID";
    "sts_client = boto3.client('sts', region_name=REGION)";
    "account_id = sts_client.get_caller_identity()['Account']";
    "print(f" ++ dq ++ "\nAWS Account: {account_id}" ++ dq ++ ")";
    "print(f" ++ dq ++ "Region: {REGION}" ++ dq ++ ")";
    EmptyString;
    "# Step 1: Define trust policy for bedrock-agentcore.amazonaws.com";
    "print(" ++ dq ++ "\n1. Creating IAM role with trust policy..." ++ dq ++ ")";
    "trust_policy = {";
    "    " ++ dq ++ "Version" ++ dq ++ ": " ++ dq ++ "2012-10-17" ++ dq ++ ",";
    "    " ++ dq ++ "Statement" ++ dq ++ ": [";
    "        {";
    "            " ++ dq ++ "Effect" ++ dq ++ ": " ++ dq ++ "Allow" ++ dq ++ ",";
    "            " ++ dq ++ "Principal" ++ dq ++ ": {";
    "                " ++ dq ++ "Service" ++ dq ++ ": " ++ dq ++ "bedrock-agentcore.amazonaws.com" ++ dq;
    "            },";
    "            " ++ dq ++ "Action" ++ dq ++ ": " ++ dq ++ "sts:AssumeRole" ++ dq;
    "        }";
    "    ]";
    "}";
    EmptyString;
    "try:";
    "    role_response = iam_client.create_role(";
    "        RoleName=ROLE_NAME,";
    "        AssumeRolePolicyDocument=json.dumps(trust_policy),";
    "        Description=" ++ dq ++ "Execution role for AgentCore Runtime with minimal required permissions" ++ dq;
    "    )";
    "    role_arn = role_response['Role']['Arn']";
    "    print(f" ++ dq ++ "   ✓ Role created: {ROLE_NAME}" ++ dq ++ ")";
    "    print(f" ++ dq ++ "   ✓ Role ARN: {role_arn}" ++ dq ++ ")";
    "except Exception as e:";
    "    print(f" ++ dq ++ "   ✗ Error creating role: {e}" ++ dq ++ ")";
    "    exit(1)";
    EmptyString;
    "# Step 2: Create comprehensive permissions policy with minimal required permissions";
    "print(" ++ dq ++ "\n2. Creating permissions policy..." ++ dq ++ ")";
    "permissions_policy = {";
    "    " ++ dq ++ "Version" ++ dq ++ ": " ++ dq ++ "2012-10-17" ++ dq ++ ",";
    "    " ++ dq ++ "Statement" ++ dq ++ ": [";
    "        {";
    "            " ++ dq ++ "Sid" ++ dq ++ ": " ++ dq ++ "ECRAccess" ++ dq ++ ",";
    "            " ++ dq ++ "Effect" ++ dq ++ ": " ++ dq ++ "Allow" ++ dq ++ ",";
    "            " ++ dq ++ "Action" ++ dq ++ ": [";
    "                " ++ dq ++ "ecr:GetAuthorizationToken" ++ dq ++ ",";
    "                " ++ dq ++ "ecr:BatchCheckLayerAvailability" ++ dq ++ ",";
    "                " ++ dq ++ "ecr:GetDownloadUrlForLayer" ++ dq ++ ",";
    "                " ++ dq ++ "ecr:BatchGetImage" ++ dq;
    "            ],";
    "            " ++ dq ++ "Resource" ++ dq ++ ": " ++ dq ++ "*" ++ dq;
    "        },";
    "        {";
    "            " ++ dq ++ "Sid" ++ dq ++ ": " ++ dq ++ "CloudWatchLogsAccess" ++ dq ++ ",";
    "            " ++ dq ++ "Effect" ++ dq ++ ": " ++ dq ++ "Allow" ++ dq ++ ",";
    "            " ++ dq ++ "Action" ++ dq ++ ": [";
    "                " ++ dq ++ "logs:CreateLogGroup" ++ dq ++ ",";
    "                " ++ dq ++ "logs:CreateLogStream" ++ dq ++ ",";
    "                " ++ dq ++ "logs:PutLogEvents" ++ dq ++ ",";
    "                " ++ dq ++ "logs:DescribeLogStreams" ++ dq ++ ",";
    "                " ++ dq ++ "logs:DescribeLogGroups" ++ dq;
    "            ],";
    "            " ++ dq ++ "Resource" ++ dq ++ ": [";
    "                f" ++ dq ++ "arn:aws:logs:{REGION}:{account_id}:log-group:/aws/bedrock-agentcore/*" ++ dq ++ ",";
    "                f" ++ dq ++ "arn:aws:logs:{REGION}:{account_id}:log-group:*" ++ dq;
    "            ]";
    "        },";
    "        {";
    "            " ++ dq ++ "Sid" ++ dq ++ ": " ++ dq ++ "XRayAccess" ++ dq ++ ",";
    "            " ++ dq ++ "Effect" ++ dq ++ ": " ++ dq ++ "Allow" ++ dq ++ ",";
    "            " ++ dq ++ "Action" ++ dq ++ ": [";
    "                " ++ dq ++ "xray:PutTraceSegments" ++ dq ++ ",";
    "                " ++ dq ++ "xray:PutTelemetryRecords" ++ dq ++ ",";
    "                " ++ dq ++ "xray:GetSamplingRules" ++ dq ++ ",";
    "                " ++ dq ++ "xray:GetSamplingTargets" ++ dq;
    "            ],";
    "            " ++ dq ++ "Resource" ++ dq ++ ": " ++ dq ++ "*" ++ dq;
    "        },";
    "        {";
    "            " ++ dq ++ "Sid" ++ dq ++ ": " ++ dq ++ "CloudWatchMetrics" ++ dq ++ ",";
    "            " ++ dq ++ "Effect" ++ dq ++ ": " ++ dq ++ "Allow" ++ dq ++ ",";
    "            " ++ dq ++ "Action" ++ dq ++ ": " ++ dq ++ "cloudwatch:PutMetricData" ++ dq ++ ",";
    "            " ++ dq ++ "Resource" ++ dq ++ ": " ++ dq ++ "*" ++ dq ++ ",";
    "            " ++ dq ++ "Condition" ++ dq ++ ": {";
    "                " ++ dq ++ "StringEquals" ++ dq ++ ": {";
    "                    " ++ dq ++ "cloudwatch:namespace" ++ dq ++ ": " ++ dq ++ "bedrock-agentcore" ++ dq;
    "                }";
    "            }";
    "        },";
    "        {";
    "            " ++ dq ++ "Sid" ++ dq ++ ": " ++ dq ++ "BedrockModelAccess" ++ dq ++ ",";
    "            " ++ dq ++ "Effect" ++ dq ++ ": " ++ dq ++ "Allow" ++ dq ++ ",";
    "            " ++ dq ++ "Action" ++ dq ++ ": [";
    "                " ++ dq ++ "bedrock:InvokeModel" ++ dq ++ ",";
    "                " ++ dq ++ "bedrock:InvokeModelWithResponseStream" ++ dq ++ ",";
    "                " ++ dq ++ "bedrock:ApplyGuardrail" ++ dq ++ ",";
    "                " ++ dq ++ "bedrock:Retrieve" ++ dq;
    "            ],";
    "            " ++ dq ++ "Resource" ++ dq ++ ": [";
    "                " ++ dq ++ "arn:aws:bedrock:*::foundation-model/*" ++ dq ++ ",";
    "                f" ++ dq ++ "arn:aws:bedrock:{REGION}:{account_id}:*" ++ dq;
    "            ]";
    "        },";
    "        {";
    "            " ++ dq ++ "Sid" ++ dq ++ ": " ++ dq ++ "AgentCoreMemoryAccess" ++ dq ++ ",";
    "            " ++ dq ++ "Effect" ++ dq ++ ": " ++ dq ++ "Allow" ++ dq ++ ",";
    "            " ++ dq ++ "Action" ++ dq ++ ": [";
    "                " ++ dq ++ "bedrock-agentcore:CreateEvent" ++ dq ++ ",";
    "                " ++ dq ++ "bedrock-agentcore:ListEvents" ++ dq ++ ",";
    "                " ++ dq ++ "bedrock-agentcore:GetMemoryRecord" ++ dq ++ ",";
    "                " ++ dq ++ "bedrock-agentcore:GetMemory" ++ dq ++ ",";
    "                " ++ dq ++ "bedrock-agentcore:RetrieveMemoryRecords" ++ dq ++ ",";
    "                " ++ dq ++ "bedrock-agentcore:ListMemoryRecords" ++ dq;
    "            ],";
    "            " ++ dq ++ "Resource" ++ dq ++ ": f" ++ dq ++ "arn:aws:bedrock-agentcore:{REGION}:{account_id}:*" ++ dq;
    "        },";
    "        {";
    "            " ++ dq ++ "Sid" ++ dq ++ ": " ++ dq ++ "WorkloadIdentityAccess" ++ dq ++ ",";
    "            " ++ dq ++ "Effect" ++ dq ++ ": " ++ dq ++ "Allow" ++ dq ++ ",";
    "            " ++ dq ++ "Action" ++ dq ++ ": [";
    "                " ++ dq ++ "bedrock-agentcore:GetWorkloadAccessToken" ++ dq ++ ",";
    "                " ++ dq ++ "bedrock-agentcore:GetWorkloadAccessTokenForJWT" ++ dq ++ ",";
    "                " ++ dq ++ "bedrock-agentcore:GetWorkloadAccessTokenForUserId" ++ dq;
    "            ],";
    "            " ++ dq ++ "Resource" ++ dq ++ ": [";
    "                f" ++ dq ++ "arn:aws:bedrock-agentcore:{REGION}:{account_id}:workload-identity-directory/default" ++ dq ++ ",";
    "                f" ++ dq ++ "arn:aws:bedrock-agentcore:{REGION}:{account_id}:workload-identity-directory/default/workload-identity/*" ++ dq;
    "            ]";
    "        },";
    "        {";
    "            " ++ dq ++ "Sid" ++ dq ++ ": " ++ dq ++ "STSAccess" ++ dq ++ ",";
    "            " ++ dq ++ "Effect" ++ dq ++ ": " ++ dq ++ "Allow" ++ dq ++ ",";
    "            " ++ dq ++ "Action" ++ dq ++ ": [";
    "                " ++ dq ++ "sts:AssumeRole" ++ dq ++ ",";
    "                " ++ dq ++ "sts:GetCallerIdentity" ++ dq;
    "            ],";
    "            " ++ dq ++ "Resource" ++ dq ++ ": " ++ dq ++ "*" ++ dq;
    "        },";
    "        {";
    "            " ++ dq ++ "Sid" ++ dq ++ ": " ++ dq ++ "SSMParameterAccess" ++ dq ++ ",";
    "            " ++ dq ++ "Effect" ++ dq ++ ": " ++ dq ++ "Allow" ++ dq ++ ",";
    "            " ++ dq ++ "Action" ++ dq ++ ": " ++ dq ++ "ssm:GetParameter" ++ dq ++ ",";
    "            " ++ dq ++ "Resource" ++ dq ++ ": f" ++ dq ++ "arn:aws:ssm:{REGION}:{account_id}:parameter/app/*" ++ dq;
    "        },";
    "        {";
    "            " ++ dq ++ "Sid" ++ dq ++ ": " ++ dq ++ "MarketplaceAccess" ++ dq ++ ",";
    "            " ++ dq ++ "Effect" ++ dq ++ ": " ++ dq ++ "Allow" ++ dq ++ ",";
    "            " ++ dq ++ "Action" ++ dq ++ ": [";
    "                " ++ dq ++ "aws-marketplace:ViewSubscriptions" ++ dq ++ ",";
    "                " ++ dq ++ "aws-marketplace:Subscribe" ++ dq;
    "            ],";
    "            " ++ dq ++ "Resource" ++ dq ++ ": " ++ dq ++ "*" ++ dq;
    "        }";
    "    ]";
    "}";
    EmptyString;
    "try:";
    "    policy_response = iam_client.create_policy(";
    "        PolicyName=POLICY_NAME,";
    "        PolicyDocument=json.dumps(permissions_policy),";
    "        Description=" ++ dq ++ "Minimal required permissions for AgentCore Runtime" ++ dq;
    "    )";
    "    policy_arn = policy_response['Policy']['Arn']";
    "    print(f" ++ dq ++ "   ✓ Policy created: {POLICY_NAME}" ++ dq ++ ")";
    "    print(f" ++ dq ++ "   ✓ Policy ARN: {policy_arn}" ++ dq ++ ")";
    "except Exception as e:";
    "    print(f" ++ dq ++ "   ✗ Error creating policy: {e}" ++ dq ++ ")";
    "    print(f" ++ dq ++ "   Cleaning up role: {ROLE_NAME}" ++ dq ++ ")";
    "    try:";
    "        iam_client.delete_role(RoleName=ROLE_NAME)";
    "    except:";
    "        pass";
    "    exit(1)";
    EmptyString;
    "# Step 3: Attach policy to role";
    "print(" ++ dq ++ "\n3. Attaching policy to role..." ++ dq ++ ")";
    "try:";
    "    iam_client.attach_role_policy(";
    "        RoleName=ROLE_NAME,";
    "        PolicyArn=policy_arn";
    "    )";
    "    print(f" ++ dq ++ "   ✓ Policy attached to role" ++ dq ++ ")";
    "except Exception as e:";
    "    print(f" ++ dq ++ "   ✗ Error attaching policy: {e}" ++ dq ++ ")";
    "    print(f" ++ dq ++ "   Cleaning up resources..." ++ dq ++ ")";
    "    try:";
    "        iam_client.delete_policy(PolicyArn=policy_arn)";
    "        iam_client.delete_role(RoleName=ROLE_NAME)";
    "    except:";
    "        pass";
    "    exit(1)";
    EmptyString;
    "# Step 4: Wait for role to propagate using waiter";
    "print(" ++ dq ++ "\n4. Waiting for role to propagate..." ++ dq ++ ")";
    "try:";
    "    waiter = iam_client.get_waiter('role_exists')";
    "    waiter.wait(RoleName=ROLE_NAME)";
    "    print(" ++ dq ++ "   ✓ Role propagation confirmed" ++ dq ++ ")";
    "except Exception as e:";
    "    print(f" ++ dq ++ "   ⚠️  Waiter not available, using 10-second sleep: {e}" ++ dq ++ ")";
    "    time.sleep(10)";
    "    print(" ++ dq ++ "   ✓ Role propagation wait complete" ++ dq ++ ")";
    EmptyString;
    "# Save configuration";
    "config = {";
    "    " ++ dq ++ "role_name" ++ dq ++ ": ROLE_NAME,";
    "    " ++ dq ++ "role_arn" ++ dq ++ ": role_arn,";
    "    " ++ dq ++ "policy_name" ++ dq ++ ": POLICY_NAME,";
    "    " ++ dq ++ "policy_arn" ++ dq ++ ": policy_arn,";
    "    " ++ dq ++ "region" ++ dq ++ ": REGION";
    "}";
    EmptyString;
    "with open('runtime_execution_role_config.json', 'w') as f:";
    "    json.dump(config, f, indent=2)";
    EmptyString;
    "print(" ++ dq ++ "\n" ++ dq ++ " + " ++ dq ++ "=" ++ dq ++ " * 80)";
    "print(" ++ dq ++ "✓ Runtime execution role setup complete!" ++ dq ++ ")";
    "print(f" ++ dq ++ "\nConfiguration saved to runtime_execution_role_config.json:" ++ dq ++ ")";
    "print(f" ++ dq ++ "  Role Name: {ROLE_NAME}" ++ dq ++ ")";
    "print(f" ++ dq ++ "  Role ARN: {role_arn}" ++ dq ++ ")";
    "print(f" ++ dq ++ "  Policy ARN: {policy_arn}" ++ dq ++ ")";
    "print(" ++ dq ++ "\nPermissions granted:" ++ dq ++ ")";
    "print(" ++ dq ++ "  ✓ ECR - Pull container images" ++ dq ++ ")";
    "print(" ++ dq ++ "  ✓ CloudWatch Logs - Write and read logs" ++ dq ++ ")";
    "print(" ++ dq ++ "  ✓ X-Ray - Distributed tracing" ++ dq ++ ")";
    "print(" ++ dq ++ "  ✓ CloudWatch Metrics - Performance monitoring" ++ dq ++ ")";
    "print(" ++ dq ++ "  ✓ Bedrock - Invoke models and guardrails" ++ dq ++ ")";
    "print(" ++ dq ++ "  ✓ AgentCore Memory - Store/retrieve conversation history" ++ dq ++ ")";
    "print(" ++ dq ++ "  ✓ Workload Identity - Secure credential management" ++ dq ++ ")";
    "print(" ++ dq ++ "  ✓ STS - Role assumption and identity" ++ dq ++ ")";
    "print(" ++ dq ++ "  ✓ SSM Parameter Store - Configuration access" ++ dq ++ ")";
    "print(" ++ dq ++ "  ✓ AWS Marketplace - Model subscriptions" ++ dq ++ ")";
    "print(" ++ dq ++ "\nThis role will be used for runtime deployment." ++ dq ++ ")"
  ].

Definition handle_create_runtime_execution_role_script (args : dict)
  : result pyval :=
  let region := dict_get args "region" (PStr "us-west-2") in
  let code := create_runtime_execution_role_script_code (str region) in
  Ok (PDict [
    ("code", PStr code);
    ("filename", PStr "create_runtime_execution_role.py");
    ("instructions",
     PStr "Run this script to create the IAM execution role with minimal required permissions")
  ]).

End Handlers.
End identity_handlers.

(** ** handlers/observability_handlers.py *)

Module observability_handlers.
Section Handlers.
Context `{PyRuntime}.

(** Script text built by [handle_observability_get_dashboard_url] (the f-string assigned to [code]). *)
Definition observability_get_dashboard_url_code (region : string) : string :=
  unlines [
    "#!/usr/bin/env python3";
    dq3;
    "Script to get CloudWatch GenAI Observability dashboard URL.";
    dq3;
    EmptyString;
    "# Build dashboard URL";
    "region = " ++ dq ++ region ++ dq;
    "dashboard_url = f" ++ dq ++ "https://console.aws.amazon.com/cloudwatch/home?region={region}#gen-ai-observability/agent-core" ++ dq;
    EmptyString;
    "print(" ++ dq ++ "CloudWatch GenAI Observability Dashboard" ++ dq ++ ")";
    "print(" ++ dq ++ "=" ++ dq ++ " * 80)";
    "print(f" ++ dq ++ "\nDashboard URL: {dashboard_url}" ++ dq ++ ")";
    "print(f" ++ dq ++ "Region: {region}" ++ dq ++ ")";
    "print(" ++ dq ++ "\nFeatures:" ++ dq ++ ")";
    "print(" ++ dq ++ "  - Agent performance metrics" ++ dq ++ ")";
    "print(" ++ dq ++ "  - Request traces and spans" ++ dq ++ ")";
    "print(" ++ dq ++ "  - Session history" ++ dq ++ ")";
    "print(" ++ dq ++ "  - Error rates and patterns" ++ dq ++ ")";
    "print(" ++ dq ++ "  - Tool invocation details" ++ dq ++ ")";
    "print(" ++ dq ++ "\nOpen this URL in your browser to view the dashboard" ++ dq ++ ")"
  ].

(** Script text built by [handle_observability_get_logs_info] (the f-string assigned to [code]). *)
Definition observability_get_logs_info_code (region : string) : string :=
  unlines [
    "#!/usr/bin/env python3";
    dq3;
    "Script to get CloudWatch log group information for agent logs.";
    dq3;
    EmptyString;
    "import json";
    "from datetime import datetime";
    EmptyString;
    "# Load configuration";
    "with open('runtime_config.json') as f:";
    "    runtime_config = json.load(f)";
    EmptyString;
    "agent_arn = runtime_config[" ++ dq ++ "agent_arn" ++ dq ++ "]";
    EmptyString;
    "# Extract agent ID from ARN";
    "agent_id = agent_arn.split('/')[-1]";
    EmptyString;
    "# Build log group name";
    "log_group = f" ++ dq ++ "/aws/bedrock-agentcore/runtimes/{agent_id}-DEFAULT" ++ dq;
    EmptyString;
    "# Get current date for log stream prefix";
    "current_date = datetime.now().strftime(" ++ dq ++ "%Y/%m/%d" ++ dq ++ ")";
    EmptyString;
    "# Build CLI commands";
    "tail_command = f'aws logs tail {log_group} --log-stream-name-prefix " ++ dq ++ "{current_date}/[runtime-logs]" ++ dq ++ " --follow'";
    "recent_command = f'aws logs tail {log_group} --log-stream-name-prefix " ++ dq ++ "{current_date}/[runtime-logs]" ++ dq ++ " --since 1h'";
    EmptyString;
    "print(" ++ dq ++ "CloudWatch Logs Information" ++ dq ++ ")";
    "print(" ++ dq ++ "=" ++ dq ++ " * 80)";
    "print(f" ++ dq ++ "\nAgent ARN: {agent_arn}" ++ dq ++ ")";
    "print(f" ++ dq ++ "Agent ID: {agent_id}" ++ dq ++ ")";
    "print(f" ++ dq ++ "Log Group: {log_group}" ++ dq ++ ")";
    "print(f" ++ dq ++ "Region: " ++ region ++ dq ++ ")";
    "print(" ++ dq ++ "\nCLI Commands:" ++ dq ++ ")";
    "print(f" ++ dq ++ "\nTail logs (real-time):" ++ dq ++ ")";
    "print(f" ++ dq ++ "  {tail_command}" ++ dq ++ ")";
    "print(f" ++ dq ++ "\nView recent logs (last hour):" ++ dq ++ ")";
    "print(f" ++ dq ++ "  {recent_command}" ++ dq ++ ")"
  ].

(** Script text built by [handle_observability_get_recent_logs] (the f-string assigned to [code]). *)
Definition observability_get_recent_logs_code (region hours_back limit : string) : string :=
  unlines [
    "#!/usr/bin/env python3";
    dq3;
    "Script to retrieve recent logs from CloudWatch.";
    dq3;
    EmptyString;
    "import json";
    "import boto3";
    "from datetime import datetime, timedelta";
    EmptyString;
    "# Load configuration";
    "with open('runtime_config.json') as f:";
    "    runtime_config = json.load(f)";
    EmptyString;
    "agent_arn = runtime_config[" ++ dq ++ "agent_arn" ++ dq ++ "]";
    EmptyString;
    "# Extract agent ID from ARN";
    "agent_id = agent_arn.split('/')[-1]";
    "log_group = f" ++ dq ++ "/aws/bedrock-agentcore/runtimes/{agent_id}-DEFAULT" ++ dq;
    EmptyString;
    "# Initialize CloudWatch Logs client";
    "logs_client = boto3.client('logs', region_name='" ++ region ++ "')";
    EmptyString;
    "# Calculate start time";
    "start_time = int((datetime.now() - timedelta(hours=" ++ hours_back ++ ")).timestamp() * 1000)";
    EmptyString;
    "try:";
    "    # Fetch log events";
    "    print(f" ++ dq ++ "Retrieving logs from {log_group}..." ++ dq ++ ")";
    "    response = logs_client.filter_log_events(";
    "        logGroupName=log_group,";
    "        limit=" ++ limit ++ ",";
    "        startTime=start_time";
    "    )";
    "    ";
    "    events = response.get('events', [])";
    "    ";
    "    print(f" ++ dq ++ "\n✓ Retrieved {len(events)} log events from the last " ++ hours_back ++ " hour(s)\n" ++ dq ++ ")";
    "    print(" ++ dq ++ "=" ++ dq ++ " * 80)";
    "    ";
    "    for event in events:";
    "        timestamp = datetime.fromtimestamp(event['timestamp'] / 1000).isoformat()";
    "        message = event['message']";
    "        print(f" ++ dq ++ "[{timestamp}] {message}" ++ dq ++ ")";
    "        print(" ++ dq ++ "-" ++ dq ++ " * 80)";
    "        ";
    "except logs_client.exceptions.ResourceNotFoundException:";
    "    print(f" ++ dq ++ "✗ Log group not found: {log_group}" ++ dq ++ ")";
    "    print(" ++ dq ++ "  Agent may not have been invoked yet, or logs may not be available." ++ dq ++ ")";
    "except Exception as e:";
    "    print(f" ++ dq ++ "✗ Error retrieving logs: {str(e)}" ++ dq ++ ")"
  ].

Definition handle_observability_get_dashboard_url (args : dict)
  : result pyval :=
  let region := dict_get args "region" (PStr "us-west-2") in
  let code := observability_get_dashboard_url_code (str region) in
  Ok (PDict [
    ("code", PStr code);
    ("filename", PStr "get_dashboard_url.py");
    ("instructions",
     PStr "Run this script to get the observability dashboard URL")
  ]).

Definition handle_observability_get_logs_info (args : dict) : result pyval :=
  let region := dict_get args "region" (PStr "us-west-2") in
  agent_arn <- dict_getitem args "agent_arn" ;;
  let code := observability_get_logs_info_code (str region) in
  Ok (PDict [
    ("code", PStr code);
    ("filename", PStr "get_logs_info.py");
    ("instructions",
     PStr "Run this script to get log group information and CLI commands")
  ]).

Definition handle_observability_get_recent_logs (args : dict)
  : result pyval :=
  let region := dict_get args "region" (PStr "us-west-2") in
  agent_arn <- dict_getitem args "agent_arn" ;;
  let limit := dict_get args "limit" (PInt 50) in
  let hours_back := dict_get args "hours_back" (PInt 1) in
  let code :=
    observability_get_recent_logs_code (str region) (str hours_back)
                                       (str limit) in
  Ok (PDict [
    ("code", PStr code);
    ("filename", PStr "get_recent_logs.py");
    ("instructions", PStr "Run this script to retrieve recent agent logs")
  ]).

End Handlers.
End observability_handlers.

(** ** server.py *)

(** The tool functions registered with FastMCP.  Each one receives its
    parameters already validated against the annotated types, builds the
    [Dict] of the handler and awaits the handler.  A parameter with a default
    is an [option]: [None] when the caller leaves it out.  The two tools that
    generate Strands agents call handlers of [strands_handlers.py], which is
    not among the sources, and are left out. *)

Module server.
Section Tools.
Context `{PyRuntime}.

Import memory_handlers gateway_handlers runtime_handlers.
Import identity_handlers observability_handlers.

Definition or_default {A} (o : option A) (d : A) : A :=
  match o with
  | Some a => a
  | None => d
  end.

(** The binary64 float written [0.2]. *)
Definition float_0_2 : spec_float := S754_finite false 7205759403792794 (-55).

Definition region_arg (region : option string) : string * pyval :=
  ("region", PStr (or_default region "us-west-2")).

Definition agentcore_create_runtime_execution_role_script
    (region : option string) : result pyval :=
  handle_create_runtime_execution_role_script [region_arg region].

Definition agentcore_memory_create
    (name : string) (strategies : list dict)
    (description region : option string) : result pyval :=
  handle_memory_create [
    ("name", PStr name);
    ("strategies", PList (map PDict strategies));
    ("description", PStr (or_default description EmptyString));
    region_arg region
  ].

(** [messages: list[tuple[str, str]]]; a pair is kept as a two-element
    sequence, which is how [json.dumps] prints it. *)
Definition agentcore_memory_create_event
    (memory_id actor_id session_id : string)
    (messages : list (string * string))
    (region : option string) : result pyval :=
  handle_memory_create_event [
    ("memory_id", PStr memory_id);
    ("actor_id", PStr actor_id);
    ("session_id", PStr session_id);
    ("messages",
     PList (map (fun m => PList [PStr (fst m); PStr (snd m)]) messages));
    region_arg region
  ].

Definition agentcore_memory_retrieve
    (memory_id namespace query : string)
    (top_k : option Z) (relevance_score : option spec_float)
    (region : option string) : result pyval :=
  handle_memory_retrieve [
    ("memory_id", PStr memory_id);
    ("namespace", PStr namespace);
    ("query", PStr query);
    ("top_k", PInt (or_default top_k 3%Z));
    ("relevance_score", PFloat (or_default relevance_score float_0_2));
    region_arg region
  ].

Definition agentcore_memory_delete
    (memory_id : string) (region : option string) : result pyval :=
  handle_memory_delete [
    ("memory_id", PStr memory_id);
    region_arg region
  ].

Definition agentcore_gateway_create
    (name role_arn cognito_client_id cognito_discovery_url : string)
    (protocol_type authorizer_type description region : option string)
    : result pyval :=
  handle_gateway_create [
    ("name", PStr name);
    ("role_arn", PStr role_arn);
    ("cognito_client_id", PStr cognito_client_id);
    ("cognito_discovery_url", PStr cognito_discovery_url);
    ("protocol_type", PStr (or_default protocol_type "MCP"));
    ("authorizer_type", PStr (or_default authorizer_type "CUSTOM_JWT"));
    ("description", PStr (or_default description EmptyString));
    region_arg region
  ].

Definition agentcore_gateway_add_lambda_target
    (gateway_id target_name lambda_arn : string) (tool_schema : list dict)
    (target_description region : option string) : result pyval :=
  handle_gateway_add_lambda_target [
    ("gateway_id", PStr gateway_id);
    ("target_name", PStr target_name);
    ("lambda_arn", PStr lambda_arn);
    ("tool_schema", PList (map PDict tool_schema));
    ("target_description", PStr (or_default target_description EmptyString));
    region_arg region
  ].

Definition agentcore_gateway_list_targets
    (gateway_id : string) (region : option string) : result pyval :=
  handle_gateway_list_targets [
    ("gateway_id", PStr gateway_id);
    region_arg region
  ].

Definition agentcore_gateway_delete_target
    (gateway_id target_id : string) (region : option string) : result pyval :=
  handle_gateway_delete_target [
    ("gateway_id", PStr gateway_id);
    ("target_id", PStr target_id);
    region_arg region
  ].

Definition agentcore_gateway_delete
    (gateway_id : string) (region : option string) : result pyval :=
  handle_gateway_delete [
    ("gateway_id", PStr gateway_id);
    region_arg region
  ].

Definition agentcore_runtime_configure
    (entrypoint agent_name execution_role : string)
    (cognito_client_id cognito_discovery_url : string)
    (auto_create_ecr : option bool)
    (memory_mode requirements_file region : option string) : result pyval :=
  handle_runtime_configure [
    ("entrypoint", PStr entrypoint);
    ("agent_name", PStr agent_name);
    ("execution_role", PStr execution_role);
    ("cognito_client_id", PStr cognito_client_id);
    ("cognito_discovery_url", PStr cognito_discovery_url);
    ("auto_create_ecr", PBool (or_default auto_create_ecr true));
    ("memory_mode", PStr (or_default memory_mode "NO_MEMORY"));
    ("requirements_file",
     PStr (or_default requirements_file "requirements.txt"));
    region_arg region
  ].

Definition agentcore_runtime_launch
    (env_vars : dict) (auto_update_on_conflict : option bool)
    (region : option string) : result pyval :=
  handle_runtime_launch [
    ("env_vars", PDict env_vars);
    ("auto_update_on_conflict",
     PBool (or_default auto_update_on_conflict true));
    region_arg region
  ].

Definition agentcore_runtime_status (region : option string) : result pyval :=
  handle_runtime_status [region_arg region].

Definition agentcore_runtime_invoke
    (payload : dict) (bearer_token : string) (region : option string)
    : result pyval :=
  handle_runtime_invoke [
    ("payload", PDict payload);
    ("bearer_token", PStr bearer_token);
    region_arg region
  ].

Definition agentcore_runtime_delete (region : option string) : result pyval :=
  handle_runtime_delete [region_arg region].

Definition agentcore_observability_get_dashboard_url
    (region : option string) : result pyval :=
  handle_observability_get_dashboard_url [region_arg region].

Definition agentcore_observability_get_logs_info
    (agent_arn : string) (region : option string) : result pyval :=
  handle_observability_get_logs_info [
    ("agent_arn", PStr agent_arn);
    region_arg region
  ].

Definition agentcore_observability_get_recent_logs
    (agent_arn : string) (hours_back limit : option Z)
    (region : option string) : result pyval :=
  handle_observability_get_recent_logs [
    ("agent_arn", PStr agent_arn);
    ("hours_back", PInt (or_default hours_back 1%Z));
    ("limit", PInt (or_default limit 50%Z));
    region_arg region
  ].

End Tools.
End server.

(** ** Scripts: calls to the outside world, [exit] and exceptions *)

Module Script.

(** What [requests.post] returns: [status_code], [text] and [json()], which
    raises on a body that is not JSON. *)
Record response : Type := Response {
  status_code : Z;
  text : string;
  json : result pyval
}.

(** A call that leaves the script, with the type of its answer.
    - [os_path_exists p]: [os.path.exists(p)];
    - [json_load p]: [with open(p) as f: json.load(f)];
    - [json_dump p v]: [with open(p, 'w') as f: json.dump(v, f, indent=2)];
    - [extern f args kwargs]: a function or method of boto3 or of the starter
      toolkit, named as the script names it;
    - [time_sleep n]: [time.sleep(n)];
    - [requests_post url headers data]. *)
Inductive call : Type -> Type :=
| os_path_exists (path : string) : call bool
| json_load (path : string) : call (result pyval)
| json_dump (path : string) (v : pyval) : call (result unit)
| extern (callee : string) (args : list pyval) (kwargs : dict)
    : call (result pyval)
| time_sleep (seconds : Z) : call unit
| requests_post (url : pyval) (headers data : dict) : call (result response).

(** How a block of statements ends: it runs to its end, [exit(status)] is
    called, or an exception leaves it. *)
Inductive outcome (A : Type) : Type :=
| Done (a : A)
| Exit (status : Z)
| Raised (e : exn).
Arguments Done {A} a.
Arguments Exit {A} status.
Arguments Raised {A} e.

Inductive script (A : Type) : Type :=
| Ret (o : outcome A)
| Do {X : Type} (c : call X) (k : X -> script A).
Arguments Ret {A} o.
Arguments Do {A X} c k.

Definition ret {A} (a : A) : script A := Ret (Done a).
Definition exit {A} (status : Z) : script A := Ret (Exit status).
Definition raise {A} (e : exn) : script A := Ret (Raised e).

Fixpoint sbind {A B} (p : script A) (k : A -> script B) : script B :=
  match p with
  | Ret (Done a) => k a
  | Ret (Exit n) => Ret (Exit n)
  | Ret (Raised e) => Ret (Raised e)
  | Do c f => Do c (fun x => sbind (f x) k)
  end.

(** [try: p  except Exception as e: handler e].  [exit] raises [SystemExit],
    which is not an [Exception] and passes through. *)
Fixpoint try_except {A} (p : script A) (handler : exn -> script A) : script A :=
  match p with
  | Ret (Raised e) => handler e
  | Ret o => Ret o
  | Do c f => Do c (fun x => try_except (f x) handler)
  end.

(** [try: p  except cls: handler], for one exception class. *)
Definition try_except_class {A} (cls : string) (p : script A)
    (handler : script A) : script A :=
  try_except p (fun e =>
    if String.eqb (exn_class e) cls then handler else raise e).

(** A Python operation inside a script. *)
Definition eval {A} (r : result A) : script A :=
  match r with
  | Ok a => ret a
  | Raise e => raise e
  end.

(** A call whose answer is a value or an exception. *)
Definition invoke {A} (c : call (result A)) : script A := Do c eval.

(** A call that cannot raise. *)
Definition ask {A} (c : call A) : script A := Do c ret.

Declare Scope script_scope.
Delimit Scope script_scope with script.
Notation "x <- e ;; k" := (sbind e (fun x => k))
  (at level 61, e at next level, right associativity) : script_scope.
Notation "e ;;; k" := (sbind e (fun _ => k))
  (at level 61, right associativity) : script_scope.

(** *** Running a script *)

(** One call with its answer. *)
Inductive entry : Type :=
| Called {X : Type} (c : call X) (x : X).

(** The outside world: the answer to a call, given the calls made so far. *)
Definition world : Type := forall X : Type, list entry -> call X -> X.

(** [run w h p]: how [p] ends and the calls it makes, in order, when the
    calls [h] were made before it. *)
Fixpoint run {A} (w : world) (h : list entry) (p : script A)
  : outcome A * list entry :=
  match p with
  | Ret o => (o, [])
  | Do c k =>
      let x := w _ h c in
      let (o, t) := run w (h ++ [Called c x])%list (k x) in
      (o, Called c x :: t)
  end.

Definition execute {A} (w : world) (p : script A) : outcome A * list entry :=
  run w [] p.

(** The exit status of the interpreter: 0 at the end of the script, the
    argument of [exit], 1 after an uncaught exception. *)
Definition exit_status {A} (o : outcome A) : Z :=
  match o with
  | Done _ => 0
  | Exit n => n
  | Raised _ => 1
  end.

(** *** Reading a trace *)

Definition callee_of (e : entry) : option string :=
  match e with
  | Called (extern f _ _) _ => Some f
  | Called _ _ => None
  end.

Definition is_callee (f : string) (e : entry) : bool :=
  match callee_of e with
  | Some g => String.eqb f g
  | None => false
  end.

Definition is_sleep (e : entry) : bool :=
  match e with
  | Called (time_sleep _) _ => true
  | Called _ _ => false
  end.

(** The file a [json_dump] entry writes and the value written. *)
Definition written (e : entry) : option (string * pyval) :=
  match e with
  | Called (json_dump p v) _ => Some (p, v)
  | Called _ _ => None
  end.

Definition writes_file (path : string) (e : entry) : bool :=
  match written e with
  | Some (p, _) => String.eqb p path
  | None => false
  end.

(** The request of a [requests_post] entry. *)
Definition posted (e : entry) : option (pyval * dict * dict) :=
  match e with
  | Called (requests_post url headers data) _ => Some (url, headers, data)
  | Called _ _ => None
  end.

(** The keyword arguments of a call to boto3 or the toolkit. *)
Definition kwargs_of (e : entry) : option dict :=
  match e with
  | Called (extern _ _ kwargs) _ => Some kwargs
  | Called _ _ => None
  end.

End Script.
Import Script.

(** ** The scripts emitted by the handlers, as programs *)

(** Each definition follows the statements of the script text of the handler
    of the same name ([memory_handlers.memory_delete_code] and so on).  Its
    parameters are the values that the interpolated literals denote when
    Python reads the text; for an interpolated str without quote, backslash
    or line break that is the str itself.  Some templates also insert a
    value into an f-string literal of the script that is only printed
    ([memory_retrieve], [gateway_delete_target],
    [gateway_add_lambda_target]); the definitions are the scripts for
    values without a brace, where such a literal has no replacement field
    and printing it evaluates nothing. *)

Module generated.
Local Open Scope script_scope.

(** *** delete_memory.py *)

Definition memory_delete (region : string) : script unit :=
  (* Check if memory config exists *)
  config_exists <- ask (os_path_exists "memory_config.json") ;;
  if negb config_exists then exit 0 else
  (* Load memory_id from config *)
  memory_id <-
    try_except
      (config <- invoke (json_load "memory_config.json") ;;
       eval (getitem config "memory_id"))
      (fun e => exit 0) ;;
  (* Create memory manager *)
  memory_manager <-
    invoke (extern "MemoryManager" [] [("region_name", PStr region)]) ;;
  (* Delete memory *)
  try_except
    (invoke (extern "memory_manager.delete_memory" []
                    [("memory_id", memory_id)]) ;;;
     ret tt)
    (fun e =>
       let error_msg := str_lower (exn_msg e) in
       if str_in "not found" error_msg
          || str_in "does not exist" error_msg
          || str_in "resourcenotfound" error_msg
       then ret tt
       else exit 1) ;;;
  ret tt.

(** *** delete_gateway_target.py *)

Definition gateway_delete_target (region target_id : string) : script unit :=
  (* Check if gateway config exists *)
  config_exists <- ask (os_path_exists "gateway_config.json") ;;
  if negb config_exists then exit 0 else
  (* Load configuration *)
  gateway_config <-
    try_except (invoke (json_load "gateway_config.json"))
               (fun e => exit 0) ;;
  (* Initialize AgentCore control plane client *)
  gateway_client <-
    invoke (extern "boto3.client" [PStr "bedrock-agentcore-control"]
                   [("region_name", PStr region)]) ;;
  (* Delete target using correct API method name *)
  try_except
    ((* print(f"  Gateway ID: {gateway_config['gateway_id']}") *)
     eval (getitem gateway_config "gateway_id") ;;;
     gateway_id <- eval (getitem gateway_config "gateway_id") ;;
     invoke (extern "gateway_client.delete_gateway_target" []
                    [("gatewayIdentifier", gateway_id);
                     ("targetId", PStr target_id)]) ;;;
     ret tt)
    (fun e =>
       let error_msg := str_lower (exn_msg e) in
       if str_in "resourcenotfound" error_msg || str_in "not found" error_msg
       then ret tt
       else exit 1) ;;;
  ret tt.

(** *** delete_gateway.py *)

(** ["ResourceNotFound" in str(e) or "not found" in str(e).lower()] *)
Definition resource_not_found (e : exn) : bool :=
  str_in "ResourceNotFound" (exn_msg e)
  || str_in "not found" (str_lower (exn_msg e)).

Definition list_gateway_targets (gateway_config : pyval) : script pyval :=
  gateway_id <- eval (getitem gateway_config "gateway_id") ;;
  invoke (extern "gateway_client.list_gateway_targets" []
                 [("gatewayIdentifier", gateway_id)]).

(** [target.get('name', target['targetId'])], evaluated for a [print]. *)
Definition target_label (target : pyval) : script pyval :=
  eval (get_lazy target "name" (getitem target "targetId")).

(** The loop [for target in targets] of step 1. *)
Fixpoint delete_targets (gateway_config : pyval) (targets : list pyval)
  : script unit :=
  match targets with
  | [] => ret tt
  | target :: rest =>
      try_except
        (gateway_id <- eval (getitem gateway_config "gateway_id") ;;
         target_id <- eval (getitem target "targetId") ;;
         invoke (extern "gateway_client.delete_gateway_target" []
                        [("gatewayIdentifier", gateway_id);
                         ("targetId", target_id)]) ;;;
         target_label target ;;;
         ret tt)
        (fun e =>
           if resource_not_found e then
             target_label target ;;;
             ret tt
           else
             (* Re-raise to prevent gateway deletion *)
             raise e) ;;;
      delete_targets gateway_config rest
  end.

(** The loop that prints the targets that are left. *)
Fixpoint print_remaining (targets : list pyval) : script unit :=
  match targets with
  | [] => ret tt
  | target :: rest =>
      target_label target ;;;
      eval (getitem target "targetId") ;;;
      print_remaining rest
  end.

(** Step 1: Delete all targets first *)
Definition delete_all_targets (gateway_config : pyval) : script unit :=
  try_except
    (response <- list_gateway_targets gateway_config ;;
     targets <- eval (get response "items" (PList [])) ;;
     if truthy targets then
       items <- eval (iter targets) ;;
       delete_targets gateway_config items
     else ret tt)
    (fun e =>
       if resource_not_found e then ret tt
       else
         (* Re-raise to prevent gateway deletion *)
         raise e).

(** Step 1.5: Verify all targets are deleted *)
Definition verify_targets_deleted (gateway_config : pyval) : script unit :=
  try_except
    (response <- list_gateway_targets gateway_config ;;
     remaining_targets <- eval (get response "items" (PList [])) ;;
     if truthy remaining_targets then
       (* print: len(remaining_targets) *)
       eval (len remaining_targets) ;;;
       ask (time_sleep 5) ;;;
       (* Check again *)
       response <- list_gateway_targets gateway_config ;;
       remaining_targets <- eval (get response "items" (PList [])) ;;
       if truthy remaining_targets then
         (* print: len(remaining_targets) and every remaining target *)
         eval (len remaining_targets) ;;;
         items <- eval (iter remaining_targets) ;;
         print_remaining items ;;;
         exit 1
       else ret tt
     else ret tt)
    (fun e =>
       (* a warning is printed unless the error is a not-found one *)
       ret tt).

(** Step 2: Delete gateway *)
Definition delete_the_gateway (gateway_config : pyval) : script unit :=
  try_except
    (gateway_id <- eval (getitem gateway_config "gateway_id") ;;
     invoke (extern "gateway_client.delete_gateway" []
                    [("gatewayIdentifier", gateway_id)]) ;;;
     ret tt)
    (fun e =>
       let error_msg := str_lower (exn_msg e) in
       if str_in "resourcenotfound" error_msg || str_in "not found" error_msg
       then ret tt
       else exit 1).

Definition gateway_delete (region : string) : script unit :=
  (* Check if gateway config exists *)
  config_exists <- ask (os_path_exists "gateway_config.json") ;;
  if negb config_exists then exit 0 else
  (* Load configuration *)
  gateway_config <-
    try_except (invoke (json_load "gateway_config.json"))
               (fun e => exit 0) ;;
  (* Initialize AgentCore control plane client *)
  gateway_client <-
    invoke (extern "boto3.client" [PStr "bedrock-agentcore-control"]
                   [("region_name", PStr region)]) ;;
  (* print(f"\nGateway ID: {gateway_config['gateway_id']}") *)
  eval (getitem gateway_config "gateway_id") ;;;
  delete_all_targets gateway_config ;;;
  verify_targets_deleted gateway_config ;;;
  delete_the_gateway gateway_config ;;;
  ret tt.

(** *** delete_runtime.py *)

Definition runtime_delete (region : string) : script unit :=
  (* Check if runtime config exists *)
  config_exists <- ask (os_path_exists "runtime_config.json") ;;
  if negb config_exists then exit 0 else
  (* Load runtime configuration *)
  runtime_config <-
    try_except (invoke (json_load "runtime_config.json"))
               (fun e => exit 0) ;;
  agent_arn <- eval (get runtime_config "agent_arn" PNone) ;;
  if negb (truthy agent_arn) then exit 0 else
  (* Extract agent ID from ARN *)
  agent_id <- eval (split_last_of agent_arn "/") ;;
  (* Delete the agent using boto3 *)
  try_except
    (agentcore_client <-
       invoke (extern "boto3.client" [PStr "bedrock-agentcore-control"]
                      [("region_name", PStr region)]) ;;
     invoke (extern "agentcore_client.delete_agent_runtime" []
                    [("agentRuntimeId", PStr agent_id)]) ;;;
     ret tt)
    (fun e =>
       let error_msg := str_lower (exn_msg e) in
       if str_in "resourcenotfound" error_msg || str_in "not found" error_msg
       then ret tt
       else exit 1) ;;;
  ret tt.

(** *** add_<target>_target.py *)

(** [tool_schema] is what the literal printed by [json.dumps] evaluates to;
    evaluating it raises [NameError] when the JSON text holds [true], [false]
    or [null]. *)
Definition gateway_add_lambda_target
    (region lambda_arn target_name target_description : string)
    (tool_schema : result pyval) : script unit :=
  (* Load gateway configuration *)
  gateway_config <- invoke (json_load "gateway_config.json") ;;
  (* Initialize AgentCore control plane client *)
  gateway_client <-
    invoke (extern "boto3.client" [PStr "bedrock-agentcore-control"]
                   [("region_name", PStr region)]) ;;
  (* Lambda ARN and tool schema (inlined from MCP call) *)
  tool_schema <- eval tool_schema ;;
  (* Build Lambda target configuration with MCP protocol *)
  let lambda_target_config :=
    PDict [("mcp", PDict [("lambda", PDict [
      ("lambdaArn", PStr lambda_arn);
      ("toolSchema", PDict [("inlinePayload", tool_schema)])])])] in
  (* Use gateway's IAM role for Lambda invocation *)
  let credential_config :=
    PList [PDict [("credentialProviderType", PStr "GATEWAY_IAM_ROLE")]] in
  (* print(f"  Gateway ID: {gateway_config['gateway_id']}") *)
  eval (getitem gateway_config "gateway_id") ;;;
  gateway_id <- eval (getitem gateway_config "gateway_id") ;;
  create_response <-
    invoke (extern "gateway_client.create_gateway_target" []
                   [("gatewayIdentifier", gateway_id);
                    ("name", PStr target_name);
                    ("description", PStr target_description);
                    ("targetConfiguration", lambda_target_config);
                    ("credentialProviderConfigurations", credential_config)]) ;;
  target_id <- eval (getitem create_response "targetId") ;;
  ret tt.

(** *** Imports *)

(** [try: from module import name  except ImportError: exit(1)].  The import
    system is outside the script: it answers the call of [__import__] that
    the statement makes.  [ModuleNotFoundError] is a subclass of
    [ImportError].  An import that is not inside a [try] is taken to
    succeed. *)
Definition is_ImportError (e : exn) : bool :=
  String.eqb (exn_class e) "ImportError"
  || String.eqb (exn_class e) "ModuleNotFoundError".

Definition import_or_exit (module name : string) : script unit :=
  try_except
    (invoke (extern "__import__" [PStr module; PStr name] []) ;;;
     ret tt)
    (fun e => if is_ImportError e then exit 1 else raise e).

(** *** <name>_create.py, the script of [handle_memory_create] *)

(** [strategies] is what the literal printed by [json.dumps] evaluates to. *)
Definition memory_create (region name description : string)
    (strategies : result pyval) : script unit :=
  (* Define memory strategies in boto3 tagged union format *)
  strategies <- eval strategies ;;
  (* Create memory manager *)
  memory_manager <-
    invoke (extern "MemoryManager" [] [("region_name", PStr region)]) ;;
  (* Create memory *)
  memory <-
    invoke (extern "memory_manager.get_or_create_memory" []
                   [("name", PStr name);
                    ("description", PStr description);
                    ("strategies", strategies)]) ;;
  (* Extract memory_id *)
  memory_id <- eval (getitem memory "id") ;;
  (* Save memory_id to config file *)
  let config := PDict [
    ("memory_id", memory_id);
    ("name", PStr name);
    ("region", PStr region)] in
  invoke (json_dump "memory_config.json" config) ;;;
  ret tt.

(** *** store_memory_event_<actor_id>.py *)

(** One turn of the loop that normalizes the messages:
    [if isinstance(m.get("content"), str):
         m["content"] = [{"text": m["content"]}]]. *)
Definition normalize_message (m : pyval) : result pyval :=
  (content <- get m "content" PNone ;;
   match content with
   | PStr _ =>
       text <- getitem m "content" ;;
       setitem m "content" (PList [PDict [("text", text)]])
   | _ => Ok m
   end)%py.

Fixpoint normalize_messages (messages : list pyval) : result (list pyval) :=
  match messages with
  | [] => Ok []
  | m :: rest =>
      (m' <- normalize_message m ;;
       rest' <- normalize_messages rest ;;
       Ok (m' :: rest'))%py
  end.

(** [messages] after the loop [for m in messages].  The loop changes the
    elements of a list in place; over a dict or a str it visits keys or
    characters, which have no [get]. *)
Definition normalized (messages : pyval) : result pyval :=
  (items <- iter messages ;;
   items' <- normalize_messages items ;;
   Ok (match messages with
       | PList _ => PList items'
       | _ => messages
       end))%py.

(** [messages] is what the literal printed by [json.dumps] evaluates to. *)
Definition memory_create_event (region actor_id session_id : string)
    (messages : result pyval) : script unit :=
  import_or_exit "bedrock_agentcore.memory" "MemoryClient" ;;;
  (* Load memory_id from config *)
  config <- invoke (json_load "memory_config.json") ;;
  memory_id <- eval (getitem config "memory_id") ;;
  (* Create memory client *)
  memory_client <-
    invoke (extern "MemoryClient" [] [("region_name", PStr region)]) ;;
  (* Define messages *)
  messages <- eval messages ;;
  (* Normalize message format to match notebook expectations *)
  messages <- eval (normalized messages) ;;
  (* Store messages *)
  invoke (extern "memory_client.create_event" []
                 [("memory_id", memory_id);
                  ("actor_id", PStr actor_id);
                  ("session_id", PStr session_id);
                  ("messages", messages)]) ;;;
  (* print(f"Stored {len(messages)} messages successfully!") *)
  eval (len messages) ;;;
  ask (time_sleep 30) ;;;
  ret tt.

(** *** retrieve_memories.py *)

(** What the loop over the memories evaluates for one memory. *)
Definition show_memory (memory : pyval) : result unit :=
  (content <- get memory "content" (PDict []) ;;
   match content with
   | PDict _ => get content "text" (PStr "N/A") ;;; Ok tt
   | _ => (* text = str(content) *) Ok tt
   end ;;;
   (* Safe formatting for relevance score *)
   get memory "relevanceScore" (PStr "N/A") ;;;
   Ok tt)%py.

Fixpoint show_memories (memories : list pyval) : result unit :=
  match memories with
  | [] => Ok tt
  | memory :: rest => (show_memory memory ;;; show_memories rest)%py
  end.

(** The script for a [namespace] and a [query] without a brace and for an
    int [top_k], as the tool passes it.  The three are printed before the
    try statement, from f-string literals that they were inserted into;
    with no brace in them these literals have no replacement field, and the
    decimal text inserted after [top_k=] evaluates to [top_k]. *)
Definition memory_retrieve (region namespace query : string)
    (top_k : Z) : script unit :=
  import_or_exit "bedrock_agentcore.memory" "MemoryClient" ;;;
  (* Load memory_id from config *)
  config <- invoke (json_load "memory_config.json") ;;
  memory_id <- eval (getitem config "memory_id") ;;
  (* Create memory client *)
  memory_client <-
    invoke (extern "MemoryClient" [] [("region_name", PStr region)]) ;;
  try_except
    ((* Use retrieve_memories() method with correct parameters *)
     let top_k := PInt top_k in
     memories <-
       invoke (extern "memory_client.retrieve_memories" []
                      [("memory_id", memory_id);
                       ("namespace", PStr namespace);
                       ("query", PStr query);
                       ("top_k", top_k)]) ;;
     if truthy memories then
       eval (len memories) ;;;
       items <- eval (iter memories) ;;
       eval (show_memories items)
     else ret tt)
    (fun e => exit 1).

(** *** <name>_gateway_create.py *)

Definition gateway_create
    (region name protocol_type authorizer_type description : string)
  : script unit :=
  (* Load configuration *)
  cognito_config <- invoke (json_load "cognito_config.json") ;;
  role_config <- invoke (json_load "gateway_role_config.json") ;;
  (* Initialize AgentCore control plane client *)
  gateway_client <-
    invoke (extern "boto3.client" [PStr "bedrock-agentcore-control"]
                   [("region_name", PStr region)]) ;;
  (* Build auth configuration for Cognito JWT *)
  client_id <- eval (getitem cognito_config "client_id") ;;
  discovery_url <- eval (getitem cognito_config "discovery_url") ;;
  let auth_config :=
    PDict [("customJWTAuthorizer", PDict [
      ("allowedClients", PList [client_id]);
      ("discoveryUrl", discovery_url)])] in
  (* Create gateway *)
  role_arn <- eval (getitem role_config "role_arn") ;;
  create_response <-
    invoke (extern "gateway_client.create_gateway" [] [
      ("name", PStr name);
      ("roleArn", role_arn);
      ("protocolType", PStr protocol_type);
      ("authorizerType", PStr authorizer_type);
      ("authorizerConfiguration", auth_config);
      ("description", PStr description)]) ;;
  (* Extract gateway details *)
  gateway_id <- eval (getitem create_response "gatewayId") ;;
  gateway_url <- eval (getitem create_response "gatewayUrl") ;;
  gateway_arn <- eval (getitem create_response "gatewayArn") ;;
  (* Save gateway config (using 'id' to match reference code pattern) *)
  let config := PDict [
    ("id", gateway_id);
    ("gateway_id", gateway_id);
    ("gateway_url", gateway_url);
    ("gateway_arn", gateway_arn);
    ("name", PStr name);
    ("region", PStr region)] in
  invoke (json_dump "gateway_config.json" config) ;;;
  ret tt.

(** *** list_gateway_targets.py *)

(** What the loop over the targets evaluates for one target. *)
Definition show_target (target : pyval) : result unit :=
  (get target "name" (PStr "N/A") ;;;
   get target "targetId" (PStr "N/A") ;;;
   get target "status" (PStr "unknown") ;;;
   get target "description" (PStr "N/A") ;;;
   Ok tt)%py.

Fixpoint show_targets (targets : list pyval) : result unit :=
  match targets with
  | [] => Ok tt
  | target :: rest => (show_target target ;;; show_targets rest)%py
  end.

Definition gateway_list_targets (region : string) : script unit :=
  (* Load configuration *)
  gateway_config <- invoke (json_load "gateway_config.json") ;;
  (* Initialize AgentCore control plane client *)
  gateway_client <-
    invoke (extern "boto3.client" [PStr "bedrock-agentcore-control"]
                   [("region_name", PStr region)]) ;;
  (* List targets using correct API method *)
  eval (getitem gateway_config "gateway_id") ;;;
  response <- list_gateway_targets gateway_config ;;
  targets <- eval (get response "items" (PList [])) ;;
  eval (len targets) ;;;
  items <- eval (iter targets) ;;
  eval (show_targets items).

(** *** The scripts of the runtime handlers *)

(** [s.split(sep)[0]] for a one-character separator: what precedes the
    first separator, the whole of [s] when there is none. *)
Fixpoint split_first (sep : ascii) (s : string) : string :=
  match s with
  | EmptyString => EmptyString
  | String c s' =>
      if Ascii.eqb c sep then EmptyString else String c (split_first sep s')
  end.

(** [v.split(sep)[0]] on any value. *)
Definition split_first_of (v : pyval) (sep : ascii) : result string :=
  match v with
  | PStr s => Ok (split_first sep s)
  | _ => Raise (AttributeError v "split")
  end.

(** [v.get(key, default)] where the key is a value: the keys of a dict are
    str here, so that another hashable key is absent; a list or a dict is
    not hashable. *)
Definition get_at (v key default : pyval) : result pyval :=
  match v with
  | PDict d =>
      match key with
      | PStr k => Ok (dict_get d k default)
      | PList _ | PDict _ =>
          Raise (TypeError ("unhashable type: '" ++ type_name key ++ "'"))
      | _ => Ok default
      end
  | _ => Raise (AttributeError v "get")
  end.

(** [d.update(other)] for two dicts. *)
Definition update (d other : dict) : dict :=
  fold_left (fun acc kv => store (fst kv) (snd kv) acc) other d.

(** [o.name] on an object of the toolkit: what the attribute is, or the
    error of the access, is an answer of the toolkit. *)
Definition getattr (o : pyval) (name : string) : script pyval :=
  invoke (extern "getattr" [o; PStr name] []).

(** [with open(path) as f: yaml.safe_load(f)] *)
Definition yaml_safe_load (path : string) : script pyval :=
  invoke (extern "yaml.safe_load" [PStr path] []).

(** The name and the entrypoint of the default agent in the parsed
    [.bedrock_agentcore.yaml]. *)
Definition default_agent_of (runtime_config : pyval)
  : result (pyval * pyval) :=
  (default_agent <- get runtime_config "default_agent" PNone ;;
   agents <- get runtime_config "agents" (PDict []) ;;
   agent_config <- get_at agents default_agent (PDict []) ;;
   agent_name <- get agent_config "name" PNone ;;
   entrypoint <- get agent_config "entrypoint" PNone ;;
   Ok (agent_name, entrypoint))%py.

(** Build authorizer configuration for Cognito JWT *)
Definition auth_config_of (cognito_config : pyval) : result pyval :=
  (client_id <- getitem cognito_config "client_id" ;;
   discovery_url <- getitem cognito_config "discovery_url" ;;
   Ok (PDict [("customJWTAuthorizer", PDict [
         ("allowedClients", PList [client_id]);
         ("discoveryUrl", discovery_url)])]))%py.

(** The [runtime.configure] call of the launch, status and invoke scripts. *)
Definition configure_call (region : string)
    (entrypoint agent_name role_arn auth_config : pyval)
  : call (result pyval) :=
  extern "runtime.configure" [] [
    ("entrypoint", entrypoint);
    ("agent_name", agent_name);
    ("execution_role", role_arn);
    ("auto_create_ecr", PBool true);
    ("memory_mode", PStr "NO_MEMORY");
    ("requirements_file", PStr "requirements.txt");
    ("region", PStr region);
    ("authorizer_configuration", auth_config)].

Definition default_scopes : pyval :=
  PList [PStr "agentcore-gateway/read"; PStr "agentcore-gateway/write"].

(** [if os.path.exists(path): config_files[name] = json.load(...)] *)
Definition load_if_exists (path : string) : script (option pyval) :=
  present <- ask (os_path_exists path) ;;
  if present then
    config <- invoke (json_load path) ;;
    ret (Some config)
  else ret None.

(** [if name in config_files: d[key] = config_files[name][field]] *)
Definition store_from (config : option pyval) (field key : string) (d : dict)
  : result dict :=
  match config with
  | Some c =>
      match getitem c field with
      | Ok v => Ok (store key v d)
      | Raise e => Raise e
      end
  | None => Ok d
  end.

(** **** launch_to_runtime.py *)

(** [env_vars_dict] is the dict that the literal printed by [json.dumps]
    denotes, or the error that its evaluation raises; likewise
    [auto_update_on_conflict] for the text inserted after
    [auto_update_on_conflict=]. *)
Definition runtime_launch (region : string) (env_vars_dict : result dict)
    (auto_update_on_conflict : result pyval) : script unit :=
  (* Load configuration files that exist *)
  memory <- load_if_exists "memory_config.json" ;;
  gateway <- load_if_exists "gateway_config.json" ;;
  cognito <- load_if_exists "cognito_config.json" ;;
  match cognito with
  | None => exit 1
  | Some cognito =>
  role <- load_if_exists "runtime_execution_role_config.json" ;;
  match role with
  | None => exit 1
  | Some role =>
  (* Load .bedrock_agentcore.yaml to get agent name and entrypoint *)
  yaml_exists <- ask (os_path_exists ".bedrock_agentcore.yaml") ;;
  if negb yaml_exists then exit 1 else
  runtime_config <- yaml_safe_load ".bedrock_agentcore.yaml" ;;
  agent <- eval (default_agent_of runtime_config) ;;
  let '(agent_name, entrypoint) := agent in
  (* Initialize Runtime *)
  runtime <- invoke (extern "Runtime" [] []) ;;
  (* Build authorizer configuration for Cognito JWT *)
  auth_config <- eval (auth_config_of cognito) ;;
  (* Configure runtime (loads existing config or creates new one) *)
  role_arn <- eval (getitem role "role_arn") ;;
  invoke (configure_call region entrypoint agent_name role_arn auth_config) ;;;
  (* Build environment variables from config files *)
  (* Add environment variables passed from MCP tool *)
  env_vars_dict <- eval env_vars_dict ;;
  let env_vars := update [] env_vars_dict in
  (* Add memory ID if available *)
  env_vars <- eval (store_from memory "memory_id" "MEMORY_ID" env_vars) ;;
  (* Add gateway info if available *)
  env_vars <- eval (store_from gateway "gateway_url" "GATEWAY_URL" env_vars) ;;
  (* Add Cognito credentials *)
  client_id <- eval (getitem cognito "client_id") ;;
  let env_vars := store "COGNITO_CLIENT_ID" client_id env_vars in
  client_secret <- eval (getitem cognito "client_secret") ;;
  let env_vars := store "COGNITO_CLIENT_SECRET" client_secret env_vars in
  discovery_url <- eval (getitem cognito "discovery_url") ;;
  let env_vars := store "COGNITO_DISCOVERY_URL" discovery_url env_vars in
  scopes <- eval (get cognito "scopes" default_scopes) ;;
  oauth_scopes <- eval (join " " scopes) ;;
  let env_vars := store "OAUTH_SCOPES" (PStr oauth_scopes) env_vars in
  (* the loop that prints the variables reads [env_vars[key]] for its own
     keys *)
  (* Launch agent *)
  auto_update_on_conflict <- eval auto_update_on_conflict ;;
  launch_result <-
    invoke (extern "runtime.launch" [] [
      ("env_vars", PDict env_vars);
      ("auto_update_on_conflict", auto_update_on_conflict)]) ;;
  agent_arn <- getattr launch_result "agent_arn" ;;
  (* Save agent ARN to config *)
  let runtime_output_config := [
    ("agent_arn", agent_arn);
    ("agent_name", agent_name);
    ("region", PStr region)] in
  (* Add memory_id if available *)
  runtime_output_config <-
    eval (store_from memory "memory_id" "memory_id" runtime_output_config) ;;
  (* Add gateway_url if available *)
  runtime_output_config <-
    eval (store_from gateway "gateway_url" "gateway_url"
            runtime_output_config) ;;
  invoke (json_dump "runtime_config.json" (PDict runtime_output_config)) ;;;
  ret tt
  end
  end.

(** **** check_runtime_status.py *)

Definition runtime_status (region : string) : script unit :=
  (* Check if runtime config exists *)
  deployed <- ask (os_path_exists "runtime_config.json") ;;
  if negb deployed then exit 1 else
  (* Load configuration files *)
  role_config <- invoke (json_load "runtime_execution_role_config.json") ;;
  cognito_config <- invoke (json_load "cognito_config.json") ;;
  (* Load .bedrock_agentcore.yaml to get agent name and entrypoint *)
  yaml_exists <- ask (os_path_exists ".bedrock_agentcore.yaml") ;;
  if negb yaml_exists then exit 1 else
  runtime_config <- yaml_safe_load ".bedrock_agentcore.yaml" ;;
  agent <- eval (default_agent_of runtime_config) ;;
  let '(agent_name, entrypoint) := agent in
  (* Initialize Runtime *)
  runtime <- invoke (extern "Runtime" [] []) ;;
  (* Build authorizer configuration for Cognito JWT *)
  auth_config <- eval (auth_config_of cognito_config) ;;
  (* Configure runtime (to load existing configuration) *)
  role_arn <- eval (getitem role_config "role_arn") ;;
  invoke (configure_call region entrypoint agent_name role_arn auth_config) ;;;
  (* Check status *)
  status_response <- invoke (extern "runtime.status" [] []) ;;
  endpoint <- getattr status_response "endpoint" ;;
  status <- eval (getitem endpoint "status") ;;
  (* print: json.dumps(status_response.endpoint, indent=2, default=str) *)
  getattr status_response "endpoint" ;;;
  (* the branches on [status] print and do nothing else *)
  ret tt.

Section RuntimeInvoke.
Context `{PyRuntime}.

(** **** invoke_agent.py *)

(** [payload] is what the literal printed by [json.dumps] evaluates to. *)
Definition runtime_invoke (region : string) (payload : result pyval)
  : script unit :=
  (* Check if runtime config exists *)
  deployed <- ask (os_path_exists "runtime_config.json") ;;
  if negb deployed then exit 1 else
  (* Load configuration *)
  cognito_config <- invoke (json_load "cognito_config.json") ;;
  role_config <- invoke (json_load "runtime_execution_role_config.json") ;;
  (* Load .bedrock_agentcore.yaml to get agent name and entrypoint *)
  yaml_exists <- ask (os_path_exists ".bedrock_agentcore.yaml") ;;
  if negb yaml_exists then exit 1 else
  runtime_config <- yaml_safe_load ".bedrock_agentcore.yaml" ;;
  agent <- eval (default_agent_of runtime_config) ;;
  let '(agent_name, entrypoint) := agent in
  (* Generate bearer token using Cognito client credentials flow *)
  (* Extract domain and region from cognito config *)
  domain_name <- eval (getitem cognito_config "domain") ;;
  domain <- eval (split_first_of domain_name ".") ;;
  cognito_region <- eval (getitem cognito_config "region") ;;
  (* Construct token endpoint *)
  let token_endpoint :=
    "https://" ++ domain ++ ".auth." ++ str cognito_region
    ++ ".amazoncognito.com/oauth2/token" in
  (* Prepare credentials for Basic Auth *)
  client_id <- eval (getitem cognito_config "client_id") ;;
  client_secret <- eval (getitem cognito_config "client_secret") ;;
  let credentials := str client_id ++ ":" ++ str client_secret in
  let encoded_credentials := b64encode credentials in
  (* Get OAuth scopes *)
  scopes <- eval (get cognito_config "scopes" default_scopes) ;;
  oauth_scopes <- eval (join " " scopes) ;;
  (* Request token *)
  response <-
    invoke (requests_post (PStr token_endpoint)
              [("Authorization", PStr ("Basic " ++ encoded_credentials));
               ("Content-Type", PStr "application/x-www-form-urlencoded")]
              [("grant_type", PStr "client_credentials");
               ("scope", PStr oauth_scopes)]) ;;
  if negb (Z.eqb (status_code response) 200) then exit 1 else
  token_data <- eval (json response) ;;
  bearer_token <- eval (getitem token_data "access_token") ;;
  (* Initialize Runtime *)
  runtime <- invoke (extern "Runtime" [] []) ;;
  (* Build authorizer configuration for Cognito JWT *)
  auth_config <- eval (auth_config_of cognito_config) ;;
  (* Configure runtime (to load existing configuration) *)
  role_arn <- eval (getitem role_config "role_arn") ;;
  invoke (configure_call region entrypoint agent_name role_arn auth_config) ;;;
  (* Invoke agent *)
  payload <- eval payload ;;
  try_except
    (invoke (extern "runtime.invoke" [payload]
                    [("bearer_token", bearer_token)]) ;;;
     ret tt)
    (fun e => exit 1).

End RuntimeInvoke.

(** *** create_runtime_execution_role.py *)

Section RuntimeExecutionRole.
Context `{PyRuntime}.

(** [int(time.time())]: the clock read in whole seconds.  Reading the clock
    and truncating what it shows are one call here, answered with the
    int. *)
Definition seconds_now : script pyval :=
  invoke (extern "time.time" [] []).

(** Trust policy for bedrock-agentcore.amazonaws.com *)
Definition runtime_trust_policy : pyval :=
  PDict [
    ("Version", PStr "2012-10-17");
    ("Statement", PList [
      PDict [
        ("Effect", PStr "Allow");
        ("Principal", PDict [
          ("Service", PStr "bedrock-agentcore.amazonaws.com")]);
        ("Action", PStr "sts:AssumeRole")]])].

(** The permissions policy with minimal required permissions. *)
Definition permissions_policy (REGION : string) (account_id : pyval)
  : pyval :=
  let arn (service resource : string) : pyval :=
    PStr ("arn:aws:" ++ service ++ ":" ++ REGION ++ ":" ++ str account_id
          ++ ":" ++ resource) in
  PDict [
    ("Version", PStr "2012-10-17");
    ("Statement", PList [
      PDict [
        ("Sid", PStr "ECRAccess");
        ("Effect", PStr "Allow");
        ("Action", PList [
          PStr "ecr:GetAuthorizationToken";
          PStr "ecr:BatchCheckLayerAvailability";
          PStr "ecr:GetDownloadUrlForLayer";
          PStr "ecr:BatchGetImage"]);
        ("Resource", PStr "*")];
      PDict [
        ("Sid", PStr "CloudWatchLogsAccess");
        ("Effect", PStr "Allow");
        ("Action", PList [
          PStr "logs:CreateLogGroup";
          PStr "logs:CreateLogStream";
          PStr "logs:PutLogEvents";
          PStr "logs:DescribeLogStreams";
          PStr "logs:DescribeLogGroups"]);
        ("Resource", PList [
          arn "logs" "log-group:/aws/bedrock-agentcore/*";
          arn "logs" "log-group:*"])];
      PDict [
        ("Sid", PStr "XRayAccess");
        ("Effect", PStr "Allow");
        ("Action", PList [
          PStr "xray:PutTraceSegments";
          PStr "xray:PutTelemetryRecords";
          PStr "xray:GetSamplingRules";
          PStr "xray:GetSamplingTargets"]);
        ("Resource", PStr "*")];
      PDict [
        ("Sid", PStr "CloudWatchMetrics");
        ("Effect", PStr "Allow");
        ("Action", PStr "cloudwatch:PutMetricData");
        ("Resource", PStr "*");
        ("Condition", PDict [
          ("StringEquals", PDict [
            ("cloudwatch:namespace", PStr "bedrock-agentcore")])])];
      PDict [
        ("Sid", PStr "BedrockModelAccess");
        ("Effect", PStr "Allow");
        ("Action", PList [
          PStr "bedrock:InvokeModel";
          PStr "bedrock:InvokeModelWithResponseStream";
          PStr "bedrock:ApplyGuardrail";
          PStr "bedrock:Retrieve"]);
        ("Resource", PList [
          PStr "arn:aws:bedrock:*::foundation-model/*";
          arn "bedrock" "*"])];
      PDict [
        ("Sid", PStr "AgentCoreMemoryAccess");
        ("Effect", PStr "Allow");
        ("Action", PList [
          PStr "bedrock-agentcore:CreateEvent";
          PStr "bedrock-agentcore:ListEvents";
          PStr "bedrock-agentcore:GetMemoryRecord";
          PStr "bedrock-agentcore:GetMemory";
          PStr "bedrock-agentcore:RetrieveMemoryRecords";
          PStr "bedrock-agentcore:ListMemoryRecords"]);
        ("Resource", arn "bedrock-agentcore" "*")];
      PDict [
        ("Sid", PStr "WorkloadIdentityAccess");
        ("Effect", PStr "Allow");
        ("Action", PList [
          PStr "bedrock-agentcore:GetWorkloadAccessToken";
          PStr "bedrock-agentcore:GetWorkloadAccessTokenForJWT";
          PStr "bedrock-agentcore:GetWorkloadAccessTokenForUserId"]);
        ("Resource", PList [
          arn "bedrock-agentcore" "workload-identity-directory/default";
          arn "bedrock-agentcore"
            "workload-identity-directory/default/workload-identity/*"])];
      PDict [
        ("Sid", PStr "STSAccess");
        ("Effect", PStr "Allow");
        ("Action", PList [
          PStr "sts:AssumeRole";
          PStr "sts:GetCallerIdentity"]);
        ("Resource", PStr "*")];
      PDict [
        ("Sid", PStr "SSMParameterAccess");
        ("Effect", PStr "Allow");
        ("Action", PStr "ssm:GetParameter");
        ("Resource", arn "ssm" "parameter/app/*")];
      PDict [
        ("Sid", PStr "MarketplaceAccess");
        ("Effect", PStr "Allow");
        ("Action", PList [
          PStr "aws-marketplace:ViewSubscriptions";
          PStr "aws-marketplace:Subscribe"]);
        ("Resource", PStr "*")]])].

Definition delete_role_call (ROLE_NAME : string) : call (result pyval) :=
  extern "iam_client.delete_role" [] [("RoleName", PStr ROLE_NAME)].

Definition delete_policy_call (policy_arn : pyval) : call (result pyval) :=
  extern "iam_client.delete_policy" [] [("PolicyArn", policy_arn)].

(** [try: p  except: pass] *)
Definition attempt (p : script unit) : script unit :=
  try_except p (fun _ => ret tt).

Definition create_runtime_execution_role (REGION : string) : script unit :=
  (* Configuration *)
  role_stamp <- seconds_now ;;
  let ROLE_NAME := "AgentCoreRuntimeExecutionRole-" ++ str role_stamp in
  policy_stamp <- seconds_now ;;
  let POLICY_NAME := "AgentCoreRuntimePolicy-" ++ str policy_stamp in
  (* Create IAM client *)
  iam_client <-
    invoke (extern "boto3.client" [PStr "iam"]
                   [("region_name", PStr REGION)]) ;;
  (* Get AWS account ID *)
  sts_client <-
    invoke (extern "boto3.client" [PStr "sts"]
                   [("region_name", PStr REGION)]) ;;
  identity <- invoke (extern "sts_client.get_caller_identity" [] []) ;;
  account_id <- eval (getitem identity "Account") ;;
  (* Step 1: Define trust policy for bedrock-agentcore.amazonaws.com *)
  role_arn <-
    try_except
      (role_response <-
         invoke (extern "iam_client.create_role" [] [
           ("RoleName", PStr ROLE_NAME);
           ("AssumeRolePolicyDocument",
            PStr (json_dumps None runtime_trust_policy));
           ("Description",
            PStr "Execution role for AgentCore Runtime with minimal required permissions")]) ;;
       role <- eval (getitem role_response "Role") ;;
       eval (getitem role "Arn"))
      (fun e => exit 1) ;;
  (* Step 2: Create comprehensive permissions policy *)
  policy_arn <-
    try_except
      (policy_response <-
         invoke (extern "iam_client.create_policy" [] [
           ("PolicyName", PStr POLICY_NAME);
           ("PolicyDocument",
            PStr (json_dumps None (permissions_policy REGION account_id)));
           ("Description",
            PStr "Minimal required permissions for AgentCore Runtime")]) ;;
       policy <- eval (getitem policy_response "Policy") ;;
       eval (getitem policy "Arn"))
      (fun e =>
         attempt (invoke (delete_role_call ROLE_NAME) ;;; ret tt) ;;;
         exit 1) ;;
  (* Step 3: Attach policy to role *)
  try_except
    (invoke (extern "iam_client.attach_role_policy" [] [
       ("RoleName", PStr ROLE_NAME);
       ("PolicyArn", policy_arn)]) ;;;
     ret tt)
    (fun e =>
       attempt
         (invoke (delete_policy_call policy_arn) ;;;
          invoke (delete_role_call ROLE_NAME) ;;;
          ret tt) ;;;
       exit 1) ;;;
  (* Step 4: Wait for role to propagate using waiter *)
  try_except
    (waiter <-
       invoke (extern "iam_client.get_waiter" [PStr "role_exists"] []) ;;
     invoke (extern "waiter.wait" [] [("RoleName", PStr ROLE_NAME)]) ;;;
     ret tt)
    (fun e => ask (time_sleep 10) ;;; ret tt) ;;;
  (* Save configuration *)
  let config := PDict [
    ("role_name", PStr ROLE_NAME);
    ("role_arn", role_arn);
    ("policy_name", PStr POLICY_NAME);
    ("policy_arn", policy_arn);
    ("region", PStr REGION)] in
  invoke (json_dump "runtime_execution_role_config.json" config) ;;;
  ret tt.

End RuntimeExecutionRole.

End generated.
(** ** The standalone scripts *)

(** *** 09_create_gateway_role.py *)

Module create_gateway_role.
Section Main.
Context `{PyRuntime}.
Local Open Scope script_scope.

(* Configuration *)
Definition REGION : string := "us-west-2".
Definition ROLE_NAME : string := "ReturnsAgentGatewayRole".
Definition POLICY_NAME : string := "ReturnsAgentGatewayPolicy".

(** Trust policy - allows AgentCore Gateway service to assume this role *)
Definition trust_policy : pyval :=
  PDict [
    ("Version", PStr "2012-10-17");
    ("Statement", PList [
      PDict [
        ("Effect", PStr "Allow");
        ("Principal", PDict [
          ("Service", PStr "bedrock-agentcore.amazonaws.com")]);
        ("Action", PStr "sts:AssumeRole")]])].

(** Policy document - grants permissions to invoke Lambda functions *)
Definition policy_document (account_id : pyval) : pyval :=
  PDict [
    ("Version", PStr "2012-10-17");
    ("Statement", PList [
      PDict [
        ("Sid", PStr "InvokeLambdaFunctions");
        ("Effect", PStr "Allow");
        ("Action", PList [PStr "lambda:InvokeFunction"]);
        ("Resource", PList [
          PStr ("arn:aws:lambda:" ++ REGION ++ ":" ++ str account_id
                ++ ":function:*")])];
      PDict [
        ("Sid", PStr "CloudWatchLogs");
        ("Effect", PStr "Allow");
        ("Action", PList [
          PStr "logs:CreateLogGroup";
          PStr "logs:CreateLogStream";
          PStr "logs:PutLogEvents"]);
        ("Resource", PList [
          PStr ("arn:aws:logs:" ++ REGION ++ ":" ++ str account_id
                ++ ":log-group:/aws/bedrock-agentcore/gateways/*")])]])].

(** [role_response['Role']['Arn']] and [policy_response['Policy']['Arn']] *)
Definition arn_of (response : pyval) (kind : string) : script pyval :=
  resource <- eval (getitem response kind) ;;
  eval (getitem resource "Arn").

(** The calls of steps 1 and 2. *)
Definition create_role_call : call (result pyval) :=
  extern "iam_client.create_role" [] [
    ("RoleName", PStr ROLE_NAME);
    ("AssumeRolePolicyDocument", PStr (json_dumps None trust_policy));
    ("Description",
     PStr "IAM role for AgentCore Gateway to invoke Lambda functions and access AWS services");
    ("MaxSessionDuration", PInt 3600)].

Definition get_role_call : call (result pyval) :=
  extern "iam_client.get_role" [] [("RoleName", PStr ROLE_NAME)].

Definition create_policy_call (account_id : pyval) : call (result pyval) :=
  extern "iam_client.create_policy" [] [
    ("PolicyName", PStr POLICY_NAME);
    ("PolicyDocument", PStr (json_dumps None (policy_document account_id)));
    ("Description",
     PStr "Policy for AgentCore Gateway to invoke Lambda functions")].

(** Step 1: the role is created, or looked up by name when it exists. *)
Definition create_or_get_role : script pyval :=
  try_except_class "EntityAlreadyExistsException"
    (role_response <- invoke create_role_call ;;
     arn_of role_response "Role")
    (role_response <- invoke get_role_call ;;
     arn_of role_response "Role").

(** Step 2: the policy is created; when it exists its ARN is put together
    from the account and the policy name. *)
Definition create_or_name_policy (account_id : pyval) : script pyval :=
  try_except_class "EntityAlreadyExistsException"
    (policy_response <- invoke (create_policy_call account_id) ;;
     arn_of policy_response "Policy")
    (ret (PStr ("arn:aws:iam::" ++ str account_id ++ ":policy/"
                ++ POLICY_NAME))).

(** The config of step 4. *)
Definition role_config (role_arn policy_arn account_id : pyval) : pyval :=
  PDict [
    ("role_arn", role_arn);
    ("role_name", PStr ROLE_NAME);
    ("policy_arn", policy_arn);
    ("policy_name", PStr POLICY_NAME);
    ("region", PStr REGION);
    ("account_id", account_id)].

Definition main : script unit :=
  (* Initialize IAM and STS clients *)
  iam_client <- invoke (extern "boto3.client" [PStr "iam"] []) ;;
  sts_client <- invoke (extern "boto3.client" [PStr "sts"] []) ;;
  try_except
    ((* Get AWS account ID *)
     identity <- invoke (extern "sts_client.get_caller_identity" [] []) ;;
     account_id <- eval (getitem identity "Account") ;;
     (* Step 1: Create IAM Role with trust policy for AgentCore Gateway *)
     role_arn <- create_or_get_role ;;
     (* Step 2: Create IAM Policy with Lambda invoke permissions *)
     policy_arn <- create_or_name_policy account_id ;;
     (* Step 3: Attach policy to role *)
     try_except_class "LimitExceededException"
       (invoke (extern "iam_client.attach_role_policy" [] [
          ("RoleName", PStr ROLE_NAME);
          ("PolicyArn", policy_arn)]) ;;;
        ret tt)
       (ret tt) ;;;
     (* Wait for IAM propagation *)
     ask (time_sleep 10) ;;;
     (* Step 4: Save configuration *)
     let config := role_config role_arn policy_arn account_id in
     invoke (json_dump "gateway_role_config.json" config) ;;;
     ret tt)
    (fun e => exit 1).

End Main.
End create_gateway_role.

(** *** 11_create_gateway.py *)

Module create_gateway.
Local Open Scope script_scope.

Definition main : script unit :=
  (* Load configuration *)
  cognito_config <-
    try_except_class "FileNotFoundError"
      (cognito_config <- invoke (json_load "cognito_config.json") ;;
       (* print: cognito_config['client_id'], cognito_config['discovery_url'] *)
       eval (getitem cognito_config "client_id") ;;;
       eval (getitem cognito_config "discovery_url") ;;;
       ret cognito_config)
      (exit 1) ;;
  role_config <-
    try_except_class "FileNotFoundError"
      (role_config <- invoke (json_load "gateway_role_config.json") ;;
       (* print: role_config['role_arn'] *)
       eval (getitem role_config "role_arn") ;;;
       ret role_config)
      (exit 1) ;;
  (* Initialize AgentCore control plane client *)
  gateway_client <-
    invoke (extern "boto3.client" [PStr "bedrock-agentcore-control"]
                   [("region_name", PStr "us-west-2")]) ;;
  (* Build auth configuration for Cognito JWT *)
  client_id <- eval (getitem cognito_config "client_id") ;;
  discovery_url <- eval (getitem cognito_config "discovery_url") ;;
  let auth_config :=
    PDict [("customJWTAuthorizer", PDict [
      ("allowedClients", PList [client_id]);
      ("discoveryUrl", discovery_url)])] in
  (* Create gateway *)
  created <-
    try_except
      (role_arn <- eval (getitem role_config "role_arn") ;;
       create_response <-
         invoke (extern "gateway_client.create_gateway" [] [
           ("name", PStr "ReturnsRefundsGateway");
           ("roleArn", role_arn);
           ("protocolType", PStr "MCP");
           ("authorizerType", PStr "CUSTOM_JWT");
           ("authorizerConfiguration", auth_config);
           ("description",
            PStr "Gateway for Returns and Refunds Agent with order lookup capabilities")]) ;;
       (* Extract gateway details *)
       gateway_id <- eval (getitem create_response "gatewayId") ;;
       gateway_url <- eval (getitem create_response "gatewayUrl") ;;
       gateway_arn <- eval (getitem create_response "gatewayArn") ;;
       ret (gateway_id, gateway_url, gateway_arn))
      (fun e => exit 1) ;;
  let '(gateway_id, gateway_url, gateway_arn) := created in
  (* Save gateway config *)
  cognito_client_id <- eval (getitem cognito_config "client_id") ;;
  cognito_client_secret <- eval (getitem cognito_config "client_secret") ;;
  token_endpoint <- eval (getitem cognito_config "token_endpoint") ;;
  let config := PDict [
    ("id", gateway_id);
    ("gateway_id", gateway_id);
    ("gateway_url", gateway_url);
    ("gateway_arn", gateway_arn);
    ("name", PStr "ReturnsRefundsGateway");
    ("region", PStr "us-west-2");
    ("cognito_client_id", cognito_client_id);
    ("cognito_client_secret", cognito_client_secret);
    ("token_endpoint", token_endpoint)] in
  invoke (json_dump "gateway_config.json" config) ;;;
  ret tt.

End create_gateway.

(** *** 12_add_lambda_to_gateway.py *)

Module add_lambda_to_gateway.
Local Open Scope script_scope.

(** The loop over [lambda_config.get('sample_orders', [])] only prints. *)
Definition main : script unit :=
  (* Load gateway configuration *)
  gateway_config <-
    try_except_class "FileNotFoundError"
      (gateway_config <- invoke (json_load "gateway_config.json") ;;
       (* print: gateway_config['gateway_id'] *)
       eval (getitem gateway_config "gateway_id") ;;;
       ret gateway_config)
      (exit 1) ;;
  lambda_config <-
    try_except_class "FileNotFoundError"
      (lambda_config <- invoke (json_load "lambda_config.json") ;;
       (* print: lambda_config['function_arn'], len(lambda_config['tool_schema']) *)
       eval (getitem lambda_config "function_arn") ;;;
       schema <- eval (getitem lambda_config "tool_schema") ;;
       eval (len schema) ;;;
       ret lambda_config)
      (exit 1) ;;
  (* Initialize AgentCore control plane client *)
  gateway_client <-
    invoke (extern "boto3.client" [PStr "bedrock-agentcore-control"]
                   [("region_name", PStr "us-west-2")]) ;;
  (* Extract Lambda details *)
  lambda_arn <- eval (getitem lambda_config "function_arn") ;;
  tool_schema <- eval (getitem lambda_config "tool_schema") ;;
  (* Build Lambda target configuration with MCP protocol *)
  let lambda_target_config :=
    PDict [("mcp", PDict [("lambda", PDict [
      ("lambdaArn", lambda_arn);
      ("toolSchema", PDict [("inlinePayload", tool_schema)])])])] in
  (* Use gateway's IAM role for Lambda invocation *)
  let credential_config :=
    PList [PDict [("credentialProviderType", PStr "GATEWAY_IAM_ROLE")]] in
  (* print: gateway_config['gateway_id'], tool_schema[0]['name'] *)
  eval (getitem gateway_config "gateway_id") ;;;
  first_tool <- eval (getitem_0 tool_schema) ;;
  eval (getitem first_tool "name") ;;;
  (* Create target *)
  target_id <-
    try_except
      (gateway_id <- eval (getitem gateway_config "gateway_id") ;;
       create_response <-
         invoke (extern "gateway_client.create_gateway_target" [] [
           ("gatewayIdentifier", gateway_id);
           ("name", PStr "OrderLookup");
           ("description",
            PStr "Lambda target for looking up order details and return eligibility");
           ("targetConfiguration", lambda_target_config);
           ("credentialProviderConfigurations", credential_config)]) ;;
       eval (getitem create_response "targetId"))
      (fun e => exit 1) ;;
  (* Update gateway config with target info *)
  gateway_config <- eval (setitem gateway_config "target_id" target_id) ;;
  gateway_config <-
    eval (setitem gateway_config "target_name" (PStr "OrderLookup")) ;;
  gateway_config <- eval (setitem gateway_config "lambda_arn" lambda_arn) ;;
  invoke (json_dump "gateway_config.json" gateway_config) ;;;
  (* Summary: print gateway_config['gateway_id'] and the sample orders *)
  eval (getitem gateway_config "gateway_id") ;;;
  sample_orders <- eval (get lambda_config "sample_orders" (PList [])) ;;
  eval (iter sample_orders) ;;;
  ret tt.

End add_lambda_to_gateway.

(** *** 21_invoke_agent.py *)

Module invoke_agent.
Section Main.
Context `{PyRuntime}.
Local Open Scope script_scope.

Definition main : script unit :=
  (* Load configuration files *)
  cognito_config <- invoke (json_load "cognito_config.json") ;;
  runtime_role_config <-
    invoke (json_load "runtime_execution_role_config.json") ;;
  (* Step 1: Get OAuth token from Cognito *)
  (* Prepare client credentials for Basic Auth *)
  client_id <- eval (getitem cognito_config "client_id") ;;
  client_secret <- eval (getitem cognito_config "client_secret") ;;
  let credentials := str client_id ++ ":" ++ str client_secret in
  let encoded_credentials := b64encode credentials in
  (* Request token using client credentials flow *)
  token_endpoint <- eval (getitem cognito_config "token_endpoint") ;;
  let headers := [
    ("Authorization", PStr ("Basic " ++ encoded_credentials));
    ("Content-Type", PStr "application/x-www-form-urlencoded")] in
  (* Request all scopes *)
  scope_list <- eval (getitem cognito_config "scopes") ;;
  scopes <- eval (join " " scope_list) ;;
  let data := [
    ("grant_type", PStr "client_credentials");
    ("scope", PStr scopes)] in
  response <- invoke (requests_post token_endpoint headers data) ;;
  if negb (Z.eqb (status_code response) 200) then exit 1 else
  token_data <- eval (json response) ;;
  bearer_token <- eval (getitem token_data "access_token") ;;
  (* Step 2: Initialize Runtime and configure *)
  runtime <- invoke (extern "Runtime" [] []) ;;
  (* Build authorizer configuration *)
  allowed_client <- eval (getitem cognito_config "client_id") ;;
  discovery_url <- eval (getitem cognito_config "discovery_url") ;;
  let auth_config :=
    PDict [("customJWTAuthorizer", PDict [
      ("allowedClients", PList [allowed_client]);
      ("discoveryUrl", discovery_url)])] in
  role_arn <- eval (getitem runtime_role_config "role_arn") ;;
  invoke (extern "runtime.configure" [] [
    ("entrypoint", PStr "17_runtime_agent.py");
    ("agent_name", PStr "returns_refunds_agent");
    ("execution_role", role_arn);
    ("authorizer_configuration", auth_config);
    ("auto_create_ecr", PBool true);
    ("memory_mode", PStr "NO_MEMORY");
    ("requirements_file", PStr "requirements.txt");
    ("region", PStr "us-west-2")]) ;;;
  (* Step 3: Invoke the agent *)
  let payload := PDict [
    ("prompt",
     PStr "Can you look up my order ORD-001 and help me with a return?");
    ("actor_id", PStr "user_001")] in
  try_except
    (invoke (extern "runtime.invoke" [] [
       ("payload", payload);
       ("bearer_token", bearer_token)]) ;;;
     ret tt)
    (fun e => exit 1).

End Main.
End invoke_agent.


(** *** 08_create_cognito.py *)

Module create_cognito.
Section Main.
Context `{PyRuntime}.
Local Open Scope script_scope.

(* Configuration *)
Definition REGION : string := "us-west-2".
Definition USER_POOL_NAME : string := "ReturnsAgentGatewayPool".
Definition RESOURCE_SERVER_IDENTIFIER : string := "returns-agent-api".
Definition RESOURCE_SERVER_NAME : string := "Returns Agent API".

(** [f"returns-agent-{secrets.token_hex(4)}"] *)
Definition domain_prefix_of (token : pyval) : string :=
  "returns-agent-" ++ str token.

(** [try: p  except cognito_client.exceptions.InvalidParameterException as
    e: if phrase in str(e): (print) else: raise] *)
Definition unless_exists (phrase : string) (p : script unit) : script unit :=
  try_except p (fun e =>
    if String.eqb (exn_class e) "InvalidParameterException" then
      if str_in phrase (exn_msg e) then ret tt else raise e
    else raise e).

(** [v[:20]]: a str or a list has slices; a dict has no slice among its
    keys (TypeError before Python 3.12, KeyError from then on). *)
Definition slice_20 (v : pyval) : result unit :=
  match v with
  | PStr _ | PList _ => Ok tt
  | PDict _ => Raise (TypeError "unhashable type: 'slice'")
  | _ => Raise (TypeError ("'" ++ type_name v ++ "' object is not subscriptable"))
  end.

Definition create_user_pool_call : call (result pyval) :=
  extern "cognito_client.create_user_pool" [] [
    ("PoolName", PStr USER_POOL_NAME);
    ("Policies", PDict [
      ("PasswordPolicy", PDict [
        ("MinimumLength", PInt 8);
        ("RequireUppercase", PBool false);
        ("RequireLowercase", PBool false);
        ("RequireNumbers", PBool false);
        ("RequireSymbols", PBool false)])]);
    ("AutoVerifiedAttributes", PList []);
    ("Schema", PList [
      PDict [
        ("Name", PStr "email");
        ("AttributeDataType", PStr "String");
        ("Required", PBool false);
        ("Mutable", PBool true)]])].

Definition create_user_pool_domain_call (DOMAIN_PREFIX : string)
    (user_pool_id : pyval) : call (result pyval) :=
  extern "cognito_client.create_user_pool_domain" [] [
    ("Domain", PStr DOMAIN_PREFIX);
    ("UserPoolId", user_pool_id)].

Definition create_resource_server_call (user_pool_id : pyval)
  : call (result pyval) :=
  extern "cognito_client.create_resource_server" [] [
    ("UserPoolId", user_pool_id);
    ("Identifier", PStr RESOURCE_SERVER_IDENTIFIER);
    ("Name", PStr RESOURCE_SERVER_NAME);
    ("Scopes", PList [
      PDict [
        ("ScopeName", PStr "read");
        ("ScopeDescription", PStr "Read access to returns agent")];
      PDict [
        ("ScopeName", PStr "write");
        ("ScopeDescription", PStr "Write access to returns agent")]])].

Definition oauth_scopes : pyval :=
  PList [PStr (RESOURCE_SERVER_IDENTIFIER ++ "/read");
         PStr (RESOURCE_SERVER_IDENTIFIER ++ "/write")].

Definition create_user_pool_client_call (user_pool_id : pyval)
  : call (result pyval) :=
  extern "cognito_client.create_user_pool_client" [] [
    ("UserPoolId", user_pool_id);
    ("ClientName", PStr "ReturnsAgentGatewayClient");
    ("GenerateSecret", PBool true);
    ("ExplicitAuthFlows", PList []);
    ("AllowedOAuthFlows", PList [PStr "client_credentials"]);
    ("AllowedOAuthScopes", oauth_scopes);
    ("AllowedOAuthFlowsUserPoolClient", PBool true);
    ("SupportedIdentityProviders", PList [])].

Definition describe_user_pool_client_call (user_pool_id client_id : pyval)
  : call (result pyval) :=
  extern "cognito_client.describe_user_pool_client" [] [
    ("UserPoolId", user_pool_id);
    ("ClientId", client_id)].

(** Token endpoint (for getting access tokens) *)
Definition token_endpoint_of (DOMAIN_PREFIX : string) : string :=
  "https://" ++ DOMAIN_PREFIX ++ ".auth." ++ REGION
  ++ ".amazoncognito.com/oauth2/token".

(** IDP-based discovery URL *)
Definition discovery_url_of (user_pool_id : pyval) : string :=
  "https://cognito-idp." ++ REGION ++ ".amazonaws.com/" ++ str user_pool_id
  ++ "/.well-known/openid-configuration".

(** The configuration of step 7. *)
Definition cognito_config (DOMAIN_PREFIX : string)
    (user_pool_id client_id client_secret : pyval) : pyval :=
  PDict [
    ("user_pool_id", user_pool_id);
    ("domain_prefix", PStr DOMAIN_PREFIX);
    ("client_id", client_id);
    ("client_secret", client_secret);
    ("token_endpoint", PStr (token_endpoint_of DOMAIN_PREFIX));
    ("discovery_url", PStr (discovery_url_of user_pool_id));
    ("region", PStr REGION);
    ("resource_server_identifier", PStr RESOURCE_SERVER_IDENTIFIER);
    ("scopes", oauth_scopes)].

Definition main : script unit :=
  (* Configuration *)
  token <- invoke (extern "secrets.token_hex" [PInt 4] []) ;;
  let DOMAIN_PREFIX := domain_prefix_of token in
  (* Initialize Cognito client *)
  cognito_client <-
    invoke (extern "boto3.client" [PStr "cognito-idp"]
                   [("region_name", PStr REGION)]) ;;
  try_except
    ((* Step 1: Create User Pool *)
     user_pool_response <- invoke create_user_pool_call ;;
     user_pool <- eval (getitem user_pool_response "UserPool") ;;
     user_pool_id <- eval (getitem user_pool "Id") ;;
     (* Step 2: Create User Pool Domain *)
     unless_exists "Domain already exists"
       (invoke (create_user_pool_domain_call DOMAIN_PREFIX user_pool_id) ;;;
        ret tt) ;;;
     (* Wait for domain to be ready *)
     ask (time_sleep 5) ;;;
     (* Step 3: Create Resource Server with OAuth scopes *)
     unless_exists "already exists"
       (invoke (create_resource_server_call user_pool_id) ;;;
        ret tt) ;;;
     (* Step 4: Create App Client for machine-to-machine authentication *)
     app_client_response <-
       invoke (create_user_pool_client_call user_pool_id) ;;
     app_client <- eval (getitem app_client_response "UserPoolClient") ;;
     client_id <- eval (getitem app_client "ClientId") ;;
     (* Step 5: Get client secret *)
     client_details <-
       invoke (describe_user_pool_client_call user_pool_id client_id) ;;
     client <- eval (getitem client_details "UserPoolClient") ;;
     client_secret <- eval (getitem client "ClientSecret") ;;
     (* Step 7: Save configuration *)
     invoke (json_dump "cognito_config.json"
               (cognito_config DOMAIN_PREFIX user_pool_id client_id
                  client_secret)) ;;;
     (* Summary: print(f"Client Secret: {client_secret[:20]}...") *)
     eval (slice_20 client_secret) ;;;
     ret tt)
    (fun e => exit 1).

End Main.
End create_cognito.
(** ** A runtime for the examples *)

(** A stand-in for CPython's [repr] and [json.dumps] with which the examples
    below are run: compact JSON text, strings printed without escapes, a
    float printed as a placeholder, the [indent] argument ignored.  No
    statement depends on it: they hold for every [PyRuntime]. *)
Fixpoint show (v : pyval) : string :=
  match v with
  | PNone => "null"
  | PBool true => "true"
  | PBool false => "false"
  | PInt z => str_of_int z
  | PFloat _ => "<float>"
  | PStr s => dq ++ s ++ dq
  | PList l =>
      "[" ++ (fix items (l : list pyval) : string :=
                match l with
                | [] => EmptyString
                | [x] => show x
                | x :: l' => show x ++ ", " ++ items l'
                end) l ++ "]"
  | PDict d =>
      "{" ++ (fix members (d : list (string * pyval)) : string :=
                match d with
                | [] => EmptyString
                | [(k, x)] => dq ++ k ++ dq ++ ": " ++ show x
                | (k, x) :: d' =>
                    dq ++ k ++ dq ++ ": " ++ show x ++ ", " ++ members d'
                end) d ++ "}"
  end.

Definition example_runtime : PyRuntime :=
  {| py_repr := show; json_dumps := fun _ => show |}.

(** ** String literals of a Python text *)

(** Python's lexical analysis of string literals and comments (Language
    Reference, 2.1.3 and 2.4.1), as the automaton that finds where literals
    begin and end.  A text in which a line ends inside a ['...'] or ["..."]
    literal, or which ends inside a literal, is not a Python program; this is
    the part of syntactic validity that interpolated values can break.  A
    backslash makes the next character part of the literal, also in a raw
    literal. *)

Module PyLex.

Inductive quote : Type := Single | Double.

Inductive state : Type :=
| Code                (* outside literals and comments *)
| Comment             (* after [#], up to the end of the line *)
| Open1 (q : quote)   (* one quote read: a literal begins *)
| Open2 (q : quote)   (* two quotes read: an empty literal, or the start of
                         a triple-quoted one *)
| Short (q : quote)   (* inside ['...'] or ["..."] *)
| ShortEsc (q : quote)
| Long (q : quote)    (* inside a triple-quoted literal *)
| LongEsc (q : quote)
| Long1 (q : quote)   (* inside it, one closing quote read *)
| Long2 (q : quote)   (* inside it, two closing quotes read *)
| Broken.             (* a line ended inside a short literal *)

Definition quote_of (c : ascii) : option quote :=
  if Ascii.eqb c "'" then Some Single
  else if Ascii.eqb c dq_char then Some Double
  else None.

Definition quote_eqb (p q : quote) : bool :=
  match p, q with
  | Single, Single | Double, Double => true
  | _, _ => false
  end.

Definition is_quote (q : quote) (c : ascii) : bool :=
  match quote_of c with
  | Some p => quote_eqb p q
  | None => false
  end.

Definition is_backslash (c : ascii) : bool := Ascii.eqb c backslash_char.

(** Line feed and carriage return end a line. *)
Definition is_eol (c : ascii) : bool :=
  Ascii.eqb c lf_char || Ascii.eqb c cr_char.

Definition step_code (c : ascii) : state :=
  if Ascii.eqb c "#" then Comment
  else match quote_of c with
       | Some q => Open1 q
       | None => Code
       end.

Definition step_short (q : quote) (c : ascii) : state :=
  if is_quote q c then Code
  else if is_backslash c then ShortEsc q
  else if is_eol c then Broken
  else Short q.

Definition step (st : state) (c : ascii) : state :=
  match st with
  | Code => step_code c
  | Comment => if is_eol c then Code else Comment
  | Open1 q =>
      if is_quote q c then Open2 q else step_short q c
  | Open2 q =>
      if is_quote q c then Long q else step_code c
  | Short q => step_short q c
  | ShortEsc q => Short q
  | Long q =>
      if is_quote q c then Long1 q
      else if is_backslash c then LongEsc q else Long q
  | LongEsc q => Long q
  | Long1 q =>
      if is_quote q c then Long2 q
      else if is_backslash c then LongEsc q else Long q
  | Long2 q =>
      if is_quote q c then Code
      else if is_backslash c then LongEsc q else Long q
  | Broken => Broken
  end.

Fixpoint scan (st : state) (s : string) : state :=
  match s with
  | EmptyString => st
  | String c s' => scan (step st c) s'
  end.

(** The text may end here. *)
Definition closed (st : state) : bool :=
  match st with
  | Code | Comment | Open2 _ => true
  | _ => false
  end.

(** Every string literal of the text ends, and ends on its line unless it is
    triple-quoted. *)
Definition literals_closed (text : string) : bool := closed (scan Code text).

(** A character that can stand inside any string literal without ending or
    escaping anything. *)
Definition plain_char (c : ascii) : bool :=
  match quote_of c with
  | Some _ => false
  | None => negb (is_backslash c) && negb (is_eol c)
  end.

Fixpoint plain (s : string) : bool :=
  match s with
  | EmptyString => true
  | String c s' => plain_char c && plain s'
  end.

End PyLex.

(** ** Vocabulary of the statements *)

(** Two characters that are the same letter: equal, or an ASCII capital and
    its small letter. *)
Definition same_letter (a b : ascii) : Prop :=
  a = b
  \/ (is_upper a = true /\ N_of_ascii b = (N_of_ascii a + 32)%N)
  \/ (is_upper b = true /\ N_of_ascii a = (N_of_ascii b + 32)%N).

(** Two strs that differ at most in letter case. *)
Inductive case_variant : string -> string -> Prop :=
| case_variant_nil : case_variant EmptyString EmptyString
| case_variant_cons (a b : ascii) (s t : string) :
    same_letter a b -> case_variant s t ->
    case_variant (String a s) (String b t).

(** The strategy names the lookup of [handle_memory_create] knows, with the
    key each one is wrapped under. *)
Definition strategy_keys : list (string * string) := [
  ("summary", "summaryMemoryStrategy");
  ("preferences", "userPreferenceMemoryStrategy");
  ("semantic", "semanticMemoryStrategy")
].


(** A strategy mapping whose ["name"], when it has one, is a str. *)
Definition strategy_mapping (strategy : pyval) : Prop :=
  exists d, strategy = PDict d /\
    (lookup "name" d = None \/ exists s, lookup "name" d = Some (PStr s)).

(** The name of a strategy mapping; a mapping without ["name"] has the empty
    name. *)
Definition strategy_name (strategy : pyval) : string :=
  match strategy with
  | PDict d =>
      match lookup "name" d with
      | Some (PStr s) => s
      | _ => EmptyString
      end
  | _ => EmptyString
  end.

(** What a handler is said to return: a dict with exactly the keys [code],
    [filename] and [instructions], in this order, each one a str. *)
Definition script_payload (v : pyval) : Prop :=
  exists code filename instructions,
    v = PDict [("code", PStr code);
               ("filename", PStr filename);
               ("instructions", PStr instructions)].

Definition returns_script_payload (r : result pyval) : Prop :=
  exists v, r = Ok v /\ script_payload v.

(** [sub] occurs in [s]. *)
Definition occurs_in (sub s : string) : Prop :=
  exists before after, s = before ++ sub ++ after.

(** The handlers of the four handler modules, by name. *)
Definition handlers `{PyRuntime} : list (string * (dict -> result pyval)) := [
  ("handle_create_runtime_execution_role_script",
   identity_handlers.handle_create_runtime_execution_role_script);
  ("handle_memory_create", memory_handlers.handle_memory_create);
  ("handle_memory_create_event", memory_handlers.handle_memory_create_event);
  ("handle_memory_retrieve", memory_handlers.handle_memory_retrieve);
  ("handle_memory_delete", memory_handlers.handle_memory_delete);
  ("handle_gateway_create", gateway_handlers.handle_gateway_create);
  ("handle_gateway_add_lambda_target",
   gateway_handlers.handle_gateway_add_lambda_target);
  ("handle_gateway_list_targets", gateway_handlers.handle_gateway_list_targets);
  ("handle_gateway_delete_target",
   gateway_handlers.handle_gateway_delete_target);
  ("handle_gateway_delete", gateway_handlers.handle_gateway_delete);
  ("handle_runtime_configure", runtime_handlers.handle_runtime_configure);
  ("handle_runtime_launch", runtime_handlers.handle_runtime_launch);
  ("handle_runtime_status", runtime_handlers.handle_runtime_status);
  ("handle_runtime_invoke", runtime_handlers.handle_runtime_invoke);
  ("handle_runtime_delete", runtime_handlers.handle_runtime_delete);
  ("handle_observability_get_dashboard_url",
   observability_handlers.handle_observability_get_dashboard_url);
  ("handle_observability_get_logs_info",
   observability_handlers.handle_observability_get_logs_info);
  ("handle_observability_get_recent_logs",
   observability_handlers.handle_observability_get_recent_logs)
].

(** An input of the gateway-create tool whose [name] holds a double quote. *)
Definition quoted_name_args : dict := [
  ("name", PStr ("my" ++ dq ++ "gateway"));
  ("role_arn", PStr "arn:aws:iam::123456789012:role/GatewayRole");
  ("cognito_client_id", PStr "3n4b5urk1ft4fl3mg5e62d9ado");
  ("cognito_discovery_url",
   PStr "https://cognito-idp.us-west-2.amazonaws.com/us-west-2_AbCdEf/.well-known/openid-configuration");
  ("protocol_type", PStr "MCP");
  ("authorizer_type", PStr "CUSTOM_JWT");
  ("description", PStr "Orders gateway");
  ("region", PStr "us-west-2")
].

(** The file is not there: [os.path.exists] says no, whenever it is asked. *)
Definition absent (w : world) (path : string) : Prop :=
  forall h, w bool h (os_path_exists path) = false.

(** *** Reading the trace of the gateway-delete script *)

Definition is_list_targets : entry -> bool :=
  is_callee "gateway_client.list_gateway_targets".
Definition is_delete_target : entry -> bool :=
  is_callee "gateway_client.delete_gateway_target".
Definition is_delete_gateway : entry -> bool :=
  is_callee "gateway_client.delete_gateway".

(** The answer of a call to boto3 or the toolkit. *)
Definition answer_of (e : entry) : option (result pyval) :=
  match e with
  | Called c x =>
      match c in call X return X -> option (result pyval) with
      | extern _ _ _ => fun r => Some r
      | _ => fun _ => None
      end x
  end.

(** A target as the service lists it: a dict with a [targetId]. *)
Definition target_shaped (v : pyval) : bool :=
  match v with
  | PDict d =>
      match lookup "targetId" d with
      | Some _ => true
      | None => false
      end
  | _ => false
  end.

(** A listing that was answered with a response without items: it confirms
    that no target is left. *)
Definition confirms_empty (e : entry) : bool :=
  is_list_targets e &&
  match answer_of e with
  | Some (Ok (PDict d)) => negb (truthy (dict_get d "items" (PList [])))
  | _ => false
  end.

(** A world for the gateway-delete script: the config file is there and
    names a gateway, the first listing shows one target, its deletion
    succeeds, and the listing that is to verify the deletion fails with a
    throttling error. *)
Definition throttled_world : world :=
  fun X h c =>
    match c in call X return X with
    | os_path_exists _ => true
    | json_load _ => Ok (PDict [("gateway_id", PStr "gw-1")])
    | json_dump _ _ => Ok tt
    | extern f _ _ =>
        if String.eqb f "gateway_client.list_gateway_targets" then
          if existsb is_list_targets h then
            Raise (Exn "ThrottlingException" "Rate exceeded")
          else
            Ok (PDict [("items",
                        PList [PDict [("targetId", PStr "T1");
                                      ("name", PStr "OrderLookup")]])])
        else Ok (PDict [])
    | time_sleep _ => tt
    | requests_post _ _ _ => Raise (Exn "ConnectionError" "unreachable")
    end.

(** *** Worlds for the examples *)

(** A world given by the JSON files on disk, the answers of boto3 and the
    toolkit, and the answer of the token endpoint.  Writing a file succeeds
    and leaves the files as they are. *)
Definition simple_world
    (files : dict)
    (api : string -> list pyval -> dict -> result pyval)
    (post : pyval -> dict -> dict -> result response) : world :=
  fun X h c =>
    match c in call X return X with
    | os_path_exists p =>
        match lookup p files with
        | Some _ => true
        | None => false
        end
    | json_load p =>
        match lookup p files with
        | Some v => Ok v
        | None =>
            Raise (Exn "FileNotFoundError"
                       ("[Errno 2] No such file or directory: '" ++ p ++ "'"))
        end
    | json_dump _ _ => Ok tt
    | extern f args kwargs => api f args kwargs
    | time_sleep _ => tt
    | requests_post url headers data => post url headers data
    end.

Definition no_post (url : pyval) (headers data : dict) : result response :=
  Raise (Exn "ConnectionError" "unreachable").

Definition example_cognito_config : pyval :=
  PDict [
    ("client_id", PStr "3n4b5urk1ft4fl3mg5e62d9ado");
    ("client_secret", PStr "s3cr3t");
    ("token_endpoint",
     PStr "https://returns.auth.us-west-2.amazoncognito.com/oauth2/token");
    ("discovery_url",
     PStr "https://cognito-idp.us-west-2.amazonaws.com/us-west-2_AbCdEf/.well-known/openid-configuration");
    ("scopes", PList [PStr "agentcore-gateway/read";
                      PStr "agentcore-gateway/write"])
  ].

Definition example_role_config : pyval :=
  PDict [("role_arn", PStr "arn:aws:iam::123456789012:role/GatewayRole")].

Definition example_gateway_config : pyval :=
  PDict [
    ("id", PStr "gw-1");
    ("gateway_id", PStr "gw-1");
    ("gateway_url", PStr "https://gw-1.gateway.example/mcp");
    ("gateway_arn", PStr "arn:aws:bedrock-agentcore:us-west-2:123456789012:gateway/gw-1")
  ].

(** The gateway exists already: [create_gateway] answers with the conflict
    error of the service; every other call succeeds. *)
Definition gateway_exists_world : world :=
  simple_world
    [("cognito_config.json", example_cognito_config);
     ("gateway_role_config.json", example_role_config)]
    (fun f _ _ =>
       if String.eqb f "gateway_client.create_gateway" then
         Raise (Exn "ConflictException"
                    "An error occurred (ConflictException) when calling the CreateGateway operation: A gateway with this name already exists")
       else Ok (PDict []))
    no_post.

(** The gateway config is on disk and the service creates the target. *)
Definition target_created_world : world :=
  simple_world
    [("gateway_config.json", example_gateway_config)]
    (fun f _ _ =>
       if String.eqb f "gateway_client.create_gateway_target" then
         Ok (PDict [("targetId", PStr "T1")])
       else Ok (PDict []))
    no_post.

(** The error with which IAM refuses to create what exists. *)
Definition already_exists (e : exn) : Prop :=
  exn_class e = "EntityAlreadyExistsException".

(** The token endpoint grants the token "tok-123"; the config files of the
    invoke script are on disk and the toolkit answers every call. *)
Definition token_granted_world : world :=
  simple_world
    [("cognito_config.json", example_cognito_config);
     ("runtime_execution_role_config.json",
      PDict [("role_arn",
              PStr "arn:aws:iam::123456789012:role/RuntimeRole")])]
    (fun _ _ _ => Ok (PDict [("response", PStr "Your order is on its way.")]))
    (fun _ _ _ =>
       Ok (Response 200 "{...}"
             (Ok (PDict [("access_token", PStr "tok-123");
                         ("token_type", PStr "Bearer")])))).

(** *** Inputs for the examples *)

Definition example_strategies : list pyval := [
  PDict [("name", PStr "summary");
         ("namespaces", PList [PStr "app/{actorId}/{sessionId}/summary"])];
  PDict [("name", PStr "Preferences");
         ("namespaces", PList [PStr "app/{actorId}/preferences"])];
  PDict [("name", PStr "SEMANTIC");
         ("namespaces", PList [PStr "app/{actorId}/semantic"])];
  PDict [("name", PStr "episodic")];
  PDict [("namespaces", PList [PStr "app/{actorId}/other"])]
].

Definition example_memory_args : dict := [
  ("name", PStr "support memory");
  ("strategies", PList example_strategies);
  ("description", PStr "Memory of the support agent");
  ("region", PStr "us-west-2")
].

Definition example_gateway_args : dict := [
  ("name", PStr "Returns Gateway");
  ("role_arn", PStr "arn:aws:iam::123456789012:role/GatewayRole");
  ("cognito_client_id", PStr "3n4b5urk1ft4fl3mg5e62d9ado");
  ("cognito_discovery_url",
   PStr "https://cognito-idp.us-west-2.amazonaws.com/us-west-2_AbCdEf/.well-known/openid-configuration");
  ("description", PStr "Gateway of the returns agent")
].

Definition example_retrieve_args (relevance_score : pyval) : dict := [
  ("memory_id", PStr "support_memory-ABC123");
  ("namespace", PStr "app/user_001/preferences");
  ("query", PStr "user preferences and settings");
  ("top_k", PInt 5);
  ("relevance_score", relevance_score);
  ("region", PStr "us-west-2")
].

(** No config file is on disk; every call to a service would succeed. *)
Definition empty_disk_world : world :=
  simple_world [] (fun _ _ _ => Ok (PDict [])) no_post.

(** The role and the policy of the gateway exist already. *)
Definition role_exists_world : world :=
  simple_world []
    (fun f _ _ =>
       if String.eqb f "iam_client.create_role"
          || String.eqb f "iam_client.create_policy" then
         Raise (Exn "EntityAlreadyExistsException"
                    "An error occurred (EntityAlreadyExists) when calling the operation: the entity already exists")
       else if String.eqb f "iam_client.get_role" then
         Ok (PDict [("Role", PDict [
           ("RoleName", PStr "ReturnsAgentGatewayRole");
           ("Arn",
            PStr "arn:aws:iam::123456789012:role/ReturnsAgentGatewayRole")])])
       else if String.eqb f "sts_client.get_caller_identity" then
         Ok (PDict [("Account", PStr "123456789012")])
       else Ok (PDict []))
    no_post.

(** Gateway and Lambda configs are on disk and the service creates the
    target. *)
Definition lambda_attached_world : world :=
  simple_world
    [("gateway_config.json", example_gateway_config);
     ("lambda_config.json",
      PDict [("function_name", PStr "OrderLookupFunction");
             ("function_arn",
              PStr "arn:aws:lambda:us-west-2:123456789012:function:OrderLookupFunction");
             ("tool_schema",
              PList [PDict [("name", PStr "lookup_order");
                            ("description", PStr "Look up an order")]])])]
    (fun f _ _ =>
       if String.eqb f "gateway_client.create_gateway_target" then
         Ok (PDict [("targetId", PStr "T1")])
       else Ok (PDict []))
    no_post.


(** ** Arguments of the handlers *)

(** Two argument mappings that agree on every key outside [ks]. *)
Definition agree_outside (ks : list string) (a b : dict) : Prop :=
  forall k, ~ In k ks -> lookup k a = lookup k b.

(** The first key of [ks] that the mapping does not have. *)
Fixpoint first_missing (ks : list string) (args : dict) : option string :=
  match ks with
  | [] => None
  | k :: ks' =>
      match lookup k args with
      | Some _ => first_missing ks' args
      | None => Some k
      end
  end.

(** The keys each handler reads with [args[...]], in the order of the
    source. *)
Definition required_keys : list (string * list string) := [
  ("handle_create_runtime_execution_role_script", []);
  ("handle_memory_create", ["name"; "strategies"]);
  ("handle_memory_create_event",
   ["memory_id"; "actor_id"; "session_id"; "messages"]);
  ("handle_memory_retrieve", ["memory_id"; "namespace"; "query"]);
  ("handle_memory_delete", ["memory_id"]);
  ("handle_gateway_create",
   ["name"; "role_arn"; "cognito_client_id"; "cognito_discovery_url"]);
  ("handle_gateway_add_lambda_target",
   ["target_name"; "lambda_arn"; "tool_schema"]);
  ("handle_gateway_list_targets", []);
  ("handle_gateway_delete_target", ["target_id"]);
  ("handle_gateway_delete", []);
  ("handle_runtime_configure",
   ["entrypoint"; "agent_name"; "execution_role"; "cognito_client_id";
    "cognito_discovery_url"]);
  ("handle_runtime_launch", ["env_vars"]);
  ("handle_runtime_status", []);
  ("handle_runtime_invoke", []);
  ("handle_runtime_delete", []);
  ("handle_observability_get_dashboard_url", []);
  ("handle_observability_get_logs_info", ["agent_arn"]);
  ("handle_observability_get_recent_logs", ["agent_arn"])
].

(** The required keys of the handler of that name. *)
Definition required_of (name : string) : list string :=
  match find (fun entry => String.eqb (fst entry) name) required_keys with
  | Some entry => snd entry
  | None => []
  end.

(** The str holds a space. *)
Definition has_space (s : string) : bool := str_in " " s.

(** The str holds one of the letters A-Z. *)
Fixpoint has_capital (s : string) : bool :=
  match s with
  | EmptyString => false
  | String c s' => is_upper c || has_capital s'
  end.

(** Every character of the str is an ASCII one: the strs on which
    [str.lower] changes the letters A-Z and nothing else. *)
Fixpoint is_ascii (s : string) : bool :=
  match s with
  | EmptyString => true
  | String c s' => (N_of_ascii c <? 128)%N && is_ascii s'
  end.

(** The str holds a brace.  Inside an f-string literal a brace opens or
    closes a replacement field. *)
Fixpoint has_brace (s : string) : bool :=
  match s with
  | EmptyString => false
  | String c s' =>
      Ascii.eqb c "{" || Ascii.eqb c "}" || has_brace s'
  end.

(** The [filename] of what a handler returns. *)
Definition filename_of (v : pyval) : option string :=
  match v with
  | PDict d =>
      match lookup "filename" d with
      | Some (PStr s) => Some s
      | _ => None
      end
  | _ => None
  end.

(** *** Inputs for the examples *)

Definition example_event_args (memory_id : pyval) : dict := [
  ("memory_id", memory_id);
  ("actor_id", PStr "user 001");
  ("session_id", PStr "session_001");
  ("messages", PList [PList [PStr "Hello"; PStr "USER"]]);
  ("namespace", PStr "app/user_001/preferences");
  ("query", PStr "preferences")
].

Definition example_target_args (gateway_id : pyval) : dict := [
  ("gateway_id", gateway_id);
  ("target_name", PStr "Order Lookup");
  ("lambda_arn",
   PStr "arn:aws:lambda:us-west-2:123456789012:function:OrderLookup");
  ("tool_schema", PList [PDict [("name", PStr "lookup_order")]]);
  ("target_id", PStr "T1")
].

Definition example_configure_args (execution_role : pyval) : dict := [
  ("entrypoint", PStr "agent_runtime.py");
  ("agent_name", PStr "returns_agent");
  ("execution_role", execution_role);
  ("cognito_client_id", PStr "3n4b5urk1ft4fl3mg5e62d9ado");
  ("cognito_discovery_url", PStr "https://cognito-idp.example/openid")
].

(** ** Vocabulary for the runs of the scripts *)

(** The file is there, whenever [os.path.exists] is asked. *)
Definition present (w : world) (path : string) : Prop :=
  forall h, w bool h (os_path_exists path) = true.

(** [sub] occurs in [s] in some letter case. *)
Definition mentions (s sub : string) : Prop :=
  exists spelled, case_variant spelled sub /\ occurs_in spelled s.

(** The message of the error names, in some letter case, one of the
    [phrases]. *)
Definition says_gone (phrases : list string) (x : exn) : Prop :=
  exists phrase, In phrase phrases /\ mentions (exn_msg x) phrase.

(** The phrases by which the delete scripts recognise a resource that is
    not there. *)
Definition gone_phrases : list string := ["resourcenotfound"; "not found"].
Definition memory_gone_phrases : list string :=
  ["not found"; "does not exist"; "resourcenotfound"].

(** The calls of a run that go to [callee]. *)
Definition calls_to (callee : string) (t : list entry) : list entry :=
  filter (is_callee callee) t.

(** The call went to boto3 or the toolkit. *)
Definition is_extern (e : entry) : bool :=
  match callee_of e with
  | Some _ => true
  | None => false
  end.

(** The str holds the character. *)
Definition has_char (c : ascii) (s : string) : bool :=
  str_in (String c EmptyString) s.

(** The file a [json_load] entry read and what came of it. *)
Definition loaded (e : entry) : option (string * result pyval) :=
  match e with
  | Called c x =>
      match c in call X return X -> option (string * result pyval) with
      | json_load p => fun r => Some (p, r)
      | _ => fun _ => None
      end x
  end.

(** *** What a script can call *)

(** Every call the script can make, whatever the answers, is one that [ok]
    allows. *)
Fixpoint only_calls {A} (ok : forall X, call X -> bool) (p : script A)
  : Prop :=
  match p with
  | Ret _ => True
  | Do c k => ok _ c = true /\ forall x, only_calls ok (k x)
  end.

Definition allowed (ok : forall X, call X -> bool) (e : entry) : bool :=
  match e with
  | Called c _ => ok _ c
  end.

(** Every call but those to the function or method [callee]. *)
Definition not_to (callee : string) (X : Type) (c : call X) : bool :=
  match c with
  | extern f _ _ => negb (String.eqb callee f)
  | _ => true
  end.

(** Calls that read and do not change anything outside the script: the
    test for a file, reading a file, and the listed functions. *)
Definition reads_only (readers : list string) (X : Type) (c : call X)
  : bool :=
  match c with
  | os_path_exists _ => true
  | json_load _ => true
  | extern f _ _ => existsb (String.eqb f) readers
  | json_dump _ _ => false
  | time_sleep _ => false
  | requests_post _ _ _ => false
  end.

(** *** The targets of a gateway *)

(** A deletion that went through or met a target that was gone already. *)
Definition tolerated (e : entry) : bool :=
  match answer_of e with
  | Some (Raise x) => generated.resource_not_found x
  | _ => true
  end.

(** The keyword arguments with which a listed target is deleted. *)
Definition deletion_of (gateway_id target : pyval) : option dict :=
  match getitem target "targetId" with
  | Ok target_id =>
      Some [("gatewayIdentifier", gateway_id); ("targetId", target_id)]
  | Raise _ => None
  end.

(** *** Worlds for the examples *)

(** The config files are on disk, but what they hold is not JSON. *)
Definition corrupt_config_world : world :=
  fun X h c =>
    match c in call X return X with
    | os_path_exists _ => true
    | json_load _ =>
        Raise (Exn "JSONDecodeError"
                   "Expecting value: line 1 column 1 (char 0)")
    | json_dump _ _ => Ok tt
    | extern _ _ _ => Ok (PDict [])
    | time_sleep _ => tt
    | requests_post _ _ _ => Raise (Exn "ConnectionError" "unreachable")
    end.

(** The configs of a memory, a gateway and a runtime are on disk; the
    resources they name are gone: every deletion is answered with the
    "not found" error of the service. *)
Definition resources_gone_world : world :=
  simple_world
    [("memory_config.json",
      PDict [("memory_id", PStr "support_memory-ABC123")]);
     ("gateway_config.json", example_gateway_config);
     ("runtime_config.json",
      PDict [("agent_arn",
              PStr "arn:aws:bedrock-agentcore:us-west-2:123456789012:runtime/returns_agent-XyZ")])]
    (fun f _ _ =>
       if String.eqb f "memory_manager.delete_memory"
          || String.eqb f "gateway_client.delete_gateway_target"
          || String.eqb f "agentcore_client.delete_agent_runtime" then
         Raise (Exn "ResourceNotFoundException"
                    "An error occurred (ResourceNotFoundException) when calling the operation: Resource Not Found")
       else Ok (PDict []))
    no_post.

(** A gateway with two targets; the service refuses to delete targets. *)
Definition deletion_denied_world : world :=
  simple_world
    [("gateway_config.json", example_gateway_config)]
    (fun f _ _ =>
       if String.eqb f "gateway_client.list_gateway_targets" then
         Ok (PDict [("items",
                     PList [PDict [("targetId", PStr "T1");
                                   ("name", PStr "OrderLookup")];
                            PDict [("targetId", PStr "T2")]])])
       else if String.eqb f "gateway_client.delete_gateway_target" then
         Raise (Exn "AccessDeniedException"
                    "User is not authorized to perform: bedrock-agentcore:DeleteGatewayTarget")
       else Ok (PDict []))
    no_post.

(** A gateway with two targets, which the service deletes; the listings
    keep showing them. *)
Definition two_targets_world : world :=
  simple_world
    [("gateway_config.json", example_gateway_config)]
    (fun f _ _ =>
       if String.eqb f "gateway_client.list_gateway_targets" then
         Ok (PDict [("items",
                     PList [PDict [("targetId", PStr "T1");
                                   ("name", PStr "OrderLookup")];
                            PDict [("targetId", PStr "T2")]])])
       else Ok (PDict []))
    no_post.

(** *** Messages *)

(** [m'] is the message [m] with a str content wrapped as
    [[{"text": content}]]; every other entry of the message is kept. *)
Definition wraps_content (m m' : pyval) : Prop :=
  exists d d',
    m = PDict d /\ m' = PDict d'
    /\ (forall k, k <> "content" -> lookup k d' = lookup k d)
    /\ match lookup "content" d with
       | Some (PStr s) =>
           lookup "content" d' = Some (PList [PDict [("text", PStr s)]])
       | other => lookup "content" d' = other
       end.

Definition is_dict (v : pyval) : bool :=
  match v with
  | PDict _ => true
  | _ => false
  end.

(** A (message, role) pair as the tool [agentcore_memory_create_event]
    hands it to the handler. *)
Definition message_pair (m : string * string) : pyval :=
  PList [PStr (fst m); PStr (snd m)].

(** The memory config is on disk and the service answers every call. *)
Definition memory_ready_world : world :=
  simple_world
    [("memory_config.json",
      PDict [("memory_id", PStr "support_memory-ABC123")])]
    (fun _ _ _ => Ok (PDict []))
    no_post.

Definition example_messages : list pyval := [
  PDict [("role", PStr "USER"); ("content", PStr "I prefer email.")];
  PDict [("role", PStr "ASSISTANT");
         ("content", PList [PDict [("text", PStr "Noted.")]])]
].

(** The file [path] holds [v], whenever it is read. *)
Definition holds (w : world) (path : string) (v : pyval) : Prop :=
  forall h, w _ h (json_load path) = Ok v.

(** The config files of the gateway-create script are on disk and the
    service creates the gateway "gw-7". *)
Definition gateway_created_world : world :=
  simple_world
    [("cognito_config.json", example_cognito_config);
     ("gateway_role_config.json", example_role_config);
     ("gateway_config.json", example_gateway_config)]
    (fun f _ _ =>
       if String.eqb f "gateway_client.create_gateway" then
         Ok (PDict [("gatewayId", PStr "gw-7");
                    ("gatewayUrl", PStr "https://gw-7.gateway.example/mcp");
                    ("gatewayArn",
                     PStr "arn:aws:bedrock-agentcore:us-west-2:123456789012:gateway/gw-7")])
       else if String.eqb f "memory_manager.get_or_create_memory" then
         Ok (PDict [("id", PStr "support_memory-ABC123");
                    ("status", PStr "ACTIVE")])
       else Ok (PDict []))
    no_post.

(** The answer of a [requests_post] entry. *)
Definition post_answer (e : entry) : option (result response) :=
  match e with
  | Called c x =>
      match c in call X return X -> option (result response) with
      | requests_post _ _ _ => fun r => Some r
      | _ => fun _ => None
      end x
  end.

(** The seconds of a [time.sleep] entry. *)
Definition slept (e : entry) : option Z :=
  match e with
  | Called (time_sleep n) _ => Some n
  | Called _ _ => None
  end.

(** The token endpoint refuses the client. *)
Definition token_refused_world : world :=
  simple_world
    [("cognito_config.json", example_cognito_config);
     ("runtime_execution_role_config.json",
      PDict [("role_arn",
              PStr "arn:aws:iam::123456789012:role/RuntimeRole")])]
    (fun _ _ _ => Ok (PDict []))
    (fun _ _ _ =>
       Ok (Response 400 "invalid_client"
             (Ok (PDict [("error", PStr "invalid_client")])))).

(** *** Reading the runs of the runtime scripts *)

(** The file an [os.path.exists] entry tested and the answer. *)
Definition tested (e : entry) : option (string * bool) :=
  match e with
  | Called c x =>
      match c in call X return X -> option (string * bool) with
      | os_path_exists p => fun b => Some (p, b)
      | _ => fun _ => None
      end x
  end.

(** The variables that the launch script sets from the config files. *)
Definition config_vars : list string :=
  ["MEMORY_ID"; "GATEWAY_URL"; "COGNITO_CLIENT_ID"; "COGNITO_CLIENT_SECRET";
   "COGNITO_DISCOVERY_URL"; "OAUTH_SCOPES"].

(** The variable [key] of [env_vars] is the [field] of the config. *)
Definition set_from (config : pyval) (field key : string) (env_vars : dict)
  : Prop :=
  exists v, getitem config field = Ok v /\ lookup key env_vars = Some v.

(** The entry writes a file. *)
Definition is_write (e : entry) : bool :=
  match written e with
  | Some _ => true
  | None => false
  end.

(** The entry tested for a file that is not there. *)
Definition found_missing (e : entry) : bool :=
  match tested e with
  | Some (_, false) => true
  | _ => false
  end.

(** The entry is a request to the token endpoint. *)
Definition is_post (e : entry) : bool :=
  match posted e with
  | Some _ => true
  | None => false
  end.

(** An error that [08_create_cognito.py] passes over: the domain or the
    resource server exists already. *)
Definition passed_over (e : entry) (x : exn) : Prop :=
  exn_class x = "InvalidParameterException"
  /\ ((is_callee "cognito_client.create_user_pool_domain" e = true
       /\ str_in "Domain already exists" (exn_msg x) = true)
      \/ (is_callee "cognito_client.create_resource_server" e = true
          /\ str_in "already exists" (exn_msg x) = true)).


(** The call to boto3 or the toolkit raised. *)
Definition failed (e : entry) : bool :=
  match answer_of e with
  | Some (Raise _) => true
  | _ => false
  end.

(** *** Worlds of the runtime scripts *)

(** The parsed [.bedrock_agentcore.yaml] of the examples. *)
Definition example_agentcore_yaml : pyval :=
  PDict [
    ("default_agent", PStr "returns_agent");
    ("agents", PDict [
      ("returns_agent", PDict [
        ("name", PStr "returns_agent");
        ("entrypoint", PStr "17_runtime_agent.py")])])].

Definition example_runtime_config : pyval :=
  PDict [
    ("agent_arn",
     PStr "arn:aws:bedrock-agentcore:us-west-2:123456789012:runtime/returns_agent-abc123");
    ("agent_name", PStr "returns_agent");
    ("region", PStr "us-west-2");
    ("memory_id", PStr "support_memory-ABC123")].

(** The attributes of what the toolkit returns: the ARN of the launched
    agent, and an endpoint whose deployment failed. *)
Definition example_attribute (args : list pyval) : result pyval :=
  match args with
  | [_; PStr "agent_arn"] => getitem example_runtime_config "agent_arn"
  | [_; PStr "endpoint"] => Ok (PDict [("status", PStr "CREATE_FAILED")])
  | _ => Raise (Exn "AttributeError" "no such attribute")
  end.

(** The agent is configured and launched: all files of the runtime scripts
    are on disk but the gateway config, with [cognito] as the Cognito
    config; the toolkit answers every call and the token endpoint grants
    the token "tok-123". *)
Definition configured_world (cognito : pyval) : world :=
  simple_world
    [("memory_config.json",
      PDict [("memory_id", PStr "support_memory-ABC123")]);
     ("cognito_config.json", cognito);
     ("runtime_execution_role_config.json",
      PDict [("role_arn",
              PStr "arn:aws:iam::123456789012:role/RuntimeRole")]);
     (".bedrock_agentcore.yaml", example_agentcore_yaml);
     ("runtime_config.json", example_runtime_config)]
    (fun f args _ =>
       if String.eqb f "yaml.safe_load" then Ok example_agentcore_yaml
       else if String.eqb f "getattr" then example_attribute args
       else Ok (PDict []))
    (fun _ _ _ =>
       Ok (Response 200 "{...}"
             (Ok (PDict [("access_token", PStr "tok-123");
                         ("token_type", PStr "Bearer")])))).

Definition deployment_world : world :=
  configured_world example_cognito_config.

(** Variables given to the launch tool. *)
Definition example_env_vars : dict := [
  ("MEMORY_ID", PStr "memory-of-another-agent");
  ("GATEWAY_URL", PStr "https://gateway.example/mcp");
  ("LOG_LEVEL", PStr "debug")].

(** Cognito creates the user pool and the app client; the domain exists
    already. *)
Definition domain_exists_world : world :=
  simple_world []
    (fun f _ _ =>
       if String.eqb f "secrets.token_hex" then Ok (PStr "1a2b3c4d")
       else if String.eqb f "cognito_client.create_user_pool" then
         Ok (PDict [("UserPool", PDict [("Id", PStr "us-west-2_AbCdEf")])])
       else if String.eqb f "cognito_client.create_user_pool_domain" then
         Raise (Exn "InvalidParameterException"
                    "An error occurred (InvalidParameterException) when calling the CreateUserPoolDomain operation: Domain already exists.")
       else if String.eqb f "cognito_client.create_user_pool_client" then
         Ok (PDict [("UserPoolClient",
                     PDict [("ClientId", PStr "3n4b5urk1ft4fl3mg5e62d9ado")])])
       else if String.eqb f "cognito_client.describe_user_pool_client" then
         Ok (PDict [("UserPoolClient",
                     PDict [("ClientId", PStr "3n4b5urk1ft4fl3mg5e62d9ado");
                            ("ClientSecret", PStr "s3cr3t")])])
       else Ok (PDict []))
    no_post.

(** IAM creates the role and the policy at second 1700000000; the call to
    [failing] is refused, every other call succeeds. *)
Definition role_world (failing : string) : world :=
  simple_world []
    (fun f _ _ =>
       if String.eqb f failing then
         Raise (Exn "ClientError"
                    "An error occurred (AccessDenied) when calling the operation: not authorized")
       else if String.eqb f "time.time" then Ok (PInt 1700000000)
       else if String.eqb f "sts_client.get_caller_identity" then
         Ok (PDict [("Account", PStr "123456789012")])
       else if String.eqb f "iam_client.create_role" then
         Ok (PDict [("Role", PDict [
           ("Arn",
            PStr "arn:aws:iam::123456789012:role/AgentCoreRuntimeExecutionRole-1700000000")])])
       else if String.eqb f "iam_client.create_policy" then
         Ok (PDict [("Policy", PDict [
           ("Arn",
            PStr "arn:aws:iam::123456789012:policy/AgentCoreRuntimePolicy-1700000000")])])
       else Ok (PDict []))
    no_post.
(** * Properties *)

(** ** Strings *)

Lemma append_assoc (a b c : string) : (a ++ b) ++ c = a ++ (b ++ c).
Proof.
  induction a as [|x a IH]; simpl; [reflexivity | now rewrite IH].
Qed.

Lemma append_nil_r (a : string) : a ++ EmptyString = a.
Proof.
  induction a as [|x a IH]; simpl; [reflexivity | now rewrite IH].
Qed.

Lemma occurs_in_refl (s : string) : occurs_in s s.
Proof.
  exists EmptyString, EmptyString. simpl. now rewrite append_nil_r.
Qed.

Lemma occurs_in_app_r (sub a b : string) :
  occurs_in sub b -> occurs_in sub (a ++ b).
Proof.
  intros (p & q & ->). exists (a ++ p), q. now rewrite append_assoc.
Qed.

Lemma occurs_in_app_l (sub a b : string) :
  occurs_in sub a -> occurs_in sub (a ++ b).
Proof.
  intros (p & q & ->). exists p, (q ++ b).
  now rewrite !append_assoc.
Qed.

Lemma occurs_in_cons (sub : string) (c : ascii) (s : string) :
  occurs_in sub s -> occurs_in sub (String c s).
Proof.
  intros (p & q & ->). now exists (String c p), q.
Qed.

Lemma occurs_in_unlines (sub l : string) (ls : list string) :
  In l ls -> occurs_in sub l -> occurs_in sub (unlines ls).
Proof.
  induction ls as [|l' ls IH]; simpl; [tauto|].
  intros [-> | Hin] Hsub.
  - now apply occurs_in_app_l.
  - apply occurs_in_app_r. change (nl ++ unlines ls) with (String lf_char (unlines ls)).
    apply occurs_in_cons. now apply IH.
Qed.

(** ** Letter case *)

Lemma is_upper_bounds (c : ascii) :
  is_upper c = true <-> (65 <= N_of_ascii c <= 90)%N.
Proof.
  unfold is_upper. rewrite andb_true_iff, !N.leb_le. tauto.
Qed.

Lemma lower_char_upper (c : ascii) :
  is_upper c = true -> N_of_ascii (lower_char c) = (N_of_ascii c + 32)%N.
Proof.
  intros Hu. unfold lower_char. rewrite Hu.
  apply is_upper_bounds in Hu.
  apply N_ascii_embedding. lia.
Qed.

Lemma lower_char_other (c : ascii) :
  is_upper c = false -> lower_char c = c.
Proof.
  intros Hu. unfold lower_char. now rewrite Hu.
Qed.

Lemma N_of_ascii_inj (a b : ascii) : N_of_ascii a = N_of_ascii b -> a = b.
Proof.
  intros E. rewrite <- (ascii_N_embedding a), <- (ascii_N_embedding b).
  now rewrite E.
Qed.

(** A character that [lower] leaves alone is the lowered form of exactly the
    characters that are the same letter. *)
Lemma lower_char_same_letter (a b : ascii) :
  lower_char b = b -> (lower_char a = b <-> same_letter a b).
Proof.
  intros Hb.
  assert (Hnb : is_upper b = false).
  { destruct (is_upper b) eqn:Hu; [|reflexivity].
    pose proof (lower_char_upper b Hu) as E. rewrite Hb in E. lia. }
  split.
  - intros Ha. destruct (is_upper a) eqn:Hu.
    + right; left. split; [exact Hu|].
      rewrite <- Ha. now apply lower_char_upper.
    + left. rewrite <- Ha. symmetry. now apply lower_char_other.
  - intros [-> | [[Hu E] | [Hu _]]].
    + exact Hb.
    + apply N_of_ascii_inj. rewrite E. now apply lower_char_upper.
    + congruence.
Qed.

Lemma str_lower_case_variant (s t : string) :
  str_lower t = t -> (str_lower s = t <-> case_variant s t).
Proof.
  revert t. induction s as [|a s IH]; intros t Ht.
  - split.
    + simpl. intros <-. constructor.
    + intros Hv. inversion Hv. reflexivity.
  - split.
    + simpl. intros <-. simpl in Ht. injection Ht as Ha Hs.
      constructor.
      * now apply lower_char_same_letter.
      * now apply IH.
    + intros Hv. inversion Hv as [|a' b s' t' Hl Hv' E1 E2]; subst.
      simpl in Ht. injection Ht as Hb Ht'.
      simpl. f_equal.
      * now apply lower_char_same_letter.
      * now apply IH.
Qed.

(** ** The strategy lookup of [handle_memory_create] *)

Section StrategyLookup.
Import memory_handlers.

Lemma strategy_keys_lowercase (known key : string) :
  In (known, key) strategy_keys -> str_lower known = known.
Proof.
  unfold strategy_keys. simpl.
  intros [E | [E | [E | []]]]; injection E as <- _; reflexivity.
Qed.

(** The three comparisons of the loop, for a name that is a str. *)
Lemma transform_strategy_named (d : dict) (s : string) :
  lookup "name" d = Some (PStr s) ->
  transform_strategy (PDict d) =
  Ok (if String.eqb (str_lower s) "summary" then
        PDict [("summaryMemoryStrategy", PDict d)]
      else if String.eqb (str_lower s) "preferences" then
        PDict [("userPreferenceMemoryStrategy", PDict d)]
      else if String.eqb (str_lower s) "semantic" then
        PDict [("semanticMemoryStrategy", PDict d)]
      else PDict d).
Proof.
  intros Hname. unfold transform_strategy, get, dict_get. rewrite Hname.
  simpl.
  destruct (String.eqb (str_lower s) "summary"); [reflexivity|].
  destruct (String.eqb (str_lower s) "preferences"); [reflexivity|].
  destruct (String.eqb (str_lower s) "semantic"); reflexivity.
Qed.

Lemma transform_strategy_known (d : dict) (s known key : string) :
  In (known, key) strategy_keys ->
  lookup "name" d = Some (PStr s) ->
  case_variant s known ->
  transform_strategy (PDict d) = Ok (PDict [(key, PDict d)]).
Proof.
  intros Hin Hname Hv.
  apply (str_lower_case_variant s) in Hv;
    [|now apply (strategy_keys_lowercase known key)].
  rewrite (transform_strategy_named d s Hname), Hv.
  unfold strategy_keys in Hin. simpl in Hin.
  destruct Hin as [E | [E | [E | []]]]; injection E as <- <-; reflexivity.
Qed.


Lemma transform_strategy_nameless (d : dict) :
  lookup "name" d = None ->
  transform_strategy (PDict d) = Ok (PDict d).
Proof.
  intros Hname. unfold transform_strategy, get, dict_get. rewrite Hname.
  reflexivity.
Qed.

Lemma transform_strategy_total (strategy : pyval) :
  strategy_mapping strategy ->
  exists t, transform_strategy strategy = Ok t.
Proof.
  intros (d & -> & [Hnone | (s & Hsome)]).
  - eexists. now apply transform_strategy_nameless.
  - eexists. apply (transform_strategy_named d s Hsome).
Qed.

(** The loop works element by element and keeps the order. *)
Lemma transform_strategies_total (strategies : list pyval) :
  Forall strategy_mapping strategies ->
  exists out, transform_strategies strategies = Ok out.
Proof.
  induction 1 as [|strategy rest Hm _ (out & IH)]; simpl.
  - now exists [].
  - destruct (transform_strategy_total strategy Hm) as (t & ->). simpl.
    rewrite IH. simpl. now eexists.
Qed.


Lemma transform_strategies_nth (strategies out : list pyval) (i : nat)
    (strategy : pyval) :
  transform_strategies strategies = Ok out ->
  nth_error strategies i = Some strategy ->
  exists t, transform_strategy strategy = Ok t /\ nth_error out i = Some t.
Proof.
  revert out i. induction strategies as [|s0 rest IH]; intros out i.
  - destruct i; discriminate.
  - simpl. destruct (transform_strategy s0) as [t0|] eqn:E0; simpl;
      [|discriminate].
    destruct (transform_strategies rest) as [ts|] eqn:Er; simpl;
      [|discriminate].
    intros [= <-]. destruct i as [|i]; simpl.
    + intros [= <-]. now exists t0.
    + intros Hn. now apply (IH ts i).
Qed.

End StrategyLookup.

(** ** Occurrence and literals *)

Lemma starts_with_spec (sub s : string) :
  starts_with sub s = true <-> exists after, s = sub ++ after.
Proof.
  revert s. induction sub as [|c sub IH]; intros s; simpl.
  - split; [intros _; now exists s | reflexivity].
  - destruct s as [|d s].
    + split; [discriminate | intros (after & E); discriminate E].
    + rewrite andb_true_iff, Ascii.eqb_eq, IH. split.
      * intros [-> (after & ->)]. now exists after.
      * intros (after & E). injection E as -> ->. split; [reflexivity|].
        now exists after.
Qed.

Lemma str_in_spec (sub s : string) :
  str_in sub s = true <-> occurs_in sub s.
Proof.
  induction s as [|c s IH].
  - simpl. rewrite orb_false_r, starts_with_spec. split.
    + intros (after & E). now exists EmptyString, after.
    + intros (before & after & E). destruct before; [|discriminate E].
      now exists after.
  - cbn [str_in]. rewrite orb_true_iff, IH, starts_with_spec. split.
    + intros [(after & E) | (before & after & E)].
      * now exists EmptyString, after.
      * exists (String c before), after. simpl. now rewrite E.
    + intros (before & after & E). destruct before as [|b before].
      * left. now exists after.
      * right. injection E as _ E. now exists before, after.
Qed.

Lemma str_in_false (sub s : string) :
  str_in sub s = false -> ~ occurs_in sub s.
Proof.
  intros E Hocc. apply str_in_spec in Hocc. congruence.
Qed.

Section Lexing.
Import PyLex.

Lemma scan_app (st : state) (a b : string) :
  scan st (a ++ b) = scan (scan st a) b.
Proof.
  revert st. induction a as [|c a IH]; intros st; simpl;
    [reflexivity | apply IH].
Qed.

Lemma plain_char_step_short (q : quote) (c : ascii) :
  plain_char c = true -> step_short q c = Short q.
Proof.
  unfold plain_char, step_short, is_quote.
  destruct (quote_of c); [discriminate|].
  destruct (is_backslash c); [discriminate|].
  destruct (is_eol c); [discriminate | reflexivity].
Qed.

Lemma plain_scan_short (q : quote) (s : string) :
  plain s = true -> scan (Short q) s = Short q.
Proof.
  induction s as [|c s IH]; simpl; [reflexivity|].
  rewrite andb_true_iff. intros [Hc Hs].
  rewrite (plain_char_step_short q c Hc). now apply IH.
Qed.

(** A plain value between the quotes of a short literal: after the closing
    quote and one more character that is not a quote, the automaton is where
    it would be after an empty line of code and that character. *)
Lemma plain_literal (q : quote) (s : string) (close c : ascii)
    (rest : string) :
  plain s = true ->
  quote_of close = Some q ->
  quote_of c = None ->
  scan (Open1 q) (s ++ String close (String c rest))
  = scan (step_code c) rest.
Proof.
  intros Hs Hclose Hc.
  assert (Hq : is_quote q close = true).
  { unfold is_quote. rewrite Hclose. now destruct q. }
  assert (Hnq : is_quote q c = false).
  { unfold is_quote. now rewrite Hc. }
  destruct s as [|d s]; simpl.
  - rewrite Hq. simpl. now rewrite Hnq.
  - simpl in Hs. apply andb_true_iff in Hs as [Hd Hs].
    assert (Hdq : is_quote q d = false).
    { unfold is_quote, plain_char in *. now destruct (quote_of d). }
    rewrite Hdq, (plain_char_step_short q d Hd).
    rewrite scan_app, (plain_scan_short q s Hs). simpl.
    unfold step_short. now rewrite Hq.
Qed.

End Lexing.

(** ** Running scripts *)

Section Running.
Local Open Scope script_scope.

Lemma run_sbind {A B} (w : world) (p : script A) (k : A -> script B)
    (h : list entry) :
  run w h (sbind p k) =
  match run w h p with
  | (Done a, t) =>
      let (o, t') := run w (h ++ t)%list (k a) in (o, (t ++ t')%list)
  | (Exit n, t) => (Exit n, t)
  | (Raised e, t) => (Raised e, t)
  end.
Proof.
  revert h. induction p as [o | X c f IH]; intros h.
  - destruct o as [a | n | e]; simpl; try reflexivity.
    rewrite app_nil_r. now destruct (run w h (k a)).
  - simpl. rewrite IH.
    destruct (run w (h ++ [Called c (w X h c)])%list (f (w X h c)))
      as [[a | n | e] t]; try reflexivity.
    rewrite <- app_assoc. simpl.
    now destruct (run w (h ++ Called c (w X h c) :: t)%list (k a)).
Qed.

Lemma run_try_except {A} (w : world) (p : script A)
    (handler : exn -> script A) (h : list entry) :
  run w h (try_except p handler) =
  match run w h p with
  | (Raised e, t) =>
      let (o, t') := run w (h ++ t)%list (handler e) in (o, (t ++ t')%list)
  | (o, t) => (o, t)
  end.
Proof.
  revert h. induction p as [o | X c f IH]; intros h.
  - destruct o as [a | n | e]; simpl; try reflexivity.
    rewrite app_nil_r. now destruct (run w h (handler e)).
  - simpl. rewrite IH.
    destruct (run w (h ++ [Called c (w X h c)])%list (f (w X h c)))
      as [[a | n | e] t]; try reflexivity.
    rewrite <- app_assoc. simpl.
    now destruct (run w (h ++ Called c (w X h c) :: t)%list (handler e)).
Qed.

Lemma run_eval {A} (w : world) (r : result A) (h : list entry) :
  run w h (eval r) =
  (match r with Ok a => Done a | Raise e => Raised e end, []).
Proof. now destruct r. Qed.

Lemma run_invoke {A} (w : world) (c : call (result A)) (h : list entry) :
  run w h (invoke c) =
  (match w _ h c with Ok a => Done a | Raise e => Raised e end,
   [Called c (w _ h c)]).
Proof.
  unfold invoke. simpl. now destruct (w (result A) h c).
Qed.

Lemma run_ask {A} (w : world) (c : call A) (h : list entry) :
  run w h (ask c) = (Done (w _ h c), [Called c (w _ h c)]).
Proof. reflexivity. Qed.

End Running.

(** * The claims *)

Section MemoryClaims.
Context `{PyRuntime}.
Import memory_handlers.





(** C1 fails on the code.  A strategy whose ["name"] is not a str (the
    tool takes any list of dicts) has a name that the lookup does not
    recognise, and the claim, like the comment of the last branch, has it
    passed through.  The loop calls [.lower()] on the name first: for such a
    strategy it raises AttributeError, and the handler raises with it,
    whatever stands before and after the strategy in the list. *)
Theorem non_str_name_is_not_passed_through
    (args : dict) (name : pyval) (before after passed : list pyval)
    (d : dict) (v : pyval) :
  lookup "name" args = Some name ->
  lookup "strategies" args = Some (PList (before ++ PDict d :: after)) ->
  transform_strategies before = Ok passed ->
  lookup "name" d = Some v ->
  (forall s, v <> PStr s) ->
  transform_strategy (PDict d) = Raise (AttributeError v "lower")
  /\ handle_memory_create args = Raise (AttributeError v "lower").
Proof.
  intros Hname Hstrategies Hbefore Hv Hnot.
  assert (Hone : transform_strategy (PDict d)
                 = Raise (AttributeError v "lower")).
  { unfold transform_strategy. cbn [get bind]. unfold dict_get.
    rewrite Hv. destruct v; try reflexivity. now destruct (Hnot s). }
  split; [exact Hone|].
  unfold handle_memory_create, dict_getitem.
  rewrite Hname, Hstrategies. cbn [bind iter].
  assert (Hall : transform_strategies (before ++ PDict d :: after)
                 = Raise (AttributeError v "lower")).
  { clear Hstrategies. revert passed Hbefore.
    induction before as [|s l IH]; intros passed Hbefore.
    - cbn [app transform_strategies]. now rewrite Hone.
    - cbn [app transform_strategies] in *.
      destruct (transform_strategy s) as [t|]; [|discriminate Hbefore].
      cbn [bind] in *.
      destruct (transform_strategies l) as [ts|] eqn:El;
        [|discriminate Hbefore].
      now rewrite (IH ts eq_refl). }
  now rewrite Hall.
Qed.


(** C9.  The lookup ignores letter case: in the list the loop returns, a
    strategy mapping whose name is a spelling, in any letter case, of
    "summary", "preferences" or "semantic" is wrapped under the key of that
    name, and a strategy mapping without a ["name"] key is the mapping
    itself. *)
Theorem strategy_lookup_ignores_case
    (strategies : list pyval) (i : nat) (d : dict) :
  Forall strategy_mapping strategies ->
  nth_error strategies i = Some (PDict d) ->
  exists out,
    transform_strategies strategies = Ok out /\
    (forall s known key,
        In (known, key) strategy_keys ->
        lookup "name" d = Some (PStr s) ->
        case_variant s known ->
        nth_error out i = Some (PDict [(key, PDict d)]))
    /\ (lookup "name" d = None -> nth_error out i = Some (PDict d)).
Proof.
  intros Hall Hi.
  destruct (transform_strategies_total strategies Hall) as (out & Hout).
  exists out. split; [exact Hout|].
  destruct (transform_strategies_nth strategies out i (PDict d) Hout Hi)
    as (t & Ht & Hnth).
  split.
  - intros s known key Hin Hname Hv.
    rewrite (transform_strategy_known d s known key Hin Hname Hv) in Ht.
    now injection Ht as <-.
  - intros Hnone.
    rewrite (transform_strategy_nameless d Hnone) in Ht.
    now injection Ht as <-.
Qed.

Import server.

(** C10.  [handle_memory_retrieve] does not read ["relevance_score"]: two
    argument mappings that agree on every other key give the same result,
    and so do two calls of the tool [agentcore_memory_retrieve] that differ
    only in [relevance_score]. *)
Theorem memory_retrieve_ignores_relevance_score :
  (forall args1 args2 : dict,
      (forall k, k <> "relevance_score" -> lookup k args1 = lookup k args2) ->
      handle_memory_retrieve args1 = handle_memory_retrieve args2)
  /\ (forall memory_id namespace query top_k score1 score2 region,
         agentcore_memory_retrieve memory_id namespace query top_k score1 region
         = agentcore_memory_retrieve memory_id namespace query top_k score2
                                     region).
Proof.
  split.
  - intros args1 args2 Hagree.
    unfold handle_memory_retrieve, dict_getitem, dict_get.
    rewrite (Hagree "region"), (Hagree "memory_id"), (Hagree "namespace"),
            (Hagree "query"), (Hagree "top_k") by discriminate.
    reflexivity.
  - intros. reflexivity.
Qed.

End MemoryClaims.

(** ** What the handlers return *)

Lemma bind_Ok_inv {A B} (r : result A) (k : A -> result B) (b : B) :
  bind r k = Ok b -> exists a, r = Ok a /\ k a = Ok b.
Proof.
  destruct r as [a|e]; simpl; [|discriminate]. intros E. now exists a.
Qed.

(** Takes a hypothesis [bind ... = Ok v] apart, one [bind] at a time. *)
Ltac invert_binds H :=
  repeat (let a := fresh "a" in
          let E := fresh "E" in
          apply bind_Ok_inv in H; destruct H as (a & E & H));
  try (injection H as <-).

Ltac payload_done :=
  unfold script_payload; do 3 eexists; reflexivity.

Section PayloadClaims.
Context `{PyRuntime}.
Import memory_handlers gateway_handlers runtime_handlers.
Import identity_handlers observability_handlers server.

Lemma handler_payload (name : string) (h : dict -> result pyval)
    (args : dict) (v : pyval) :
  In (name, h) handlers -> h args = Ok v -> script_payload v.
Proof.
  unfold handlers. simpl.
  intros Hin Hv.
  repeat (destruct Hin as [Hin | Hin];
          [injection Hin as _ <- | ]); try contradiction.
  - unfold handle_create_runtime_execution_role_script in Hv.
    invert_binds Hv. payload_done.
  - unfold handle_memory_create in Hv. invert_binds Hv. payload_done.
  - unfold handle_memory_create_event in Hv. invert_binds Hv. payload_done.
  - unfold handle_memory_retrieve in Hv. invert_binds Hv. payload_done.
  - unfold handle_memory_delete in Hv. invert_binds Hv. payload_done.
  - unfold handle_gateway_create in Hv. invert_binds Hv.
    destruct (ne_str _ _); [discriminate|].
    invert_binds Hv. payload_done.
  - unfold handle_gateway_add_lambda_target in Hv. invert_binds Hv.
    payload_done.
  - unfold handle_gateway_list_targets in Hv. invert_binds Hv. payload_done.
  - unfold handle_gateway_delete_target in Hv. invert_binds Hv. payload_done.
  - unfold handle_gateway_delete in Hv. invert_binds Hv. payload_done.
  - unfold handle_runtime_configure in Hv. invert_binds Hv. payload_done.
  - unfold handle_runtime_launch in Hv. invert_binds Hv. payload_done.
  - unfold handle_runtime_status in Hv. invert_binds Hv. payload_done.
  - unfold handle_runtime_invoke in Hv. invert_binds Hv. payload_done.
  - unfold handle_runtime_delete in Hv. invert_binds Hv. payload_done.
  - unfold handle_observability_get_dashboard_url in Hv. invert_binds Hv.
    payload_done.
  - unfold handle_observability_get_logs_info in Hv. invert_binds Hv.
    payload_done.
  - unfold handle_observability_get_recent_logs in Hv. invert_binds Hv.
    payload_done.
Qed.

Ltac tool_returns :=
  intros; unfold returns_script_payload; eexists;
  split; [reflexivity | payload_done].

Lemma memory_create_tool_returns
    (name : string) (strategies : list dict)
    (description region : option string) :
  Forall strategy_mapping (map PDict strategies) ->
  returns_script_payload
    (agentcore_memory_create name strategies description region).
Proof.
  intros Hall.
  destruct (transform_strategies_total _ Hall) as (out & Hout).
  unfold returns_script_payload, agentcore_memory_create,
    handle_memory_create.
  eexists. split; [|payload_done].
  simpl. rewrite Hout. reflexivity.
Qed.

Lemma gateway_create_tool_guard
    (name role_arn cognito_client_id cognito_discovery_url : string)
    (protocol_type authorizer_type description region : option string) :
  (or_default protocol_type "MCP" = "MCP" ->
   returns_script_payload
     (agentcore_gateway_create name role_arn cognito_client_id
        cognito_discovery_url protocol_type authorizer_type description
        region))
  /\ (or_default protocol_type "MCP" <> "MCP" ->
      agentcore_gateway_create name role_arn cognito_client_id
        cognito_discovery_url protocol_type authorizer_type description
        region
      = Raise (ValueError "Only MCP protocol is supported in this handler")).
Proof.
  unfold agentcore_gateway_create, handle_gateway_create.
  split; intros Hp.
  - unfold returns_script_payload. eexists. split; [|payload_done].
    simpl. rewrite Hp. reflexivity.
  - simpl.
    destruct (String.eqb_spec (or_default protocol_type "MCP") "MCP")
      as [E|_]; [contradiction|]. reflexivity.
Qed.

(** C2, as the code has it.  A handler that returns, returns a dict with
    exactly the keys [code], [filename] and [instructions], each one a str.
    Called through the tools of [server.py], every handler returns, with two
    provisos: [agentcore_memory_create] for strategy mappings whose names are
    strs, and [agentcore_gateway_create] for the protocol "MCP"; for any
    other protocol the handler raises [ValueError]. *)
Theorem handlers_return_script_payload :
  (forall name h args v,
      In (name, h) handlers -> h args = Ok v -> script_payload v)
  /\ (forall region,
         returns_script_payload
           (agentcore_create_runtime_execution_role_script region))
  /\ (forall name strategies description region,
         Forall strategy_mapping (map PDict strategies) ->
         returns_script_payload
           (agentcore_memory_create name strategies description region))
  /\ (forall memory_id actor_id session_id messages region,
         returns_script_payload
           (agentcore_memory_create_event memory_id actor_id session_id
              messages region))
  /\ (forall memory_id namespace query top_k relevance_score region,
         returns_script_payload
           (agentcore_memory_retrieve memory_id namespace query top_k
              relevance_score region))
  /\ (forall memory_id region,
         returns_script_payload (agentcore_memory_delete memory_id region))
  /\ (forall name role_arn cognito_client_id cognito_discovery_url
             protocol_type authorizer_type description region,
         (or_default protocol_type "MCP" = "MCP" ->
          returns_script_payload
            (agentcore_gateway_create name role_arn cognito_client_id
               cognito_discovery_url protocol_type authorizer_type
               description region))
         /\ (or_default protocol_type "MCP" <> "MCP" ->
             agentcore_gateway_create name role_arn cognito_client_id
               cognito_discovery_url protocol_type authorizer_type
               description region
             = Raise (ValueError
                        "Only MCP protocol is supported in this handler")))
  /\ (forall gateway_id target_name lambda_arn tool_schema target_description
             region,
         returns_script_payload
           (agentcore_gateway_add_lambda_target gateway_id target_name
              lambda_arn tool_schema target_description region))
  /\ (forall gateway_id region,
         returns_script_payload
           (agentcore_gateway_list_targets gateway_id region))
  /\ (forall gateway_id target_id region,
         returns_script_payload
           (agentcore_gateway_delete_target gateway_id target_id region))
  /\ (forall gateway_id region,
         returns_script_payload (agentcore_gateway_delete gateway_id region))
  /\ (forall entrypoint agent_name execution_role cognito_client_id
             cognito_discovery_url auto_create_ecr memory_mode
             requirements_file region,
         returns_script_payload
           (agentcore_runtime_configure entrypoint agent_name execution_role
              cognito_client_id cognito_discovery_url auto_create_ecr
              memory_mode requirements_file region))
  /\ (forall env_vars auto_update_on_conflict region,
         returns_script_payload
           (agentcore_runtime_launch env_vars auto_update_on_conflict region))
  /\ (forall region, returns_script_payload (agentcore_runtime_status region))
  /\ (forall payload bearer_token region,
         returns_script_payload
           (agentcore_runtime_invoke payload bearer_token region))
  /\ (forall region, returns_script_payload (agentcore_runtime_delete region))
  /\ (forall region,
         returns_script_payload
           (agentcore_observability_get_dashboard_url region))
  /\ (forall agent_arn region,
         returns_script_payload
           (agentcore_observability_get_logs_info agent_arn region))
  /\ (forall agent_arn hours_back limit region,
         returns_script_payload
           (agentcore_observability_get_recent_logs agent_arn hours_back
              limit region)).
Proof.
  split; [exact handler_payload|].
  split; [tool_returns|].
  split; [exact memory_create_tool_returns|].
  split; [tool_returns|].
  split; [tool_returns|].
  split; [tool_returns|].
  split; [exact gateway_create_tool_guard|].
  repeat split; tool_returns.
Qed.

End PayloadClaims.
(** ** The text of the gateway-create script *)

Lemma occurs_in_infix (a sub b : string) : occurs_in sub (a ++ sub ++ b).
Proof. now exists a, b. Qed.

(** Finds an element of a list written out in full. *)
Ltac in_list := solve [repeat first [left; reflexivity | right]].

(** Scans a template whose holes stand between the quotes of short
    literals. *)
Ltac lex_template :=
  cbn [unlines]; rewrite !append_assoc; simpl;
  repeat (cbv [PyLex.step_code PyLex.quote_of]; simpl;
          rewrite plain_literal by (assumption || reflexivity); simpl).

Section TextClaims.
Context `{PyRuntime}.
Import PyLex gateway_handlers.

Lemma gateway_create_code_literals
    (region name authorizer_type description : string) :
  plain region = true -> plain name = true ->
  plain authorizer_type = true -> plain description = true ->
  literals_closed
    (gateway_create_code region name "MCP" authorizer_type description)
  = true.
Proof.
  intros Hr Hn Ha Hd.
  unfold literals_closed, gateway_create_code.
  lex_template. reflexivity.
Qed.

Lemma gateway_create_code_embeds
    (region name protocol_type authorizer_type description : string) :
  let code :=
    gateway_create_code region name protocol_type authorizer_type description
  in
  occurs_in ("    name=" ++ dq ++ name ++ dq ++ ",") code
  /\ occurs_in ("gateway_client = boto3.client(" ++ dq
                ++ "bedrock-agentcore-control" ++ dq ++ ", region_name='"
                ++ region ++ "')") code
  /\ occurs_in ("    protocolType=" ++ dq ++ protocol_type ++ dq ++ ",") code
  /\ occurs_in ("    authorizerType=" ++ dq ++ authorizer_type ++ dq ++ ",")
               code
  /\ occurs_in ("    description=" ++ dq ++ description ++ dq) code
  /\ occurs_in "with open('gateway_config.json', 'w') as f:" code
  /\ occurs_in "    json.dump(config, f, indent=2)" code
  /\ occurs_in ("    " ++ dq ++ "gateway_id" ++ dq ++ ": gateway_id,") code.
Proof.
  cbv zeta. unfold gateway_create_code.
  do 7 (split;
        [match goal with
         | |- occurs_in ?x _ =>
             apply (occurs_in_unlines x x); [in_list | apply occurs_in_refl]
         end|]).
  apply (occurs_in_unlines _
           ("    " ++ dq ++ "gateway_id" ++ dq
            ++ ": gateway_id,  # Keep for backward compatibility"));
    [in_list|].
  exists EmptyString, "  # Keep for backward compatibility". reflexivity.
Qed.

Lemma occurs_in_trans (a b c : string) :
  occurs_in a b -> occurs_in b c -> occurs_in a c.
Proof.
  intros (p & q & ->) (p' & q' & ->).
  exists (p' ++ p), (q ++ q'). now rewrite !append_assoc.
Qed.

(** C3, as the code has it.  For an input mapping with a str [name], the
    other required parameters and the protocol "MCP", the gateway-create
    handler returns the fixed template with [region], [name],
    [authorizer_type] and [description] inserted as they are: the supplied
    name is the [name] argument of the [create_gateway] call, and the script
    writes [gateway_config.json] from a dict with the key [gateway_id].  The
    string literals of the script are closed whenever the inserted values
    hold no quote, backslash or line break. *)
Theorem gateway_create_script_text
    (args : dict) (name : string)
    (role_arn cognito_client_id cognito_discovery_url : pyval) :
  lookup "name" args = Some (PStr name) ->
  lookup "role_arn" args = Some role_arn ->
  lookup "cognito_client_id" args = Some cognito_client_id ->
  lookup "cognito_discovery_url" args = Some cognito_discovery_url ->
  dict_get args "protocol_type" (PStr "MCP") = PStr "MCP" ->
  let region := str (dict_get args "region" (PStr "us-west-2")) in
  let authorizer_type :=
    str (dict_get args "authorizer_type" (PStr "CUSTOM_JWT")) in
  let description := str (dict_get args "description" (PStr EmptyString)) in
  let code :=
    gateway_create_code region name "MCP" authorizer_type description in
  handle_gateway_create args =
    Ok (PDict [
      ("code", PStr code);
      ("filename",
       PStr (str_replace " " "_" (str_lower name) ++ "_gateway_create.py"));
      ("instructions",
       PStr ("Ensure cognito_config.json and gateway_role_config.json exist, then run this script to create the AgentCore Gateway '"
             ++ name ++ "'"))])
  /\ occurs_in name code
  /\ occurs_in region code
  /\ occurs_in authorizer_type code
  /\ occurs_in description code
  /\ occurs_in ("    name=" ++ dq ++ name ++ dq ++ ",") code
  /\ occurs_in "with open('gateway_config.json', 'w') as f:" code
  /\ occurs_in "    json.dump(config, f, indent=2)" code
  /\ occurs_in ("    " ++ dq ++ "gateway_id" ++ dq ++ ": gateway_id,") code
  /\ (plain region = true -> plain name = true ->
      plain authorizer_type = true -> plain description = true ->
      literals_closed code = true).
Proof.
  intros Hname Hrole Hcid Hurl Hproto region authorizer_type description code.
  destruct (gateway_create_code_embeds region name "MCP" authorizer_type
              description)
    as (En & Er & _ & Ea & Ed & Eopen & Edump & Ekey).
  fold code in En, Er, Ea, Ed, Eopen, Edump, Ekey.
  split.
  { unfold handle_gateway_create, dict_getitem.
    rewrite Hname, Hrole, Hcid, Hurl, Hproto. reflexivity. }
  split.
  { apply occurs_in_trans with (2 := En).
    apply occurs_in_app_r, occurs_in_app_r, occurs_in_app_l, occurs_in_refl. }
  split.
  { apply occurs_in_trans with (2 := Er).
    do 5 apply occurs_in_app_r. apply occurs_in_app_l, occurs_in_refl. }
  split.
  { apply occurs_in_trans with (2 := Ea).
    apply occurs_in_app_r, occurs_in_app_r, occurs_in_app_l, occurs_in_refl. }
  split.
  { apply occurs_in_trans with (2 := Ed).
    apply occurs_in_app_r, occurs_in_app_r, occurs_in_app_l, occurs_in_refl. }
  repeat (split; [assumption|]).
  intros Hr Hn Ha Hd. now apply gateway_create_code_literals.
Qed.

End TextClaims.

(** C3, as stated, fails.  For a name that holds a double quote the handler
    returns a script in which a line ends inside a string literal, so the
    text is not a Python program; and the [role_arn] that was passed occurs
    nowhere in the script. *)
Lemma gateway_create_script_broken_by_quote :
  exists code filename instructions,
    @gateway_handlers.handle_gateway_create example_runtime quoted_name_args
    = Ok (PDict [("code", PStr code);
                 ("filename", PStr filename);
                 ("instructions", PStr instructions)])
    /\ PyLex.literals_closed code = false
    /\ ~ occurs_in "arn:aws:iam::123456789012:role/GatewayRole" code.
Proof.
  do 3 eexists. split; [reflexivity|]. split.
  - vm_compute. reflexivity.
  - apply str_in_false. vm_compute. reflexivity.
Qed.

(** ** The delete scripts without their config file *)

Section DeleteClaims.
Context `{PyRuntime}.
Import generated.

(** C4.  Each of the four delete scripts, whatever values are inserted into
    it, ends with [exit(0)] when its JSON config file is absent, and the
    existence test is the only call it makes: no client is created and
    nothing is deleted.  The handlers return these scripts for every input
    mapping on which they return. *)
Theorem delete_scripts_exit_0_without_config (w : world) :
  (absent w "memory_config.json" ->
   forall region,
     execute w (memory_delete region)
     = (Exit 0, [Called (os_path_exists "memory_config.json") false]))
  /\ (absent w "gateway_config.json" ->
      forall region target_id,
        execute w (gateway_delete_target region target_id)
        = (Exit 0, [Called (os_path_exists "gateway_config.json") false]))
  /\ (absent w "gateway_config.json" ->
      forall region,
        execute w (gateway_delete region)
        = (Exit 0, [Called (os_path_exists "gateway_config.json") false]))
  /\ (absent w "runtime_config.json" ->
      forall region,
        execute w (runtime_delete region)
        = (Exit 0, [Called (os_path_exists "runtime_config.json") false]))
  /\ (forall args v,
         memory_handlers.handle_memory_delete args = Ok v ->
         lookup "code" (match v with PDict d => d | _ => [] end)
         = Some (PStr (memory_handlers.memory_delete_code
                         (str (dict_get args "region" (PStr "us-west-2"))))))
  /\ (forall args v,
         gateway_handlers.handle_gateway_delete_target args = Ok v ->
         exists target_id,
           lookup "target_id" args = Some target_id /\
           lookup "code" (match v with PDict d => d | _ => [] end)
           = Some (PStr (gateway_handlers.gateway_delete_target_code
                           (str (dict_get args "region" (PStr "us-west-2")))
                           (str target_id))))
  /\ (forall args,
         gateway_handlers.handle_gateway_delete args
         = Ok (PDict [
             ("code",
              PStr (gateway_handlers.gateway_delete_code
                      (str (dict_get args "region" (PStr "us-west-2")))));
             ("filename", PStr "delete_gateway.py");
             ("instructions",
              PStr "Ensure gateway_config.json exists, then run this script to delete the AgentCore Gateway and all its targets")]))
  /\ (forall args,
         runtime_handlers.handle_runtime_delete args
         = Ok (PDict [
             ("code",
              PStr (runtime_handlers.runtime_delete_code
                      (str (dict_get args "region" (PStr "us-west-2")))));
             ("filename", PStr "delete_runtime.py");
             ("instructions",
              PStr "Run this script to delete the AgentCore Runtime deployment")])).
Proof.
  repeat match goal with |- _ /\ _ => split end.
  - intros Habs region. unfold execute, memory_delete. simpl.
    rewrite (Habs []). reflexivity.
  - intros Habs region target_id. unfold execute, gateway_delete_target.
    simpl. rewrite (Habs []). reflexivity.
  - intros Habs region. unfold execute, gateway_delete. simpl.
    rewrite (Habs []). reflexivity.
  - intros Habs region. unfold execute, runtime_delete. simpl.
    rewrite (Habs []). reflexivity.
  - intros args v Hv. unfold memory_handlers.handle_memory_delete in Hv.
    invert_binds Hv. reflexivity.
  - intros args v Hv.
    unfold gateway_handlers.handle_gateway_delete_target, dict_getitem in Hv.
    destruct (lookup "target_id" args) as [target_id|] eqn:E;
      [|discriminate].
    simpl in Hv. injection Hv as <-. now exists target_id.
  - reflexivity.
  - reflexivity.
Qed.

End DeleteClaims.

(** ** The gateway-delete script *)

Section GatewayDelete.
Import generated.
Local Open Scope script_scope.

Variable w : world.
Variable gateway_config gateway_id : pyval.
Hypothesis Hid : getitem gateway_config "gateway_id" = Ok gateway_id.

Lemma run_list_gateway_targets (h : list entry) :
  let c := extern "gateway_client.list_gateway_targets" []
                  [("gatewayIdentifier", gateway_id)] in
  run w h (list_gateway_targets gateway_config)
  = (match w _ h c with Ok r => Done r | Raise e => Raised e end,
     [Called c (w _ h c)]).
Proof.
  unfold list_gateway_targets. rewrite Hid. simpl.
  now destruct (w _ h _).
Qed.

End GatewayDelete.
(** ** The standalone scripts *)

(** Runs a script on an arbitrary world: every answer of the world and every
    Python operation on it is split into its cases. *)
Ltac exec_step w :=
  match goal with
  | |- context [w ?X ?h ?c] => destruct (w X h c) eqn:?
  | |- context [eval ?r] =>
      lazymatch r with
      | Ok _ => fail
      | Raise _ => fail
      | _ => destruct r eqn:?
      end
  | |- context [if ?b then _ else _] => destruct b eqn:?
  end; simpl.

Ltac exec w := simpl; repeat exec_step w.

(** *** dict updates *)

Lemma lookup_store_same (k : string) (v : pyval) (d : dict) :
  lookup k (store k v d) = Some v.
Proof.
  induction d as [|[k' v'] d IH]; simpl.
  - now rewrite String.eqb_refl.
  - destruct (String.eqb k k') eqn:E; simpl; rewrite E; [reflexivity | exact IH].
Qed.

Lemma lookup_store_other (k k' : string) (v : pyval) (d : dict) :
  k <> k' -> lookup k' (store k v d) = lookup k' d.
Proof.
  intros Hne. induction d as [|[k0 v0] d IH]; simpl.
  - destruct (String.eqb_spec k' k); [congruence | reflexivity].
  - destruct (String.eqb_spec k k0) as [->|]; simpl.
    + destruct (String.eqb_spec k' k0); [congruence | reflexivity].
    + now rewrite IH.
Qed.

Lemma keys_store (k k' : string) (v : pyval) (d : dict) :
  In k' (keys d) -> In k' (keys (store k v d)).
Proof.
  unfold keys. induction d as [|[k0 v0] d IH]; simpl; [tauto|].
  destruct (String.eqb k k0); simpl; tauto.
Qed.

(** Splits membership in a trace that is written out. *)
Ltac split_in H :=
  repeat match type of H with
         | In _ (_ :: _) => destruct H as [<- | H]
         | In _ [] => contradiction H
         | _ \/ _ => destruct H as [<- | H]
         | False => contradiction H
         end.

Ltac in_trace := simpl; solve [repeat first [left; reflexivity | right]].

(** *** 12_add_lambda_to_gateway.py and the generated add-target script *)

Section AddTarget.
Import add_lambda_to_gateway.

(** Whatever [12_add_lambda_to_gateway.py] writes is the gateway config it
    read, with [target_id], [target_name] and [lambda_arn] set. *)
Lemma add_target_write (w : world) (o : outcome unit) (t : list entry)
    (e : entry) (p : string) (v : pyval) :
  execute w main = (o, t) ->
  In e t ->
  written e = Some (p, v) ->
  p = "gateway_config.json"
  /\ exists d lambda_config lambda_arn kwargs response target_id,
      In (Called (json_load "gateway_config.json") (Ok (PDict d))) t
      /\ In (Called (json_load "lambda_config.json") (Ok lambda_config)) t
      /\ getitem lambda_config "function_arn" = Ok lambda_arn
      /\ In (Called (extern "gateway_client.create_gateway_target" [] kwargs)
                    (Ok response)) t
      /\ getitem response "targetId" = Ok target_id
      /\ v = PDict (store "lambda_arn" lambda_arn
                      (store "target_name" (PStr "OrderLookup")
                         (store "target_id" target_id d))).
Proof.
  unfold execute, main, try_except_class.
  exec w; intros [= <- <-] Hin Hw; split_in Hin; try discriminate Hw.
  all: injection Hw as <- <-.
  all: split; [reflexivity|].
  all: repeat match goal with
              | H : Ok _ = Ok _ |- _ => injection H as <-
              end.
  all: match goal with
       | H : setitem ?a "target_id" _ = Ok _ |- _ =>
           destruct a; try discriminate H; simpl in H; injection H as <-
       end.
  all: repeat match goal with
              | H : setitem (PDict _) _ _ = Ok _ |- _ =>
                  simpl in H; injection H as <-
              end.
  all: do 6 eexists.
  all: split; [in_trace|].
  all: split; [in_trace|].
  all: split; [eassumption|].
  all: split; [in_trace|].
  all: split; [eassumption | reflexivity].
Qed.

(** When every call succeeds the script does write the config. *)
Lemma add_target_writes (w : world) (d lambda_config response tool : dict)
    (gateway_id lambda_arn target_id first_name client : pyval)
    (tools : list pyval) :
  (forall h, w _ h (json_load "gateway_config.json") = Ok (PDict d)) ->
  (forall h, w _ h (json_load "lambda_config.json")
             = Ok (PDict lambda_config)) ->
  (forall h args kwargs, w _ h (extern "boto3.client" args kwargs)
                         = Ok client) ->
  (forall h kwargs,
      w _ h (extern "gateway_client.create_gateway_target" [] kwargs)
      = Ok (PDict response)) ->
  (forall h p v, w _ h (json_dump p v) = Ok tt) ->
  lookup "gateway_id" d = Some gateway_id ->
  lookup "function_arn" lambda_config = Some lambda_arn ->
  lookup "tool_schema" lambda_config = Some (PList (PDict tool :: tools)) ->
  lookup "name" tool = Some first_name ->
  lookup "sample_orders" lambda_config = None ->
  lookup "targetId" response = Some target_id ->
  exists t,
    execute w main = (Done tt, t)
    /\ In (Called (json_dump "gateway_config.json"
                     (PDict (store "lambda_arn" lambda_arn
                               (store "target_name" (PStr "OrderLookup")
                                  (store "target_id" target_id d)))))
                  (Ok tt)) t.
Proof.
  intros Hcfg Hlam Hclient Hcreate Hdump Hgid Harn Hschema Hname Horders Htid.
  assert (Hgid' : lookup "gateway_id"
                    (store "lambda_arn" lambda_arn
                       (store "target_name" (PStr "OrderLookup")
                          (store "target_id" target_id d)))
                  = Some gateway_id).
  { rewrite !lookup_store_other by discriminate. exact Hgid. }
  unfold execute, main, try_except_class. simpl.
  repeat (first [ rewrite Hcfg | rewrite Hlam | rewrite Hclient
                | rewrite Hcreate | rewrite Hdump | rewrite Hgid'
                | rewrite Hgid | rewrite Harn | rewrite Hschema
                | rewrite Hname | rewrite Horders | rewrite Htid
                | progress unfold dict_getitem, dict_get ];
          simpl).
  eexists. split; [reflexivity | in_trace].
Qed.

(** The script that [handle_gateway_add_lambda_target] emits writes no
    file. *)
Lemma generated_add_target_writes_nothing (w : world)
    (region lambda_arn target_name target_description : string)
    (tool_schema : result pyval) (o : outcome unit) (t : list entry)
    (e : entry) :
  execute w (generated.gateway_add_lambda_target region lambda_arn
               target_name target_description tool_schema) = (o, t) ->
  In e t -> written e = None.
Proof.
  unfold execute, generated.gateway_add_lambda_target.
  exec w; intros [= <- <-] Hin; split_in Hin; reflexivity.
Qed.

(** C7, as the code has it.  The standalone script
    [12_add_lambda_to_gateway.py] augments the gateway config in place: what
    it writes to [gateway_config.json] is the config it read with
    [target_id], [target_name] and [lambda_arn] set, every other key keeping
    its value; and it does write it when every call succeeds.  The script
    emitted by the add-lambda-target handler writes no file. *)
Theorem add_target_augments_gateway_config (w : world) :
  (forall o t e p v,
      execute w main = (o, t) ->
      In e t ->
      written e = Some (p, v) ->
      p = "gateway_config.json"
      /\ exists d lambda_config lambda_arn kwargs response target_id d',
          In (Called (json_load "gateway_config.json") (Ok (PDict d))) t
          /\ In (Called (json_load "lambda_config.json") (Ok lambda_config)) t
          /\ getitem lambda_config "function_arn" = Ok lambda_arn
          /\ In (Called
                   (extern "gateway_client.create_gateway_target" [] kwargs)
                   (Ok response)) t
          /\ getitem response "targetId" = Ok target_id
          /\ v = PDict d'
          /\ lookup "target_id" d' = Some target_id
          /\ lookup "target_name" d' = Some (PStr "OrderLookup")
          /\ lookup "lambda_arn" d' = Some lambda_arn
          /\ (forall k,
                 k <> "target_id" -> k <> "target_name" ->
                 k <> "lambda_arn" ->
                 lookup k d' = lookup k d)
          /\ (forall k, In k (keys d) -> In k (keys d')))
  /\ (forall d lambda_config response tool gateway_id lambda_arn target_id
             first_name client tools,
         (forall h, w _ h (json_load "gateway_config.json") = Ok (PDict d)) ->
         (forall h, w _ h (json_load "lambda_config.json")
                    = Ok (PDict lambda_config)) ->
         (forall h args kwargs, w _ h (extern "boto3.client" args kwargs)
                                = Ok client) ->
         (forall h kwargs,
             w _ h (extern "gateway_client.create_gateway_target" [] kwargs)
             = Ok (PDict response)) ->
         (forall h p v, w _ h (json_dump p v) = Ok tt) ->
         lookup "gateway_id" d = Some gateway_id ->
         lookup "function_arn" lambda_config = Some lambda_arn ->
         lookup "tool_schema" lambda_config
         = Some (PList (PDict tool :: tools)) ->
         lookup "name" tool = Some first_name ->
         lookup "sample_orders" lambda_config = None ->
         lookup "targetId" response = Some target_id ->
         exists t,
           execute w main = (Done tt, t)
           /\ In (Called (json_dump "gateway_config.json"
                            (PDict (store "lambda_arn" lambda_arn
                                      (store "target_name" (PStr "OrderLookup")
                                         (store "target_id" target_id d)))))
                         (Ok tt)) t)
  /\ (forall region lambda_arn target_name target_description tool_schema
             o t e,
         execute w (generated.gateway_add_lambda_target region lambda_arn
                      target_name target_description tool_schema) = (o, t) ->
         In e t -> written e = None).
Proof.
  split; [|split].
  - intros o t e p v Hrun Hin Hw.
    destruct (add_target_write w o t e p v Hrun Hin Hw)
      as (Hp & d & lambda_config & lambda_arn & kwargs & response
          & target_id & H1 & H2 & H3 & H4 & H5 & ->).
    split; [exact Hp|].
    exists d, lambda_config, lambda_arn, kwargs, response, target_id.
    eexists. split; [exact H1|]. split; [exact H2|]. split; [exact H3|].
    split; [exact H4|]. split; [exact H5|]. split; [reflexivity|].
    split; [rewrite !lookup_store_other by discriminate;
            apply lookup_store_same|].
    split; [rewrite lookup_store_other by discriminate;
            apply lookup_store_same|].
    split; [apply lookup_store_same|].
    split.
    + intros k H6 H7 H8. rewrite !lookup_store_other; congruence.
    + intros k Hk. now repeat apply keys_store.
  - apply add_target_writes.
  - apply generated_add_target_writes_nothing.
Qed.

End AddTarget.

(** C7, as stated, fails for the script of the handler: in a world where the
    gateway config is on disk and the service creates the target, the script
    runs to its end and [gateway_config.json] is never written, so the three
    keys are not added. *)
Lemma generated_add_target_leaves_config :
  exists t,
    execute target_created_world
      (generated.gateway_add_lambda_target "us-west-2"
         "arn:aws:lambda:us-west-2:123456789012:function:OrderLookup"
         "OrderLookup" "Looks up orders"
         (Ok (PList [PDict [("name", PStr "lookup_order")]])))
    = (Done tt, t)
    /\ existsb (is_callee "gateway_client.create_gateway_target") t = true
    /\ existsb (writes_file "gateway_config.json") t = false.
Proof.
  eexists. split; [reflexivity|]. split; reflexivity.
Qed.


(** *** 09_create_gateway_role.py and 11_create_gateway.py *)

Section IdempotentCreate.
Context `{PyRuntime}.
Import create_gateway_role.

(** Step 1 of the gateway-role script: when [create_role] says that the role
    exists, the role is looked up by name and its ARN is the result. *)
Lemma existing_role_is_looked_up (w : world) (h : list entry) (e : exn)
    (response role arn : pyval) :
  w _ h create_role_call = Raise e ->
  already_exists e ->
  w _ (h ++ [Called create_role_call (Raise e)])%list get_role_call
  = Ok response ->
  getitem response "Role" = Ok role ->
  getitem role "Arn" = Ok arn ->
  run w h create_or_get_role
  = (Done arn, [Called create_role_call (Raise e);
                Called get_role_call (Ok response)]).
Proof.
  intros Hcreate Hexists Hget Hrole Harn.
  unfold create_or_get_role, try_except_class, arn_of. simpl.
  rewrite Hcreate. simpl. rewrite Hexists. simpl.
  rewrite Hget. simpl. rewrite Hrole. simpl. rewrite Harn. reflexivity.
Qed.

(** Step 2: when [create_policy] says that the policy exists, its ARN is put
    together from the account and the policy name, without a further call. *)
Lemma existing_policy_is_named (w : world) (h : list entry) (e : exn)
    (account_id : pyval) :
  w _ h (create_policy_call account_id) = Raise e ->
  already_exists e ->
  run w h (create_or_name_policy account_id)
  = (Done (PStr ("arn:aws:iam::" ++ str account_id
                 ++ ":policy/ReturnsAgentGatewayPolicy")),
     [Called (create_policy_call account_id) (Raise e)]).
Proof.
  intros Hcreate Hexists.
  unfold create_or_name_policy, try_except_class. simpl.
  rewrite Hcreate. simpl. rewrite Hexists. reflexivity.
Qed.

(** The whole script, when role and policy exist already: it runs to its
    end and saves the ARN of the existing role. *)
Lemma gateway_role_script_is_rerunnable (w : world) (e1 e2 : exn)
    (identity response role : dict) (account_id arn client attached : pyval) :
  (forall h args kwargs, w _ h (extern "boto3.client" args kwargs)
                         = Ok client) ->
  (forall h, w _ h (extern "sts_client.get_caller_identity" [] [])
             = Ok (PDict identity)) ->
  lookup "Account" identity = Some account_id ->
  (forall h, w _ h create_role_call = Raise e1) -> already_exists e1 ->
  (forall h, w _ h get_role_call = Ok (PDict response)) ->
  lookup "Role" response = Some (PDict role) ->
  lookup "Arn" role = Some arn ->
  (forall h, w _ h (create_policy_call account_id) = Raise e2) ->
  already_exists e2 ->
  (forall h kwargs, w _ h (extern "iam_client.attach_role_policy" [] kwargs)
                    = Ok attached) ->
  (forall h p v, w _ h (json_dump p v) = Ok tt) ->
  exists t,
    execute w main = (Done tt, t)
    /\ In (Called
            (json_dump "gateway_role_config.json"
               (role_config arn
                  (PStr ("arn:aws:iam::" ++ str account_id
                         ++ ":policy/ReturnsAgentGatewayPolicy"))
                  account_id))
            (Ok tt)) t.
Proof.
  intros Hclient Hident Hacct Hcreate Hex1 Hget Hrole Harn Hpolicy Hex2
    Hattach Hdump.
  unfold already_exists in Hex1, Hex2.
  unfold execute, main, create_or_get_role, create_or_name_policy,
    try_except_class, arn_of.
  simpl.
  repeat (first [ rewrite Hclient | rewrite Hident | rewrite Hacct
                | rewrite Hcreate | rewrite Hex1 | rewrite Hget
                | rewrite Hrole | rewrite Harn | rewrite Hpolicy
                | rewrite Hex2 | rewrite Hattach | rewrite Hdump
                | progress unfold dict_getitem, dict_get ];
          simpl).
  eexists. split; [reflexivity | in_trace].
Qed.

Section CreateGateway.
Import create_gateway.

(** [11_create_gateway.py] has no such fallback: when [create_gateway]
    raises, whatever the exception, the script exits with status 1 and makes
    no further call. *)
Lemma create_gateway_failure_exits (w : world) (o : outcome unit)
    (t : list entry) (e : entry) (x : exn) :
  execute w main = (o, t) ->
  In e t ->
  is_callee "gateway_client.create_gateway" e = true ->
  answer_of e = Some (Raise x) ->
  o = Exit 1 /\ exists t0, t = (t0 ++ [e])%list.
Proof.
  unfold execute, main, try_except_class.
  exec w; intros [= <- <-] Hin Hc Ha; split_in Hin;
    try discriminate Hc; try discriminate Ha.
  all: split; [reflexivity|].
  all: eexists [_; _; _]; reflexivity.
Qed.

End CreateGateway.

(** C6, as the code has it.  The gateway-role script recovers from "already
    exists": an existing role is looked up by name with [get_role] and its
    ARN is used; the ARN of an existing policy is put together from the
    account and the policy name; with role and policy in place the script
    runs to its end and saves these ARNs.  The gateway-create script has no
    such path: when [create_gateway] raises, it exits with status 1 after
    that call. *)
Theorem idempotent_create_in_role_script (w : world) :
  (forall h e response role arn,
      w _ h create_role_call = Raise e ->
      already_exists e ->
      w _ (h ++ [Called create_role_call (Raise e)])%list get_role_call
      = Ok response ->
      getitem response "Role" = Ok role ->
      getitem role "Arn" = Ok arn ->
      run w h create_or_get_role
      = (Done arn, [Called create_role_call (Raise e);
                    Called get_role_call (Ok response)]))
  /\ (forall h e account_id,
         w _ h (create_policy_call account_id) = Raise e ->
         already_exists e ->
         run w h (create_or_name_policy account_id)
         = (Done (PStr ("arn:aws:iam::" ++ str account_id
                        ++ ":policy/ReturnsAgentGatewayPolicy")),
            [Called (create_policy_call account_id) (Raise e)]))
  /\ (forall e1 e2 identity response role account_id arn client attached,
         (forall h args kwargs, w _ h (extern "boto3.client" args kwargs)
                                = Ok client) ->
         (forall h, w _ h (extern "sts_client.get_caller_identity" [] [])
                    = Ok (PDict identity)) ->
         lookup "Account" identity = Some account_id ->
         (forall h, w _ h create_role_call = Raise e1) ->
         already_exists e1 ->
         (forall h, w _ h get_role_call = Ok (PDict response)) ->
         lookup "Role" response = Some (PDict role) ->
         lookup "Arn" role = Some arn ->
         (forall h, w _ h (create_policy_call account_id) = Raise e2) ->
         already_exists e2 ->
         (forall h kwargs,
             w _ h (extern "iam_client.attach_role_policy" [] kwargs)
             = Ok attached) ->
         (forall h p v, w _ h (json_dump p v) = Ok tt) ->
         exists t,
           execute w main = (Done tt, t)
           /\ In (Called
                   (json_dump "gateway_role_config.json"
                      (role_config arn
                         (PStr ("arn:aws:iam::" ++ str account_id
                                ++ ":policy/ReturnsAgentGatewayPolicy"))
                         account_id))
                   (Ok tt)) t)
  /\ (forall o t e x,
         execute w create_gateway.main = (o, t) ->
         In e t ->
         is_callee "gateway_client.create_gateway" e = true ->
         answer_of e = Some (Raise x) ->
         o = Exit 1 /\ exists t0, t = (t0 ++ [e])%list).
Proof.
  split; [exact (existing_role_is_looked_up w)|].
  split; [exact (existing_policy_is_named w)|].
  split; [exact (gateway_role_script_is_rerunnable w)|].
  exact (create_gateway_failure_exits w).
Qed.

End IdempotentCreate.

(** C6, as stated, fails for the gateway-create script: when the gateway
    exists already, [create_gateway] raises the conflict error of the
    service and the script exits with status 1; it looks nothing up and
    writes no config. *)
Lemma create_gateway_exits_when_gateway_exists :
  exists t e,
    execute gateway_exists_world create_gateway.main = (Exit 1, t)
    /\ last t (Called (time_sleep 0) tt) = e
    /\ is_callee "gateway_client.create_gateway" e = true
    /\ answer_of e
       = Some (Raise (Exn "ConflictException"
                          "An error occurred (ConflictException) when calling the CreateGateway operation: A gateway with this name already exists"))
    /\ List.length t = 4%nat
    /\ existsb (writes_file "gateway_config.json") t = false.
Proof.
  do 2 eexists. split; [reflexivity|].
  split; [reflexivity|]. split; [reflexivity|]. split; [reflexivity|].
  split; reflexivity.
Qed.


(** *** 21_invoke_agent.py *)

Section InvokeAgent.
Context `{PyRuntime}.
Import invoke_agent.

(** The request to the token endpoint, whenever the script makes it. *)
Lemma token_request (w : world) (o : outcome unit) (t : list entry)
    (e : entry) (url : pyval) (headers data : dict) :
  execute w main = (o, t) ->
  In e t ->
  posted e = Some (url, headers, data) ->
  exists cognito_config client_id client_secret scope_list scopes,
    In (Called (json_load "cognito_config.json") (Ok cognito_config)) t
    /\ getitem cognito_config "client_id" = Ok client_id
    /\ getitem cognito_config "client_secret" = Ok client_secret
    /\ getitem cognito_config "token_endpoint" = Ok url
    /\ getitem cognito_config "scopes" = Ok scope_list
    /\ join " " scope_list = Ok scopes
    /\ headers = [("Authorization",
                   PStr ("Basic " ++ b64encode (str client_id ++ ":"
                                                ++ str client_secret)));
                  ("Content-Type", PStr "application/x-www-form-urlencoded")]
    /\ data = [("grant_type", PStr "client_credentials");
               ("scope", PStr scopes)].
Proof.
  unfold execute, main.
  exec w; intros [= <- <-] Hin Hp; split_in Hin; try discriminate Hp.
  all: injection Hp as <- <- <-.
  all: do 5 eexists.
  all: split; [in_trace|].
  all: repeat (split; [eassumption|]).
  all: split; reflexivity.
Qed.

(** The call of the agent, whenever the script makes it: the token endpoint
    answered with status 200 and the [access_token] of its answer is the
    bearer token of the call. *)
Lemma invoke_carries_access_token (w : world) (o : outcome unit)
    (t : list entry) (e : entry) :
  execute w main = (o, t) ->
  In e t ->
  is_callee "runtime.invoke" e = true ->
  exists url headers data granted token_data token,
    In (Called (requests_post url headers data) (Ok granted)) t
    /\ status_code granted = 200%Z
    /\ json granted = Ok token_data
    /\ getitem token_data "access_token" = Ok token
    /\ kwargs_of e
       = Some [("payload",
                PDict [("prompt",
                        PStr "Can you look up my order ORD-001 and help me with a return?");
                       ("actor_id", PStr "user_001")]);
               ("bearer_token", token)].
Proof.
  unfold execute, main.
  exec w; intros [= <- <-] Hin Hc; split_in Hin; try discriminate Hc.
  all: do 6 eexists.
  all: split; [in_trace|].
  all: split; [apply Z.eqb_eq; apply negb_false_iff; eassumption|].
  all: split; [eassumption|].
  all: split; [eassumption | reflexivity].
Qed.

Lemma join_strs (sep : string) (l : list string) :
  join sep (PList (map PStr l)) = Ok (str_join sep l).
Proof.
  unfold join. cbn [iter].
  assert (Hall : forall n, all_str n (map PStr l) = Ok l).
  { induction l as [|s l IH]; intros n; simpl;
      [reflexivity | now rewrite IH]. }
  now rewrite Hall.
Qed.

(** With the config files in place, a token endpoint that answers 200 with
    an [access_token], and a toolkit that answers, the script requests the
    token and calls the agent with it. *)
Lemma invoke_agent_runs (w : world) (cognito_config role_config : dict)
    (client_id client_secret token_endpoint discovery_url role_arn : pyval)
    (scope_list : list string) (granted : response) (token_data : dict)
    (token runtime configured answer : pyval) :
  (forall h, w _ h (json_load "cognito_config.json")
             = Ok (PDict cognito_config)) ->
  (forall h, w _ h (json_load "runtime_execution_role_config.json")
             = Ok (PDict role_config)) ->
  lookup "client_id" cognito_config = Some client_id ->
  lookup "client_secret" cognito_config = Some client_secret ->
  lookup "token_endpoint" cognito_config = Some token_endpoint ->
  lookup "discovery_url" cognito_config = Some discovery_url ->
  lookup "scopes" cognito_config = Some (PList (map PStr scope_list)) ->
  lookup "role_arn" role_config = Some role_arn ->
  (forall h url headers data, w _ h (requests_post url headers data)
                              = Ok granted) ->
  status_code granted = 200%Z ->
  json granted = Ok (PDict token_data) ->
  lookup "access_token" token_data = Some token ->
  (forall h, w _ h (extern "Runtime" [] []) = Ok runtime) ->
  (forall h kwargs, w _ h (extern "runtime.configure" [] kwargs)
                    = Ok configured) ->
  (forall h kwargs, w _ h (extern "runtime.invoke" [] kwargs) = Ok answer) ->
  exists t,
    execute w main = (Done tt, t)
    /\ In (Called
            (requests_post token_endpoint
               [("Authorization",
                 PStr ("Basic " ++ b64encode (str client_id ++ ":"
                                              ++ str client_secret)));
                ("Content-Type", PStr "application/x-www-form-urlencoded")]
               [("grant_type", PStr "client_credentials");
                ("scope", PStr (str_join " " scope_list))])
            (Ok granted)) t
    /\ In (Called
             (extern "runtime.invoke" [] [
                ("payload",
                 PDict [("prompt",
                         PStr "Can you look up my order ORD-001 and help me with a return?");
                        ("actor_id", PStr "user_001")]);
                ("bearer_token", token)])
             (Ok answer)) t.
Proof.
  intros Hcfg Hrole Hcid Hsecret Hurl Hdisc Hscopes Harn Hpost Hstatus Hjson
    Htoken Hruntime Hconfigure Hinvoke.
  pose proof (join_strs " " scope_list) as Hjoin.
  unfold execute, main. simpl.
  repeat (first [ rewrite Hcfg | rewrite Hrole | rewrite Hcid
                | rewrite Hsecret | rewrite Hurl | rewrite Hdisc
                | rewrite Hscopes | rewrite Harn | rewrite Hjoin
                | rewrite Hpost | rewrite Hstatus | rewrite Hjson
                | rewrite Htoken | rewrite Hruntime | rewrite Hconfigure
                | rewrite Hinvoke
                | progress unfold dict_getitem, dict_get ];
          simpl).
  eexists. split; [reflexivity|]. split; in_trace.
Qed.

(** C8.  The invoke-agent script obtains its token with the client
    credentials grant.  Whenever it posts to the token endpoint, the request
    goes to the [token_endpoint] of the Cognito config with the header
    [Authorization: Basic base64(client_id:client_secret)] and the form
    fields [grant_type=client_credentials] and [scope], the configured
    scopes joined by spaces.  Whenever it calls [runtime.invoke], the
    endpoint answered 200 and the [access_token] of the answer is the
    [bearer_token] of the call.  And with the config in place, a 200 answer
    carrying a token and a toolkit that answers, both calls are made. *)
Theorem invoke_agent_uses_client_credentials (w : world) :
  (forall o t e url headers data,
      execute w main = (o, t) ->
      In e t ->
      posted e = Some (url, headers, data) ->
      exists cognito_config client_id client_secret scope_list scopes,
        In (Called (json_load "cognito_config.json") (Ok cognito_config)) t
        /\ getitem cognito_config "client_id" = Ok client_id
        /\ getitem cognito_config "client_secret" = Ok client_secret
        /\ getitem cognito_config "token_endpoint" = Ok url
        /\ getitem cognito_config "scopes" = Ok scope_list
        /\ join " " scope_list = Ok scopes
        /\ headers = [("Authorization",
                       PStr ("Basic " ++ b64encode (str client_id ++ ":"
                                                    ++ str client_secret)));
                      ("Content-Type",
                       PStr "application/x-www-form-urlencoded")]
        /\ data = [("grant_type", PStr "client_credentials");
                   ("scope", PStr scopes)])
  /\ (forall o t e,
         execute w main = (o, t) ->
         In e t ->
         is_callee "runtime.invoke" e = true ->
         exists url headers data granted token_data token,
           In (Called (requests_post url headers data) (Ok granted)) t
           /\ status_code granted = 200%Z
           /\ json granted = Ok token_data
           /\ getitem token_data "access_token" = Ok token
           /\ kwargs_of e
              = Some [("payload",
                       PDict [("prompt",
                               PStr "Can you look up my order ORD-001 and help me with a return?");
                              ("actor_id", PStr "user_001")]);
                      ("bearer_token", token)])
  /\ (forall cognito_config role_config client_id client_secret
             token_endpoint discovery_url role_arn scope_list granted
             token_data token runtime configured answer,
         (forall h, w _ h (json_load "cognito_config.json")
                    = Ok (PDict cognito_config)) ->
         (forall h, w _ h (json_load "runtime_execution_role_config.json")
                    = Ok (PDict role_config)) ->
         lookup "client_id" cognito_config = Some client_id ->
         lookup "client_secret" cognito_config = Some client_secret ->
         lookup "token_endpoint" cognito_config = Some token_endpoint ->
         lookup "discovery_url" cognito_config = Some discovery_url ->
         lookup "scopes" cognito_config = Some (PList (map PStr scope_list)) ->
         lookup "role_arn" role_config = Some role_arn ->
         (forall h url headers data, w _ h (requests_post url headers data)
                                     = Ok granted) ->
         status_code granted = 200%Z ->
         json granted = Ok (PDict token_data) ->
         lookup "access_token" token_data = Some token ->
         (forall h, w _ h (extern "Runtime" [] []) = Ok runtime) ->
         (forall h kwargs, w _ h (extern "runtime.configure" [] kwargs)
                           = Ok configured) ->
         (forall h kwargs, w _ h (extern "runtime.invoke" [] kwargs)
                           = Ok answer) ->
         exists t,
           execute w main = (Done tt, t)
           /\ In (Called
                   (requests_post token_endpoint
                      [("Authorization",
                        PStr ("Basic " ++ b64encode (str client_id ++ ":"
                                                     ++ str client_secret)));
                       ("Content-Type",
                        PStr "application/x-www-form-urlencoded")]
                      [("grant_type", PStr "client_credentials");
                       ("scope", PStr (str_join " " scope_list))])
                   (Ok granted)) t
           /\ In (Called
                    (extern "runtime.invoke" [] [
                       ("payload",
                        PDict [("prompt",
                                PStr "Can you look up my order ORD-001 and help me with a return?");
                               ("actor_id", PStr "user_001")]);
                       ("bearer_token", token)])
                    (Ok answer)) t).
Proof.
  split; [intros o t e url headers data; apply token_request|].
  split; [intros o t e; apply invoke_carries_access_token|].
  intros; eapply invoke_agent_runs; eassumption.
Qed.

End InvokeAgent.

(** * The statements at concrete inputs *)

Lemma example_strategies_are_mappings :
  Forall strategy_mapping example_strategies.
Proof.
  unfold example_strategies.
  repeat (apply Forall_cons;
          [eexists; split; [reflexivity|];
           first [left; reflexivity | right; eexists; reflexivity] |]).
  apply Forall_nil.
Defined.

(** C1 at the list that holds one strategy, named 5. *)
Lemma non_str_name_is_not_passed_through_witness :
  @memory_handlers.handle_memory_create example_runtime
    [("name", PStr "support memory");
     ("strategies", PList [PDict [("name", PInt 5)]])]
  = Raise (Exn "AttributeError" "'int' object has no attribute 'lower'").
Proof.
  refine (proj2 (@non_str_name_is_not_passed_through example_runtime
                   [("name", PStr "support memory");
                    ("strategies", PList [PDict [("name", PInt 5)]])]
                   (PStr "support memory") [] [] [] [("name", PInt 5)]
                   (PInt 5) eq_refl eq_refl eq_refl eq_refl _)).
  intros s. discriminate.
Defined.

(** C9 at the second strategy, named "Preferences". *)
Lemma strategy_lookup_ignores_case_witness :
  case_variant "Preferences" "preferences"
  /\ exists out,
      memory_handlers.transform_strategies example_strategies = Ok out
      /\ nth_error out 1
         = Some (PDict [("userPreferenceMemoryStrategy",
                         PDict [("name", PStr "Preferences");
                                ("namespaces",
                                 PList [PStr "app/{actorId}/preferences"])])])
      /\ nth_error out 4
         = Some (PDict [("namespaces", PList [PStr "app/{actorId}/other"])]).
Proof.
  assert (Hv : case_variant "Preferences" "preferences").
  { apply (str_lower_case_variant "Preferences" "preferences");
      reflexivity. }
  split; [exact Hv|].
  destruct (strategy_lookup_ignores_case example_strategies 1 _
              example_strategies_are_mappings eq_refl)
    as (out & Hout & Hknown & _).
  destruct (strategy_lookup_ignores_case example_strategies 4 _
              example_strategies_are_mappings eq_refl)
    as (out' & Hout' & _ & Hnameless).
  rewrite Hout in Hout'. injection Hout' as <-.
  exists out. split; [exact Hout|]. split.
  - apply (Hknown "Preferences" "preferences" "userPreferenceMemoryStrategy").
    + unfold strategy_keys. simpl. tauto.
    + reflexivity.
    + exact Hv.
  - apply Hnameless. reflexivity.
Defined.

(** C10 at two calls that differ in the score only. *)
Lemma memory_retrieve_ignores_relevance_score_witness :
  (forall k, k <> "relevance_score" ->
             lookup k (example_retrieve_args (PFloat server.float_0_2))
             = lookup k (example_retrieve_args (PInt 1)))
  /\ @memory_handlers.handle_memory_retrieve example_runtime
       (example_retrieve_args (PFloat server.float_0_2))
     = @memory_handlers.handle_memory_retrieve example_runtime
         (example_retrieve_args (PInt 1)).
Proof.
  assert (Hagree : forall k, k <> "relevance_score" ->
             lookup k (example_retrieve_args (PFloat server.float_0_2))
             = lookup k (example_retrieve_args (PInt 1))).
  { intros k Hk. unfold example_retrieve_args. cbn [lookup].
    repeat match goal with
           | |- context [String.eqb k ?s] =>
               destruct (String.eqb_spec k s); [try reflexivity; congruence|]
           end.
    reflexivity. }
  split; [exact Hagree|].
  exact (proj1 (@memory_retrieve_ignores_relevance_score example_runtime)
           _ _ Hagree).
Defined.

(** C2, as stated, fails: the gateway-create tool called with the protocol
    "HTTP" returns no dict; the handler raises [ValueError]. *)
Lemma gateway_create_rejects_http :
  @server.agentcore_gateway_create example_runtime
    "Returns Gateway" "arn:aws:iam::123456789012:role/GatewayRole"
    "3n4b5urk1ft4fl3mg5e62d9ado"
    "https://cognito-idp.us-west-2.amazonaws.com/us-west-2_AbCdEf/.well-known/openid-configuration"
    (Some "HTTP") None None None
  = Raise (ValueError "Only MCP protocol is supported in this handler")
  /\ ~ returns_script_payload
       (@server.agentcore_gateway_create example_runtime
          "Returns Gateway" "arn:aws:iam::123456789012:role/GatewayRole"
          "3n4b5urk1ft4fl3mg5e62d9ado"
          "https://cognito-idp.us-west-2.amazonaws.com/us-west-2_AbCdEf/.well-known/openid-configuration"
          (Some "HTTP") None None None).
Proof.
  split; [reflexivity|].
  intros (v & Hv & _). discriminate Hv.
Qed.

(** C2 at the memory-create tool and at the gateway-create tool with the
    default protocol. *)
Lemma handlers_return_script_payload_witness :
  Forall strategy_mapping
    (map PDict [[("name", PStr "summary")]; [("name", PStr "semantic")]])
  /\ returns_script_payload
       (@server.agentcore_memory_create example_runtime "support memory"
          [[("name", PStr "summary")]; [("name", PStr "semantic")]]
          None None)
  /\ server.or_default None "MCP" = "MCP"
  /\ returns_script_payload
       (@server.agentcore_gateway_create example_runtime
          "Returns Gateway" "arn:aws:iam::123456789012:role/GatewayRole"
          "3n4b5urk1ft4fl3mg5e62d9ado"
          "https://cognito-idp.us-west-2.amazonaws.com/us-west-2_AbCdEf/.well-known/openid-configuration"
          None None None None).
Proof.
  assert (Hall : Forall strategy_mapping
            (map PDict [[("name", PStr "summary")];
                        [("name", PStr "semantic")]])).
  { simpl. repeat (apply Forall_cons;
                   [eexists; split; [reflexivity|];
                    right; eexists; reflexivity |]).
    apply Forall_nil. }
  pose proof (@handlers_return_script_payload example_runtime) as Hthm.
  destruct Hthm as (_ & _ & Hmemory & _ & _ & _ & Hgateway & _).
  split; [exact Hall|].
  split; [apply Hmemory; exact Hall|].
  split; [reflexivity|].
  apply (proj1 (Hgateway _ _ _ _ None None None None)). reflexivity.
Defined.

(** C3 at a gateway named "Returns Gateway". *)
Lemma gateway_create_script_text_witness :
  lookup "name" example_gateway_args = Some (PStr "Returns Gateway")
  /\ dict_get example_gateway_args "protocol_type" (PStr "MCP") = PStr "MCP"
  /\ PyLex.plain "Returns Gateway" = true
  /\ exists code,
      lookup "code"
        (match @gateway_handlers.handle_gateway_create example_runtime
                 example_gateway_args with
         | Ok (PDict d) => d
         | _ => []
         end) = Some (PStr code)
      /\ occurs_in "Returns Gateway" code
      /\ occurs_in "with open('gateway_config.json', 'w') as f:" code
      /\ PyLex.literals_closed code = true.
Proof.
  split; [reflexivity|]. split; [reflexivity|]. split; [reflexivity|].
  destruct (@gateway_create_script_text example_runtime example_gateway_args
              "Returns Gateway" _ _ _ eq_refl eq_refl eq_refl eq_refl eq_refl)
    as (Hrun & Hname & _ & _ & _ & _ & Hopen & _ & _ & Hlex).
  eexists. split; [rewrite Hrun; reflexivity|].
  split; [exact Hname|]. split; [exact Hopen|].
  apply Hlex; reflexivity.
Defined.

(** C4 on an empty disk. *)
Lemma delete_scripts_exit_0_without_config_witness :
  absent empty_disk_world "memory_config.json"
  /\ absent empty_disk_world "gateway_config.json"
  /\ absent empty_disk_world "runtime_config.json"
  /\ exit_status (fst (execute empty_disk_world
                         (generated.memory_delete "us-west-2"))) = 0%Z
  /\ exit_status (fst (execute empty_disk_world
                         (generated.gateway_delete_target "us-west-2" "T1")))
     = 0%Z
  /\ exit_status (fst (execute empty_disk_world
                         (generated.gateway_delete "us-west-2"))) = 0%Z
  /\ exit_status (fst (execute empty_disk_world
                         (generated.runtime_delete "us-west-2"))) = 0%Z.
Proof.
  assert (Habs : forall p, absent empty_disk_world p)
    by (intros p h; reflexivity).
  destruct (@delete_scripts_exit_0_without_config example_runtime
              empty_disk_world)
    as (Hmem & Htarget & Hgateway & Hruntime & _).
  split; [apply Habs|]. split; [apply Habs|]. split; [apply Habs|].
  split; [rewrite (Hmem (Habs _)); reflexivity|].
  split; [rewrite (Htarget (Habs _)); reflexivity|].
  split; [rewrite (Hgateway (Habs _)); reflexivity|].
  rewrite (Hruntime (Habs _)); reflexivity.
Defined.

(** C5 fails on the code.  The verification of step 1.5 is wrapped in a
    handler that prints a warning and goes on, where step 1 re-raises to
    keep the gateway.  In the run below the first listing shows the target
    T1, its deletion succeeds and the listing that is to verify the deletion
    raises: the script still calls [delete_gateway] and runs to its end,
    though no listing of the run confirmed that the targets are gone. *)
Theorem gateway_deleted_without_verification :
  exists t,
    execute throttled_world (generated.gateway_delete "us-west-2")
    = (Done tt, t)
    /\ map callee_of (filter is_extern t)
       = [Some "boto3.client";
          Some "gateway_client.list_gateway_targets";
          Some "gateway_client.delete_gateway_target";
          Some "gateway_client.list_gateway_targets";
          Some "gateway_client.delete_gateway"]
    /\ map answer_of (filter is_list_targets t)
       = [Some (Ok (PDict [("items",
                            PList [PDict [("targetId", PStr "T1");
                                          ("name", PStr "OrderLookup")]])]));
          Some (Raise (Exn "ThrottlingException" "Rate exceeded"))]
    /\ existsb confirms_empty t = false
    /\ filter is_sleep t = [].
Proof.
  eexists. split; [reflexivity|]. split; [reflexivity|].
  split; [reflexivity|]. split; reflexivity.
Qed.

(** C6 where role and policy exist: the script saves the ARN of the role
    that [get_role] reports. *)
Lemma idempotent_create_in_role_script_witness :
  already_exists
    (Exn "EntityAlreadyExistsException"
         "An error occurred (EntityAlreadyExists) when calling the operation: the entity already exists")
  /\ exists t,
      execute role_exists_world (@create_gateway_role.main example_runtime)
      = (Done tt, t)
      /\ In (Called
              (json_dump "gateway_role_config.json"
                 (create_gateway_role.role_config
                    (PStr "arn:aws:iam::123456789012:role/ReturnsAgentGatewayRole")
                    (PStr "arn:aws:iam::123456789012:policy/ReturnsAgentGatewayPolicy")
                    (PStr "123456789012")))
              (Ok tt)) t.
Proof.
  split; [reflexivity|].
  destruct (@idempotent_create_in_role_script example_runtime
              role_exists_world)
    as (_ & _ & Hmain & _).
  apply (Hmain
           (Exn "EntityAlreadyExistsException"
                "An error occurred (EntityAlreadyExists) when calling the operation: the entity already exists")
           (Exn "EntityAlreadyExistsException"
                "An error occurred (EntityAlreadyExists) when calling the operation: the entity already exists")
           [("Account", PStr "123456789012")]
           [("Role", PDict [
               ("RoleName", PStr "ReturnsAgentGatewayRole");
               ("Arn",
                PStr "arn:aws:iam::123456789012:role/ReturnsAgentGatewayRole")])]
           [("RoleName", PStr "ReturnsAgentGatewayRole");
            ("Arn",
             PStr "arn:aws:iam::123456789012:role/ReturnsAgentGatewayRole")]
           (PStr "123456789012")
           (PStr "arn:aws:iam::123456789012:role/ReturnsAgentGatewayRole")
           (PDict []) (PDict []));
    try reflexivity; intros; reflexivity.
Defined.

(** C7 with both configs on disk: the config is written back with the three
    keys added and the other four as they were. *)
Lemma add_target_augments_gateway_config_witness :
  exists t d',
    execute lambda_attached_world add_lambda_to_gateway.main = (Done tt, t)
    /\ In (Called (json_dump "gateway_config.json" (PDict d')) (Ok tt)) t
    /\ keys d' = ["id"; "gateway_id"; "gateway_url"; "gateway_arn";
                  "target_id"; "target_name"; "lambda_arn"]
    /\ lookup "gateway_url" d'
       = Some (PStr "https://gw-1.gateway.example/mcp").
Proof.
  destruct (add_target_augments_gateway_config lambda_attached_world)
    as (_ & Hwrites & _).
  destruct (Hwrites
              [("id", PStr "gw-1");
               ("gateway_id", PStr "gw-1");
               ("gateway_url", PStr "https://gw-1.gateway.example/mcp");
               ("gateway_arn",
                PStr "arn:aws:bedrock-agentcore:us-west-2:123456789012:gateway/gw-1")]
              [("function_name", PStr "OrderLookupFunction");
               ("function_arn",
                PStr "arn:aws:lambda:us-west-2:123456789012:function:OrderLookupFunction");
               ("tool_schema",
                PList [PDict [("name", PStr "lookup_order");
                              ("description", PStr "Look up an order")]])]
              [("targetId", PStr "T1")]
              [("name", PStr "lookup_order");
               ("description", PStr "Look up an order")]
              (PStr "gw-1")
              (PStr "arn:aws:lambda:us-west-2:123456789012:function:OrderLookupFunction")
              (PStr "T1") (PStr "lookup_order") (PDict []) [])
    as (t & Hrun & Hin); try reflexivity; try (intros; reflexivity).
  exists t. eexists. split; [exact Hrun|]. split; [exact Hin|].
  split; reflexivity.
Defined.

(** C8 with a token endpoint that grants "tok-123". *)
Lemma invoke_agent_uses_client_credentials_witness :
  exists t,
    execute token_granted_world (@invoke_agent.main example_runtime)
    = (Done tt, t)
    /\ In (Called
            (requests_post
               (PStr "https://returns.auth.us-west-2.amazoncognito.com/oauth2/token")
               [("Authorization",
                 PStr "Basic M240YjV1cmsxZnQ0ZmwzbWc1ZTYyZDlhZG86czNjcjN0");
                ("Content-Type", PStr "application/x-www-form-urlencoded")]
               [("grant_type", PStr "client_credentials");
                ("scope",
                 PStr "agentcore-gateway/read agentcore-gateway/write")])
            (Ok (Response 200 "{...}"
                   (Ok (PDict [("access_token", PStr "tok-123");
                               ("token_type", PStr "Bearer")])))))
         t
    /\ In (Called
             (extern "runtime.invoke" [] [
                ("payload",
                 PDict [("prompt",
                         PStr "Can you look up my order ORD-001 and help me with a return?");
                        ("actor_id", PStr "user_001")]);
                ("bearer_token", PStr "tok-123")])
             (Ok (PDict [("response", PStr "Your order is on its way.")])))
          t.
Proof.
  destruct (@invoke_agent_uses_client_credentials example_runtime
              token_granted_world)
    as (_ & _ & Hruns).
  apply (Hruns
           [("client_id", PStr "3n4b5urk1ft4fl3mg5e62d9ado");
            ("client_secret", PStr "s3cr3t");
            ("token_endpoint",
             PStr "https://returns.auth.us-west-2.amazoncognito.com/oauth2/token");
            ("discovery_url",
             PStr "https://cognito-idp.us-west-2.amazonaws.com/us-west-2_AbCdEf/.well-known/openid-configuration");
            ("scopes", PList [PStr "agentcore-gateway/read";
                              PStr "agentcore-gateway/write"])]
           [("role_arn", PStr "arn:aws:iam::123456789012:role/RuntimeRole")]
           (PStr "3n4b5urk1ft4fl3mg5e62d9ado") (PStr "s3cr3t")
           (PStr "https://returns.auth.us-west-2.amazoncognito.com/oauth2/token")
           (PStr "https://cognito-idp.us-west-2.amazonaws.com/us-west-2_AbCdEf/.well-known/openid-configuration")
           (PStr "arn:aws:iam::123456789012:role/RuntimeRole")
           ["agentcore-gateway/read"; "agentcore-gateway/write"]
           (Response 200 "{...}"
              (Ok (PDict [("access_token", PStr "tok-123");
                          ("token_type", PStr "Bearer")])))
           [("access_token", PStr "tok-123"); ("token_type", PStr "Bearer")]
           (PStr "tok-123")
           (PDict [("response", PStr "Your order is on its way.")])
           (PDict [("response", PStr "Your order is on its way.")])
           (PDict [("response", PStr "Your order is on its way.")]));
    try reflexivity; intros; reflexivity.
Defined.

(** * Further properties of the handlers *)

Section HandlerProperties.
Context `{PyRuntime}.
Import memory_handlers gateway_handlers runtime_handlers.
Import identity_handlers observability_handlers server.

(** ** The strategy transformation, applied twice *)

Lemma transform_strategy_again (strategy t : pyval) :
  transform_strategy strategy = Ok t -> transform_strategy t = Ok t.
Proof.
  unfold transform_strategy. intros Ht.
  destruct strategy as [| | | | |l|d]; try discriminate Ht.
  simpl in Ht.
  destruct (lower (dict_get d "name" (PStr EmptyString))) as [n|e] eqn:En;
    [|discriminate Ht].
  simpl in Ht.
  destruct (String.eqb n "summary") eqn:E1;
    [injection Ht as <-; reflexivity|].
  destruct (String.eqb n "preferences") eqn:E2;
    [injection Ht as <-; reflexivity|].
  destruct (String.eqb n "semantic") eqn:E3;
    [injection Ht as <-; reflexivity|].
  injection Ht as <-. simpl. rewrite En. simpl.
  now rewrite E1, E2, E3.
Qed.

(** X1.  The loop of [handle_memory_create] changes nothing when it is run on
    its own output: a strategy that was wrapped under one of the three
    tagged-union keys has no ["name"] of its own and is passed through, and
    so is a strategy that was passed through before.  So a caller may hand in
    strategies that are in the tagged-union format already. *)
Theorem transform_strategies_idempotent (strategies out : list pyval) :
  transform_strategies strategies = Ok out ->
  transform_strategies out = Ok out.
Proof.
  revert out. induction strategies as [|s l IH]; intros out Hout.
  - injection Hout as <-. reflexivity.
  - simpl in Hout.
    destruct (transform_strategy s) as [t|e] eqn:Et; [|discriminate Hout].
    simpl in Hout.
    destruct (transform_strategies l) as [ts|e] eqn:Ets;
      [|discriminate Hout].
    injection Hout as <-. simpl.
    rewrite (transform_strategy_again s t Et). simpl.
    now rewrite (IH ts eq_refl).
Qed.

(** ** Arguments that are asked for and not used *)

(** Reads the keys a handler looks at from an agreement of two mappings. *)
Ltac agree_on Hagree :=
  repeat match goal with
         | |- context [lookup ?k ?a] =>
             lazymatch type of Hagree with
             | agree_outside _ a _ =>
                 rewrite (Hagree k)
                   by (simpl; intros Hk;
                       repeat (destruct Hk as [Hk|Hk];
                               [discriminate Hk|]); exact Hk)
             end
         end.

(** X2.  [handle_memory_create_event], [handle_memory_retrieve] and
    [handle_memory_delete] ask for ["memory_id"] and do not use it: without
    the key they raise [KeyError]; with it, whatever its value, the result is
    the same.  (The scripts they return read the id from
    [memory_config.json].)  So the [memory_id] of the three tools of
    [server.py] has no effect on what they return. *)
Theorem memory_id_is_required_and_unused :
  (forall args,
      lookup "memory_id" args = None ->
      handle_memory_create_event args = Raise (KeyError "memory_id")
      /\ handle_memory_retrieve args = Raise (KeyError "memory_id")
      /\ handle_memory_delete args = Raise (KeyError "memory_id"))
  /\ (forall a b x y,
         agree_outside ["memory_id"] a b ->
         lookup "memory_id" a = Some x ->
         lookup "memory_id" b = Some y ->
         handle_memory_create_event a = handle_memory_create_event b
         /\ handle_memory_retrieve a = handle_memory_retrieve b
         /\ handle_memory_delete a = handle_memory_delete b)
  /\ (forall id1 id2 actor_id session_id messages region,
         agentcore_memory_create_event id1 actor_id session_id messages region
         = agentcore_memory_create_event id2 actor_id session_id messages
             region)
  /\ (forall id1 id2 namespace query top_k relevance_score region,
         agentcore_memory_retrieve id1 namespace query top_k relevance_score
           region
         = agentcore_memory_retrieve id2 namespace query top_k relevance_score
             region)
  /\ (forall id1 id2 region,
         agentcore_memory_delete id1 region
         = agentcore_memory_delete id2 region).
Proof.
  split; [|split; [|split; [|split]]].
  - intros args Hnone.
    unfold handle_memory_create_event, handle_memory_retrieve,
      handle_memory_delete, dict_getitem.
    rewrite Hnone. simpl. repeat split.
  - intros a b x y Hagree Ha Hb.
    unfold handle_memory_create_event, handle_memory_retrieve,
      handle_memory_delete, dict_getitem, dict_get.
    rewrite Ha, Hb. simpl.
    agree_on Hagree. repeat split.
  - reflexivity.
  - reflexivity.
  - reflexivity.
Qed.

(** X3.  The gateway handlers do not read ["gateway_id"] at all, although the
    four tools of [server.py] that work on an existing gateway ask for it:
    the scripts take the id from [gateway_config.json].
    [handle_gateway_create] asks for ["role_arn"], ["cognito_client_id"] and
    ["cognito_discovery_url"] and uses none of the three values. *)
Theorem gateway_handlers_ignore_ids :
  (forall a b,
      agree_outside ["gateway_id"] a b ->
      handle_gateway_add_lambda_target a = handle_gateway_add_lambda_target b
      /\ handle_gateway_list_targets a = handle_gateway_list_targets b
      /\ handle_gateway_delete_target a = handle_gateway_delete_target b
      /\ handle_gateway_delete a = handle_gateway_delete b)
  /\ (forall id1 id2 target_name lambda_arn tool_schema target_description
             region,
         agentcore_gateway_add_lambda_target id1 target_name lambda_arn
           tool_schema target_description region
         = agentcore_gateway_add_lambda_target id2 target_name lambda_arn
             tool_schema target_description region)
  /\ (forall id1 id2 region,
         agentcore_gateway_list_targets id1 region
         = agentcore_gateway_list_targets id2 region)
  /\ (forall id1 id2 target_id region,
         agentcore_gateway_delete_target id1 target_id region
         = agentcore_gateway_delete_target id2 target_id region)
  /\ (forall id1 id2 region,
         agentcore_gateway_delete id1 region
         = agentcore_gateway_delete id2 region)
  /\ (forall a b r1 c1 u1 r2 c2 u2,
         agree_outside
           ["role_arn"; "cognito_client_id"; "cognito_discovery_url"] a b ->
         lookup "role_arn" a = Some r1 ->
         lookup "cognito_client_id" a = Some c1 ->
         lookup "cognito_discovery_url" a = Some u1 ->
         lookup "role_arn" b = Some r2 ->
         lookup "cognito_client_id" b = Some c2 ->
         lookup "cognito_discovery_url" b = Some u2 ->
         handle_gateway_create a = handle_gateway_create b)
  /\ (forall name r1 c1 u1 r2 c2 u2 protocol_type authorizer_type
             description region,
         agentcore_gateway_create name r1 c1 u1 protocol_type authorizer_type
           description region
         = agentcore_gateway_create name r2 c2 u2 protocol_type
             authorizer_type description region).
Proof.
  split; [|split; [|split; [|split; [|split; [|split]]]]].
  - intros a b Hagree.
    unfold handle_gateway_add_lambda_target, handle_gateway_list_targets,
      handle_gateway_delete_target, handle_gateway_delete, dict_getitem,
      dict_get.
    agree_on Hagree. repeat split.
  - reflexivity.
  - reflexivity.
  - reflexivity.
  - reflexivity.
  - intros a b r1 c1 u1 r2 c2 u2 Hagree Hr1 Hc1 Hu1 Hr2 Hc2 Hu2.
    unfold handle_gateway_create, dict_getitem, dict_get.
    rewrite Hr1, Hc1, Hu1, Hr2, Hc2, Hu2.
    agree_on Hagree. reflexivity.
  - reflexivity.
Qed.

(** X4.  [handle_runtime_invoke] does not read ["bearer_token"], which the
    tool [agentcore_runtime_invoke] asks for: the script it returns requests
    a token of its own.  [handle_runtime_configure] asks for
    ["execution_role"], ["cognito_client_id"] and ["cognito_discovery_url"],
    and the two log handlers of [observability_handlers.py] ask for
    ["agent_arn"]; none of these values is used. *)
Theorem runtime_handlers_ignore_credentials :
  (forall a b,
      agree_outside ["bearer_token"] a b ->
      handle_runtime_invoke a = handle_runtime_invoke b)
  /\ (forall payload token1 token2 region,
         agentcore_runtime_invoke payload token1 region
         = agentcore_runtime_invoke payload token2 region)
  /\ (forall a b r1 c1 u1 r2 c2 u2,
         agree_outside
           ["execution_role"; "cognito_client_id"; "cognito_discovery_url"]
           a b ->
         lookup "execution_role" a = Some r1 ->
         lookup "cognito_client_id" a = Some c1 ->
         lookup "cognito_discovery_url" a = Some u1 ->
         lookup "execution_role" b = Some r2 ->
         lookup "cognito_client_id" b = Some c2 ->
         lookup "cognito_discovery_url" b = Some u2 ->
         handle_runtime_configure a = handle_runtime_configure b)
  /\ (forall a b x y,
         agree_outside ["agent_arn"] a b ->
         lookup "agent_arn" a = Some x ->
         lookup "agent_arn" b = Some y ->
         handle_observability_get_logs_info a
         = handle_observability_get_logs_info b
         /\ handle_observability_get_recent_logs a
            = handle_observability_get_recent_logs b)
  /\ (forall arn1 arn2 hours_back limit region,
         agentcore_observability_get_logs_info arn1 region
         = agentcore_observability_get_logs_info arn2 region
         /\ agentcore_observability_get_recent_logs arn1 hours_back limit
              region
            = agentcore_observability_get_recent_logs arn2 hours_back limit
                region).
Proof.
  split; [|split; [|split; [|split]]].
  - intros a b Hagree.
    unfold handle_runtime_invoke, dict_get. agree_on Hagree. reflexivity.
  - reflexivity.
  - intros a b r1 c1 u1 r2 c2 u2 Hagree Hr1 Hc1 Hu1 Hr2 Hc2 Hu2.
    unfold handle_runtime_configure, dict_getitem, dict_get.
    rewrite Hr1, Hc1, Hu1, Hr2, Hc2, Hu2.
    agree_on Hagree. reflexivity.
  - intros a b x y Hagree Ha Hb.
    unfold handle_observability_get_logs_info,
      handle_observability_get_recent_logs, dict_getitem, dict_get.
    rewrite Ha, Hb. agree_on Hagree. split; reflexivity.
  - intros. split; reflexivity.
Qed.

(** ** Missing arguments *)

Lemma transform_strategy_raises (strategy : pyval) (e : exn) :
  transform_strategy strategy = Raise e -> exn_class e = "AttributeError".
Proof.
  unfold transform_strategy, get, lower.
  destruct strategy as [| | | | |l|d]; simpl;
    try (intros [= <-]; reflexivity).
  destruct (dict_get d "name" (PStr EmptyString)); simpl;
    try (intros [= <-]; reflexivity).
  repeat match goal with
         | |- context [if ?b then _ else _] => destruct b
         end; discriminate.
Qed.

Lemma transform_strategies_raises (strategies : list pyval) (e : exn) :
  transform_strategies strategies = Raise e ->
  exn_class e = "AttributeError".
Proof.
  induction strategies as [|s l IH]; simpl; [discriminate|].
  destruct (transform_strategy s) as [t|e'] eqn:Et; simpl.
  - destruct (transform_strategies l) as [ts|e'']; simpl; [discriminate|].
    intros [= <-]. now apply IH.
  - intros [= <-]. now apply (transform_strategy_raises s).
Qed.

Lemma iter_raises (v : pyval) (e : exn) :
  iter v = Raise e -> exn_class e = "TypeError".
Proof.
  destruct v; simpl; try discriminate; intros [= <-]; reflexivity.
Qed.

Lemma replace_raises (v : pyval) (old new : ascii) (e : exn) :
  replace v old new = Raise e -> exn_class e = "AttributeError".
Proof.
  destruct v; simpl; try discriminate; intros [= <-]; reflexivity.
Qed.

Lemma slug_raises (v : pyval) (e : exn) :
  slug v = Raise e -> exn_class e = "AttributeError".
Proof.
  unfold slug, lower.
  destruct v; simpl; try discriminate; intros [= <-]; reflexivity.
Qed.

(** Splits the lookups of the required keys, first key first. *)
Ltac split_lookups :=
  cbn [first_missing];
  repeat match goal with
         | |- context [match lookup ?k ?args with _ => _ end] =>
             destruct (lookup k args) eqn:?; cbn [bind]
         end.

(** X5.  A handler that is called without one of the arguments it reads with
    [args[...]] raises [KeyError] with the first such key of the source that
    is missing; when none is missing, a handler does not raise [KeyError]. *)
Theorem missing_argument_raises_KeyError
    (name : string) (h : dict -> result pyval) (args : dict) :
  In (name, h) handlers ->
  (forall k,
      first_missing (required_of name) args = Some k ->
      h args = Raise (KeyError k))
  /\ (first_missing (required_of name) args = None ->
      forall e, h args = Raise e -> exn_class e <> "KeyError").
Proof.
  unfold handlers. simpl.
  intros Hh.
  repeat (destruct Hh as [Hh | Hh]; [injection Hh as <- <- | ]);
    try contradiction.
  all: cbv [required_of required_keys find fst snd String.eqb Ascii.eqb
            Bool.eqb].
  all: unfold handle_create_runtime_execution_role_script,
         handle_memory_create, handle_memory_create_event,
         handle_memory_retrieve, handle_memory_delete,
         handle_gateway_create, handle_gateway_add_lambda_target,
         handle_gateway_list_targets, handle_gateway_delete_target,
         handle_gateway_delete, handle_runtime_configure,
         handle_runtime_launch, handle_runtime_status,
         handle_runtime_invoke, handle_runtime_delete,
         handle_observability_get_dashboard_url,
         handle_observability_get_logs_info,
         handle_observability_get_recent_logs, dict_getitem.
  all: split_lookups.
  all: split; [intros k Hm; first [discriminate Hm
                                  | injection Hm as <-; reflexivity]
              | intros Hm e He; try discriminate Hm; try discriminate He].
  - (* handle_memory_create *)
    match type of He with
    | context [iter ?v] => destruct (iter v) as [items|e0] eqn:Ei
    end; cbn [bind] in He.
    2:{ injection He as <-. rewrite (iter_raises _ _ Ei). discriminate. }
    destruct (transform_strategies items) as [ts|e0] eqn:Et; cbn [bind] in He.
    2:{ injection He as <-. rewrite (transform_strategies_raises _ _ Et).
        discriminate. }
    match type of He with
    | context [replace ?v ?a ?b] =>
        destruct (replace v a b) as [stem|e0] eqn:Er
    end; cbn [bind] in He; [discriminate He|].
    injection He as <-. rewrite (replace_raises _ _ _ _ Er). discriminate.
  - (* handle_gateway_create *)
    destruct (ne_str _ _); [injection He as <-; discriminate|].
    match type of He with
    | context [slug ?v] => destruct (slug v) as [stem|e0] eqn:Es
    end; cbn [bind] in He; [discriminate He|].
    injection He as <-. rewrite (slug_raises _ _ Es). discriminate.
  - (* handle_gateway_add_lambda_target *)
    match type of He with
    | context [slug ?v] => destruct (slug v) as [stem|e0] eqn:Es
    end; cbn [bind] in He; [discriminate He|].
    injection He as <-. rewrite (slug_raises _ _ Es). discriminate.
Qed.

(** ** File names *)

Lemma has_space_cons (c : ascii) (s : string) :
  has_space (String c s) = Ascii.eqb " " c || has_space s.
Proof.
  unfold has_space. cbn [str_in starts_with]. now rewrite andb_true_r.
Qed.

Lemma has_space_app (a b : string) :
  has_space (a ++ b) = has_space a || has_space b.
Proof.
  induction a as [|c a IH]; [reflexivity|].
  cbn [append]. now rewrite !has_space_cons, IH, orb_assoc.
Qed.

Lemma has_capital_app (a b : string) :
  has_capital (a ++ b) = has_capital a || has_capital b.
Proof.
  induction a as [|c a IH]; simpl; [reflexivity|].
  now rewrite IH, orb_assoc.
Qed.

Lemma replace_space_no_space (s : string) :
  has_space (str_replace " " "_" s) = false.
Proof.
  induction s as [|c s IH]; [reflexivity|].
  cbn [str_replace]. rewrite has_space_cons, IH, orb_false_r.
  destruct (Ascii.eqb_spec c " ") as [->|Hc]; [reflexivity|].
  destruct (Ascii.eqb_spec " " c) as [<-|_]; [contradiction | reflexivity].
Qed.

Lemma replace_space_length (s : string) :
  String.length (str_replace " " "_" s) = String.length s.
Proof.
  induction s as [|c s IH]; simpl; [reflexivity | now rewrite IH].
Qed.

Lemma length_append (a b : string) :
  String.length (a ++ b) = (String.length a + String.length b)%nat.
Proof.
  induction a as [|c a IH]; simpl; [reflexivity | now rewrite IH].
Qed.

Lemma lower_char_not_upper (c : ascii) : is_upper (lower_char c) = false.
Proof.
  destruct (is_upper c) eqn:E.
  - pose proof (lower_char_upper c E) as Hl.
    apply is_upper_bounds in E.
    unfold is_upper. rewrite Hl.
    apply andb_false_iff. right. apply N.leb_gt. lia.
  - unfold lower_char. now rewrite E.
Qed.

Lemma slug_chars (s : string) :
  has_space (str_replace " " "_" (str_lower s)) = false
  /\ has_capital (str_replace " " "_" (str_lower s)) = false.
Proof.
  split; [apply replace_space_no_space|].
  induction s as [|c s IH]; [reflexivity|].
  cbn [str_lower str_replace has_capital]. rewrite IH, orb_false_r.
  destruct (Ascii.eqb (lower_char c) " "); [reflexivity|].
  apply lower_char_not_upper.
Qed.

(** X6.  The file names that are built from an argument.
    [handle_memory_create] names the script after [name] with every space
    replaced by an underscore; [handle_gateway_create] and
    [handle_gateway_add_lambda_target] lower the name as well, which for a
    name of ASCII characters changes the letters A-Z and nothing else.  So
    these file names hold no space, and the two gateway ones, for an ASCII
    name, no letter A-Z.  [handle_memory_create_event] inserts [actor_id] as
    it is. *)
Theorem script_filenames (args : dict) (v : pyval) :
  (handle_memory_create args = Ok v ->
   exists name,
     lookup "name" args = Some (PStr name)
     /\ filename_of v = Some (str_replace " " "_" name ++ "_create.py")
     /\ has_space (str_replace " " "_" name ++ "_create.py") = false
     /\ String.length (str_replace " " "_" name ++ "_create.py")
        = (String.length name + 10)%nat)
  /\ (handle_gateway_create args = Ok v ->
      exists name,
        lookup "name" args = Some (PStr name)
        /\ (is_ascii name = true ->
            exists f,
              filename_of v = Some f
              /\ f = str_replace " " "_" (str_lower name)
                     ++ "_gateway_create.py"
              /\ has_space f = false
              /\ has_capital f = false))
  /\ (handle_gateway_add_lambda_target args = Ok v ->
      exists target_name,
        lookup "target_name" args = Some (PStr target_name)
        /\ (is_ascii target_name = true ->
            exists f,
              filename_of v = Some f
              /\ f = "add_" ++ str_replace " " "_" (str_lower target_name)
                     ++ "_target.py"
              /\ has_space f = false
              /\ has_capital f = false))
  /\ (handle_memory_create_event args = Ok v ->
      exists actor_id,
        lookup "actor_id" args = Some actor_id
        /\ filename_of v
           = Some ("store_memory_event_" ++ str actor_id ++ ".py")
        /\ has_space ("store_memory_event_" ++ str actor_id ++ ".py")
           = has_space (str actor_id)).
Proof.
  split; [|split; [|split]].
  - unfold handle_memory_create, dict_getitem. intros Hv.
    destruct (lookup "name" args) as [name|]; [|discriminate Hv].
    cbn [bind] in Hv.
    destruct (lookup "strategies" args) as [strategies|];
      [|discriminate Hv].
    cbn [bind] in Hv.
    destruct (iter strategies) as [items|]; [|discriminate Hv].
    cbn [bind] in Hv.
    destruct (transform_strategies items) as [ts|]; [|discriminate Hv].
    cbn [bind] in Hv.
    destruct name as [| | | |name| |]; try discriminate Hv.
    cbn [replace bind] in Hv. injection Hv as <-.
    exists name. split; [reflexivity|]. split; [reflexivity|].
    split.
    + now rewrite has_space_app, replace_space_no_space.
    + rewrite length_append, replace_space_length. reflexivity.
  - unfold handle_gateway_create, dict_getitem. intros Hv.
    destruct (lookup "name" args) as [name|]; [|discriminate Hv].
    cbn [bind] in Hv.
    destruct (lookup "role_arn" args); [|discriminate Hv].
    destruct (lookup "cognito_client_id" args); [|discriminate Hv].
    destruct (lookup "cognito_discovery_url" args); [|discriminate Hv].
    cbn [bind] in Hv.
    destruct (ne_str _ _); [discriminate Hv|].
    destruct name as [| | | |name| |]; try discriminate Hv.
    cbn [slug lower bind] in Hv. injection Hv as <-.
    exists name. split; [reflexivity|]. intros _.
    eexists. split; [reflexivity|]. split; [reflexivity|].
    destruct (slug_chars name) as [Hs Hc].
    now rewrite has_space_app, has_capital_app, Hs, Hc.
  - unfold handle_gateway_add_lambda_target, dict_getitem. intros Hv.
    destruct (lookup "target_name" args) as [name|]; [|discriminate Hv].
    cbn [bind] in Hv.
    destruct (lookup "lambda_arn" args); [|discriminate Hv].
    destruct (lookup "tool_schema" args); [|discriminate Hv].
    cbn [bind] in Hv.
    destruct name as [| | | |name| |]; try discriminate Hv.
    cbn [slug lower bind] in Hv. injection Hv as <-.
    exists name. split; [reflexivity|]. intros _.
    eexists. split; [reflexivity|]. split; [reflexivity|].
    destruct (slug_chars name) as [Hs Hc].
    rewrite !has_space_cons. cbn [has_capital].
    now rewrite has_space_app, has_capital_app, Hs, Hc.
  - unfold handle_memory_create_event, dict_getitem. intros Hv.
    destruct (lookup "memory_id" args); [|discriminate Hv].
    destruct (lookup "actor_id" args) as [actor_id|]; [|discriminate Hv].
    destruct (lookup "session_id" args); [|discriminate Hv].
    destruct (lookup "messages" args); [|discriminate Hv].
    cbn [bind] in Hv. injection Hv as <-.
    exists actor_id. split; [reflexivity|]. split; [reflexivity|].
    rewrite (has_space_app "store_memory_event_"), has_space_app.
    cbn. now rewrite orb_false_r.
Qed.

End HandlerProperties.

(** * Further properties of the delete scripts *)

(** ** Letter case *)

Lemma str_lower_app (a b : string) :
  str_lower (a ++ b) = str_lower a ++ str_lower b.
Proof.
  induction a as [|c a IH]; simpl; [reflexivity | now rewrite IH].
Qed.

Lemma str_lower_split (s a b : string) :
  str_lower s = a ++ b ->
  exists a' b', s = a' ++ b' /\ str_lower a' = a /\ str_lower b' = b.
Proof.
  revert s. induction a as [|c a IH]; intros s E.
  - exists EmptyString, s. now split.
  - destruct s as [|d s]; [discriminate E|].
    simpl in E. injection E as Hd E.
    destruct (IH s E) as (a' & b' & -> & Ha & Hb).
    exists (String d a'), b'. simpl. now rewrite Hd, Ha.
Qed.

(** What a script finds with [phrase in str(e).lower()]. *)
Lemma mentions_spec (s phrase : string) :
  str_lower phrase = phrase ->
  (str_in phrase (str_lower s) = true <-> mentions s phrase).
Proof.
  intros Hp. rewrite str_in_spec. split.
  - intros (before & after & E).
    destruct (str_lower_split s before (phrase ++ after) E)
      as (b' & rest & -> & _ & Hrest).
    destruct (str_lower_split rest phrase after Hrest)
      as (spelled & a' & -> & Hs & _).
    exists spelled. split.
    + now apply (str_lower_case_variant spelled phrase Hp).
    + now exists b', a'.
  - intros (spelled & Hv & before & after & ->).
    apply (str_lower_case_variant spelled phrase Hp) in Hv.
    exists (str_lower before), (str_lower after).
    now rewrite !str_lower_app, Hv.
Qed.

Lemma says_gone_spec (x : exn) :
  (str_in "resourcenotfound" (str_lower (exn_msg x))
   || str_in "not found" (str_lower (exn_msg x)) = true
   <-> says_gone gone_phrases x)
  /\ (str_in "not found" (str_lower (exn_msg x))
      || str_in "does not exist" (str_lower (exn_msg x))
      || str_in "resourcenotfound" (str_lower (exn_msg x)) = true
      <-> says_gone memory_gone_phrases x).
Proof.
  unfold says_gone, gone_phrases, memory_gone_phrases.
  rewrite !orb_true_iff, !mentions_spec by reflexivity.
  split; split.
  - intros [Hm | Hm]; eexists; (split; [|exact Hm]); simpl; tauto.
  - intros (phrase & [<- | [<- | []]] & Hm); tauto.
  - intros [[Hm | Hm] | Hm]; eexists; (split; [|exact Hm]); simpl; tauto.
  - intros (phrase & [<- | [<- | [<- | []]]] & Hm); tauto.
Qed.

(** ** What a script can call *)

Section Static.
Local Open Scope script_scope.
Variable ok : forall X, call X -> bool.

Lemma only_calls_run {A} (p : script A) (w : world) (h : list entry) :
  only_calls ok p -> forallb (allowed ok) (snd (run w h p)) = true.
Proof.
  revert h. induction p as [o | X c k IH]; intros h Hp; [reflexivity|].
  destruct Hp as [Hc Hk]. simpl.
  specialize (IH (w X h c) (h ++ [Called c (w X h c)])%list (Hk _)).
  destruct (run w (h ++ [Called c (w X h c)])%list (k (w X h c))) as [o t].
  simpl in *. now rewrite Hc.
Qed.

Lemma only_calls_sbind {A B} (p : script A) (k : A -> script B) :
  only_calls ok p -> (forall a, only_calls ok (k a)) ->
  only_calls ok (sbind p k).
Proof.
  intros Hp Hk. induction p as [[a | n | e] | X c f IH]; simpl;
    [apply Hk | exact I | exact I |].
  destruct Hp as [Hc Hf]. split; [exact Hc|].
  intros x. apply IH, Hf.
Qed.

Lemma only_calls_try_except {A} (p : script A) (handler : exn -> script A) :
  only_calls ok p -> (forall e, only_calls ok (handler e)) ->
  only_calls ok (try_except p handler).
Proof.
  intros Hp Hh. induction p as [[a | n | e] | X c f IH]; simpl;
    [exact I | exact I | apply Hh |].
  destruct Hp as [Hc Hf]. split; [exact Hc|].
  intros x. apply IH, Hf.
Qed.

Lemma only_calls_eval {A} (r : result A) : only_calls ok (eval r).
Proof. now destruct r. Qed.

Lemma only_calls_invoke {A} (c : call (result A)) :
  ok _ c = true -> only_calls ok (invoke c).
Proof.
  intros Hc. split; [exact Hc|]. intros x. apply only_calls_eval.
Qed.

Lemma only_calls_ask {A} (c : call A) :
  ok _ c = true -> only_calls ok (ask c).
Proof. intros Hc. split; [exact Hc|]. intros x. exact I. Qed.

End Static.

(** Goes through a script that is written out. *)
Ltac static_step :=
  first
    [ exact I
    | apply only_calls_eval
    | apply only_calls_invoke; reflexivity
    | apply only_calls_ask; reflexivity
    | apply only_calls_sbind; [|intros ?]
    | apply only_calls_try_except; [|intros ?]
    | match goal with
      | |- only_calls _ (if ?b then _ else _) => destruct b
      | |- only_calls _ (match ?x with _ => _ end) => destruct x
      end ].

Ltac static := repeat static_step.

Lemma allowed_not_to (callee : string) (e : entry) :
  allowed (not_to callee) e = negb (is_callee callee e).
Proof.
  destruct e as [X c x]. now destruct c.
Qed.

Lemma no_calls_to (callee : string) (t : list entry) :
  forallb (allowed (not_to callee)) t = true -> calls_to callee t = [].
Proof.
  unfold calls_to. induction t as [|e t IH]; [reflexivity|].
  cbn [forallb filter]. rewrite andb_true_iff, allowed_not_to.
  intros [He Ht]. apply negb_true_iff in He. rewrite He. now apply IH.
Qed.

Lemma calls_to_app (callee : string) (t1 t2 : list entry) :
  calls_to callee (t1 ++ t2)%list
  = (calls_to callee t1 ++ calls_to callee t2)%list.
Proof. apply filter_app. Qed.

Section DeleteProperties.
Import generated.

(** ** A config that cannot be used *)

(** X7.  Rerunning a delete script after its config has become unusable is
    not an error.  When the config file is there and cannot be read, each of
    the four delete scripts ends with [exit(0)] after the attempt to read
    it.  The memory script does the same when the config has no
    ["memory_id"], and the runtime script when the config has no
    ["agent_arn"] or an empty one.  No client is created and nothing is
    deleted. *)
Theorem delete_scripts_exit_0_on_unusable_config (w : world) (x : exn) :
  (present w "memory_config.json" ->
   (forall h, w _ h (json_load "memory_config.json") = Raise x) ->
   forall region,
     execute w (memory_delete region)
     = (Exit 0, [Called (os_path_exists "memory_config.json") true;
                 Called (json_load "memory_config.json") (Raise x)]))
  /\ (present w "gateway_config.json" ->
      (forall h, w _ h (json_load "gateway_config.json") = Raise x) ->
      forall region target_id,
        execute w (gateway_delete_target region target_id)
        = (Exit 0, [Called (os_path_exists "gateway_config.json") true;
                    Called (json_load "gateway_config.json") (Raise x)]))
  /\ (present w "gateway_config.json" ->
      (forall h, w _ h (json_load "gateway_config.json") = Raise x) ->
      forall region,
        execute w (gateway_delete region)
        = (Exit 0, [Called (os_path_exists "gateway_config.json") true;
                    Called (json_load "gateway_config.json") (Raise x)]))
  /\ (present w "runtime_config.json" ->
      (forall h, w _ h (json_load "runtime_config.json") = Raise x) ->
      forall region,
        execute w (runtime_delete region)
        = (Exit 0, [Called (os_path_exists "runtime_config.json") true;
                    Called (json_load "runtime_config.json") (Raise x)]))
  /\ (forall config,
         present w "memory_config.json" ->
         (forall h, w _ h (json_load "memory_config.json") = Ok config) ->
         getitem config "memory_id" = Raise x ->
         forall region,
           execute w (memory_delete region)
           = (Exit 0, [Called (os_path_exists "memory_config.json") true;
                       Called (json_load "memory_config.json") (Ok config)]))
  /\ (forall config agent_arn,
         present w "runtime_config.json" ->
         (forall h, w _ h (json_load "runtime_config.json") = Ok config) ->
         get config "agent_arn" PNone = Ok agent_arn ->
         truthy agent_arn = false ->
         forall region,
           execute w (runtime_delete region)
           = (Exit 0, [Called (os_path_exists "runtime_config.json") true;
                       Called (json_load "runtime_config.json")
                              (Ok config)])).
Proof.
  repeat match goal with |- _ /\ _ => split end.
  1-4: intros Hthere Hload **; unfold execute; simpl;
       rewrite (Hthere []); simpl; rewrite Hload; reflexivity.
  - intros config Hthere Hload Hid region.
    unfold execute, memory_delete. simpl.
    rewrite (Hthere []). simpl. rewrite Hload. simpl.
    rewrite Hid. reflexivity.
  - intros config agent_arn Hthere Hload Harn Hempty region.
    unfold execute, runtime_delete. simpl.
    rewrite (Hthere []). simpl. rewrite Hload. simpl.
    rewrite Harn. simpl. rewrite Hempty. reflexivity.
Qed.

(** ** A resource that is gone already *)

(** Settles what an error handler decided from the message of the error. *)
Ltac gone_or_not :=
  repeat match goal with
         | H : _ || _ = true |- _ =>
             first [apply (proj1 (says_gone_spec _)) in H
                   | apply (proj2 (says_gone_spec _)) in H]
         | H : _ || _ = false |- _ =>
             apply not_true_iff_false in H;
             first [rewrite (proj1 (says_gone_spec _)) in H
                   | rewrite (proj2 (says_gone_spec _)) in H]
         end.

(** X8.  The memory delete script can be run again after the memory is
    gone.  It calls [delete_memory] at most once, with the ["memory_id"] of
    the config.  When the call succeeds the script runs to its end; when it
    raises an error whose message says, in any letter case, "not found",
    "does not exist" or "ResourceNotFound", the script runs to its end as
    well (status 0); for any other error it ends with [exit(1)]. *)
Theorem memory_delete_is_rerunnable
    (w : world) (region : string) (o : outcome unit) (t : list entry)
    (e : entry) :
  execute w (memory_delete region) = (o, t) ->
  In e t ->
  is_callee "memory_manager.delete_memory" e = true ->
  (exists config memory_id,
      In (Called (json_load "memory_config.json") (Ok config)) t
      /\ getitem config "memory_id" = Ok memory_id
      /\ kwargs_of e = Some [("memory_id", memory_id)])
  /\ calls_to "memory_manager.delete_memory" t = [e]
  /\ (forall v, answer_of e = Some (Ok v) -> o = Done tt)
  /\ (forall x,
         answer_of e = Some (Raise x) ->
         (says_gone memory_gone_phrases x -> o = Done tt)
         /\ (~ says_gone memory_gone_phrases x -> o = Exit 1)).
Proof.
  unfold execute, memory_delete.
  exec w; intros [= <- <-] Hin Hc; split_in Hin; try discriminate Hc.
  all: gone_or_not.
  all: split; [do 2 eexists; split; [in_trace|];
               split; [eassumption | reflexivity]|].
  all: split; [reflexivity|].
  all: split; [intros v [= <-] || intros v [=]; reflexivity|].
  all: intros x Hx; try discriminate Hx; injection Hx as <-.
  all: split; [intros Hg | intros Hn]; first [reflexivity | contradiction].
Qed.

Lemma delete_target_call
    (w : world) (region target_id : string) (o : outcome unit)
    (t : list entry) (e : entry) :
  execute w (gateway_delete_target region target_id) = (o, t) ->
  In e t ->
  is_callee "gateway_client.delete_gateway_target" e = true ->
  (exists config gateway_id,
      In (Called (json_load "gateway_config.json") (Ok config)) t
      /\ getitem config "gateway_id" = Ok gateway_id
      /\ kwargs_of e = Some [("gatewayIdentifier", gateway_id);
                             ("targetId", PStr target_id)])
  /\ calls_to "gateway_client.delete_gateway_target" t = [e]
  /\ (forall v, answer_of e = Some (Ok v) -> o = Done tt)
  /\ (forall x,
         answer_of e = Some (Raise x) ->
         (says_gone gone_phrases x -> o = Done tt)
         /\ (~ says_gone gone_phrases x -> o = Exit 1)).
Proof.
  unfold execute, gateway_delete_target.
  exec w; intros [= <- <-] Hin Hc; split_in Hin; try discriminate Hc.
  all: gone_or_not.
  all: split; [do 2 eexists; split; [in_trace|];
               split; [eassumption | reflexivity]|].
  all: split; [reflexivity|].
  all: split; [intros v [= <-] || intros v [=]; reflexivity|].
  all: intros x Hx; try discriminate Hx; injection Hx as <-.
  all: split; [intros Hg | intros Hn]; first [reflexivity | contradiction].
Qed.

(** The error of [config["gateway_id"]] on a config without the key, or on
    a config that is no dict, does not say that something was not found. *)
Lemma getitem_error_not_gone (config : pyval) (k : string) (x : exn) :
  k = "gateway_id" ->
  getitem config k = Raise x ->
  str_in "resourcenotfound" (str_lower (exn_msg x))
  || str_in "not found" (str_lower (exn_msg x)) = false.
Proof.
  intros -> Hx.
  destruct config as [| | | | | |d]; simpl in Hx;
    try (injection Hx as <-; reflexivity).
  unfold dict_getitem in Hx.
  destruct (lookup "gateway_id" d); [discriminate Hx|].
  injection Hx as <-. reflexivity.
Qed.

Lemma delete_target_without_gateway_id
    (w : world) (region target_id : string) (o : outcome unit)
    (t : list entry) (e : entry) (config : pyval) (x : exn) :
  execute w (gateway_delete_target region target_id) = (o, t) ->
  In e t ->
  loaded e = Some ("gateway_config.json", Ok config) ->
  getitem config "gateway_id" = Raise x ->
  calls_to "gateway_client.delete_gateway_target" t = []
  /\ exit_status o = 1%Z.
Proof.
  unfold execute, gateway_delete_target. intros Hrun Hin Hl Hx.
  pose proof (getitem_error_not_gone config "gateway_id" x eq_refl Hx)
    as Hng.
  revert Hrun Hin Hl.
  exec w; intros [= <- <-] Hin Hl; split_in Hin; try discriminate Hl.
  all: injection Hl as <-.
  all: try (split; reflexivity).
  all: congruence.
Qed.

(** X9.  The script that deletes one gateway target can be run again after
    the target is gone.  It calls [delete_gateway_target] at most once, for
    the gateway named by ["gateway_id"] in the config and the target id it
    was generated for.  When the call succeeds, or raises an error whose
    message says "ResourceNotFound" or "not found" in any letter case, the
    script runs to its end; for any other error it ends with [exit(1)].  A
    config without ["gateway_id"] is such an other error: nothing is deleted
    and the status is 1. *)
Theorem gateway_delete_target_is_rerunnable
    (w : world) (region target_id : string) (o : outcome unit)
    (t : list entry) :
  execute w (gateway_delete_target region target_id) = (o, t) ->
  (forall e,
      In e t ->
      is_callee "gateway_client.delete_gateway_target" e = true ->
      (exists config gateway_id,
          In (Called (json_load "gateway_config.json") (Ok config)) t
          /\ getitem config "gateway_id" = Ok gateway_id
          /\ kwargs_of e = Some [("gatewayIdentifier", gateway_id);
                                 ("targetId", PStr target_id)])
      /\ calls_to "gateway_client.delete_gateway_target" t = [e]
      /\ (forall v, answer_of e = Some (Ok v) -> o = Done tt)
      /\ (forall x,
             answer_of e = Some (Raise x) ->
             (says_gone gone_phrases x -> o = Done tt)
             /\ (~ says_gone gone_phrases x -> o = Exit 1)))
  /\ (forall e config x,
         In e t ->
         loaded e = Some ("gateway_config.json", Ok config) ->
         getitem config "gateway_id" = Raise x ->
         calls_to "gateway_client.delete_gateway_target" t = []
         /\ exit_status o = 1%Z).
Proof.
  intros Hrun. split.
  - intros e. now apply (delete_target_call w region target_id).
  - intros e config x.
    now apply (delete_target_without_gateway_id w region target_id).
Qed.

(** What [s.split('/')[-1]] is: the part of [s] after its last slash, the
    whole of [s] when it has none. *)
Lemma split_last_from_spec (sep : ascii) (s acc : string) :
  (has_char sep s = false /\ split_last_from sep s acc = acc)
  \/ (exists p, s = p ++ String sep (split_last_from sep s acc)
                /\ has_char sep (split_last_from sep s acc) = false).
Proof.
  revert acc. induction s as [|c s IH]; intros acc.
  - left. split; reflexivity.
  - assert (Hcons : has_char sep (String c s)
                    = Ascii.eqb sep c || has_char sep s).
    { unfold has_char. cbn [str_in starts_with]. now rewrite andb_true_r. }
    cbn [split_last_from]. destruct (Ascii.eqb_spec c sep) as [->|Hne].
    + right. destruct (IH s) as [[Hno E] | (p & E & Hno)].
      * exists EmptyString. rewrite E. split; [reflexivity | exact Hno].
      * exists (String sep p). split; [|exact Hno].
        simpl. now rewrite <- E.
    + destruct (IH acc) as [[Hno E] | (p & E & Hno)].
      * left. split; [|exact E]. rewrite Hcons, Hno.
        destruct (Ascii.eqb_spec sep c); [congruence | reflexivity].
      * right. exists (String c p). split; [|exact Hno].
        simpl. now rewrite <- E.
Qed.

Lemma split_last_spec (sep : ascii) (s : string) :
  has_char sep (split_last sep s) = false
  /\ ((has_char sep s = false /\ split_last sep s = s)
      \/ exists p, s = p ++ String sep (split_last sep s)).
Proof.
  unfold split_last.
  destruct (split_last_from_spec sep s s) as [[Hno E] | (p & E & Hno)].
  - rewrite E. split; [exact Hno|]. left. now split.
  - split; [exact Hno|]. right. now exists p.
Qed.

(** X10.  The runtime delete script can be run again after the agent is
    gone.  It calls [delete_agent_runtime] at most once; the id it passes is
    what follows the last slash of the ["agent_arn"] of the config (the
    whole ARN when it has no slash), so it holds no slash.  When the call
    succeeds, or raises an error whose message says "ResourceNotFound" or
    "not found" in any letter case, the script runs to its end; for any
    other error it ends with [exit(1)]. *)
Theorem runtime_delete_is_rerunnable
    (w : world) (region : string) (o : outcome unit) (t : list entry)
    (e : entry) :
  execute w (runtime_delete region) = (o, t) ->
  In e t ->
  is_callee "agentcore_client.delete_agent_runtime" e = true ->
  (exists config agent_arn,
      In (Called (json_load "runtime_config.json") (Ok config)) t
      /\ get config "agent_arn" PNone = Ok (PStr agent_arn)
      /\ kwargs_of e
         = Some [("agentRuntimeId", PStr (split_last "/" agent_arn))]
      /\ has_char "/" (split_last "/" agent_arn) = false
      /\ ((has_char "/" agent_arn = false
           /\ split_last "/" agent_arn = agent_arn)
          \/ exists p, agent_arn = p ++ "/" ++ split_last "/" agent_arn))
  /\ calls_to "agentcore_client.delete_agent_runtime" t = [e]
  /\ (forall v, answer_of e = Some (Ok v) -> o = Done tt)
  /\ (forall x,
         answer_of e = Some (Raise x) ->
         (says_gone gone_phrases x -> o = Done tt)
         /\ (~ says_gone gone_phrases x -> o = Exit 1)).
Proof.
  unfold execute, runtime_delete.
  exec w; intros [= <- <-] Hin Hc; split_in Hin; try discriminate Hc.
  all: gone_or_not.
  all: match goal with
       | H : split_last_of ?a _ = Ok _ |- _ =>
           destruct a; try discriminate H; simpl in H; injection H as <-
       end.
  all: split; [do 2 eexists; split; [in_trace|];
               split; [eassumption|]; split; [reflexivity|];
               apply split_last_spec|].
  all: split; [reflexivity|].
  all: split; [intros v [= <-] || intros v [=]; reflexivity|].
  all: intros x Hx; try discriminate Hx; injection Hx as <-.
  all: split; [intros Hg | intros Hn]; first [reflexivity | contradiction].
Qed.

End DeleteProperties.

(** ** A target that cannot be deleted *)

Section FailedTargetDeletion.
Import generated.
Local Open Scope script_scope.

Variable w : world.
Variable gateway_config gateway_id : pyval.
Hypothesis Hid : getitem gateway_config "gateway_id" = Ok gateway_id.

(** The loop over the targets stops at the first deletion that fails with
    an error other than "not found". *)
Lemma delete_targets_stop (items : list pyval) (h : list entry) :
  exists o t,
    run w h (delete_targets gateway_config items) = (o, t)
    /\ forallb is_delete_target t = true
    /\ forall e x,
         In e t -> answer_of e = Some (Raise x) ->
         resource_not_found x = false ->
         o = Raised x /\ exists t0, t = (t0 ++ [e])%list.
Proof.
  revert h. induction items as [|target rest IH]; intros h.
  - exists (Done tt), []. simpl. split; [reflexivity|].
    split; [reflexivity | contradiction].
  - cbn [delete_targets]. rewrite Hid. unfold target_label.
    destruct (getitem target "targetId") as [tid|e0] eqn:Etid.
    + assert (Hlabel : exists lbl,
                 get_lazy target "name" (Ok tid) = Ok lbl).
      { destruct target; try discriminate Etid. simpl. now eexists. }
      destruct Hlabel as (lbl & Hlabel).
      simpl. rewrite Hlabel.
      set (c := extern "gateway_client.delete_gateway_target" [] _).
      destruct (w _ h c) as [r|e0] eqn:Ew; simpl.
      * destruct (IH (h ++ [Called c (Ok r)])%list)
          as (o & t & Er & Ht & Hstop).
        rewrite Er. exists o, (Called c (Ok r) :: t).
        split; [reflexivity|]. split; [exact Ht|].
        intros e x [<- | Hin] Ha Hx; [discriminate Ha|].
        destruct (Hstop e x Hin Ha Hx) as (-> & t0 & ->).
        split; [reflexivity|]. now exists (Called c (Ok r) :: t0).
      * destruct (resource_not_found e0) eqn:Hgone; simpl.
        -- try rewrite Hlabel. simpl.
           destruct (IH (h ++ [Called c (Raise e0)])%list)
             as (o & t & Er & Ht & Hstop).
           rewrite Er. exists o, (Called c (Raise e0) :: t).
           split; [reflexivity|]. split; [exact Ht|].
           intros e x [<- | Hin] Ha Hx.
           ++ injection Ha as <-. congruence.
           ++ destruct (Hstop e x Hin Ha Hx) as (-> & t0 & ->).
              split; [reflexivity|].
              now exists (Called c (Raise e0) :: t0).
        -- exists (Raised e0), [Called c (Raise e0)].
           split; [reflexivity|]. split; [reflexivity|].
           intros e x [<- | []] Ha Hx. injection Ha as <-.
           split; [reflexivity|]. now exists [].
    + simpl. destruct (resource_not_found e0); simpl.
      * assert (Hlabel : exists e',
                   get_lazy target "name" (Raise e0) = Raise e').
        { destruct target; simpl; eexists; reflexivity. }
        destruct Hlabel as (e' & ->). simpl.
        exists (Raised e'), []. split; [reflexivity|].
        split; [reflexivity | contradiction].
      * exists (Raised e0), []. split; [reflexivity|].
        split; [reflexivity | contradiction].
Qed.

Lemma delete_all_targets_stop (h : list entry) :
  exists o t,
    run w h (delete_all_targets gateway_config) = (o, t)
    /\ calls_to "gateway_client.delete_gateway" t = []
    /\ forall e x,
         In e t -> is_delete_target e = true ->
         answer_of e = Some (Raise x) ->
         resource_not_found x = false ->
         o = Raised x /\ exists t0, t = (t0 ++ [e])%list.
Proof.
  unfold delete_all_targets.
  rewrite run_try_except, run_sbind,
    (run_list_gateway_targets w gateway_config gateway_id Hid).
  set (c := extern "gateway_client.list_gateway_targets" [] _).
  assert (Hend : forall e : exn,
             exists o : outcome unit,
               run w (h ++ [Called c (Raise e)])%list
                 (if resource_not_found e then ret tt else raise e)
               = (o, [])).
  { intros e. destruct (resource_not_found e); eexists; reflexivity. }
  assert (Hstopped : forall (o : outcome unit) (x : result pyval),
             forall e y, In e [Called c x] -> is_delete_target e = true ->
                         answer_of e = Some (Raise y) ->
                         resource_not_found y = false ->
                         o = Raised y
                         /\ exists t0, [Called c x] = (t0 ++ [e])%list).
  { intros o x e y [<- | []] Hd. discriminate Hd. }
  destruct (w _ h c) as [r|e0].
  2:{ destruct (resource_not_found e0); eexists; eexists;
        (split; [reflexivity|]); (split; [reflexivity|]);
        apply Hstopped. }
  rewrite run_sbind, run_eval.
  destruct (get r "items" (PList [])) as [targets|e0].
  2:{ destruct (resource_not_found e0); eexists; eexists;
        (split; [reflexivity|]); (split; [reflexivity|]);
        apply Hstopped. }
  destruct (truthy targets).
  2:{ eexists. eexists. split; [reflexivity|]. split; [reflexivity|].
      apply Hstopped. }
  rewrite run_sbind, run_eval.
  destruct (iter targets) as [items|e0].
  2:{ destruct (resource_not_found e0); eexists; eexists;
        (split; [reflexivity|]); (split; [reflexivity|]);
        apply Hstopped. }
  match goal with
  | |- context [run w ?h' (delete_targets gateway_config items)] =>
      destruct (delete_targets_stop items h') as (o & t & -> & Ht & Hstop)
  end.
  assert (Hnone : calls_to "gateway_client.delete_gateway"
                    (Called c (Ok r) :: t) = []).
  { unfold calls_to. cbn [filter]. 
    change (is_callee "gateway_client.delete_gateway" (Called c (Ok r)))
      with false.
    clear Hstop. induction t as [|e t IHt]; [reflexivity|].
    cbn [forallb] in Ht. apply andb_true_iff in Ht as [He Ht].
    cbn [filter].
    replace (is_callee "gateway_client.delete_gateway" e) with false.
    - now apply IHt.
    - unfold is_delete_target, is_callee in *.
      destruct (callee_of e) as [g|]; [|reflexivity].
      apply String.eqb_eq in He. now subst g. }
  assert (Hstop' : forall e x,
             In e (Called c (Ok r) :: t) -> is_delete_target e = true ->
             answer_of e = Some (Raise x) ->
             resource_not_found x = false ->
             o = Raised x
             /\ exists t0, Called c (Ok r) :: t = (t0 ++ [e])%list).
  { intros e x [<- | Hin] Hd Ha Hx; [discriminate Hd|].
    destruct (Hstop e x Hin Ha Hx) as (-> & t0 & ->).
    split; [reflexivity|]. now exists (Called c (Ok r) :: t0). }
  destruct o as [[] | n | e0]; simpl.
  - eexists. eexists. split; [reflexivity|]. split; [exact Hnone|].
    exact Hstop'.
  - eexists. eexists. split; [reflexivity|]. split; [exact Hnone|].
    exact Hstop'.
  - destruct (resource_not_found e0) eqn:Hgone; simpl; rewrite app_nil_r;
      eexists; eexists; (split; [reflexivity|]);
      (split; [exact Hnone|]).
    + intros e x Hin Hd Ha Hx.
      destruct (Hstop' e x Hin Hd Ha Hx) as (E & _).
      injection E as <-. congruence.
    + exact Hstop'.
Qed.

(** When no deletion fails for good, the loop deletes the targets one by
    one, in the order of the listing. *)
Lemma delete_targets_all (items : list pyval) (h : list entry) :
  forallb target_shaped items = true ->
  exists o t,
    run w h (delete_targets gateway_config items) = (o, t)
    /\ (forallb tolerated t = true ->
        o = Done tt
        /\ map kwargs_of t = map (deletion_of gateway_id) items).
Proof.
  revert h. induction items as [|target rest IH]; intros h Hshape.
  - exists (Done tt), []. split; [reflexivity|]. now split.
  - cbn [forallb] in Hshape. apply andb_true_iff in Hshape as [Ht Hrest].
    destruct target as [| | | | | |d]; try discriminate Ht.
    unfold target_shaped in Ht.
    destruct (lookup "targetId" d) as [tid|] eqn:Etid; [|discriminate Ht].
    cbn [delete_targets]. rewrite Hid. unfold target_label, deletion_of.
    cbn [getitem get_lazy map]. unfold dict_getitem. rewrite Etid.
    simpl.
    set (c := extern "gateway_client.delete_gateway_target" [] _).
    destruct (w _ h c) as [r|e0] eqn:Ew; simpl.
    + destruct (IH (h ++ [Called c (Ok r)])%list Hrest)
        as (o & t & Er & Hall).
      rewrite Er. exists o, (Called c (Ok r) :: t).
      split; [reflexivity|]. cbn [forallb map]. intros Htol.
      destruct (Hall Htol) as (-> & Hk). split; [reflexivity|].
      now rewrite Hk.
    + destruct (resource_not_found e0) eqn:Hgone; simpl.
      * destruct (IH (h ++ [Called c (Raise e0)])%list Hrest)
          as (o & t & Er & Hall).
        rewrite Er. exists o, (Called c (Raise e0) :: t).
        split; [reflexivity|]. cbn [forallb map]. intros Htol.
        apply andb_true_iff in Htol as [_ Htol].
        destruct (Hall Htol) as (-> & Hk). split; [reflexivity|].
        now rewrite Hk.
      * exists (Raised e0), [Called c (Raise e0)].
        split; [reflexivity|]. cbn [forallb].
        change (tolerated (Called c (Raise e0)))
          with (resource_not_found e0).
        rewrite Hgone. discriminate.
Qed.

(** Step 1 is one listing and then deletions. *)
Lemma delete_all_targets_listing (h : list entry) :
  let c := extern "gateway_client.list_gateway_targets" []
                  [("gatewayIdentifier", gateway_id)] in
  exists o t,
    run w h (delete_all_targets gateway_config)
    = (o, Called c (w _ h c) :: t)
    /\ forallb is_delete_target t = true
    /\ forall response targets,
         w _ h c = Ok response ->
         get response "items" (PList []) = Ok (PList targets) ->
         forallb target_shaped targets = true ->
         forallb tolerated t = true ->
         o = Done tt
         /\ map kwargs_of t = map (deletion_of gateway_id) targets.
Proof.
  intros c. unfold delete_all_targets.
  rewrite run_try_except, run_sbind,
    (run_list_gateway_targets w gateway_config gateway_id Hid).
  fold c.
  destruct (w _ h c) as [r|e0] eqn:Ew.
  2:{ destruct (resource_not_found e0); eexists; exists [];
        (split; [reflexivity|]); (split; [reflexivity|]); discriminate. }
  rewrite run_sbind, run_eval.
  destruct (get r "items" (PList [])) as [v|e0] eqn:Eg.
  2:{ destruct (resource_not_found e0); eexists; exists [];
        (split; [reflexivity|]); (split; [reflexivity|]);
        intros response targets [= <-]; congruence. }
  destruct (truthy v) eqn:Etruthy.
  2:{ eexists. exists []. split; [reflexivity|]. split; [reflexivity|].
      intros response targets [= <-] Hg _ _.
      rewrite Eg in Hg. injection Hg as ->.
      destruct targets; [now split | discriminate Etruthy]. }
  rewrite run_sbind, run_eval.
  destruct (iter v) as [items|e0] eqn:Ei.
  2:{ destruct (resource_not_found e0); eexists; exists [];
        (split; [reflexivity|]); (split; [reflexivity|]);
        intros response targets [= <-] Hg; rewrite Eg in Hg;
        injection Hg as ->; discriminate Ei. }
  match goal with
  | |- context [run w ?h' (delete_targets gateway_config items)] =>
      destruct (delete_targets_stop items h') as (o & t & Hrun & Hdel & _)
  end.
  rewrite Hrun.
  assert (Hall : forall response targets,
             Ok r = Ok response ->
             get response "items" (PList []) = Ok (PList targets) ->
             forallb target_shaped targets = true ->
             forallb tolerated t = true ->
             o = Done tt
             /\ map kwargs_of t = map (deletion_of gateway_id) targets).
  { intros response targets [= <-] Hg Hshape Htol.
    rewrite Eg in Hg. injection Hg as ->. injection Ei as <-.
    match type of Hrun with
    | run w ?h' _ = _ =>
        destruct (delete_targets_all targets h' Hshape)
          as (o' & t' & Hrun' & Hall)
    end.
    rewrite Hrun in Hrun'. injection Hrun' as <- <-.
    now apply Hall. }
  destruct o as [[] | n | e0]; simpl.
  - eexists. exists t. split; [reflexivity|]. split; [exact Hdel|].
    exact Hall.
  - eexists. exists t. split; [reflexivity|]. split; [exact Hdel|].
    exact Hall.
  - destruct (resource_not_found e0); simpl; rewrite app_nil_r;
      eexists; exists t; (split; [reflexivity|]); (split; [exact Hdel|]);
      intros response targets Hw Hg Hshape Htol;
      destruct (Hall response targets Hw Hg Hshape Htol) as (E & _);
      discriminate E.
Qed.

(** Steps 1.5 and 2 do not delete targets. *)
Lemma after_step_1_no_target_is_deleted :
  only_calls (not_to "gateway_client.delete_gateway_target")
    (verify_targets_deleted gateway_config ;;;
     delete_the_gateway gateway_config ;;;
     ret tt).
Proof.
  assert (Hprint : forall items,
             only_calls (not_to "gateway_client.delete_gateway_target")
               (print_remaining items)).
  { induction items as [|target rest IH]; [exact I|].
    cbn [print_remaining]. unfold target_label. static. exact IH. }
  unfold verify_targets_deleted, delete_the_gateway, list_gateway_targets.
  static. apply Hprint.
Qed.

End FailedTargetDeletion.

Section FailedTargetDeletionProperty.
Import generated.
Local Open Scope script_scope.

(** X11.  The gateway delete script does not delete a gateway one of whose
    targets it could not delete.  When a [delete_gateway_target] call fails
    with an error that does not say "ResourceNotFound" or "not found", that
    call is the last call of the script, the script ends with this error
    (status 1), and [delete_gateway] was not called. *)
Theorem failed_target_deletion_spares_gateway
    (w : world) (region : string) (o : outcome unit) (t : list entry)
    (e : entry) (x : exn) :
  execute w (gateway_delete region) = (o, t) ->
  In e t ->
  is_delete_target e = true ->
  answer_of e = Some (Raise x) ->
  resource_not_found x = false ->
  o = Raised x
  /\ (exists t0, t = (t0 ++ [e])%list)
  /\ calls_to "gateway_client.delete_gateway" t = []
  /\ exit_status o = 1%Z.
Proof.
  intros Hrun Hin Hd Ha Hx.
  enough (Hmain : o = Raised x
                  /\ (exists t0, t = (t0 ++ [e])%list)
                  /\ calls_to "gateway_client.delete_gateway" t = []).
  { destruct Hmain as (-> & Ht & Hn). repeat split; assumption. }
  revert Hrun Hin. unfold execute, gateway_delete.
  cbn [sbind ask ret run].
  destruct (w bool [] (os_path_exists "gateway_config.json")).
  2:{ intros [= <- <-] [<- | []]. discriminate Hd. }
  cbn [negb].
  rewrite run_sbind, run_try_except, run_invoke.
  destruct (w _ _ (json_load "gateway_config.json")) as [gateway_config|e0].
  2:{ intros [= <- <-] [<- | [<- | []]]; discriminate Hd. }
  cbn [fst snd].
  rewrite run_sbind, run_invoke.
  match goal with
  | |- context [w _ ?h' (extern "boto3.client" ?a ?k)] =>
      destruct (w _ h' (extern "boto3.client" a k)) as [client|e0]
  end.
  2:{ intros [= <- <-] [<- | [<- | [<- | []]]]; discriminate Hd. }
  rewrite run_sbind, run_eval.
  destruct (getitem gateway_config "gateway_id") as [gateway_id|e0] eqn:Hid.
  2:{ intros [= <- <-] [<- | [<- | [<- | []]]]; discriminate Hd. }
  rewrite run_sbind.
  match goal with
  | |- context [run w ?h' (delete_all_targets gateway_config)] =>
      destruct (delete_all_targets_stop w gateway_config gateway_id Hid h')
        as (o1 & t1 & -> & Hnone & Hstop)
  end.
  destruct o1 as [[] | n | e1].
  - (* step 1 ran to its end: the failed deletion is not in it *)
    match goal with
    | |- context [run w ?h' ?p] =>
        lazymatch p with
        | sbind (verify_targets_deleted _) _ =>
            pose proof (only_calls_run _ p w h'
                          (after_step_1_no_target_is_deleted
                             gateway_config)) as Hrest;
            destruct (run w h' p) as [o2 t2]
        end
    end.
    cbn [snd] in Hrest. intros [= <- <-] Hin. exfalso.
    repeat (destruct Hin as [<- | Hin]; [discriminate Hd|]).
    apply in_app_or in Hin as [Hin | Hin].
    + destruct (Hstop e x Hin Hd Ha Hx) as (E & _). discriminate E.
    + apply no_calls_to in Hrest. unfold calls_to in Hrest.
      assert (Hf : In e (filter
                           (is_callee "gateway_client.delete_gateway_target")
                           t2)).
      { apply filter_In. split; [exact Hin | exact Hd]. }
      rewrite Hrest in Hf. contradiction.
  - intros [= <- <-] Hin.
    repeat (destruct Hin as [<- | Hin]; [discriminate Hd|]).
    try rewrite app_nil_r in Hin.
    destruct (Hstop e x Hin Hd Ha Hx) as (E & _). discriminate E.
  - intros [= <- <-] Hin.
    repeat (destruct Hin as [<- | Hin]; [discriminate Hd|]).
    try rewrite app_nil_r in *.
    destruct (Hstop e x Hin Hd Ha Hx) as (E & t0 & ->).
    split; [exact E|]. split.
    + eexists (_ :: _ :: _ :: t0). reflexivity.
    + unfold calls_to in *. cbn [filter]. exact Hnone.
Qed.

Lemma calls_to_all (callee : string) (t : list entry) :
  forallb (is_callee callee) t = true -> calls_to callee t = t.
Proof.
  unfold calls_to. induction t as [|e t IH]; [reflexivity|].
  cbn [forallb filter]. rewrite andb_true_iff. intros [-> Ht].
  now rewrite IH.
Qed.

(** X12.  The gateway delete script deletes every target of the first
    listing.  When the first listing answers with a list of targets (dicts
    with a ["targetId"]) and no deletion fails with an error other than
    "not found", the [delete_gateway_target] calls of the run are one per
    listed target, in the order of the listing, each for the gateway of the
    config and the [targetId] of the target. *)
Theorem gateway_delete_deletes_every_listed_target
    (w : world) (region : string) (o : outcome unit) (t : list entry)
    (listing : entry) (response : pyval) (targets : list pyval) :
  execute w (gateway_delete region) = (o, t) ->
  hd_error (filter is_list_targets t) = Some listing ->
  answer_of listing = Some (Ok response) ->
  get response "items" (PList []) = Ok (PList targets) ->
  forallb target_shaped targets = true ->
  forallb tolerated (calls_to "gateway_client.delete_gateway_target" t)
  = true ->
  exists config gateway_id,
    In (Called (json_load "gateway_config.json") (Ok config)) t
    /\ getitem config "gateway_id" = Ok gateway_id
    /\ map kwargs_of (calls_to "gateway_client.delete_gateway_target" t)
       = map (deletion_of gateway_id) targets.
Proof.
  intros Hrun Hfirst Hanswer Hitems Hshape.
  revert Hrun Hfirst. unfold execute, gateway_delete.
  cbn [sbind ask ret run].
  destruct (w bool [] (os_path_exists "gateway_config.json")).
  2:{ intros [= <- <-] Hfirst. discriminate Hfirst. }
  cbn [negb].
  rewrite run_sbind, run_try_except, run_invoke.
  destruct (w _ _ (json_load "gateway_config.json")) as [gateway_config|e0].
  2:{ intros [= <- <-] Hfirst. discriminate Hfirst. }
  cbn [fst snd].
  rewrite run_sbind, run_invoke.
  match goal with
  | |- context [w _ ?h' (extern "boto3.client" ?a ?k)] =>
      destruct (w _ h' (extern "boto3.client" a k)) as [client|e0]
  end.
  2:{ intros [= <- <-] Hfirst. discriminate Hfirst. }
  rewrite run_sbind, run_eval.
  destruct (getitem gateway_config "gateway_id") as [gateway_id|e0] eqn:Hid.
  2:{ intros [= <- <-] Hfirst. discriminate Hfirst. }
  rewrite run_sbind.
  match goal with
  | |- context [run w ?h' (delete_all_targets gateway_config)] =>
      destruct (delete_all_targets_listing w gateway_config gateway_id Hid
                  h')
        as (o1 & t1 & -> & Hdel & Hall)
  end.
  match goal with
  | |- context [Called ?c0 (w _ ?h' ?c0) :: t1] =>
      set (c := c0) in *; set (x := w _ h' c) in *
  end.
  clearbody x.
  assert (Hrest : forall h',
             calls_to "gateway_client.delete_gateway_target"
               (snd (run w h'
                       (verify_targets_deleted gateway_config ;;;
                        delete_the_gateway gateway_config ;;;
                        ret tt))) = []).
  { intros h'. apply no_calls_to, only_calls_run.
    apply after_step_1_no_target_is_deleted. }
  assert (Hgoal : forall t2,
             calls_to "gateway_client.delete_gateway_target" t2 = [] ->
             forall t,
               t = (Called (os_path_exists "gateway_config.json") true
                    :: Called (json_load "gateway_config.json")
                         (Ok gateway_config)
                    :: Called
                         (extern "boto3.client"
                            [PStr "bedrock-agentcore-control"]
                            [("region_name", PStr region)])
                         (Ok client)
                    :: (Called c x :: t1) ++ t2)%list ->
               hd_error (filter is_list_targets t) = Some listing ->
               forallb tolerated
                 (calls_to "gateway_client.delete_gateway_target" t) = true ->
               exists config gid,
                 In (Called (json_load "gateway_config.json") (Ok config)) t
                 /\ getitem config "gateway_id" = Ok gid
                 /\ map kwargs_of
                      (calls_to "gateway_client.delete_gateway_target" t)
                    = map (deletion_of gid) targets).
  { intros t2 Ht2 t' -> Hfirst Htol.
    assert (Hcalls :
              calls_to "gateway_client.delete_gateway_target"
                (Called (os_path_exists "gateway_config.json") true
                 :: Called (json_load "gateway_config.json")
                      (Ok gateway_config)
                 :: Called
                      (extern "boto3.client"
                         [PStr "bedrock-agentcore-control"]
                         [("region_name", PStr region)])
                      (Ok client)
                 :: (Called c x :: t1) ++ t2)%list = t1).
    { unfold calls_to in *. cbn [filter app].
      change (is_callee "gateway_client.delete_gateway_target" (Called c x))
        with false.
      cbv iota. rewrite filter_app, Ht2, app_nil_r.
      now apply (calls_to_all "gateway_client.delete_gateway_target"). }
    rewrite Hcalls in *.
    injection Hfirst as <-. injection Hanswer as Hanswer.
    destruct (Hall response targets Hanswer Hitems Hshape Htol) as (_ & Hk).
    exists gateway_config, gateway_id.
    split; [right; left; reflexivity|]. split; [exact Hid | exact Hk]. }
  destruct o1 as [[] | n | e1].
  - match goal with
    | |- context [run w ?h' ?p] =>
        lazymatch p with
        | sbind (verify_targets_deleted _) _ =>
            specialize (Hrest h'); destruct (run w h' p) as [o2 t2]
        end
    end.
    cbn [snd] in Hrest. intros [= <- <-]. now apply (Hgoal t2).
  - intros [= <- <-].
    apply (Hgoal []); [reflexivity | now rewrite app_nil_r].
  - intros [= <- <-].
    apply (Hgoal []); [reflexivity | now rewrite app_nil_r].
Qed.

End FailedTargetDeletionProperty.

(** * Further properties of the memory scripts *)

(** Identifies what a script read with what the file holds. *)
Ltac read_file Hholds :=
  repeat match goal with
         | H : ?w _ _ (json_load _) = _ |- _ =>
             rewrite Hholds in H;
             first [discriminate H | injection H as <-]
         end.

Section MemoryScripts.
Import generated.
Local Open Scope script_scope.

(** ** The messages of the create-event script *)

Lemma normalize_message_dict (d : dict) :
  exists d',
    normalize_message (PDict d) = Ok (PDict d')
    /\ wraps_content (PDict d) (PDict d').
Proof.
  unfold normalize_message, wraps_content. cbn [get bind].
  unfold dict_get.
  destruct (lookup "content" d) as [content|] eqn:Ec.
  - destruct content as [| | | |s| |];
      try (exists d; split; [reflexivity|]; exists d, d;
           rewrite Ec; repeat split; reflexivity).
    cbn [getitem]. unfold dict_getitem. rewrite Ec. cbn [bind setitem].
    eexists. split; [reflexivity|]. eexists. eexists.
    split; [reflexivity|]. split; [reflexivity|]. split.
    + intros k Hk. apply lookup_store_other. congruence.
    + rewrite Ec. apply lookup_store_same.
  - exists d. split; [reflexivity|]. exists d, d.
    rewrite Ec. repeat split; reflexivity.
Qed.

Lemma normalize_message_other (m : pyval) :
  is_dict m = false -> normalize_message m = Raise (AttributeError m "get").
Proof.
  destruct m; try discriminate; reflexivity.
Qed.

Lemma normalize_messages_spec (messages : list pyval) :
  (forallb is_dict messages = true ->
   exists sent,
     normalize_messages messages = Ok sent
     /\ Forall2 wraps_content messages sent)
  /\ (forallb is_dict messages = false ->
      exists m,
        In m messages /\ is_dict m = false
        /\ normalize_messages messages = Raise (AttributeError m "get")).
Proof.
  induction messages as [|m rest [IHok IHbad]].
  - split; [|discriminate]. intros _. exists []. now split.
  - cbn [forallb normalize_messages]. split.
    + rewrite andb_true_iff. intros [Hm Hrest].
      destruct m as [| | | | | |d]; try discriminate Hm.
      destruct (normalize_message_dict d) as (d' & -> & Hw).
      destruct (IHok Hrest) as (sent & -> & Hall).
      exists (PDict d' :: sent). split; [reflexivity|]. now constructor.
    + destruct (is_dict m) eqn:Hm.
      * intros Hrest. simpl in Hrest.
        destruct m as [| | | | | |d]; try discriminate Hm.
        destruct (normalize_message_dict d) as (d' & -> & _).
        destruct (IHbad Hrest) as (b & Hin & Hb & ->).
        exists b. split; [now right|]. now split.
      * intros _. exists m. split; [now left|]. split; [exact Hm|].
        now rewrite (normalize_message_other m Hm).
Qed.

(** X13.  What the create-event script sends.  When the messages are dicts,
    the [messages] of the [create_event] call are these dicts, in order,
    each with a str ["content"] replaced by [[{"text": content}]] and every
    other entry kept; the call is for the ["memory_id"] of the config and
    the actor and session the script was generated for. *)
Theorem create_event_sends_normalized_messages
    (w : world) (region actor_id session_id : string)
    (messages : list pyval) (o : outcome unit) (t : list entry)
    (e : entry) :
  forallb is_dict messages = true ->
  execute w (memory_create_event region actor_id session_id
               (Ok (PList messages))) = (o, t) ->
  In e t ->
  is_callee "memory_client.create_event" e = true ->
  exists config memory_id sent,
    In (Called (json_load "memory_config.json") (Ok config)) t
    /\ getitem config "memory_id" = Ok memory_id
    /\ kwargs_of e = Some [("memory_id", memory_id);
                           ("actor_id", PStr actor_id);
                           ("session_id", PStr session_id);
                           ("messages", PList sent)]
    /\ Forall2 wraps_content messages sent
    /\ calls_to "memory_client.create_event" t = [e].
Proof.
  intros Hdicts.
  destruct (proj1 (normalize_messages_spec messages) Hdicts)
    as (sent & Hsent & Hall).
  assert (Hnorm : normalized (PList messages) = Ok (PList sent)).
  { unfold normalized. cbn [iter bind]. now rewrite Hsent. }
  unfold execute, memory_create_event, import_or_exit.
  exec w; intros [= <- <-] Hin Hc; split_in Hin; try discriminate Hc.
  all: injection Hnorm as ->.
  all: do 2 eexists; exists sent.
  all: split; [in_trace|].
  all: split; [eassumption|].
  all: split; [reflexivity|].
  all: split; [exact Hall | reflexivity].
Qed.

Lemma pairs_are_no_dicts (pairs : list (string * string)) :
  pairs <> [] -> forallb is_dict (map message_pair pairs) = false.
Proof.
  destruct pairs as [|p rest]; [contradiction | reflexivity].
Qed.

Lemma create_event_stops_at_other_message
    (w : world) (region actor_id session_id : string)
    (messages : list pyval) (o : outcome unit) (t : list entry) :
  forallb is_dict messages = false ->
  execute w (memory_create_event region actor_id session_id
               (Ok (PList messages))) = (o, t) ->
  calls_to "memory_client.create_event" t = []
  /\ exit_status o = 1%Z
  /\ (forall e client,
         In e t ->
         is_callee "MemoryClient" e = true ->
         answer_of e = Some (Ok client) ->
         exists m,
           In m messages /\ is_dict m = false
           /\ o = Raised (AttributeError m "get")).
Proof.
  intros Hother.
  destruct (proj2 (normalize_messages_spec messages) Hother)
    as (m & Hin & Hm & Hraise).
  assert (Hnorm : normalized (PList messages)
                  = Raise (AttributeError m "get")).
  { unfold normalized. cbn [iter bind]. now rewrite Hraise. }
  unfold execute, memory_create_event, import_or_exit.
  exec w; intros [= <- <-]; try discriminate Hnorm.
  all: split; [reflexivity|]; split; [reflexivity|].
  all: intros ent client Hent Hc Ha; split_in Hent;
    try discriminate Hc; try discriminate Ha.
  all: exists m; split; [exact Hin|]; split; [exact Hm|].
  all: now injection Hnorm as ->.
Qed.

Import server.

(** X14.  The create-event script needs messages that are dicts.  When one
    of the messages is not a dict, the loop that normalizes the messages
    raises [AttributeError] at the first such message (it has no [get]):
    [create_event] is not called and the status is 1.  The tool
    [agentcore_memory_create_event] takes the messages as (message, role)
    pairs and hands them to the handler as they are, so for every non-empty
    list of pairs the script it returns stores nothing. *)
Theorem create_event_needs_dict_messages `{PyRuntime} :
  (forall w region actor_id session_id messages o t,
      forallb is_dict messages = false ->
      execute w (memory_create_event region actor_id session_id
                   (Ok (PList messages))) = (o, t) ->
      calls_to "memory_client.create_event" t = []
      /\ exit_status o = 1%Z
      /\ (forall e client,
             In e t ->
             is_callee "MemoryClient" e = true ->
             answer_of e = Some (Ok client) ->
             exists m,
               In m messages /\ is_dict m = false
               /\ o = Raised (AttributeError m "get")))
  /\ (forall memory_id actor_id session_id pairs region,
         pairs <> [] ->
         agentcore_memory_create_event memory_id actor_id session_id pairs
           region
         = memory_handlers.handle_memory_create_event
             [("memory_id", PStr memory_id);
              ("actor_id", PStr actor_id);
              ("session_id", PStr session_id);
              ("messages", PList (map message_pair pairs));
              ("region", PStr (or_default region "us-west-2"))]
         /\ forall w o t,
              execute w (memory_create_event (or_default region "us-west-2")
                           actor_id session_id
                           (Ok (PList (map message_pair pairs)))) = (o, t) ->
              calls_to "memory_client.create_event" t = []
              /\ exit_status o = 1%Z).
Proof.
  split.
  - intros w region actor_id session_id messages o t.
    apply create_event_stops_at_other_message.
  - intros memory_id actor_id session_id pairs region Hne.
    split; [reflexivity|]. intros w o t Hrun.
    pose proof (pairs_are_no_dicts pairs Hne) as Hother.
    destruct (create_event_stops_at_other_message w _ actor_id session_id
                _ o t Hother Hrun) as (Hnone & Hstatus & _).
    now split.
Qed.

(** ** The memory config from script to script *)

(** X15.  The memory id goes from the create script to the scripts that
    use the memory.  The create script writes one file,
    [memory_config.json], after [get_or_create_memory] has answered, and
    what it writes is the ["id"] of the answer under ["memory_id"], with
    the name and the region.  Run on a config written so, the delete, the
    create-event and the retrieve script pass this id as [memory_id] in
    every call of [delete_memory], [create_event] and
    [retrieve_memories]; the retrieve script is taken for a namespace and
    a query without a brace. *)
Theorem memory_id_goes_through_the_config
    (w : world) (region name description : string)
    (strategies : result pyval) (o : outcome unit) (t : list entry)
    (e : entry) (path : string) (config : pyval) :
  execute w (memory_create region name description strategies) = (o, t) ->
  In e t ->
  written e = Some (path, config) ->
  exists given memory memory_id,
    strategies = Ok given
    /\ In (Called (extern "memory_manager.get_or_create_memory" []
                          [("name", PStr name);
                           ("description", PStr description);
                           ("strategies", given)])
                  (Ok memory)) t
    /\ getitem memory "id" = Ok memory_id
    /\ path = "memory_config.json"
    /\ config = PDict [("memory_id", memory_id);
                       ("name", PStr name);
                       ("region", PStr region)]
    /\ (forall w' region' o' t' e',
           holds w' "memory_config.json" config ->
           execute w' (memory_delete region') = (o', t') ->
           In e' t' ->
           is_callee "memory_manager.delete_memory" e' = true ->
           kwargs_of e' = Some [("memory_id", memory_id)])
    /\ (forall w' region' actor_id session_id messages o' t' e' kwargs,
           holds w' "memory_config.json" config ->
           execute w' (memory_create_event region' actor_id session_id
                         messages) = (o', t') ->
           In e' t' ->
           is_callee "memory_client.create_event" e' = true ->
           kwargs_of e' = Some kwargs ->
           lookup "memory_id" kwargs = Some memory_id)
    /\ (forall w' region' namespace query top_k o' t' e' kwargs,
           has_brace namespace = false ->
           has_brace query = false ->
           holds w' "memory_config.json" config ->
           execute w' (memory_retrieve region' namespace query top_k)
           = (o', t') ->
           In e' t' ->
           is_callee "memory_client.retrieve_memories" e' = true ->
           kwargs_of e' = Some kwargs ->
           lookup "memory_id" kwargs = Some memory_id).
Proof.
  unfold execute at 1. unfold memory_create.
  exec w; intros [= <- <-] Hin Hw; split_in Hin; try discriminate Hw.
  all: injection Hw as <- <-.
  all: do 3 eexists.
  all: split; [reflexivity|].
  all: split; [in_trace|].
  all: split; [eassumption|].
  all: split; [reflexivity|].
  all: split; [reflexivity|].
  all: split; [|split].
  all: try (intros w' region' o' t' e' Hholds;
            unfold execute, memory_delete;
            exec w'; intros [= <- <-] Hin Hc; split_in Hin;
            try discriminate Hc; read_file Hholds;
            repeat match goal with
                   | H : getitem (PDict _) "memory_id" = _ |- _ =>
                       injection H as <-
                   end;
            reflexivity).
  all: try (intros w' region' actor_id session_id messages o' t' e' kwargs
              Hholds;
            unfold execute, memory_create_event, import_or_exit;
            exec w'; intros [= <- <-] Hin Hc Hk; split_in Hin;
            try discriminate Hc; read_file Hholds;
            repeat match goal with
                   | H : getitem (PDict _) "memory_id" = _ |- _ =>
                       injection H as <-
                   end;
            injection Hk as <-; reflexivity).
  all: intros w' region' namespace query top_k o' t' e' kwargs _ _ Hholds;
    unfold execute, memory_retrieve, import_or_exit;
    exec w'; intros [= <- <-] Hin Hc Hk; split_in Hin;
    try discriminate Hc; read_file Hholds;
    repeat match goal with
           | H : getitem (PDict _) "memory_id" = _ |- _ =>
               injection H as <-
           end;
    injection Hk as <-; reflexivity.
Qed.

End MemoryScripts.

(** * Further properties of the gateway scripts *)

Section GatewayScripts.
Import generated.
Local Open Scope script_scope.

(** Identifies the gateway id a script read from the config. *)
Ltac read_gateway_id Hid :=
  repeat match goal with
         | H : getitem _ "gateway_id" = _ |- _ =>
             rewrite Hid in H;
             first [discriminate H | injection H as <-]
         end.

(** The calls of a run that name a gateway name the gateway [gateway_id]. *)
Ltac names_gateway :=
  let Hin := fresh "Hin" in
  let Hk := fresh "Hk" in
  let Hg := fresh "Hg" in
  intros [= <- <-] Hin Hk Hg; split_in Hin; try discriminate Hk;
  injection Hk as <-; first [discriminate Hg | now injection Hg].

(** X16.  The gateway id goes from the create scripts to the scripts that
    work on the gateway.  The script of [handle_gateway_create] and
    [11_create_gateway.py] write [gateway_config.json] only after
    [create_gateway] has answered, with the ["gatewayId"] of the answer
    under ["gateway_id"] (and under ["id"]).  Run on a config with a
    ["gateway_id"], the generated list-targets, delete-target and
    add-target scripts and [12_add_lambda_to_gateway.py] pass this id as
    [gatewayIdentifier] in every call that names a gateway. *)
Theorem gateway_id_goes_through_the_config :
  (forall w region name protocol_type authorizer_type description o t e
          path config,
      execute w (gateway_create region name protocol_type authorizer_type
                   description) = (o, t) ->
      In e t ->
      written e = Some (path, config) ->
      exists kwargs response gateway_id gateway_url gateway_arn,
        In (Called (extern "gateway_client.create_gateway" [] kwargs)
                   (Ok response)) t
        /\ lookup "name" kwargs = Some (PStr name)
        /\ getitem response "gatewayId" = Ok gateway_id
        /\ path = "gateway_config.json"
        /\ config = PDict [("id", gateway_id);
                           ("gateway_id", gateway_id);
                           ("gateway_url", gateway_url);
                           ("gateway_arn", gateway_arn);
                           ("name", PStr name);
                           ("region", PStr region)])
  /\ (forall w o t e path config,
         execute w create_gateway.main = (o, t) ->
         In e t ->
         written e = Some (path, config) ->
         exists kwargs response gateway_id,
           In (Called (extern "gateway_client.create_gateway" [] kwargs)
                      (Ok response)) t
           /\ getitem response "gatewayId" = Ok gateway_id
           /\ path = "gateway_config.json"
           /\ getitem config "gateway_id" = Ok gateway_id
           /\ getitem config "id" = Ok gateway_id)
  /\ (forall config gateway_id,
         getitem config "gateway_id" = Ok gateway_id ->
         forall w,
           holds w "gateway_config.json" config ->
           (forall region o t e kwargs x,
               execute w (gateway_list_targets region) = (o, t) ->
               In e t ->
               kwargs_of e = Some kwargs ->
               lookup "gatewayIdentifier" kwargs = Some x ->
               x = gateway_id)
           /\ (forall region target_id o t e kwargs x,
                  execute w (gateway_delete_target region target_id)
                  = (o, t) ->
                  In e t ->
                  kwargs_of e = Some kwargs ->
                  lookup "gatewayIdentifier" kwargs = Some x ->
                  x = gateway_id)
           /\ (forall region lambda_arn target_name target_description
                      tool_schema o t e kwargs x,
                  execute w (gateway_add_lambda_target region lambda_arn
                               target_name target_description tool_schema)
                  = (o, t) ->
                  In e t ->
                  kwargs_of e = Some kwargs ->
                  lookup "gatewayIdentifier" kwargs = Some x ->
                  x = gateway_id)
           /\ (forall o t e kwargs x,
                  execute w add_lambda_to_gateway.main = (o, t) ->
                  In e t ->
                  kwargs_of e = Some kwargs ->
                  lookup "gatewayIdentifier" kwargs = Some x ->
                  x = gateway_id)).
Proof.
  split; [|split].
  - intros w region name protocol_type authorizer_type description o t e
      path config.
    unfold execute, gateway_create.
    exec w; intros [= <- <-] Hin Hw; split_in Hin; try discriminate Hw.
    all: injection Hw as <- <-.
    all: do 5 eexists.
    all: split; [in_trace|].
    all: split; [reflexivity|].
    all: split; [eassumption|].
    all: split; reflexivity.
  - intros w o t e path config.
    unfold execute, create_gateway.main, try_except_class.
    exec w; intros [= <- <-] Hin Hw; split_in Hin; try discriminate Hw.
    all: injection Hw as <- <-.
    all: do 3 eexists.
    all: split; [in_trace|].
    all: split; [eassumption|].
    all: repeat split; reflexivity.
  - intros config gateway_id Hid w Hholds.
    split; [|split; [|split]].
    + intros region o t e kwargs x.
      unfold execute, gateway_list_targets, list_gateway_targets.
      exec w; read_file Hholds; read_gateway_id Hid; names_gateway.
    + intros region target_id o t e kwargs x.
      unfold execute, gateway_delete_target.
      exec w; read_file Hholds; read_gateway_id Hid; names_gateway.
    + intros region lambda_arn target_name target_description tool_schema
        o t e kwargs x.
      unfold execute, gateway_add_lambda_target.
      exec w; read_file Hholds; read_gateway_id Hid; names_gateway.
    + intros o t e kwargs x.
      unfold execute, add_lambda_to_gateway.main, try_except_class.
      exec w; read_file Hholds; read_gateway_id Hid; names_gateway.
Qed.

(** ** Scripts that only read *)

Lemma gateway_list_targets_reads (region : string) :
  only_calls
    (reads_only ["boto3.client"; "gateway_client.list_gateway_targets"])
    (gateway_list_targets region).
Proof.
  unfold gateway_list_targets, list_gateway_targets. static.
Qed.

Lemma memory_retrieve_reads (region namespace query : string) (top_k : Z) :
  only_calls
    (reads_only ["__import__"; "MemoryClient";
                 "memory_client.retrieve_memories"])
    (memory_retrieve region namespace query top_k).
Proof.
  unfold memory_retrieve, import_or_exit. static.
Qed.

(** X17.  The generated list-targets script and the generated retrieve
    script only read; the retrieve script is taken for a namespace and a
    query without a brace and an int [top_k], so that the f-string literals
    that print them evaluate nothing.  In every run, whatever the answers,
    they write no file, do not wait and post nothing; the list script
    calls only [boto3.client] and [list_gateway_targets], the retrieve
    script only the import, [MemoryClient] and [retrieve_memories].  The
    retrieve script asks once at most, for the namespace, the query and the
    [top_k] it was generated for, and ends with [exit(1)] when the
    retrieval raises. *)
Theorem listing_scripts_only_read (w : world) :
  (forall region,
      forallb (allowed (reads_only ["boto3.client";
                                    "gateway_client.list_gateway_targets"]))
        (snd (execute w (gateway_list_targets region))) = true)
  /\ (forall region namespace query top_k,
         has_brace namespace = false ->
         has_brace query = false ->
         forallb (allowed (reads_only ["__import__"; "MemoryClient";
                                       "memory_client.retrieve_memories"]))
           (snd (execute w (memory_retrieve region namespace query top_k)))
         = true)
  /\ (forall region namespace query top_k o t e,
         has_brace namespace = false ->
         has_brace query = false ->
         execute w (memory_retrieve region namespace query top_k) = (o, t) ->
         In e t ->
         is_callee "memory_client.retrieve_memories" e = true ->
         calls_to "memory_client.retrieve_memories" t = [e]
         /\ (exists config memory_id,
                In (Called (json_load "memory_config.json") (Ok config)) t
                /\ getitem config "memory_id" = Ok memory_id
                /\ kwargs_of e = Some [("memory_id", memory_id);
                                       ("namespace", PStr namespace);
                                       ("query", PStr query);
                                       ("top_k", PInt top_k)])
         /\ (forall x, answer_of e = Some (Raise x) -> o = Exit 1)
         /\ (forall memories,
                answer_of e = Some (Ok memories) ->
                truthy memories = false -> o = Done tt)).
Proof.
  split; [|split].
  - intros region. apply only_calls_run, gateway_list_targets_reads.
  - intros region namespace query top_k _ _.
    apply only_calls_run, memory_retrieve_reads.
  - intros region namespace query top_k o t e _ _.
    unfold execute, memory_retrieve, import_or_exit.
    exec w; intros [= <- <-] Hin Hc; split_in Hin; try discriminate Hc.
    all: split; [reflexivity|].
    all: split; [do 2 eexists; split; [in_trace|];
                 split; [eassumption|]; reflexivity|].
    all: split; [intros x [= <-] || intros x [=]; reflexivity|].
    all: intros memories Hm Hfalse; try discriminate Hm;
      injection Hm as <-; congruence.
Qed.

End GatewayScripts.

(** * Further properties of the standalone scripts *)

Section Prerequisites.
Local Open Scope script_scope.

Lemma no_extern_calls (t : list entry) :
  forallb (fun e => negb (is_extern e)) t = true -> filter is_extern t = [].
Proof.
  induction t as [|e t IH]; [reflexivity|].
  cbn [forallb filter]. rewrite andb_true_iff. intros [He Ht].
  apply negb_true_iff in He. rewrite He. now apply IH.
Qed.

(** X18.  [11_create_gateway.py] and [12_add_lambda_to_gateway.py] do not
    touch AWS without their prerequisites.  When one of the config files
    cannot be read, the script has called neither boto3 nor the service:
    for a file that is not there it ends with [exit(1)], for any other
    error of the read with that error (status 1). *)
Theorem unreadable_config_stops_before_aws
    (w : world) (o : outcome unit) (t : list entry) (e : entry)
    (path : string) (x : exn) :
  In e t ->
  loaded e = Some (path, Raise x) ->
  (execute w create_gateway.main = (o, t) ->
   filter is_extern t = []
   /\ (exn_class x = "FileNotFoundError" -> o = Exit 1)
   /\ (exn_class x <> "FileNotFoundError" -> o = Raised x))
  /\ (execute w add_lambda_to_gateway.main = (o, t) ->
      filter is_extern t = []
      /\ (exn_class x = "FileNotFoundError" -> o = Exit 1)
      /\ (exn_class x <> "FileNotFoundError" -> o = Raised x)).
Proof.
  intros Hin Hl. split; revert Hin Hl.
  - unfold execute, create_gateway.main, try_except_class.
    exec w; intros Hin Hl [= <- <-]; split_in Hin; try discriminate Hl.
    all: injection Hl as _ <-.
    all: split; [reflexivity|].
    all: match goal with
         | H : String.eqb _ _ = true |- _ => apply String.eqb_eq in H
         | H : String.eqb _ _ = false |- _ => apply String.eqb_neq in H
         end.
    all: split; [intros Hc | intros Hc];
      first [reflexivity | contradiction].
  - unfold execute, add_lambda_to_gateway.main, try_except_class.
    exec w; intros Hin Hl [= <- <-]; split_in Hin; try discriminate Hl.
    all: injection Hl as _ <-.
    all: split; [reflexivity|].
    all: match goal with
         | H : String.eqb _ _ = true |- _ => apply String.eqb_eq in H
         | H : String.eqb _ _ = false |- _ => apply String.eqb_neq in H
         end.
    all: split; [intros Hc | intros Hc];
      first [reflexivity | contradiction].
Qed.

End Prerequisites.

Section CreateGatewayConfig.
Local Open Scope script_scope.

(** X19.  What [11_create_gateway.py] saves.  The script writes one file,
    [gateway_config.json], after [create_gateway] has answered.  The config
    has nine entries: the id (twice), the URL and the ARN of the answer, the
    fixed name and region, and the client id, the client secret and the
    token endpoint copied from [cognito_config.json].  The config written
    by the script of [handle_gateway_create] has the first six entries and
    no secret. *)
Theorem create_gateway_saves_cognito_secret
    (w : world) (o : outcome unit) (t : list entry) (e : entry)
    (path : string) (config : pyval) :
  In e t ->
  written e = Some (path, config) ->
  (execute w create_gateway.main = (o, t) ->
   exists cognito_config kwargs response gateway_id gateway_url gateway_arn
          client_id client_secret token_endpoint,
     In (Called (json_load "cognito_config.json") (Ok cognito_config)) t
     /\ In (Called (extern "gateway_client.create_gateway" [] kwargs)
                   (Ok response)) t
     /\ getitem response "gatewayId" = Ok gateway_id
     /\ getitem response "gatewayUrl" = Ok gateway_url
     /\ getitem response "gatewayArn" = Ok gateway_arn
     /\ getitem cognito_config "client_id" = Ok client_id
     /\ getitem cognito_config "client_secret" = Ok client_secret
     /\ getitem cognito_config "token_endpoint" = Ok token_endpoint
     /\ path = "gateway_config.json"
     /\ config = PDict [("id", gateway_id);
                        ("gateway_id", gateway_id);
                        ("gateway_url", gateway_url);
                        ("gateway_arn", gateway_arn);
                        ("name", PStr "ReturnsRefundsGateway");
                        ("region", PStr "us-west-2");
                        ("cognito_client_id", client_id);
                        ("cognito_client_secret", client_secret);
                        ("token_endpoint", token_endpoint)]
     /\ List.length (filter (fun e => match written e with
                                      | Some _ => true
                                      | None => false
                                      end) t) = 1%nat)
  /\ (forall region name protocol_type authorizer_type description,
         execute w (generated.gateway_create region name protocol_type
                      authorizer_type description) = (o, t) ->
         exists d,
           config = PDict d
           /\ keys d = ["id"; "gateway_id"; "gateway_url"; "gateway_arn";
                        "name"; "region"]
           /\ lookup "cognito_client_secret" d = None).
Proof.
  intros Hin Hw. split; revert Hin Hw.
  - unfold execute, create_gateway.main, try_except_class.
    exec w; intros Hin Hw [= <- <-]; split_in Hin; try discriminate Hw.
    all: injection Hw as <- <-.
    all: do 9 eexists.
    all: split; [in_trace|].
    all: split; [in_trace|].
    all: repeat (split; [eassumption|]).
    all: repeat split; reflexivity.
  - intros Hin Hw region name protocol_type authorizer_type description.
    revert Hin Hw.
    unfold execute, generated.gateway_create.
    exec w; intros Hin Hw [= <- <-]; split_in Hin; try discriminate Hw.
    all: injection Hw as <- <-.
    all: eexists; split; [reflexivity|]; split; reflexivity.
Qed.

End CreateGatewayConfig.

Section GatewayRole.
Context `{PyRuntime}.
Import create_gateway_role.
Local Open Scope script_scope.

(** X20.  What [09_create_gateway_role.py] saves, and when.  The script
    writes one file, [gateway_role_config.json], and only after the policy
    was attached to the role (or the attachment was refused with
    [LimitExceededException]) and the wait of ten seconds.  The policy ARN
    of the config is the one of the [attach_role_policy] call, and the
    account id is the ["Account"] that STS gave.  A script that does not
    run to its end has the status 1. *)
Theorem gateway_role_config_is_saved_last
    (w : world) (o : outcome unit) (t : list entry) :
  execute w main = (o, t) ->
  (forall e path config,
      In e t ->
      written e = Some (path, config) ->
      exists identity account_id role_arn policy_arn attached before after,
        In (Called (extern "sts_client.get_caller_identity" [] [])
                   (Ok identity)) t
        /\ getitem identity "Account" = Ok account_id
        /\ path = "gateway_role_config.json"
        /\ config = role_config role_arn policy_arn account_id
        /\ t = (before
                ++ [Called (extern "iam_client.attach_role_policy" []
                              [("RoleName", PStr ROLE_NAME);
                               ("PolicyArn", policy_arn)]) attached;
                    Called (time_sleep 10) tt; e]
                ++ after)%list
        /\ after = []
        /\ match attached with
           | Ok _ => True
           | Raise x => exn_class x = "LimitExceededException"
           end)
  /\ (o <> Done tt -> exit_status o = 1%Z).
Proof.
  unfold execute, main, create_or_get_role, create_or_name_policy, arn_of,
    try_except_class.
  exec w; intros [= <- <-];
    (split; [intros ent path config Hin Hw
            | intros Ho; first [reflexivity | now contradiction Ho]]).
  all: split_in Hin; try discriminate Hw.
  all: injection Hw as <- <-.
  all: do 5 eexists.
  all: match goal with
       | |- exists before after, _ /\ _ /\ _ /\ _ /\ ?t = _ /\ _ =>
           let n := eval cbv in (List.length t - 3)%nat in
           exists (firstn n t); exists []
       end.
  all: split; [in_trace|].
  all: split; [eassumption|].
  all: split; [reflexivity|].
  all: split; [reflexivity|].
  all: split; [cbn [firstn app];
               repeat match goal with
                      | u : unit |- _ => destruct u
                      end; reflexivity|].
  all: split; [reflexivity|].
  all: first [exact I | now apply String.eqb_eq].
Qed.

End GatewayRole.

Section InvokeAgent.
Context `{PyRuntime}.
Import invoke_agent.
Local Open Scope script_scope.

Lemma toolkit_call_has_token
    (w : world) (o : outcome unit) (t : list entry) (e : entry) :
  execute w main = (o, t) ->
  In e t ->
  is_extern e = true ->
  exists request granted token_data token,
    In request t
    /\ post_answer request = Some (Ok granted)
    /\ status_code granted = 200%Z
    /\ json granted = Ok token_data
    /\ getitem token_data "access_token" = Ok token.
Proof.
  unfold execute, main.
  exec w; intros [= <- <-] Hin Hx; split_in Hin; try discriminate Hx.
  all: eexists (Called (requests_post _ _ _) (Ok _)).
  all: do 3 eexists.
  all: split; [in_trace|].
  all: split; [reflexivity|].
  all: split; [apply Z.eqb_eq; apply negb_false_iff; eassumption|].
  all: split; eassumption.
Qed.

Lemma refused_token_stops
    (w : world) (o : outcome unit) (t : list entry) (request : entry)
    (refused : response) :
  execute w main = (o, t) ->
  In request t ->
  post_answer request = Some (Ok refused) ->
  status_code refused <> 200%Z ->
  o = Exit 1
  /\ filter is_extern t = []
  /\ exists before, t = (before ++ [request])%list.
Proof.
  unfold execute, main.
  exec w; intros [= <- <-] Hin Hp Hs; split_in Hin; try discriminate Hp.
  all: injection Hp as <-.
  all: try (exfalso; apply Hs; apply Z.eqb_eq; apply negb_false_iff;
            eassumption).
  all: split; [reflexivity|]; split; [reflexivity|].
  all: eexists [_; _]; reflexivity.
Qed.

Lemma failed_invocation_exits
    (w : world) (o : outcome unit) (t : list entry) (e : entry) (x : exn) :
  execute w main = (o, t) ->
  In e t ->
  is_callee "runtime.invoke" e = true ->
  answer_of e = Some (Raise x) ->
  o = Exit 1.
Proof.
  unfold execute, main.
  exec w; intros [= <- <-] Hin Hc Ha; split_in Hin; try discriminate Hc;
    try discriminate Ha; reflexivity.
Qed.

(** X21.  [21_invoke_agent.py] does not go on without a token.  Every call
    of the toolkit ([Runtime], [configure], [invoke]) comes after a token
    request that was answered with status 200 and an [access_token].  When
    the token endpoint answers with another status the script ends with
    [exit(1)] after that request and has made no call of the toolkit; when
    the invocation of the agent raises, the script ends with [exit(1)]. *)
Theorem invoke_agent_needs_token
    (w : world) (o : outcome unit) (t : list entry) :
  execute w main = (o, t) ->
  (forall e,
      In e t ->
      is_extern e = true ->
      exists request granted token_data token,
        In request t
        /\ post_answer request = Some (Ok granted)
        /\ status_code granted = 200%Z
        /\ json granted = Ok token_data
        /\ getitem token_data "access_token" = Ok token)
  /\ (forall request refused,
         In request t ->
         post_answer request = Some (Ok refused) ->
         status_code refused <> 200%Z ->
         o = Exit 1
         /\ filter is_extern t = []
         /\ exists before, t = (before ++ [request])%list)
  /\ (forall e x,
         In e t ->
         is_callee "runtime.invoke" e = true ->
         answer_of e = Some (Raise x) ->
         o = Exit 1).
Proof.
  intros Hrun. split; [|split].
  - intros e. now apply (toolkit_call_has_token w o t).
  - intros request refused. now apply (refused_token_stops w o t).
  - intros e x. now apply (failed_invocation_exits w o t).
Qed.

End InvokeAgent.

(** ** The scripts of the runtime handlers *)

(** [exec] for scripts that bind a pair. *)
Ltac exec_pairs w :=
  simpl;
  repeat first
    [ exec_step w
    | match goal with
      | |- context [match ?p with pair _ _ => _ end] =>
          is_var p; destruct p; simpl
      end ].


(** Keeps of a trace that is written out the entries that [test] selects. *)
Ltac narrow Hin Hc :=
  apply (fun H => proj2 (filter_In _ _ _) (conj H Hc)) in Hin;
  simpl in Hin.

Ltac lookup_stores :=
  repeat first [ rewrite lookup_store_same
               | rewrite lookup_store_other by discriminate ].


(** ** Shared lemmas *)

Section Shared.
Import generated.

Lemma lookup_update (k : string) (other d : dict) :
  NoDup (keys other) ->
  lookup k (update d other)
  = match lookup k other with
    | Some v => Some v
    | None => lookup k d
    end.
Proof.
  unfold update. revert d.
  induction other as [|[k0 v0] other IH]; intros d Hnd; [reflexivity|].
  inversion Hnd as [|? ? Hnotin Hnd']; subst.
  cbn [fold_left fst snd lookup]. rewrite (IH _ Hnd').
  destruct (String.eqb_spec k k0) as [->|Hne].
  - assert (lookup k0 other = None) as ->.
    { clear -Hnotin. induction other as [|[k1 v1] other IH]; [reflexivity|].
      cbn [lookup]. destruct (String.eqb_spec k0 k1) as [->|];
        [exfalso; apply Hnotin; now left|].
      apply IH. intros Hin. apply Hnotin. now right. }
    apply lookup_store_same.
  - destruct (lookup k other); [reflexivity|].
    apply lookup_store_other. congruence.
Qed.

Lemma store_from_spec (config : option pyval) (field key : string)
    (d d' : dict) :
  store_from config field key d = Ok d' ->
  match config with
  | Some c =>
      exists v, getitem c field = Ok v /\ d' = store key v d
  | None => d' = d
  end.
Proof.
  unfold store_from. destruct config as [c|].
  - destruct (getitem c field) as [v|]; [|discriminate].
    intros [= <-]. now exists v.
  - now intros [= <-].
Qed.

Lemma written_is_write (e : entry) (file : string * pyval) :
  written e = Some file -> is_write e = true.
Proof. unfold is_write. now intros ->. Qed.

Lemma tested_found_missing (e : entry) (path : string) :
  tested e = Some (path, false) -> found_missing e = true.
Proof. unfold found_missing. now intros ->. Qed.

(** What a run read from a file is what the world answered. *)
Lemma loaded_by_world {A} (w : world) (p : script A) (h : list entry)
    (o : outcome A) (t : list entry) (e : entry) (path : string)
    (r : result pyval) :
  run w h p = (o, t) ->
  In e t ->
  loaded e = Some (path, r) ->
  exists h', r = w _ h' (json_load path).
Proof.
  revert h o t. induction p as [o' | X c k IH]; intros h o t.
  - intros [= <- <-] [].
  - simpl. destruct (run w (h ++ [Called c (w X h c)]) (k (w X h c)))
      as [o1 t1] eqn:Hrun.
    intros [= <- <-] [<- | Hin] Hl.
    + destruct c; try discriminate Hl. injection Hl as <- <-.
      now exists h.
    + exact (IH _ _ _ _ Hrun Hin Hl).
Qed.

Lemma held_is_loaded {A} (w : world) (p : script A) (o : outcome A)
    (t : list entry) (path : string) (config v : pyval) :
  holds w path config ->
  execute w p = (o, t) ->
  In (Called (json_load path) (Ok v)) t ->
  v = config.
Proof.
  intros Hholds Hrun Hin.
  destruct (loaded_by_world w p [] o t _ path (Ok v) Hrun Hin eq_refl)
    as (h' & Hw).
  rewrite Hholds in Hw. now injection Hw.
Qed.

End Shared.

(** Inverts the conditional assignments of the launch script. *)
Ltac stored_from :=
  repeat match goal with
         | H : generated.store_from (Some _) _ _ _ = Ok _ |- _ =>
             apply store_from_spec in H; destruct H as (? & ? & ->)
         | H : generated.store_from None _ _ _ = Ok _ |- _ =>
             apply store_from_spec in H; subst
         | H1 : ?r = Ok ?x, H2 : ?r = Ok ?y |- _ =>
             rewrite H1 in H2; injection H2 as <-
         end.

Section LaunchEnvironment.
Import generated.
Local Open Scope script_scope.
#[local] Arguments store_from : simpl never.

(** X22.  The environment of the launched agent.  What the launch script
    passes to [runtime.launch] as [env_vars] holds the client id, the client
    secret and the discovery URL of [cognito_config.json] and the scopes of
    that file joined by spaces, the memory id of [memory_config.json] and
    the gateway URL of [gateway_config.json] when these files exist: a
    variable of the same name given to the tool is replaced.  Every other
    variable given to the tool is passed as it is, and so are [MEMORY_ID]
    and [GATEWAY_URL] when their file does not exist. *)
Theorem launch_env_vars_come_from_the_configs
    (w : world) (region : string) (given : dict) (flag : result pyval)
    (o : outcome unit) (t : list entry) (e : entry) (kwargs : dict) :
  NoDup (keys given) ->
  execute w (runtime_launch region (Ok given) flag) = (o, t) ->
  In e t ->
  is_callee "runtime.launch" e = true ->
  kwargs_of e = Some kwargs ->
  exists env_vars cognito scopes oauth_scopes,
    lookup "env_vars" kwargs = Some (PDict env_vars)
    /\ In (Called (json_load "cognito_config.json") (Ok cognito)) t
    /\ set_from cognito "client_id" "COGNITO_CLIENT_ID" env_vars
    /\ set_from cognito "client_secret" "COGNITO_CLIENT_SECRET" env_vars
    /\ set_from cognito "discovery_url" "COGNITO_DISCOVERY_URL" env_vars
    /\ get cognito "scopes" default_scopes = Ok scopes
    /\ join " " scopes = Ok oauth_scopes
    /\ lookup "OAUTH_SCOPES" env_vars = Some (PStr oauth_scopes)
    /\ (forall e' memory,
           In e' t ->
           loaded e' = Some ("memory_config.json", Ok memory) ->
           set_from memory "memory_id" "MEMORY_ID" env_vars)
    /\ (forall e' gateway,
           In e' t ->
           loaded e' = Some ("gateway_config.json", Ok gateway) ->
           set_from gateway "gateway_url" "GATEWAY_URL" env_vars)
    /\ (forall e',
           In e' t ->
           tested e' = Some ("memory_config.json", false) ->
           lookup "MEMORY_ID" env_vars = lookup "MEMORY_ID" given)
    /\ (forall e',
           In e' t ->
           tested e' = Some ("gateway_config.json", false) ->
           lookup "GATEWAY_URL" env_vars = lookup "GATEWAY_URL" given)
    /\ (forall k, ~ In k config_vars -> lookup k env_vars = lookup k given).
Proof.
  intros Hnd.
  unfold execute, runtime_launch, load_if_exists, getattr, yaml_safe_load.
  exec_pairs w; intros [= <- <-] Hin Hc Hk; narrow Hin Hc; split_in Hin.
  all: injection Hk as <-.
  all: stored_from.
  all: do 4 eexists.
  all: split; [reflexivity|].
  all: split; [in_trace|].
  all: do 3 (split; [eexists; split; [eassumption|]; now lookup_stores|]).
  all: split; [eassumption|].
  all: split; [eassumption|].
  all: split; [now lookup_stores|].
  all: split; [intros e' memory Hin' Hl; split_in Hin'; try discriminate Hl;
               injection Hl as <-;
               eexists; (split; [eassumption | now lookup_stores])|].
  all: split; [intros e' gateway Hin' Hl; split_in Hin'; try discriminate Hl;
               injection Hl as <-;
               eexists; (split; [eassumption | now lookup_stores])|].
  all: split; [intros e' Hin' Hl; split_in Hin'; try discriminate Hl;
               lookup_stores; now rewrite lookup_update by assumption;
               destruct (lookup "MEMORY_ID" given)|].
  all: split; [intros e' Hin' Hl; split_in Hin'; try discriminate Hl;
               lookup_stores; now rewrite lookup_update by assumption;
               destruct (lookup "GATEWAY_URL" given)|].
  all: intros k Hk.
  all: repeat rewrite lookup_store_other
         by (intros <-; apply Hk; simpl; tauto).
  all: rewrite lookup_update by assumption.
  all: now destruct (lookup k given).
Qed.

End LaunchEnvironment.

Section LaunchConfig.
Import generated.
Local Open Scope script_scope.
#[local] Arguments store_from : simpl never.

(** The delete script on a runtime config with an ["agent_arn"]. *)
Lemma delete_reads_agent_arn
    (w : world) (region : string) (o : outcome unit) (t : list entry)
    (e : entry) (config agent_arn : pyval) :
  holds w "runtime_config.json" config ->
  getitem config "agent_arn" = Ok agent_arn ->
  execute w (runtime_delete region) = (o, t) ->
  In e t ->
  is_callee "agentcore_client.delete_agent_runtime" e = true ->
  exists arn,
    agent_arn = PStr arn
    /\ kwargs_of e = Some [("agentRuntimeId", PStr (split_last "/" arn))].
Proof.
  intros Hholds Harn.
  assert (get config "agent_arn" PNone = Ok agent_arn) as Hget.
  { destruct config; try discriminate Harn.
    cbn [getitem get] in *. unfold dict_getitem, dict_get in *.
    now destruct (lookup "agent_arn" d); [injection Harn as ->|]. }
  unfold execute, runtime_delete.
  exec w; intros [= <- <-] Hin Hc; narrow Hin Hc; split_in Hin.
  all: read_file Hholds.
  all: match goal with
       | H : get _ _ _ = Ok _ |- _ => rewrite Hget in H; injection H as <-
       end.
  all: match goal with
       | H : split_last_of ?a _ = Ok _ |- _ =>
           destruct a; try discriminate H; simpl in H; injection H as <-
       end.
  all: eexists; split; reflexivity.
Qed.

(** X23.  The ARN of the agent goes from the launch script to the delete
    script.  The launch script writes one file, [runtime_config.json],
    after [runtime.launch] has answered, with the [agent_arn] attribute of
    the answer under ["agent_arn"] and the region.  Run on a config written
    so, the delete script passes what follows the last slash of this ARN to
    every call of [delete_agent_runtime]. *)
Theorem agent_arn_goes_through_the_config
    (w : world) (region : string) (given : result dict)
    (flag : result pyval) (o : outcome unit) (t : list entry) (e : entry)
    (path : string) (config : pyval) :
  execute w (runtime_launch region given flag) = (o, t) ->
  In e t ->
  written e = Some (path, config) ->
  exists kwargs launch_result agent_arn,
    In (Called (extern "runtime.launch" [] kwargs) (Ok launch_result)) t
    /\ In (Called (extern "getattr" [launch_result; PStr "agent_arn"] [])
                  (Ok agent_arn)) t
    /\ path = "runtime_config.json"
    /\ getitem config "agent_arn" = Ok agent_arn
    /\ getitem config "region" = Ok (PStr region)
    /\ filter is_write t = [e]
    /\ (forall w' region' o' t' e',
           holds w' "runtime_config.json" config ->
           execute w' (runtime_delete region') = (o', t') ->
           In e' t' ->
           is_callee "agentcore_client.delete_agent_runtime" e' = true ->
           exists arn,
             agent_arn = PStr arn
             /\ kwargs_of e'
                = Some [("agentRuntimeId", PStr (split_last "/" arn))]).
Proof.
  intros Hrun Hin Hw.
  pose proof (written_is_write _ _ Hw) as Hb.
  revert Hrun Hin Hb Hw.
  unfold execute at 1.
  unfold runtime_launch, load_if_exists, getattr, yaml_safe_load.
  exec_pairs w; intros [= <- <-] Hin Hb Hw; narrow Hin Hb; split_in Hin.
  all: injection Hw as <- <-.
  all: stored_from.
  all: do 3 eexists.
  all: split; [in_trace|].
  all: split; [in_trace|].
  all: split; [reflexivity|].
  all: match goal with
       | |- getitem ?c "agent_arn" = Ok ?a /\ _ =>
           assert (getitem c "agent_arn" = Ok a) as Harn by reflexivity
       end.
  all: split; [exact Harn|].
  all: split; [reflexivity|].
  all: split; [reflexivity|].
  all: intros w' region' o' t' e' Hholds Hrun' Hin' Hc'.
  all: exact (delete_reads_agent_arn w' region' o' t' e' _ _ Hholds Harn
                Hrun' Hin' Hc').
Qed.

End LaunchConfig.

Section RuntimeFiles.
Import generated.
Local Open Scope script_scope.
#[local] Arguments store_from : simpl never.

(** X24.  The runtime scripts stop before they touch the toolkit when a
    file they need is not there.  The launch script ends with [exit(1)]
    when [cognito_config.json], [runtime_execution_role_config.json] or
    [.bedrock_agentcore.yaml] does not exist, the status and the invoke
    script when [runtime_config.json] or [.bedrock_agentcore.yaml] does not
    exist; up to then they call neither boto3 nor the toolkit, write no
    file and request no token. *)
Theorem runtime_scripts_stop_without_their_files
    (w : world) (region : string) (o : outcome unit) (t : list entry)
    (e : entry) (path : string) :
  In e t ->
  tested e = Some (path, false) ->
  (forall given flag,
      execute w (runtime_launch region given flag) = (o, t) ->
      In path ["cognito_config.json"; "runtime_execution_role_config.json";
               ".bedrock_agentcore.yaml"] ->
      o = Exit 1 /\ filter is_extern t = [] /\ filter is_write t = [])
  /\ (execute w (runtime_status region) = (o, t) ->
      o = Exit 1 /\ filter is_extern t = [])
  /\ (forall `{PyRuntime} payload,
         execute w (runtime_invoke region payload) = (o, t) ->
         o = Exit 1 /\ filter is_extern t = [] /\ filter is_post t = []).
Proof.
  intros Hin Ht. pose proof (tested_found_missing _ _ Ht) as Hb.
  split; [|split].
  - intros given flag Hrun Hpath. revert Hrun Hin Hb Ht.
    unfold execute, runtime_launch, load_if_exists, getattr, yaml_safe_load.
    exec_pairs w; intros [= <- <-] Hin Hb Ht; narrow Hin Hb; split_in Hin.
    all: injection Ht as <-.
    all: try (repeat split; reflexivity).
    all: exfalso; simpl in Hpath; intuition discriminate.
  - revert Hin Hb Ht.
    unfold execute, runtime_status, getattr, yaml_safe_load.
    exec_pairs w; intros Hin Hb Ht [= <- <-]; narrow Hin Hb; split_in Hin.
    all: repeat split; reflexivity.
  - intros R payload. revert Hin Hb Ht.
    unfold execute, runtime_invoke, getattr, yaml_safe_load.
    exec_pairs w; intros Hin Hb Ht [= <- <-]; narrow Hin Hb; split_in Hin.
    all: repeat split; reflexivity.
Qed.

(** X25.  The status script does not tell a failed deployment by its exit
    status.  Once [runtime.status] is called the script never calls
    [exit]; when the endpoint of the answer has a ["status"], whatever it
    is, the script runs to its end. *)
Theorem status_script_ends_well_on_any_status
    (w : world) (region : string) (o : outcome unit) (t : list entry)
    (e : entry) :
  execute w (runtime_status region) = (o, t) ->
  In e t ->
  is_callee "runtime.status" e = true ->
  (forall n, o <> Exit n)
  /\ (forall endpoint endpoint' status,
         map answer_of (calls_to "getattr" t)
         = [Some (Ok endpoint); Some (Ok endpoint')] ->
         getitem endpoint "status" = Ok status ->
         o = Done tt).
Proof.
  unfold execute, runtime_status, getattr, yaml_safe_load.
  exec_pairs w; intros [= <- <-] Hin Hc; narrow Hin Hc; split_in Hin.
  all: split; [intros n; discriminate|].
  all: intros endpoint endpoint' status Hreads Hstatus.
  all: try discriminate Hreads.
  all: try reflexivity.
  all: injection Hreads as <- <-; congruence.
Qed.

End RuntimeFiles.

Section GeneratedInvoke.
Import generated.
Local Open Scope script_scope.
(** The generated invoke script on a Cognito config without ["domain"]. *)
Lemma invoke_needs_domain `{PyRuntime}
    (w : world) (region : string) (payload : result pyval)
    (o : outcome unit) (t : list entry) (config : pyval) (x : exn) :
  holds w "cognito_config.json" config ->
  getitem config "domain" = Raise x ->
  execute w (runtime_invoke region payload) = (o, t) ->
  o <> Done tt
  /\ filter is_post t = []
  /\ (forall e, In e t -> callee_of e = Some "yaml.safe_load"
                \/ callee_of e = None)
  /\ (forall e yaml agent,
         In e t ->
         is_callee "yaml.safe_load" e = true ->
         answer_of e = Some (Ok yaml) ->
         default_agent_of yaml = Ok agent ->
         o = Raised x).
Proof.
  intros Hholds Hdomain.
  unfold execute, runtime_invoke, getattr, yaml_safe_load.
  exec_pairs w; intros [= <- <-].
  all: read_file Hholds.
  all: try congruence.
  all: split; [discriminate|].
  all: split; [reflexivity|].
  all: split; [intros ent Hin; split_in Hin; simpl; tauto|].
  all: intros ent yaml agent Hin Hc Ha Hagent; narrow Hin Hc; split_in Hin.
  all: try discriminate Ha.
  all: injection Ha as <-; congruence.
Qed.


End GeneratedInvoke.

(** ** 08_create_cognito.py and the scripts that read its config *)


Section Cognito.
Context `{PyRuntime}.
Import create_cognito.
Local Open Scope script_scope.

(** The runs of [08_create_cognito.py] that write the config. *)
Lemma cognito_config_written
    (w : world) (o : outcome unit) (t : list entry) (e : entry)
    (path : string) (config : pyval) :
  execute w main = (o, t) ->
  In e t ->
  written e = Some (path, config) ->
  exists token pool user_pool user_pool_id app_client client_id details
         client client_secret,
    In (Called (extern "secrets.token_hex" [PInt 4] []) (Ok token)) t
    /\ In (Called create_user_pool_call (Ok pool)) t
    /\ getitem pool "UserPool" = Ok user_pool
    /\ getitem user_pool "Id" = Ok user_pool_id
    /\ In (Called (create_user_pool_client_call user_pool_id)
                  (Ok app_client)) t
    /\ getitem app_client "UserPoolClient" = Ok client
    /\ getitem client "ClientId" = Ok client_id
    /\ In (Called (describe_user_pool_client_call user_pool_id client_id)
                  (Ok details)) t
    /\ (exists described,
           getitem details "UserPoolClient" = Ok described
           /\ getitem described "ClientSecret" = Ok client_secret)
    /\ path = "cognito_config.json"
    /\ config = cognito_config (domain_prefix_of token) user_pool_id
                  client_id client_secret
    /\ filter is_write t = [e]
    /\ (forall e' x,
           In e' t -> answer_of e' = Some (Raise x) -> passed_over e' x).
Proof.
  intros Hrun Hin Hw. pose proof (written_is_write _ _ Hw) as Hb.
  revert Hrun Hin Hb Hw.
  unfold execute, main, unless_exists.
  exec w; intros [= <- <-] Hin Hb Hw; narrow Hin Hb; split_in Hin.
  all: injection Hw as <- <-.
  all: do 9 eexists.
  all: split; [in_trace|].
  all: split; [in_trace|].
  all: split; [eassumption|].
  all: split; [eassumption|].
  all: split; [in_trace|].
  all: split; [eassumption|].
  all: split; [eassumption|].
  all: split; [in_trace|].
  all: split; [eexists; split; eassumption|].
  all: split; [reflexivity|].
  all: split; [reflexivity|].
  all: split; [reflexivity|].
  all: intros e' x Hin' Ha; split_in Hin'; try discriminate Ha.
  all: injection Ha as <-.
  all: split; [now apply String.eqb_eq|].
  all: first [left; split; [reflexivity | assumption]
             | right; split; [reflexivity | assumption]].
Qed.

(** X26.  [08_create_cognito.py] saves a complete config or none.  It
    writes one file at most, [cognito_config.json], and only after the user
    pool, the app client and its secret were obtained; every error that a
    service raised before was an [InvalidParameterException] saying that
    the domain or the resource server exists already.  The config holds the
    ids and the secret that the service returned, the token endpoint built
    from the domain prefix, and the two scopes of the resource server.  A
    run that writes nothing has exit status 1. *)
Theorem cognito_config_is_saved_complete
    (w : world) (o : outcome unit) (t : list entry) :
  execute w main = (o, t) ->
  (forall e path config,
      In e t ->
      written e = Some (path, config) ->
      exists token pool user_pool user_pool_id app_client client_id details
             client_secret,
        In (Called (extern "secrets.token_hex" [PInt 4] []) (Ok token)) t
        /\ In (Called create_user_pool_call (Ok pool)) t
        /\ getitem pool "UserPool" = Ok user_pool
        /\ getitem user_pool "Id" = Ok user_pool_id
        /\ In (Called (create_user_pool_client_call user_pool_id)
                      (Ok app_client)) t
        /\ In (Called (describe_user_pool_client_call user_pool_id
                         client_id) (Ok details)) t
        /\ path = "cognito_config.json"
        /\ config = PDict [
             ("user_pool_id", user_pool_id);
             ("domain_prefix", PStr ("returns-agent-" ++ str token));
             ("client_id", client_id);
             ("client_secret", client_secret);
             ("token_endpoint",
              PStr ("https://returns-agent-" ++ str token
                    ++ ".auth.us-west-2.amazoncognito.com/oauth2/token"));
             ("discovery_url",
              PStr ("https://cognito-idp.us-west-2.amazonaws.com/"
                    ++ str user_pool_id
                    ++ "/.well-known/openid-configuration"));
             ("region", PStr "us-west-2");
             ("resource_server_identifier", PStr "returns-agent-api");
             ("scopes", PList [PStr "returns-agent-api/read";
                               PStr "returns-agent-api/write"])]
        /\ filter is_write t = [e]
        /\ (forall e' x,
               In e' t -> answer_of e' = Some (Raise x) ->
               passed_over e' x))
  /\ (filter is_write t = [] -> exit_status o = 1%Z).
Proof.
  intros Hrun. split.
  - intros e path config Hin Hw.
    destruct (cognito_config_written w o t e path config Hrun Hin Hw)
      as (token & pool & user_pool & user_pool_id & app_client & client_id
          & details & client & client_secret & Htoken & Hpool & Hup & Hid
          & Happ & _ & _ & Hdetails & _ & -> & -> & Hone & Herrors).
    exists token, pool, user_pool, user_pool_id, app_client, client_id,
      details, client_secret.
    repeat (split; [assumption || reflexivity|]).
    assumption.
  - revert Hrun. unfold execute, main, unless_exists.
    exec w; intros [= <- <-] Hnone; first [reflexivity | discriminate Hnone].
Qed.

(** X27.  The config that [08_create_cognito.py] writes serves
    [21_invoke_agent.py] and not the invoke script of
    [handle_runtime_invoke].  On this config [21_invoke_agent.py] requests
    its token at the endpoint of the domain prefix, with the client id and
    the secret of the config as Basic credentials and both scopes of the
    resource server.  The generated script looks for a ["domain"], which
    the config does not have: it requests no token, calls nothing of the
    toolkit and does not reach its end; where the files it reads first are
    in order it ends with the KeyError. *)
Theorem cognito_config_serves_invoke_agent_only
    (w : world) (o : outcome unit) (t : list entry) (e : entry)
    (path : string) (config : pyval) :
  execute w main = (o, t) ->
  In e t ->
  written e = Some (path, config) ->
  exists token client_id client_secret,
    In (Called (extern "secrets.token_hex" [PInt 4] []) (Ok token)) t
    /\ getitem config "client_id" = Ok client_id
    /\ getitem config "client_secret" = Ok client_secret
    /\ (forall w' o' t' e' url headers data,
           holds w' "cognito_config.json" config ->
           execute w' invoke_agent.main = (o', t') ->
           In e' t' ->
           posted e' = Some (url, headers, data) ->
           url = PStr ("https://returns-agent-" ++ str token
                       ++ ".auth.us-west-2.amazoncognito.com/oauth2/token")
           /\ lookup "Authorization" headers
              = Some (PStr ("Basic " ++ b64encode (str client_id ++ ":"
                                                   ++ str client_secret)))
           /\ lookup "scope" data
              = Some (PStr "returns-agent-api/read returns-agent-api/write"))
    /\ (forall w' region payload o' t',
           holds w' "cognito_config.json" config ->
           execute w' (generated.runtime_invoke region payload) = (o', t') ->
           o' <> Done tt
           /\ filter is_post t' = []
           /\ (forall e',
                  In e' t' ->
                  callee_of e' = Some "yaml.safe_load"
                  \/ callee_of e' = None)
           /\ (forall e' yaml agent,
                  In e' t' ->
                  is_callee "yaml.safe_load" e' = true ->
                  answer_of e' = Some (Ok yaml) ->
                  generated.default_agent_of yaml = Ok agent ->
                  o' = Raised (KeyError "domain"))).
Proof.
  intros Hrun Hin Hw.
  destruct (cognito_config_written w o t e path config Hrun Hin Hw)
    as (token & pool & user_pool & user_pool_id & app_client & client_id
        & details & client & client_secret & Htoken & _ & _ & _
        & _ & _ & _ & _ & _ & -> & -> & _ & _).
  exists token, client_id, client_secret.
  split; [exact Htoken|]. split; [reflexivity|]. split; [reflexivity|].
  split.
  - intros w' o' t' e' url headers data Hholds Hrun' Hin' Hp.
    destruct (token_request w' o' t' e' url headers data Hrun' Hin' Hp)
      as (read & id & secret & scope_list & scopes & Hread & Hid & Hsecret
          & Hurl & Hlist & Hjoin & -> & ->).
    rewrite (held_is_loaded w' _ o' t' _ _ _ Hholds Hrun' Hread) in *.
    injection Hid as <-. injection Hsecret as <-. injection Hurl as <-.
    injection Hlist as <-. vm_compute in Hjoin. injection Hjoin as <-.
    repeat split.
  - intros w' region payload o' t' Hholds Hrun'.
    exact (invoke_needs_domain w' region payload o' t' _ (KeyError "domain")
             Hholds eq_refl Hrun').
Qed.

End Cognito.

(** ** The script of the execution-role handler *)

Section ExecutionRoleScript.
Context `{PyRuntime}.
Import generated.
Local Open Scope script_scope.

(** X28.  The execution-role script removes what it created when a later
    step fails, with one gap.  When [create_policy] fails (or its answer
    has no ARN) the script deletes the role it created, by the name it gave
    to [create_role], and ends with [exit(1)].  When [attach_role_policy]
    fails it deletes the policy by the ARN that [create_policy] returned
    and then the role; when this [delete_policy] fails, [delete_role] is
    not called and the role stays.  In both cases no config is written, and
    a failure of a deletion does not change the exit status. *)
Theorem role_script_cleans_up_after_failure
    (w : world) (region : string) (o : outcome unit) (t : list entry)
    (e : entry) (x : exn) :
  execute w (create_runtime_execution_role region) = (o, t) ->
  In e t ->
  answer_of e = Some (Raise x) ->
  (is_callee "iam_client.create_policy" e = true ->
   exists kwargs role_name,
     map kwargs_of (calls_to "iam_client.create_role" t) = [Some kwargs]
     /\ lookup "RoleName" kwargs = Some role_name
     /\ map kwargs_of (calls_to "iam_client.delete_role" t)
        = [Some [("RoleName", role_name)]]
     /\ calls_to "iam_client.delete_policy" t = []
     /\ filter is_write t = []
     /\ o = Exit 1)
  /\ (is_callee "iam_client.attach_role_policy" e = true ->
      exists kwargs role_name policy_arn,
        map kwargs_of (calls_to "iam_client.create_role" t) = [Some kwargs]
        /\ lookup "RoleName" kwargs = Some role_name
        /\ kwargs_of e
           = Some [("RoleName", role_name); ("PolicyArn", policy_arn)]
        /\ map kwargs_of (calls_to "iam_client.delete_policy" t)
           = [Some [("PolicyArn", policy_arn)]]
        /\ (forall d,
               In d t ->
               is_callee "iam_client.delete_policy" d = true ->
               match answer_of d with
               | Some (Ok _) =>
                   map kwargs_of (calls_to "iam_client.delete_role" t)
                   = [Some [("RoleName", role_name)]]
               | _ => calls_to "iam_client.delete_role" t = []
               end)
        /\ filter is_write t = []
        /\ o = Exit 1).
Proof.
  intros Hrun Hin Ha. split; intros Hc; revert Hrun Hin Hc Ha.
  - unfold execute, create_runtime_execution_role, seconds_now, attempt.
    exec w; intros [= <- <-] Hin Hc Ha; narrow Hin Hc; split_in Hin.
    all: try discriminate Ha.
    all: do 2 eexists.
    all: repeat split; reflexivity.
  - unfold execute, create_runtime_execution_role, seconds_now, attempt.
    exec w; intros [= <- <-] Hin Hc Ha; narrow Hin Hc; split_in Hin.
    all: try discriminate Ha.
    all: do 3 eexists.
    all: split; [reflexivity|].
    all: split; [reflexivity|].
    all: split; [reflexivity|].
    all: split; [reflexivity|].
    all: split; [|split; reflexivity].
    all: intros d Hin' Hd; narrow Hin' Hd; split_in Hin'; reflexivity.
Qed.

(** X29.  The execution-role script saves its config whether or not the
    waiter works.  It writes one file,
    [runtime_execution_role_config.json], as its last call and only after
    [attach_role_policy] has answered; the config names the role and the
    policy as they were given to [create_role] and [create_policy], with
    the ARNs of the answers.  The script sleeps, for 10 seconds, exactly
    when [get_waiter] or [waiter.wait] raised. *)
Theorem role_script_saves_config_without_waiter
    (w : world) (region : string) (o : outcome unit) (t : list entry)
    (e : entry) (path : string) (config : pyval) :
  execute w (create_runtime_execution_role region) = (o, t) ->
  In e t ->
  written e = Some (path, config) ->
  exists role_kwargs policy_kwargs role_name policy_name role_response
         policy_response role policy role_arn policy_arn attached before,
    In (Called (extern "iam_client.create_role" [] role_kwargs)
               (Ok role_response)) t
    /\ lookup "RoleName" role_kwargs = Some role_name
    /\ getitem role_response "Role" = Ok role
    /\ getitem role "Arn" = Ok role_arn
    /\ In (Called (extern "iam_client.create_policy" [] policy_kwargs)
                  (Ok policy_response)) t
    /\ lookup "PolicyName" policy_kwargs = Some policy_name
    /\ getitem policy_response "Policy" = Ok policy
    /\ getitem policy "Arn" = Ok policy_arn
    /\ In (Called (extern "iam_client.attach_role_policy" []
                          [("RoleName", role_name);
                           ("PolicyArn", policy_arn)])
                  (Ok attached)) t
    /\ path = "runtime_execution_role_config.json"
    /\ config = PDict [("role_name", role_name);
                       ("role_arn", role_arn);
                       ("policy_name", policy_name);
                       ("policy_arn", policy_arn);
                       ("region", PStr region)]
    /\ t = (before ++ [e])%list
    /\ filter is_write before = []
    /\ (forall f,
           In f t ->
           failed f = true ->
           is_callee "iam_client.get_waiter" f = true
           \/ is_callee "waiter.wait" f = true)
    /\ (existsb failed t = false -> filter is_sleep t = [])
    /\ (existsb failed t = true ->
        map slept (filter is_sleep t) = [Some 10%Z]).
Proof.
  intros Hrun Hin Hw. pose proof (written_is_write _ _ Hw) as Hb.
  revert Hrun Hin Hb Hw.
  unfold execute, create_runtime_execution_role, seconds_now, attempt.
  exec w; intros [= <- <-] Hin Hb Hw; narrow Hin Hb; split_in Hin.
  all: injection Hw as <- <-.
  all: do 11 eexists.
  all: lazymatch goal with
       | |- context [In _ ?l] => exists (removelast l)
       end.
  all: split; [in_trace|].
  all: split; [reflexivity|].
  all: split; [eassumption|].
  all: split; [eassumption|].
  all: split; [in_trace|].
  all: split; [reflexivity|].
  all: split; [eassumption|].
  all: split; [eassumption|].
  all: split; [in_trace|].
  all: split; [reflexivity|].
  all: split; [reflexivity|].
  all: split; [reflexivity|].
  all: split; [reflexivity|].
  all: split; [intros f Hin' Hf; narrow Hin' Hf; split_in Hin'; simpl; tauto|].
  all: split; intros Hfailed; first [reflexivity | discriminate Hfailed].
Qed.

End ExecutionRoleScript.

(** * The further properties on examples *)

Section ExtraExamples.
Import memory_handlers gateway_handlers runtime_handlers.
Import identity_handlers observability_handlers server.
#[local] Existing Instance example_runtime.

Lemma transform_strategies_idempotent_witness :
  exists out,
    transform_strategies example_strategies = Ok out
    /\ transform_strategies out = Ok out
    /\ nth_error out 1
       = Some (PDict [("userPreferenceMemoryStrategy",
                       PDict [("name", PStr "Preferences");
                              ("namespaces",
                               PList [PStr "app/{actorId}/preferences"])])]).
Proof.
  eexists. split; [reflexivity|]. split; [|reflexivity].
  apply (transform_strategies_idempotent example_strategies). reflexivity.
Defined.

(** Two mappings written out that differ in the values of [ks] only. *)
Ltac agree_written :=
  intros k Hk; simpl;
  repeat match goal with
         | |- context [String.eqb k ?s] =>
             destruct (String.eqb_spec k s) as [->|_]
         end;
  first [reflexivity
        | exfalso; apply Hk; simpl;
          solve [repeat first [left; reflexivity | right]]].

(** X2 at the arguments of a retrieval, once with an id and once with a
    number in its place, and at a mapping without the key. *)
Lemma memory_id_is_required_and_unused_witness :
  handle_memory_retrieve (example_event_args (PStr "support_memory-ABC123"))
  = handle_memory_retrieve (example_event_args (PInt 7))
  /\ handle_memory_delete [("region", PStr "eu-west-1")]
     = Raise (KeyError "memory_id").
Proof.
  destruct (@memory_id_is_required_and_unused example_runtime)
    as (Hmissing & Hsame & _).
  split.
  - apply (Hsame (example_event_args (PStr "support_memory-ABC123"))
                 (example_event_args (PInt 7))
                 (PStr "support_memory-ABC123") (PInt 7));
      [agree_written | reflexivity | reflexivity].
  - apply (Hmissing [("region", PStr "eu-west-1")]). reflexivity.
Defined.

(** X3 at the arguments of the add-target tool with two gateway ids. *)
Lemma gateway_handlers_ignore_ids_witness :
  handle_gateway_add_lambda_target (example_target_args (PStr "gw-1"))
  = handle_gateway_add_lambda_target (example_target_args (PStr "gw-2"))
  /\ handle_gateway_delete_target (example_target_args (PStr "gw-1"))
     = handle_gateway_delete_target (example_target_args PNone).
Proof.
  destruct (@gateway_handlers_ignore_ids example_runtime) as (Hsame & _).
  split.
  - apply (Hsame (example_target_args (PStr "gw-1"))
                 (example_target_args (PStr "gw-2"))).
    agree_written.
  - apply (Hsame (example_target_args (PStr "gw-1"))
                 (example_target_args PNone)).
    agree_written.
Defined.

(** X4 at the arguments of the configure tool with two execution roles. *)
Lemma runtime_handlers_ignore_credentials_witness :
  handle_runtime_configure
    (example_configure_args (PStr "arn:aws:iam::123456789012:role/A"))
  = handle_runtime_configure
      (example_configure_args (PStr "arn:aws:iam::123456789012:role/B"))
  /\ handle_runtime_invoke [("bearer_token", PStr "tok-1")]
     = handle_runtime_invoke [("bearer_token", PStr "tok-2")].
Proof.
  destruct (@runtime_handlers_ignore_credentials example_runtime)
    as (Hinvoke & _ & Hconfigure & _).
  split.
  - eapply (Hconfigure
              (example_configure_args
                 (PStr "arn:aws:iam::123456789012:role/A"))
              (example_configure_args
                 (PStr "arn:aws:iam::123456789012:role/B")));
      [agree_written | reflexivity ..].
  - apply (Hinvoke [("bearer_token", PStr "tok-1")]
                   [("bearer_token", PStr "tok-2")]).
    agree_written.
Defined.

(** X5 at a call of [handle_gateway_create] that gives the name and the
    Cognito client and leaves out the role: the error names [role_arn]. *)
Lemma missing_argument_raises_KeyError_witness :
  In ("handle_gateway_create", handle_gateway_create) handlers
  /\ first_missing (required_of "handle_gateway_create")
       [("name", PStr "orders"); ("cognito_client_id", PStr "abc")]
     = Some "role_arn"
  /\ handle_gateway_create
       [("name", PStr "orders"); ("cognito_client_id", PStr "abc")]
     = Raise (KeyError "role_arn").
Proof.
  assert (Hin : In ("handle_gateway_create", handle_gateway_create)
                   handlers).
  { unfold handlers. simpl.
    solve [repeat first [left; reflexivity | right]]. }
  split; [exact Hin|]. split; [reflexivity|].
  apply (proj1 (@missing_argument_raises_KeyError example_runtime
                  "handle_gateway_create" handle_gateway_create
                  [("name", PStr "orders"); ("cognito_client_id", PStr "abc")]
                  Hin)).
  reflexivity.
Defined.

(** X6 at the gateway "Returns Gateway". *)
Lemma script_filenames_witness :
  is_ascii "Returns Gateway" = true
  /\ exists v,
       handle_gateway_create example_gateway_args = Ok v
       /\ filename_of v = Some "returns_gateway_gateway_create.py".
Proof.
  split; [reflexivity|].
  destruct (handle_gateway_create example_gateway_args) as [v|e] eqn:Hv;
    [|discriminate Hv].
  exists v. split; [reflexivity|].
  destruct (proj1 (proj2 (@script_filenames example_runtime
                            example_gateway_args v)) Hv)
    as (name & Hname & Hf).
  injection Hname as <-.
  destruct (Hf eq_refl) as (f & Hv' & -> & _). exact Hv'.
Defined.

(** X7 where the three config files hold no JSON. *)
Lemma delete_scripts_exit_0_on_unusable_config_witness :
  exit_status (fst (execute corrupt_config_world
                      (generated.memory_delete "us-west-2"))) = 0%Z
  /\ snd (execute corrupt_config_world
            (generated.gateway_delete "us-west-2"))
     = [Called (os_path_exists "gateway_config.json") true;
        Called (json_load "gateway_config.json")
               (Raise (Exn "JSONDecodeError"
                           "Expecting value: line 1 column 1 (char 0)"))].
Proof.
  destruct (delete_scripts_exit_0_on_unusable_config corrupt_config_world
              (Exn "JSONDecodeError"
                   "Expecting value: line 1 column 1 (char 0)"))
    as (Hmemory & _ & Hgateway & _).
  split.
  - rewrite (Hmemory (fun h => eq_refl) (fun h => eq_refl) "us-west-2").
    reflexivity.
  - rewrite (Hgateway (fun h => eq_refl) (fun h => eq_refl) "us-west-2").
    reflexivity.
Defined.

Lemma not_found_says_gone :
  says_gone gone_phrases
    (Exn "ResourceNotFoundException"
         "An error occurred (ResourceNotFoundException) when calling the operation: Resource Not Found")
  /\ says_gone memory_gone_phrases
       (Exn "ResourceNotFoundException"
            "An error occurred (ResourceNotFoundException) when calling the operation: Resource Not Found").
Proof.
  split.
  - apply (proj1 (says_gone_spec _)). reflexivity.
  - apply (proj2 (says_gone_spec _)). reflexivity.
Defined.

(** X8 where the memory is gone: the script runs to its end. *)
Lemma memory_delete_is_rerunnable_witness :
  exists t,
    execute resources_gone_world (generated.memory_delete "us-west-2")
    = (Done tt, t)
    /\ List.length t = 4%nat.
Proof.
  destruct (execute resources_gone_world (generated.memory_delete "us-west-2"))
    as [o t] eqn:Hrun.
  edestruct (memory_delete_is_rerunnable resources_gone_world "us-west-2"
               o t) as (_ & _ & _ & Hraised);
    [exact Hrun | | | ].
  - injection Hrun as _ <-. do 3 right. left. reflexivity.
  - reflexivity.
  - destruct (Hraised _ eq_refl) as (Hdone & _).
    rewrite (Hdone (proj2 not_found_says_gone)).
    exists t. split; [reflexivity|]. now injection Hrun as _ <-.
Defined.

(** X9 where the target is gone. *)
Lemma gateway_delete_target_is_rerunnable_witness :
  exists t,
    execute resources_gone_world
      (generated.gateway_delete_target "us-west-2" "T1")
    = (Done tt, t)
    /\ map kwargs_of
         (calls_to "gateway_client.delete_gateway_target" t)
       = [Some [("gatewayIdentifier", PStr "gw-1");
                ("targetId", PStr "T1")]].
Proof.
  destruct (execute resources_gone_world
              (generated.gateway_delete_target "us-west-2" "T1"))
    as [o t] eqn:Hrun.
  destruct (gateway_delete_target_is_rerunnable resources_gone_world
              "us-west-2" "T1" o t Hrun) as (Hcall & _).
  edestruct Hcall as (_ & _ & _ & Hraised).
  - injection Hrun as _ <-. do 3 right. left. reflexivity.
  - reflexivity.
  - destruct (Hraised _ eq_refl) as (Hdone & _).
    rewrite (Hdone (proj1 not_found_says_gone)).
    exists t. split; [reflexivity|]. now injection Hrun as _ <-.
Defined.

(** X10 where the agent is gone: the id is the last part of the ARN. *)
Lemma runtime_delete_is_rerunnable_witness :
  exists t,
    execute resources_gone_world (generated.runtime_delete "us-west-2")
    = (Done tt, t)
    /\ map kwargs_of
         (calls_to "agentcore_client.delete_agent_runtime" t)
       = [Some [("agentRuntimeId", PStr "returns_agent-XyZ")]].
Proof.
  destruct (execute resources_gone_world
              (generated.runtime_delete "us-west-2"))
    as [o t] eqn:Hrun.
  edestruct (runtime_delete_is_rerunnable resources_gone_world "us-west-2"
               o t) as (_ & _ & _ & Hraised);
    [exact Hrun | | | ].
  - injection Hrun as _ <-. do 3 right. left. reflexivity.
  - reflexivity.
  - destruct (Hraised _ eq_refl) as (Hdone & _).
    rewrite (Hdone (proj1 not_found_says_gone)).
    exists t. split; [reflexivity|]. now injection Hrun as _ <-.
Defined.

(** X11 where the service refuses the deletion of the first target: the
    second target and the gateway are not touched. *)
Lemma failed_target_deletion_spares_gateway_witness :
  exists x t,
    execute deletion_denied_world (generated.gateway_delete "us-west-2")
    = (Raised x, t)
    /\ exn_class x = "AccessDeniedException"
    /\ List.length
         (calls_to "gateway_client.delete_gateway_target" t) = 1%nat
    /\ calls_to "gateway_client.delete_gateway" t = [].
Proof.
  destruct (execute deletion_denied_world
              (generated.gateway_delete "us-west-2")) as [o t] eqn:Hrun.
  edestruct (failed_target_deletion_spares_gateway deletion_denied_world
               "us-west-2" o t) as (Ho & _ & Hnone & _);
    [exact Hrun | | | | | ].
  - injection Hrun as _ <-. do 4 right. left. reflexivity.
  - reflexivity.
  - reflexivity.
  - reflexivity.
  - eexists. exists t. rewrite Ho. split; [reflexivity|].
    split; [reflexivity|]. split; [|exact Hnone].
    now injection Hrun as _ <-.
Defined.

(** X12 at a gateway with two targets. *)
Lemma gateway_delete_deletes_every_listed_target_witness :
  let t := snd (execute two_targets_world
                  (generated.gateway_delete "us-west-2")) in
  (exists gateway_id,
      map kwargs_of (calls_to "gateway_client.delete_gateway_target" t)
      = map (deletion_of gateway_id)
          [PDict [("targetId", PStr "T1"); ("name", PStr "OrderLookup")];
           PDict [("targetId", PStr "T2")]])
  /\ map kwargs_of (calls_to "gateway_client.delete_gateway_target" t)
     = [Some [("gatewayIdentifier", PStr "gw-1"); ("targetId", PStr "T1")];
        Some [("gatewayIdentifier", PStr "gw-1"); ("targetId", PStr "T2")]].
Proof.
  cbv zeta. split; [|reflexivity].
  destruct (execute two_targets_world (generated.gateway_delete "us-west-2"))
    as [o t] eqn:Hrun.
  edestruct (gateway_delete_deletes_every_listed_target two_targets_world
               "us-west-2" o t) as (config & gateway_id & _ & _ & Hk);
    [exact Hrun | | | | | | ].
  - injection Hrun as _ <-. reflexivity.
  - reflexivity.
  - reflexivity.
  - reflexivity.
  - injection Hrun as _ <-. reflexivity.
  - exists gateway_id. exact Hk.
Defined.

(** X13 at two messages, the first with a str content. *)
Lemma create_event_sends_normalized_messages_witness :
  exists sent,
    map kwargs_of
      (calls_to "memory_client.create_event"
         (snd (execute memory_ready_world
                 (generated.memory_create_event "us-west-2" "user_001"
                    "session_001" (Ok (PList example_messages))))))
    = [Some [("memory_id", PStr "support_memory-ABC123");
             ("actor_id", PStr "user_001");
             ("session_id", PStr "session_001");
             ("messages", PList sent)]]
    /\ Forall2 wraps_content example_messages sent
    /\ nth_error sent 0
       = Some (PDict [("role", PStr "USER");
                      ("content",
                       PList [PDict [("text", PStr "I prefer email.")]])]).
Proof.
  destruct (execute memory_ready_world
              (generated.memory_create_event "us-west-2" "user_001"
                 "session_001" (Ok (PList example_messages))))
    as [o t] eqn:Hrun.
  edestruct (create_event_sends_normalized_messages memory_ready_world
               "us-west-2" "user_001" "session_001" example_messages o t)
    as (config & memory_id & sent & _ & _ & Hk & Hall & Hcalls);
    [reflexivity | exact Hrun | | | ].
  - injection Hrun as _ <-. do 3 right. left. reflexivity.
  - reflexivity.
  - exists sent. cbn [snd]. rewrite Hcalls. cbn [map]. rewrite Hk.
    simpl in Hk. injection Hk as <- <-.
    split; [reflexivity|]. split; [exact Hall | reflexivity].
Defined.

(** X14 at one (message, role) pair, as the tool passes it. *)
Lemma create_event_needs_dict_messages_witness :
  exists x t,
    execute memory_ready_world
      (generated.memory_create_event "us-west-2" "user_001" "session_001"
         (Ok (PList (map message_pair [("Hello", "USER")]))))
    = (Raised x, t)
    /\ exn_class x = "AttributeError"
    /\ calls_to "memory_client.create_event" t = [].
Proof.
  destruct (execute memory_ready_world
              (generated.memory_create_event "us-west-2" "user_001"
                 "session_001"
                 (Ok (PList (map message_pair [("Hello", "USER")])))))
    as [o t] eqn:Hrun.
  destruct (proj1 (@create_event_needs_dict_messages example_runtime)
              memory_ready_world "us-west-2" "user_001" "session_001"
              (map message_pair [("Hello", "USER")]) o t eq_refl Hrun)
    as (Hnone & _ & Hraised).
  edestruct Hraised as (m & Hin & _ & Ho).
  - injection Hrun as _ <-. do 2 right. left. reflexivity.
  - reflexivity.
  - reflexivity.
  - destruct Hin as [<- | []].
    eexists. exists t. rewrite Ho.
    split; [reflexivity|]. split; [reflexivity | exact Hnone].
Defined.

(** X15 where the service answers with the memory
    "support_memory-ABC123". *)
Lemma memory_id_goes_through_the_config_witness :
  exists config,
    map written
      (filter (writes_file "memory_config.json")
         (snd (execute gateway_created_world
                 (generated.memory_create "us-west-2" "support memory"
                    "Memory of the support agent" (Ok (PList []))))))
    = [Some ("memory_config.json", config)]
    /\ getitem config "memory_id" = Ok (PStr "support_memory-ABC123").
Proof.
  destruct (execute gateway_created_world
              (generated.memory_create "us-west-2" "support memory"
                 "Memory of the support agent" (Ok (PList []))))
    as [o t] eqn:Hrun.
  edestruct (memory_id_goes_through_the_config gateway_created_world
               "us-west-2" "support memory" "Memory of the support agent"
               (Ok (PList [])) o t)
    as (given & memory & memory_id & _ & _ & _ & _ & Hconfig & _);
    [exact Hrun | | | ].
  - injection Hrun as _ <-. do 2 right. left. reflexivity.
  - reflexivity.
  - eexists. injection Hrun as _ <-. split; reflexivity.
Defined.

(** X16 where the service creates the gateway "gw-7". *)
Lemma gateway_id_goes_through_the_config_witness :
  exists config,
    map written
      (filter (writes_file "gateway_config.json")
         (snd (execute gateway_created_world
                 (generated.gateway_create "us-west-2" "Returns Gateway"
                    "MCP" "CUSTOM_JWT" "Gateway of the returns agent"))))
    = [Some ("gateway_config.json", config)]
    /\ getitem config "gateway_id" = Ok (PStr "gw-7")
    /\ map kwargs_of
         (calls_to "gateway_client.delete_gateway_target"
            (snd (execute target_created_world
                    (generated.gateway_delete_target "us-west-2" "T1"))))
       = [Some [("gatewayIdentifier", PStr "gw-1");
                ("targetId", PStr "T1")]].
Proof.
  destruct gateway_id_goes_through_the_config as (Hcreate & _ & Hread).
  destruct (execute gateway_created_world
              (generated.gateway_create "us-west-2" "Returns Gateway"
                 "MCP" "CUSTOM_JWT" "Gateway of the returns agent"))
    as [o t] eqn:Hrun.
  edestruct (Hcreate gateway_created_world "us-west-2" "Returns Gateway"
               "MCP" "CUSTOM_JWT" "Gateway of the returns agent" o t)
    as (kwargs & response & gateway_id & url & arn & _ & _ & _ & _ & _);
    [exact Hrun | | | ].
  - injection Hrun as _ <-. do 4 right. left. reflexivity.
  - reflexivity.
  - destruct (Hread example_gateway_config (PStr "gw-1") eq_refl
                target_created_world (fun h => eq_refl))
      as (_ & Htarget & _).
    pose proof (Htarget "us-west-2" "T1" _ _ _ _ (PStr "gw-1") eq_refl
                  (or_intror (or_intror (or_intror (or_introl eq_refl))))
                  eq_refl eq_refl) as _.
    eexists. injection Hrun as _ <-.
    split; [reflexivity|]. split; reflexivity.
Defined.

(** X17 where the gateway has two targets. *)
Lemma listing_scripts_only_read_witness :
  existsb is_sleep
    (snd (execute two_targets_world
            (generated.gateway_list_targets "us-west-2"))) = false
  /\ existsb (writes_file "gateway_config.json")
       (snd (execute two_targets_world
               (generated.gateway_list_targets "us-west-2"))) = false
  /\ has_brace "app/user_001/preferences" = false
  /\ has_brace "preferences" = false
  /\ fst (execute memory_ready_world
            (generated.memory_retrieve "us-west-2"
               "app/user_001/preferences" "preferences" 3))
     = Done tt.
Proof.
  destruct (listing_scripts_only_read two_targets_world) as (Hlist & _).
  specialize (Hlist "us-west-2").
  destruct (listing_scripts_only_read memory_ready_world)
    as (_ & _ & Hretrieve).
  destruct (execute memory_ready_world
              (generated.memory_retrieve "us-west-2"
                 "app/user_001/preferences" "preferences" 3))
    as [o t] eqn:Hrun.
  pose proof (fun e => Hretrieve "us-west-2" "app/user_001/preferences"
                          "preferences" 3%Z o t e eq_refl eq_refl) as Hr.
  edestruct Hr as (_ & _ & _ & Hnone); [exact Hrun | | | ].
  - injection Hrun as _ <-. do 3 right. left. reflexivity.
  - reflexivity.
  - split; [reflexivity|]. split; [reflexivity|].
    split; [reflexivity|]. split; [reflexivity|].
    cbn [fst]. apply (Hnone (PDict [])); reflexivity.
Defined.

(** X18 on an empty disk: the first read fails and nothing is called. *)
Lemma unreadable_config_stops_before_aws_witness :
  execute empty_disk_world create_gateway.main
  = (Exit 1,
     [Called (json_load "cognito_config.json")
             (Raise (Exn "FileNotFoundError"
                         "[Errno 2] No such file or directory: 'cognito_config.json'"))])
  /\ fst (execute empty_disk_world add_lambda_to_gateway.main) = Exit 1.
Proof.
  split; [reflexivity|].
  destruct (execute empty_disk_world add_lambda_to_gateway.main)
    as [o t] eqn:Hrun.
  edestruct (unreadable_config_stops_before_aws empty_disk_world o t)
    as (_ & Hadd).
  - injection Hrun as _ <-. left. reflexivity.
  - reflexivity.
  - destruct (Hadd Hrun) as (_ & Hmissing & _).
    exact (Hmissing eq_refl).
Defined.

(** X19 where the service creates the gateway "gw-7": the secret of the
    Cognito config is in the gateway config. *)
Lemma create_gateway_saves_cognito_secret_witness :
  exists config,
    map written
      (filter (writes_file "gateway_config.json")
         (snd (execute gateway_created_world create_gateway.main)))
    = [Some ("gateway_config.json", config)]
    /\ getitem config "cognito_client_secret" = Ok (PStr "s3cr3t").
Proof.
  destruct (execute gateway_created_world create_gateway.main)
    as [o t] eqn:Hrun.
  edestruct (create_gateway_saves_cognito_secret gateway_created_world o t)
    as (Hsaved & _).
  - injection Hrun as _ <-. do 4 right. left. reflexivity.
  - reflexivity.
  - destruct (Hsaved Hrun) as (cognito_config & _).
    eexists. injection Hrun as _ <-. split; reflexivity.
Defined.

(** X20 where role and policy exist: the config is the last call, after
    the attachment and the wait. *)
Lemma gateway_role_config_is_saved_last_witness :
  exists t e,
    execute role_exists_world (@create_gateway_role.main example_runtime)
    = (Done tt, t)
    /\ last t (Called (time_sleep 0) tt) = e
    /\ writes_file "gateway_role_config.json" e = true
    /\ map slept (filter is_sleep t) = [Some 10%Z].
Proof.
  destruct (execute role_exists_world
              (@create_gateway_role.main example_runtime)) as [o t] eqn:Hrun.
  destruct (@gateway_role_config_is_saved_last example_runtime
              role_exists_world o t Hrun) as (Hsaved & _).
  edestruct Hsaved as (identity & _).
  - injection Hrun as _ <-. do 8 right. left. reflexivity.
  - reflexivity.
  - injection Hrun as <- <-. eexists. eexists.
    split; [reflexivity|]. split; [reflexivity|]. split; reflexivity.
Defined.

(** X21 where the token endpoint answers with status 400. *)
Lemma invoke_agent_needs_token_witness :
  exists t,
    execute token_refused_world (@invoke_agent.main example_runtime)
    = (Exit 1, t)
    /\ filter is_extern t = []
    /\ List.length t = 3%nat.
Proof.
  destruct (execute token_refused_world
              (@invoke_agent.main example_runtime)) as [o t] eqn:Hrun.
  destruct (@invoke_agent_needs_token example_runtime token_refused_world
              o t Hrun) as (_ & Hrefused & _).
  edestruct Hrefused as (-> & Hnone & _).
  - injection Hrun as _ <-. do 2 right. left. reflexivity.
  - reflexivity.
  - discriminate.
  - exists t. split; [reflexivity|]. split; [exact Hnone|].
    now injection Hrun as <-.
Defined.

End ExtraExamples.

(** ** Examples for the runtime, Cognito and role scripts *)

Section RuntimeExamples.
#[local] Existing Instance example_runtime.

(** X22 where the tool was given a memory id, a gateway URL and a log
    level, and the memory config is on disk but not the gateway config. *)
Lemma launch_env_vars_come_from_the_configs_witness :
  exists env_vars,
    map kwargs_of
      (calls_to "runtime.launch"
         (snd (execute deployment_world
                 (generated.runtime_launch "us-west-2" (Ok example_env_vars)
                    (Ok (PBool true))))))
    = [Some [("env_vars", PDict env_vars);
             ("auto_update_on_conflict", PBool true)]]
    /\ lookup "MEMORY_ID" env_vars = Some (PStr "support_memory-ABC123")
    /\ lookup "COGNITO_CLIENT_SECRET" env_vars = Some (PStr "s3cr3t")
    /\ lookup "GATEWAY_URL" env_vars
       = Some (PStr "https://gateway.example/mcp")
    /\ lookup "LOG_LEVEL" env_vars = Some (PStr "debug").
Proof.
  destruct (execute deployment_world
              (generated.runtime_launch "us-west-2" (Ok example_env_vars)
                 (Ok (PBool true)))) as [o t] eqn:Hrun.
  edestruct (launch_env_vars_come_from_the_configs deployment_world
               "us-west-2" example_env_vars (Ok (PBool true)) o t)
    as (env_vars & cognito & scopes & oauth_scopes & Hkw & _).
  - repeat constructor; simpl; intuition discriminate.
  - exact Hrun.
  - injection Hrun as _ <-. do 11 right. left. reflexivity.
  - reflexivity.
  - reflexivity.
  - injection Hkw as <-. eexists. injection Hrun as _ <-.
    split; [reflexivity|]. repeat split.
Defined.

(** X23 on the same run: the delete script removes the agent
    "returns_agent-abc123". *)
Lemma agent_arn_goes_through_the_config_witness :
  exists config,
    map written
      (filter is_write
         (snd (execute deployment_world
                 (generated.runtime_launch "us-west-2" (Ok example_env_vars)
                    (Ok (PBool true))))))
    = [Some ("runtime_config.json", config)]
    /\ holds deployment_world "runtime_config.json" config
    /\ map kwargs_of
         (calls_to "agentcore_client.delete_agent_runtime"
            (snd (execute deployment_world
                    (generated.runtime_delete "us-west-2"))))
       = [Some [("agentRuntimeId", PStr "returns_agent-abc123")]].
Proof.
  destruct (execute deployment_world
              (generated.runtime_launch "us-west-2" (Ok example_env_vars)
                 (Ok (PBool true)))) as [o t] eqn:Hrun.
  edestruct (agent_arn_goes_through_the_config deployment_world "us-west-2"
               (Ok example_env_vars) (Ok (PBool true)) o t)
    as (kwargs & launch_result & agent_arn & _ & _ & _ & _ & _ & _ & Hdel).
  - exact Hrun.
  - injection Hrun as _ <-. do 13 right. left. reflexivity.
  - reflexivity.
  - assert (holds deployment_world "runtime_config.json"
              example_runtime_config) as Hholds by (intros h; reflexivity).
    destruct (execute deployment_world (generated.runtime_delete "us-west-2"))
      as [o' t'] eqn:Hrun'.
    edestruct (Hdel deployment_world "us-west-2" o' t') as (arn & _ & _).
    + exact Hholds.
    + exact Hrun'.
    + injection Hrun' as _ <-. do 3 right. left. reflexivity.
    + reflexivity.
    + exists example_runtime_config. injection Hrun as _ <-.
      injection Hrun' as _ <-.
      split; [reflexivity|]. split; [exact Hholds | reflexivity].
Defined.

(** X24 on an empty disk: the launch script stops at the Cognito config. *)
Lemma runtime_scripts_stop_without_their_files_witness :
  execute empty_disk_world
    (generated.runtime_launch "us-west-2" (Ok example_env_vars)
       (Ok (PBool true)))
  = (Exit 1,
     [Called (os_path_exists "memory_config.json") false;
      Called (os_path_exists "gateway_config.json") false;
      Called (os_path_exists "cognito_config.json") false])
  /\ fst (execute empty_disk_world (generated.runtime_status "us-west-2"))
     = Exit 1.
Proof.
  split; [reflexivity|].
  destruct (execute empty_disk_world (generated.runtime_status "us-west-2"))
    as [o t] eqn:Hrun.
  edestruct (runtime_scripts_stop_without_their_files empty_disk_world
               "us-west-2" o t) as (_ & Hstatus & _).
  - injection Hrun as _ <-. left. reflexivity.
  - reflexivity.
  - exact (proj1 (Hstatus Hrun)).
Defined.

(** X25 where the endpoint reports CREATE_FAILED. *)
Lemma status_script_ends_well_on_any_status_witness :
  execute deployment_world (generated.runtime_status "us-west-2")
  = (Done tt,
     snd (execute deployment_world (generated.runtime_status "us-west-2")))
  /\ map answer_of
       (calls_to "getattr"
          (snd (execute deployment_world
                  (generated.runtime_status "us-west-2"))))
     = [Some (Ok (PDict [("status", PStr "CREATE_FAILED")]));
        Some (Ok (PDict [("status", PStr "CREATE_FAILED")]))].
Proof.
  destruct (execute deployment_world (generated.runtime_status "us-west-2"))
    as [o t] eqn:Hrun.
  edestruct (status_script_ends_well_on_any_status deployment_world
               "us-west-2" o t) as (_ & Hdone).
  - exact Hrun.
  - injection Hrun as _ <-. do 7 right. left. reflexivity.
  - reflexivity.
  - assert (map answer_of (calls_to "getattr" t)
            = [Some (Ok (PDict [("status", PStr "CREATE_FAILED")]));
               Some (Ok (PDict [("status", PStr "CREATE_FAILED")]))])
      as Hreads by (injection Hrun as _ <-; reflexivity).
    rewrite (Hdone _ _ (PStr "CREATE_FAILED") Hreads eq_refl).
    split; [reflexivity | exact Hreads].
Defined.

(** X26 where the domain exists already: the script saves the config. *)
Lemma cognito_config_is_saved_complete_witness :
  exists config,
    map written
      (filter is_write
         (snd (execute domain_exists_world create_cognito.main)))
    = [Some ("cognito_config.json", config)]
    /\ getitem config "token_endpoint"
       = Ok (PStr "https://returns-agent-1a2b3c4d.auth.us-west-2.amazoncognito.com/oauth2/token")
    /\ getitem config "domain" = Raise (KeyError "domain").
Proof.
  destruct (execute domain_exists_world create_cognito.main)
    as [o t] eqn:Hrun.
  destruct (cognito_config_is_saved_complete domain_exists_world o t Hrun)
    as (Hsaved & _).
  edestruct Hsaved as (token & _).
  - injection Hrun as _ <-. do 8 right. left. reflexivity.
  - reflexivity.
  - eexists. injection Hrun as _ <-.
    split; [reflexivity|]. split; reflexivity.
Defined.

(** X27 on the config of that run: [21_invoke_agent.py] requests the token
    at the endpoint of the domain prefix "returns-agent-1a2b3c4d". *)
Lemma cognito_config_serves_invoke_agent_only_witness :
  exists config,
    map written
      (filter is_write
         (snd (execute domain_exists_world create_cognito.main)))
    = [Some ("cognito_config.json", config)]
    /\ map posted
         (filter is_post
            (snd (execute (configured_world config) invoke_agent.main)))
       = [Some (PStr "https://returns-agent-1a2b3c4d.auth.us-west-2.amazoncognito.com/oauth2/token",
                [("Authorization",
                  PStr "Basic M240YjV1cmsxZnQ0ZmwzbWc1ZTYyZDlhZG86czNjcjN0");
                 ("Content-Type",
                  PStr "application/x-www-form-urlencoded")],
                [("grant_type", PStr "client_credentials");
                 ("scope",
                  PStr "returns-agent-api/read returns-agent-api/write")])]
    /\ fst (execute (configured_world config)
              (generated.runtime_invoke "us-west-2" (Ok (PDict []))))
       = Raised (KeyError "domain").
Proof.
  destruct (execute domain_exists_world create_cognito.main)
    as [o t] eqn:Hrun.
  edestruct (cognito_config_serves_invoke_agent_only domain_exists_world o t)
    as (token & client_id & client_secret & _ & _ & _ & Hposts & Hnone).
  - exact Hrun.
  - injection Hrun as _ <-. do 8 right. left. reflexivity.
  - reflexivity.
  - eexists. injection Hrun as _ <-.
    split; [reflexivity|]. split; reflexivity.
Defined.

End RuntimeExamples.

Section ExecutionRoleExamples.
#[local] Existing Instance example_runtime.

(** X28 where attaching the policy is refused: the policy and the role are
    deleted. *)
Lemma role_script_cleans_up_after_failure_witness :
  exists t,
    execute (role_world "iam_client.attach_role_policy")
      (generated.create_runtime_execution_role "us-west-2")
    = (Exit 1, t)
    /\ map kwargs_of (calls_to "iam_client.delete_policy" t)
       = [Some [("PolicyArn",
                 PStr "arn:aws:iam::123456789012:policy/AgentCoreRuntimePolicy-1700000000")]]
    /\ map kwargs_of (calls_to "iam_client.delete_role" t)
       = [Some [("RoleName",
                 PStr "AgentCoreRuntimeExecutionRole-1700000000")]].
Proof.
  destruct (execute (role_world "iam_client.attach_role_policy")
              (generated.create_runtime_execution_role "us-west-2"))
    as [o t] eqn:Hrun.
  edestruct (role_script_cleans_up_after_failure
               (role_world "iam_client.attach_role_policy") "us-west-2" o t)
    as (_ & Hattach).
  - exact Hrun.
  - injection Hrun as _ <-. do 7 right. left. reflexivity.
  - reflexivity.
  - destruct (Hattach eq_refl)
      as (kwargs & role_name & policy_arn & _ & _ & _ & _ & _ & _ & ->).
    exists t. injection Hrun as <-.
    split; [reflexivity|]. split; reflexivity.
Defined.

(** X29 where IAM has no waiter: the script sleeps and saves the config. *)
Lemma role_script_saves_config_without_waiter_witness :
  exists t config,
    execute (role_world "iam_client.get_waiter")
      (generated.create_runtime_execution_role "us-west-2")
    = (Done tt, t)
    /\ map written (filter is_write t)
       = [Some ("runtime_execution_role_config.json", config)]
    /\ getitem config "role_name"
       = Ok (PStr "AgentCoreRuntimeExecutionRole-1700000000")
    /\ map slept (filter is_sleep t) = [Some 10%Z].
Proof.
  destruct (execute (role_world "iam_client.get_waiter")
              (generated.create_runtime_execution_role "us-west-2"))
    as [o t] eqn:Hrun.
  edestruct (role_script_saves_config_without_waiter
               (role_world "iam_client.get_waiter") "us-west-2" o t)
    as (role_kwargs & _).
  - exact Hrun.
  - injection Hrun as _ <-. do 10 right. left. reflexivity.
  - reflexivity.
  - injection Hrun as <- <-. do 2 eexists.
    split; [reflexivity|]. split; [reflexivity|]. split; reflexivity.
Defined.

End ExecutionRoleExamples.

